(** * AWSF: the resource cache, its collector and its query engine

    A shallow embedding of the two scripts of the repository,
    [scripts/populate_resources.py] (the Collector) and [src/awsf.py] (the
    Query Engine), and the properties of the specification checked against
    them.

    Modelling conventions.
    - A Python [str] is a [string] of bytes.  [lower] and [upper] act on the
      ASCII letters, which is what Python does on ASCII text; the names AWS
      hands out for the seven services are ASCII.
    - A Python [dict] is an insertion-ordered association list
      ([PyDict.dict]): iteration order is observable in the source (the
      first of the matches, the order of the lines, the JSON file).
    - Output, the launcher [open] and the [fzf] process are events of a
      trace; an exception that nobody catches ends the run ([Raise]).
    - What the scripts read from the outside (files, the SDK, the matcher's
      answer, the keyboard) is a field of a world record, passed explicitly.
    - A JSON file is the document it holds, as a tree; the similarity score
      of [difflib] is a parameter of the query, with the library's own
      definition given for short strings.
    - The menus of the Query Engine read the keyboard from a list of lines
      and thread the settings and the configuration file as a state; the
      ways in which reading the two files and the keyboard fails are in
      [Disk]. *)

From Stdlib Require Import String Ascii List Bool Arith ZArith Lia.
From Stdlib Require Import QArith DecimalString Permutation Sorted.
Import ListNotations.
Close Scope Q_scope.
Open Scope list_scope.
Open Scope string_scope.

Set Implicit Arguments.
Set Warnings "-register-all".

(* ================================================================== *)
(** * Part I: definitions *)
(* ================================================================== *)

(** ** Python strings *)

Module PyStr.

Definition is_upper (c : ascii) : bool :=
  ((65 <=? nat_of_ascii c) && (nat_of_ascii c <=? 90))%nat.

Definition is_lower (c : ascii) : bool :=
  ((97 <=? nat_of_ascii c) && (nat_of_ascii c <=? 122))%nat.

Definition lower_char (c : ascii) : ascii :=
  if is_upper c then ascii_of_nat (nat_of_ascii c + 32) else c.

Definition upper_char (c : ascii) : ascii :=
  if is_lower c then ascii_of_nat (nat_of_ascii c - 32) else c.

Fixpoint map_chars (f : ascii -> ascii) (s : string) : string :=
  match s with
  | EmptyString => EmptyString
  | String c s' => String (f c) (map_chars f s')
  end.

(** [s.lower()] and [s.upper()] *)
Definition lower : string -> string := map_chars lower_char.
Definition upper : string -> string := map_chars upper_char.

(** [sub in s] *)
Fixpoint contains (sub s : string) : bool :=
  prefix sub s ||
  match s with
  | EmptyString => false
  | String _ s' => contains sub s'
  end.

(** What [sub in s] decides: [sub] occurs somewhere in [s]. *)
Definition Substring (sub s : string) : Prop :=
  exists pre post, s = pre ++ sub ++ post.

(** [any(m in s for m in markers)] *)
Definition any_in (markers : list string) (s : string) : bool :=
  existsb (fun m => contains m s) markers.

(** [bool(s)] *)
Definition truthy (s : string) : bool :=
  match s with EmptyString => false | _ => true end.

(** [sep.join(parts)] *)
Definition join (sep : string) (parts : list string) : string :=
  String.concat sep parts.

Definition rev (s : string) : string :=
  string_of_list_ascii (List.rev (list_ascii_of_string s)).

(** [s.split(sep)] for a non-empty separator.  [skip] counts the
    characters of a separator just recognised that are still to be
    dropped; [cur] is the piece being read, reversed. *)
Fixpoint split_aux (sep s : string) (skip : nat) (cur : string)
  : list string :=
  match s with
  | EmptyString => [rev cur]
  | String c s' =>
      match skip with
      | S k => split_aux sep s' k cur
      | O =>
          if prefix sep s
          then rev cur :: split_aux sep s' (String.length sep - 1) EmptyString
          else split_aux sep s' 0 (String c cur)
      end
  end.

Definition split (sep s : string) : list string :=
  split_aux sep s 0 EmptyString.

(** [s.replace(old, new)] for a non-empty [old]: occurrences are taken
    left to right and do not overlap. *)
Fixpoint replace_aux (old new s : string) (skip : nat) : string :=
  match s with
  | EmptyString => EmptyString
  | String c s' =>
      match skip with
      | S k => replace_aux old new s' k
      | O =>
          if prefix old s
          then new ++ replace_aux old new s' (String.length old - 1)
          else String c (replace_aux old new s' 0)
      end
  end.

Definition replace (old new s : string) : string :=
  replace_aux old new s 0.

(** ASCII white space, as [str.strip()] removes it. *)
Definition is_space (c : ascii) : bool :=
  let n := nat_of_ascii c in
  ((n =? 32) || ((9 <=? n) && (n <=? 13)) || ((28 <=? n) && (n <=? 31)))%nat.

Fixpoint lstrip (s : string) : string :=
  match s with
  | EmptyString => EmptyString
  | String c s' => if is_space c then lstrip s' else s
  end.

(** [s.strip()] *)
Definition strip (s : string) : string := rev (lstrip (rev (lstrip s))).

Fixpoint spaces (n : nat) : string :=
  match n with O => EmptyString | S k => String " " (spaces k) end.

(** [f"{s:<w}"] and [f"{s:>w}"] *)
Definition ljust (w : nat) (s : string) : string :=
  s ++ spaces (w - String.length s).
Definition rjust (w : nat) (s : string) : string :=
  spaces (w - String.length s) ++ s.

(** [str(n)] for a length or a count *)
Definition of_nat (n : nat) : string :=
  NilZero.string_of_uint (Nat.to_uint n).

End PyStr.

(** ** Sorting, as [sorted] does it *)

Section Sorting.

Variable A : Type.
Variable leb : A -> A -> bool.

Fixpoint insert_sorted (x : A) (l : list A) : list A :=
  match l with
  | [] => [x]
  | y :: l' => if leb x y then x :: l else y :: insert_sorted x l'
  end.

(** [sorted(l)]: the result is determined by the order alone, so a stable
    insertion sort stands for Python's stable merge sort. *)
Definition sorted (l : list A) : list A :=
  fold_right insert_sorted [] l.

End Sorting.

(** ** Python dictionaries with string keys *)

Module PyDict.

Definition dict (V : Type) : Type := list (string * V).

Section Ops.

Variable V : Type.

Definition empty : dict V := [].

(** [d.get(k)] *)
Fixpoint get (k : string) (d : dict V) : option V :=
  match d with
  | [] => None
  | (k', v) :: d' => if String.eqb k k' then Some v else get k d'
  end.

(** [k in d] *)
Definition mem (k : string) (d : dict V) : bool :=
  match get k d with Some _ => true | None => false end.

(** [d[k] = v]: an existing key keeps its place, a new key goes last. *)
Fixpoint set (k : string) (v : V) (d : dict V) : dict V :=
  match d with
  | [] => [(k, v)]
  | (k', v') :: d' =>
      if String.eqb k k' then (k, v) :: d' else (k', v') :: set k v d'
  end.

(** [d.update(other)] *)
Definition update (d other : dict V) : dict V :=
  fold_left (fun acc kv => set (fst kv) (snd kv) acc) other d.

(** [list(d.keys())], [d.values()], [d.items()] *)
Definition keys (d : dict V) : list string := map fst d.
Definition values (d : dict V) : list V := map snd d.
Definition items (d : dict V) : list (string * V) := d.

(** [{k: v for k, v in d.items() if p(k, v)}] *)
Definition comprehension (p : string -> V -> bool) (d : dict V) : dict V :=
  filter (fun kv => p (fst kv) (snd kv)) d.

(** [bool(d)] *)
Definition truthy (d : dict V) : bool :=
  match d with [] => false | _ => true end.

(** A dictionary holds each key once. *)
Definition wf (d : dict V) : Prop := NoDup (keys d).

End Ops.

Arguments empty {V}.

End PyDict.

(** ** Exceptions, events and programs *)

(** The exception classes the two scripts raise or catch. *)
Inductive exn : Type :=
| ClientError (msg : string)
| NoCredentialsError (msg : string)
| KeyError (key : string)
| FileNotFoundError (msg : string)
| OSError (msg : string)
| SubprocessError (msg : string)
| KeyboardInterrupt
| OtherError (msg : string).

(** [str(e)] *)
Definition exn_str (e : exn) : string :=
  match e with
  | ClientError m | NoCredentialsError m | FileNotFoundError m
  | OSError m | SubprocessError m | OtherError m => m
  | KeyError k => "'" ++ k ++ "'"
  | KeyboardInterrupt => EmptyString
  end.

(** [FileNotFoundError] is a subclass of [OSError] ([IOError] is an alias
    of it). *)
Definition is_OSError (e : exn) : bool :=
  match e with FileNotFoundError _ | OSError _ => true | _ => false end.

Definition is_ClientError (e : exn) : bool :=
  match e with ClientError _ => true | _ => false end.

(** A time stamp of the SDK. *)
Record datetime : Type := { dt_date : string; dt_time : string }.

Definition isoformat (d : datetime) : string := dt_date d ++ "T" ++ dt_time d.
Definition datetime_str (d : datetime) : string := dt_date d ++ " " ++ dt_time d.

(** What a record can hold besides its interpreted fields. *)
Inductive value : Type :=
| VStr (s : string)
| VInt (z : Z)
| VDatetime (d : datetime).

(** One normalized entry of the cache: the dictionary stored under a name.
    The three fields the Query Engine reads, the keys "service", "type"
    ([rtype]) and "url", are absent ([None]) or strings; every other key is
    carried in [extra]. *)
Record ResourceRecord : Type := {
  service : option string;
  rtype : option string;
  url : option string;
  extra : PyDict.dict value
}.

Definition ResourceCache : Type := PyDict.dict ResourceRecord.

(** A JSON document, as a tree: what [json.dump] renders as text and what
    [json.load] parses the text into.  The rendering and the parsing are
    the library's and are not modelled. *)
Inductive json : Type :=
| JNull
| JInt (z : Z)
| JStr (s : string)
| JList (l : list json)
| JObj (fields : list (string * json)).

(** What a run does that can be seen from outside. *)
Inductive event : Type :=
| Print (text : string)
| Open (target : string)
| Fzf (header prompt : string) (lines : list string)
| WriteFile (path : string) (doc : json)
| Input (prompt : string)
| Call (routine : string).

Inductive result (A : Type) : Type :=
| Ok (a : A)
| Raise (e : exn).

Arguments Ok {A} a.
Arguments Raise {A} e.

(** A program: the events of the run and how it ended. *)
Definition prog (A : Type) : Type := (list event * result A)%type.

Definition ret {A} (a : A) : prog A := ([], Ok a).

Definition bind {A B} (m : prog A) (k : A -> prog B) : prog B :=
  match m with
  | (t, Ok a) => let (t', r) := k a in ((t ++ t')%list, r)
  | (t, Raise e) => (t, Raise e)
  end.

Definition emit (e : event) : prog unit := ([e], Ok tt).
Definition print (text : string) : prog unit := emit (Print text).
Definition raise {A} (e : exn) : prog A := ([], Raise e).

(** The [except] clauses of a [try]: the first clause whose classes include
    the exception handles it. *)
Fixpoint find_handler {A} (clauses : list ((exn -> bool) * (exn -> prog A)))
  (e : exn) : option (exn -> prog A) :=
  match clauses with
  | [] => None
  | (handles, handler) :: rest =>
      if handles e then Some handler else find_handler rest e
  end.

(** [try: m  except C1 as e: h1(e)  except C2 as e: h2(e) ...] *)
Definition try_except {A} (m : prog A)
  (clauses : list ((exn -> bool) * (exn -> prog A))) : prog A :=
  match m with
  | (t, Raise e) =>
      match find_handler clauses e with
      | Some handler => let (t', r) := handler e in ((t ++ t')%list, r)
      | None => (t, Raise e)
      end
  | _ => m
  end.

(** [for x in l: body(x)] *)
Fixpoint for_each {A} (l : list A) (body : A -> prog unit) : prog unit :=
  match l with
  | [] => ret tt
  | x :: l' => bind (body x) (fun _ => for_each l' body)
  end.

Declare Scope prog_scope.
Delimit Scope prog_scope with prog.
Notation "x <- m ;; k" := (bind m (fun x => k))
  (at level 61, m at next level, right associativity) : prog_scope.
Notation "m ;; k" := (bind m (fun _ => k))
  (at level 61, right associativity) : prog_scope.
Open Scope prog_scope.

Definition trace {A} (m : prog A) : list event := fst m.
Definition outcome {A} (m : prog A) : result A := snd m.

(** The process exit status behind [sys.exit(main())]: [None] and [0] are
    success; an uncaught exception is status 1, an uncaught interrupt the
    status of the signal. *)
Definition exit_status (r : result (option Z)) : Z :=
  match r with
  | Ok None => 0
  | Ok (Some n) => n
  | Raise KeyboardInterrupt => 130
  | Raise _ => 1
  end.

Definition nl : string := String (ascii_of_nat 10) EmptyString.

Fixpoint repeat_str (s : string) (n : nat) : string :=
  match n with O => EmptyString | S k => s ++ repeat_str s k end.

(** A list used as a Python [set] of strings: only membership is asked. *)
Definition set_in (x : string) (s : list string) : bool :=
  existsb (String.eqb x) s.

(** ** The similarity score of [difflib]

    [SequenceMatcher(None, a, b).ratio()] of the Python standard library,
    for a [b] shorter than the 200 characters at which the library starts
    to set popular characters aside: twice the number of matched
    characters over the total length, the matched characters being those
    of the longest common block and, recursively, of the longest blocks to
    its left and to its right.  The score is kept as an exact fraction. *)

Module Difflib.

Fixpoint common_prefix (a b : list ascii) : nat :=
  match a, b with
  | x :: a', y :: b' => if Ascii.eqb x y then S (common_prefix a' b') else 0
  | _, _ => 0
  end.

(** The best block so far is [(i, j, k)]: [k] characters from position [i]
    of [a] and [j] of [b].  A later block replaces it only when longer. *)
Fixpoint scan_b (a_from_i b_from_j : list ascii) (i j : nat)
  (best : nat * nat * nat) : nat * nat * nat :=
  match b_from_j with
  | [] => best
  | _ :: b' =>
      let k := common_prefix a_from_i b_from_j in
      scan_b a_from_i b' i (S j)
        (if (snd best <? k)%nat then (i, j, k) else best)
  end.

Fixpoint scan_a (a_from_i b : list ascii) (i : nat) (best : nat * nat * nat)
  : nat * nat * nat :=
  match a_from_i with
  | [] => best
  | _ :: a' => scan_a a' b (S i) (scan_b a_from_i b i 0 best)
  end.

(** [find_longest_match]: the longest block, the earliest in [a] among the
    longest, the earliest in [b] among those. *)
Definition find_longest_match (a b : list ascii) : nat * nat * nat :=
  scan_a a b 0 (0, 0, 0)%nat.

(** The sum of the sizes of [get_matching_blocks()]. *)
Fixpoint matched (fuel : nat) (a b : list ascii) : nat :=
  match fuel with
  | O => 0
  | S fuel' =>
      match find_longest_match a b with
      | (i, j, k) =>
          if (k =? 0)%nat then 0
          else k + matched fuel' (firstn i a) (firstn j b)
                 + matched fuel' (skipn (i + k) a) (skipn (j + k) b)
      end
  end.

Definition ratio (a b : string) : Q :=
  let la := list_ascii_of_string a in
  let lb := list_ascii_of_string b in
  let total := (List.length la + List.length lb)%nat in
  if (total =? 0)%nat then 1%Q
  else Qmake (Z.of_nat (2 * matched (S (List.length la)) la lb))
             (Pos.of_nat total).

End Difflib.

(** ** The Query Engine: [src/awsf.py] *)

Module Awsf.

Record ServiceInfo : Type := { icon : string; color : string; name : string }.

Definition SERVICE_CONFIG : PyDict.dict ServiceInfo :=
  [ ("lambda", {| icon := "λ"; color := "🟡"; name := "Lambda" |});
    ("s3", {| icon := "🪣"; color := "🟢"; name := "S3" |});
    ("sqs", {| icon := "📬"; color := "🔵"; name := "SQS" |});
    ("kinesis", {| icon := "🌊"; color := "🟣"; name := "Kinesis" |});
    ("dynamodb", {| icon := "🗄️"; color := "🟠"; name := "DynamoDB" |});
    ("rds", {| icon := "🗃️"; color := "🔴"; name := "RDS" |});
    ("apigateway", {| icon := "🚪"; color := "⚫"; name := "API Gateway" |}) ].

(** The settings file as parsed: the key [enabled_services] may be absent. *)
Record Settings : Type := { enabled_services : option (list string) }.

Inductive file_state (A : Type) : Type :=
| Missing
| NotJson
| Unreadable (msg : string)
| Holds (content : A).

Arguments Missing {A}.
Arguments NotJson {A}.
Arguments Unreadable {A} msg.
Arguments Holds {A} content.

(** How a spawned [fzf] ends: it could not be started, the user interrupted
    it, or it exited with a status and what it wrote. *)
Inductive fzf_outcome : Type :=
| NotSpawned (e : exn)
| Interrupted
| Exited (returncode : Z) (stdout : string).

(** What one invocation of the script finds around it.  The settings file
    holds settings or, absent or not JSON, nothing; creating the default
    file when there is none is not traced, as it does not change what is
    read next. *)
Record World : Type := {
  RESOURCES_FILE : string;
  resources_file : file_state ResourceCache;
  settings_file : option Settings;
  fzf_installed : bool;
  fzf : string -> string -> list string -> fzf_outcome;
  typed : option string
}.

(** [get_service_display(service, resource_type=None)] *)
Definition get_service_display (service : string) (resource_type : option string)
  : string :=
  let config :=
    match PyDict.get service SERVICE_CONFIG with
    | Some c => c
    | None => {| icon := "❓"; color := "⚪"; name := PyStr.upper service |}
    end in
  match resource_type with
  | Some t =>
      if PyStr.truthy t && existsb (String.eqb t) ["cluster"]
      then icon config ++ " " ++ name config ++ " Cluster"
      else icon config ++ " " ++ name config
  | None => icon config ++ " " ++ name config
  end.

(** [get_environment_indicator(resource_name)] *)
Definition get_environment_indicator (resource_name : string) : string :=
  let name_lower := PyStr.lower resource_name in
  if PyStr.any_in ["prod"; "production"] name_lower then "🟢 PROD"
  else if PyStr.any_in ["stag"; "staging"; "stage"] name_lower then "🟡 STAGE"
  else if PyStr.any_in ["dev"; "development"] name_lower then "🔵 DEV"
  else if PyStr.any_in ["test"; "testing"] name_lower then "🟣 TEST"
  else "⚪ OTHER".

(** [load_aws_resources()] *)
Definition load_aws_resources (w : World) : prog ResourceCache :=
  match resources_file w with
  | Holds c => ret c
  | Missing =>
      print ("❌ Error: " ++ RESOURCES_FILE w ++ " not found") ;;
      print "💡 Run: python3 scripts/populate_resources.py" ;;
      ret PyDict.empty
  | NotJson =>
      print ("❌ Error: " ++ RESOURCES_FILE w ++ " is not valid JSON") ;;
      ret PyDict.empty
  | Unreadable msg =>
      print ("❌ Error loading AWS resources: " ++ msg) ;;
      ret PyDict.empty
  end.

(** [load_settings()] *)
Definition load_settings (w : World) : Settings :=
  let default_settings :=
    {| enabled_services := Some (PyDict.keys SERVICE_CONFIG) |} in
  match settings_file w with
  | Some settings =>
      match enabled_services settings with
      | None => {| enabled_services := Some (PyDict.keys SERVICE_CONFIG) |}
      | Some _ => settings
      end
  | _ => default_settings
  end.

(** [set(settings.get("enabled_services", SERVICE_CONFIG.keys()))] *)
Definition enabled_set (settings : Settings) : list string :=
  match enabled_services settings with
  | Some l => l
  | None => PyDict.keys SERVICE_CONFIG
  end.

(** [resource.get(field, default)] on an interpreted field *)
Definition get_or (field : option string) (default : string) : string :=
  match field with Some s => s | None => default end.

(** [bool(service_filter)]: [None] and the empty string are false. *)
Definition given (service_filter : option string) : bool :=
  match service_filter with Some s => PyStr.truthy s | None => false end.

(** [filter_by_service(resources, service_filter=None)] *)
Definition filter_by_service (w : World) (resources : ResourceCache)
  (service_filter : option string) : ResourceCache :=
  let settings := load_settings w in
  let enabled := enabled_set settings in
  let filtered_resources :=
    PyDict.comprehension
      (fun _ resource =>
         set_in (PyStr.lower (get_or (service resource) EmptyString)) enabled)
      resources in
  match service_filter with
  | Some f =>
      if PyStr.truthy f then
        let f := PyStr.lower f in
        PyDict.comprehension
          (fun _ resource =>
             String.eqb (PyStr.lower (get_or (service resource) EmptyString)) f)
          filtered_resources
      else filtered_resources
  | None => filtered_resources
  end.

(** The line of one record: [f"{name} | {service_display} | {env_indicator} | {url}"] *)
Definition format_line (item : string * ResourceRecord) : string :=
  let (name, resource) := item in
  let service := get_or (service resource) "unknown" in
  let resource_type := get_or (rtype resource) "unknown" in
  let url := get_or (url resource) EmptyString in
  let service_display := get_service_display service (Some resource_type) in
  let env_indicator := get_environment_indicator name in
  name ++ " | " ++ service_display ++ " | " ++ env_indicator ++ " | " ++ url.

(** The statement both query paths open with:
    [if service_filter: resources = filter_by_service(resources, service_filter)] *)
Definition restrict (w : World) (resources : ResourceCache)
  (service_filter : option string) : ResourceCache :=
  if given service_filter
  then filter_by_service w resources service_filter
  else resources.

(** [prepare_resource_data(resources, service_filter=None)] *)
Definition prepare_resource_data (w : World) (resources : ResourceCache)
  (service_filter : option string) : list string :=
  if negb (PyDict.truthy resources) then []
  else
    let resources := restrict w resources service_filter in
    let formatted_lines := map format_line (PyDict.items resources) in
    sorted String.leb formatted_lines.

(** [parse_search_query(args)] *)
Definition parse_search_query (args : list string) : option string * string :=
  match args with
  | [] => (None, EmptyString)
  | arg0 :: rest =>
      let first_arg := PyStr.lower arg0 in
      let valid_services := PyDict.keys SERVICE_CONFIG in
      if existsb (String.eqb first_arg) valid_services
      then
        let service := first_arg in
        let search_terms :=
          if (1 <? List.length args)%nat then PyStr.join " " rest
          else EmptyString in
        (Some service, search_terms)
      else (None, PyStr.join " " args)
  end.

(** [SERVICE_CONFIG[service_filter][field]] *)
Definition service_config (service_filter : string) : prog ServiceInfo :=
  match PyDict.get service_filter SERVICE_CONFIG with
  | Some c => ret c
  | None => raise (KeyError service_filter)
  end.

(** What both [fzf] runs do with a normal exit: open the URL of the
    selected line. *)
Definition open_selected (stdout : string) : prog unit :=
  let selected_line := PyStr.strip stdout in
  let parts := PyStr.split " | " selected_line in
  if (4 <=? List.length parts)%nat then
    let resource_name := nth 0 parts EmptyString in
    let service_info := nth 1 parts EmptyString in
    let url := nth 3 parts EmptyString in
    emit (Open url) ;;
    print ("🚀 Opening " ++ resource_name ++ " (" ++ service_info
           ++ ") in AWS Console")
  else ret tt.

(** The [Popen]/[communicate] pair: the process is on the trace once it
    has been started. *)
Definition spawn_fzf (w : World) (header prompt : string) (lines : list string)
  : prog (Z * string) :=
  match fzf w header prompt lines with
  | NotSpawned e => raise e
  | Interrupted => emit (Fzf header prompt lines) ;; raise KeyboardInterrupt
  | Exited returncode stdout =>
      emit (Fzf header prompt lines) ;; ret (returncode, stdout)
  end.

(** [run_fzf_search(service_filter=None)] *)
Definition run_fzf_search (w : World) (service_filter : option string)
  : prog unit :=
  resources <- load_aws_resources w ;;
  let resource_data := prepare_resource_data w resources service_filter in
  match resource_data with
  | [] =>
      if given service_filter
      then print ("❌ No " ++ PyStr.upper (get_or service_filter EmptyString)
                  ++ " resources found")
      else print "❌ No AWS resources found"
  | _ =>
      hp <- (if given service_filter then
               c <- service_config (get_or service_filter EmptyString) ;;
               ret ("🔍 Search " ++ name c
                      ++ " Resources (Enter=Open, Ctrl+C=Copy URL)",
                    icon c ++ " Search: ")
             else ret ("🔍 Search AWS Resources (Enter=Open, Ctrl+C=Copy URL)",
                       "☁️ Search: ")) ;;
      try_except
        (out <- spawn_fzf w (fst hp) (snd hp) resource_data ;;
         let (returncode, stdout) := (out : Z * string) in
         if (returncode =? 0)%Z && PyStr.truthy (PyStr.strip stdout)
         then open_selected stdout
         else if (returncode =? 130)%Z
         then print "📋 URL copied to clipboard"
         else ret tt)
        [ (fun e => match e with KeyboardInterrupt => true | _ => false end,
           fun _ => print (nl ++ "👋 Search cancelled"));
          (fun e => match e with FileNotFoundError _ => true | _ => false end,
           fun _ => print "❌ fzf not found. Please install with: brew install fzf");
          (fun e => is_OSError e
                    || match e with SubprocessError _ => true | _ => false end,
           fun e => print ("❌ Error running search: " ++ exn_str e)) ]
  end.

(** [run_fzf_for_matches(matches, service_filter)] *)
Definition run_fzf_for_matches (w : World)
  (matches : list (string * ResourceRecord)) (service_filter : option string)
  : prog unit :=
  let resource_data := map format_line matches in
  let service_text :=
    if given service_filter
    then " " ++ PyStr.upper (get_or service_filter EmptyString)
    else EmptyString in
  let header :=
    "🔍 Found " ++ PyStr.of_nat (List.length matches) ++ service_text
      ++ " matches - Select one" in
  try_except
    (out <- spawn_fzf w header "☁️ Select: " resource_data ;;
     let (returncode, stdout) := (out : Z * string) in
     if (returncode =? 0)%Z && PyStr.truthy (PyStr.strip stdout)
     then open_selected stdout
     else ret tt)
    [ (fun e => is_OSError e
                || match e with SubprocessError _ => true | _ => false end,
       fun e => print ("❌ Error in selection: " ++ exn_str e)) ].

(** [resource['service']] *)
Definition service_of (resource : ResourceRecord) : prog string :=
  match service resource with
  | Some s => ret s
  | None => raise (KeyError "service")
  end.

(** [resources[key]] *)
Definition subscript (key : string) (resources : ResourceCache)
  : prog ResourceRecord :=
  match PyDict.get key resources with
  | Some r => ret r
  | None => raise (KeyError key)
  end.

(** The comprehension that computes [matches] in [search_with_query]. *)
Definition find_matches (query : string) (resources : ResourceCache)
  : list (string * ResourceRecord) :=
  let query_lower := PyStr.lower query in
  filter (fun item => PyStr.contains query_lower (PyStr.lower (fst item)))
    (PyDict.items resources).

Section Suggestions.

(** [difflib.SequenceMatcher(None, x, word).ratio()], the similarity score
    of the standard library, on a 0-1 scale. *)
Variable ratio : string -> string -> Q.

(** The order of [(score, x)] pairs, largest first. *)
Definition scored_geb (p q : Q * string) : bool :=
  match Qcompare (fst p) (fst q) with
  | Gt => true
  | Lt => false
  | Eq => String.leb (snd q) (snd p)
  end.

(** [difflib.get_close_matches(word, possibilities, n, cutoff)]: the
    possibilities that score at least [cutoff], best [n] first.  The two
    cheaper tests that precede [ratio() >= cutoff] are upper bounds of it. *)
Definition get_close_matches (word : string) (possibilities : list string)
  (n : nat) (cutoff : Q) : list string :=
  let result :=
    map (fun x => (ratio x word, x))
      (filter (fun x => Qle_bool cutoff (ratio x word)) possibilities) in
  map snd (firstn n (sorted scored_geb result)).

(** The suggestions [search_with_query] computes when nothing matched. *)
Definition suggestions_for (query : string) (resources : ResourceCache)
  : list string :=
  let all_names := PyDict.keys resources in
  get_close_matches query all_names 3 (3 # 10).

(** [search_with_query(query, service_filter=None)] *)
Definition search_with_query (w : World) (query : string)
  (service_filter : option string) : prog unit :=
  resources <- load_aws_resources w ;;
  if negb (PyDict.truthy resources) then ret tt
  else
    let resources := restrict w resources service_filter in
    let matches := find_matches query resources in
    match matches with
    | [] =>
        let service_text :=
          if given service_filter
          then " " ++ PyStr.upper (get_or service_filter EmptyString)
          else EmptyString in
        print ("❌ No" ++ service_text ++ " resources found matching: '"
               ++ query ++ "'") ;;
        let suggestions := suggestions_for query resources in
        match suggestions with
        | [] => ret tt
        | _ =>
            print "💡 Did you mean:" ;;
            for_each suggestions
              (fun suggestion =>
                 resource <- subscript suggestion resources ;;
                 s <- service_of resource ;;
                 let service_display :=
                   get_service_display s (rtype resource) in
                 print ("   • " ++ suggestion ++ " (" ++ service_display ++ ")"))
        end
    | [(name, resource)] =>
        let url := get_or (url resource) EmptyString in
        if PyStr.truthy url then
          emit (Open url) ;;
          s <- service_of resource ;;
          let service_display := get_service_display s (rtype resource) in
          let env := get_environment_indicator name in
          print ("🚀 Opening " ++ name ++ " (" ++ service_display ++ ") "
                 ++ env ++ " in AWS Console")
        else print ("❌ No URL available for " ++ name)
    | _ => run_fzf_for_matches w matches service_filter
    end.

(** [main()], over [sys.argv[1:]].  The help text and the two menus are
    outside the model: entering one is a [Call] event. *)
Definition main (w : World) (argv : list string) : prog unit :=
  let arg1 := hd_error argv in
  let arg1_in (l : list string) :=
    match arg1 with Some a => existsb (String.eqb a) l | None => false end in
  if arg1_in ["-h"; "--help"; "help"] then emit (Call "show_help")
  else if arg1_in ["--settings"; "-s"; "settings"]
  then emit (Call "show_settings_menu")
  else if arg1_in ["--config"; "-c"; "config"]
  then emit (Call "edit_configuration")
  else
    let (service_filter, search_query) := parse_search_query argv in
    let enabled := enabled_set (load_settings w) in
    if given service_filter
       && negb (set_in (get_or service_filter EmptyString) enabled)
    then
      print ("⚠️  Service '" ++ get_or service_filter EmptyString
             ++ "' is disabled in settings.") ;;
      print "💡 Use '--settings' to enable services or search all enabled services."
    else
      (if given service_filter then
         c <- service_config (get_or service_filter EmptyString) ;;
         print ("🔍 AWS " ++ name c ++ " Resource Search")
       else print "🔍 AWSF - AWS Fuzzy Finder") ;;
      print (repeat_str "=" 50) ;;
      (if negb (given service_filter) then
         let total := List.length SERVICE_CONFIG in
         let disabled_count :=
           (Z.of_nat total - Z.of_nat (List.length enabled))%Z in
         if (0 <? disabled_count)%Z
         then print ("ℹ️  " ++ PyStr.of_nat (List.length enabled) ++ "/"
                     ++ PyStr.of_nat total
                     ++ " services enabled. Use '--settings' to configure.")
         else print ("ℹ️  All " ++ PyStr.of_nat total ++ " services enabled.")
       else ret tt) ;;
      if PyStr.truthy search_query
      then search_with_query w search_query service_filter
      else if fzf_installed w
      then run_fzf_search w service_filter
      else
        print "❌ fzf not found. Install with: brew install fzf" ;;
        print (nl ++ "Falling back to simple search:") ;;
        try_except
          (resources <- load_aws_resources w ;;
           if PyDict.truthy resources then
             print (nl ++ nl ++ repeat_str "─" 60) ;;
             print "  📋 Manual Search Mode" ;;
             print (repeat_str "─" 60) ;;
             emit (Input (nl ++ nl ++ "    🔎 Enter search term: ")) ;;
             line <- match typed w with
                     | Some line => ret line
                     | None => raise KeyboardInterrupt
                     end ;;
             let query := PyStr.strip line in
             print nl ;;
             if PyStr.truthy query
             then search_with_query w query service_filter
             else ret tt
           else print "💡 Run: python3 scripts/populate_resources.py")
          [ (fun e => match e with KeyboardInterrupt => true | _ => false end,
             fun _ => print (nl ++ "👋 Goodbye!")) ].

End Suggestions.

End Awsf.

(** ** The Collector: [scripts/populate_resources.py] *)

Module Populate.

(** *** What the SDK returns

    The response shapes of the seven services, with the fields the script
    reads.  A field is [None] when the response does not carry it. *)

Record LambdaFunction : Type := {
  FunctionName : option string;
  FunctionArn : option string;
  Runtime : option string;
  LastModified : option string
}.

Record ListFunctionsPage : Type := { Functions : option (list LambdaFunction) }.

Record Bucket : Type := { Name : option string; CreationDate : option datetime }.

Record ListBucketsOutput : Type := { Buckets : option (list Bucket) }.

Record ListQueuesOutput : Type := { QueueUrls : option (list string) }.

Record ListStreamsPage : Type := { StreamNames : option (list string) }.

Record StreamInfo : Type := {
  StreamARN : option string;
  StreamStatus : option string;
  Shards : option (list string)
}.

Record DescribeStreamOutput : Type := { StreamDescription : option StreamInfo }.

Record ListTablesPage : Type := { TableNames : option (list string) }.

Record TableInfo : Type := {
  TableArn : option string;
  TableStatus : option string;
  ItemCount : option Z
}.

Record DescribeTableOutput : Type := { Table : option TableInfo }.

Record DBInstance : Type := {
  DBInstanceIdentifier : option string;
  DBInstanceArn : option string;
  InstanceEngine : option string;
  DBInstanceStatus : option string
}.

Record DBInstancesPage : Type := { DBInstances : option (list DBInstance) }.

Record DBCluster : Type := {
  DBClusterIdentifier : option string;
  DBClusterArn : option string;
  ClusterEngine : option string;
  Status : option string
}.

Record DBClustersPage : Type := { DBClusters : option (list DBCluster) }.

Record RestApi : Type := {
  api_name : option string;
  id : option string;
  description : option string;
  createdDate : option datetime
}.

Record GetRestApisOutput : Type := { items : option (list RestApi) }.

Record Identity : Type := { Account : option string; Arn : option string }.

Record Config : Type := { aws_region : option string; aws_profile : option string }.

(** A paginated call: the pages that arrive and, possibly, the exception
    that ends the iteration after them. *)
Definition paged (A : Type) : Type := (list A * option exn)%type.

(** What one run of the Collector finds around it: the configuration file
    (absent or not JSON: [None]), the environment, the answers of the SDK
    and of the file system. *)
Record Sdk : Type := {
  DATA_DIR : string;
  config_file : option Config;
  has_access_key_id : bool;
  new_session : option string -> result unit;
  client : string -> result unit;
  get_caller_identity : result Identity;
  list_functions : string -> paged ListFunctionsPage;
  list_buckets : result ListBucketsOutput;
  list_queues : string -> result ListQueuesOutput;
  list_streams : string -> paged ListStreamsPage;
  describe_stream : string -> string -> result DescribeStreamOutput;
  list_tables : string -> paged ListTablesPage;
  describe_table : string -> string -> result DescribeTableOutput;
  describe_db_instances : string -> paged DBInstancesPage;
  describe_db_clusters : string -> paged DBClustersPage;
  get_rest_apis : string -> result GetRestApisOutput;
  makedirs : result unit;
  write_file : string -> json -> result unit
}.

Definition usage : string := "
AWS Resource Populator
======================

Fetches resources from multiple AWS services and stores them in a searchable format.

This script connects to your AWS account and retrieves information about resources
across multiple services, storing them in a JSON file for fast searching.

Services supported:
- AWS Lambda
- Amazon S3
- Amazon SQS
- Amazon Kinesis
- Amazon DynamoDB
- Amazon RDS
- Amazon API Gateway

Requirements:
- AWS CLI configured (aws configure)
- Python boto3 library (pip install boto3)
- Appropriate IAM permissions for listing resources

Usage:
    python3 populate_resources.py
    python3 populate_resources.py --region us-west-2
    python3 populate_resources.py --profile myprofile
".

(** *** Helpers for the Python idioms of the script *)

Definition lift {A} (r : result A) : prog A := ([], r).

(** [d.get(key, default)] and [d[key]] on a response *)
Definition get_or {A} (field : option A) (default : A) : A :=
  match field with Some a => a | None => default end.

Definition item {A} (key : string) (field : option A) : result A :=
  match field with Some a => Ok a | None => Raise (KeyError key) end.

(** A [for] loop whose body updates a dictionary in place: it stops at the
    first exception, and what was stored before stays stored. *)
Fixpoint loop {A S} (body : A -> S -> result S) (l : list A) (s : S)
  : S * option exn :=
  match l with
  | [] => (s, None)
  | x :: l' =>
      match body x s with
      | Ok s' => loop body l' s'
      | Raise e => (s, Some e)
      end
  end.

(** [for page in paginator.paginate(): for x in page.get(key, []): body] *)
Definition loop_pages {P A S} (pages : paged P) (items_of : P -> list A)
  (body : A -> S -> result S) (s : S) : S * option exn :=
  match loop body (flat_map items_of (fst pages)) s with
  | (s', Some e) => (s', Some e)
  | (s', None) => (s', snd pages)
  end.

(** Leaving a block to which a loop belongs: the loop's exception, if any,
    is the block's. *)
Definition finish {S} (r : S * option exn) : prog S :=
  match snd r with
  | None => ret (fst r)
  | Some e => raise e
  end.

Definition console (region : string) : string :=
  "https://" ++ region ++ ".console.aws.amazon.com".

(** [s.split('/')[-1]] *)
Definition last_segment (s : string) : string :=
  last (PyStr.split "/" s) EmptyString.

(** *** The seven fetchers

    Each loop body is named ([store_...]), and so is the loop over the
    answer of the service ([scan_...]); the fetcher is the [try] around
    them. *)

(** The body of the loop of [fetch_lambda_functions]. *)
Definition store_function (region : string) (func : LambdaFunction)
  (functions : ResourceCache) : result ResourceCache :=
  match item "FunctionName" (FunctionName func) with
  | Raise e => Raise e
  | Ok name =>
  match item "FunctionArn" (FunctionArn func) with
  | Raise e => Raise e
  | Ok arn =>
      let console_url :=
        console region ++ "/lambda/home?region=" ++ region
          ++ "#/functions/" ++ name ++ "?tab=configuration" in
      Ok (PyDict.set name
            {| service := Some "lambda";
               rtype := Some "function";
               url := Some console_url;
               extra :=
                 [ ("arn", VStr arn);
                   ("runtime", VStr (get_or (Runtime func) "unknown"));
                   ("last_modified",
                     VStr (get_or (LastModified func) EmptyString));
                   ("region", VStr region) ] |}
            functions)
  end end.

Definition scan_functions (sdk : Sdk) (region : string)
  : ResourceCache * option exn :=
  loop_pages (list_functions sdk region)
    (fun page => get_or (Functions page) [])
    (store_function region) PyDict.empty.

(** [fetch_lambda_functions(session, region)] *)
Definition fetch_lambda_functions (sdk : Sdk) (region : string)
  : prog ResourceCache :=
  try_except
    (lift (client sdk "lambda") ;;
     functions <- finish (scan_functions sdk region) ;;
     print ("   ✅ Found " ++ PyStr.of_nat (List.length functions)
            ++ " Lambda functions") ;;
     ret functions)
    [ (is_ClientError,
       fun e => print ("   ❌ Error fetching Lambda functions: " ++ exn_str e) ;;
                ret PyDict.empty) ].

(** The body of the loop of [fetch_s3_buckets]. *)
Definition store_bucket (region : string) (bucket : Bucket)
  (buckets : ResourceCache) : result ResourceCache :=
  match item "Name" (Name bucket) with
  | Raise e => Raise e
  | Ok name =>
      let console_url :=
        "https://s3.console.aws.amazon.com/s3/buckets/" ++ name
          ++ "?region=" ++ region in
      Ok (PyDict.set name
            {| service := Some "s3";
               rtype := Some "bucket";
               url := Some console_url;
               extra :=
                 [ ("creation_date",
                     VStr match CreationDate bucket with
                          | Some d => isoformat d
                          | None => EmptyString
                          end);
                   ("region", VStr region) ] |}
            buckets)
  end.

Definition scan_buckets (region : string) (response : ListBucketsOutput)
  : ResourceCache * option exn :=
  loop (store_bucket region) (get_or (Buckets response) []) PyDict.empty.

(** [fetch_s3_buckets(session, region)] *)
Definition fetch_s3_buckets (sdk : Sdk) (region : string) : prog ResourceCache :=
  try_except
    (lift (client sdk "s3") ;;
     response <- lift (list_buckets sdk) ;;
     buckets <- finish (scan_buckets region response) ;;
     print ("   ✅ Found " ++ PyStr.of_nat (List.length buckets) ++ " S3 buckets") ;;
     ret buckets)
    [ (is_ClientError,
       fun e => print ("   ❌ Error fetching S3 buckets: " ++ exn_str e) ;;
                ret PyDict.empty) ].

(** The body of the loop of [fetch_sqs_queues]. *)
Definition store_queue (region : string) (queue_url : string)
  (queues : ResourceCache) : result ResourceCache :=
  let queue_name := last_segment queue_url in
  let console_url :=
    console region ++ "/sqs/v2/home?region=" ++ region
      ++ "#/queues/" ++ PyStr.replace "://" "%3A//" queue_url in
  Ok (PyDict.set queue_name
        {| service := Some "sqs";
           rtype := Some "queue";
           url := Some console_url;
           extra := [ ("queue_url", VStr queue_url); ("region", VStr region) ] |}
        queues).

Definition scan_queues (region : string) (response : ListQueuesOutput)
  : ResourceCache * option exn :=
  loop (store_queue region) (get_or (QueueUrls response) []) PyDict.empty.

(** [fetch_sqs_queues(session, region)] *)
Definition fetch_sqs_queues (sdk : Sdk) (region : string) : prog ResourceCache :=
  try_except
    (lift (client sdk "sqs") ;;
     response <- lift (list_queues sdk region) ;;
     queues <- finish (scan_queues region response) ;;
     print ("   ✅ Found " ++ PyStr.of_nat (List.length queues) ++ " SQS queues") ;;
     ret queues)
    [ (is_ClientError,
       fun e => print ("   ❌ Error fetching SQS queues: " ++ exn_str e) ;;
                ret PyDict.empty) ].

(** The body of the loop of [fetch_kinesis_streams]: a stream that cannot
    be described is skipped. *)
Definition store_stream (sdk : Sdk) (region : string) (stream_name : string)
  (streams : ResourceCache) : result ResourceCache :=
  match describe_stream sdk region stream_name with
  | Raise e => if is_ClientError e then Ok streams else Raise e
  | Ok stream_details =>
  match item "StreamDescription" (StreamDescription stream_details) with
  | Raise e => Raise e
  | Ok stream_info =>
      let console_url :=
        console region ++ "/kinesis/home?region=" ++ region
          ++ "#/streams/details/" ++ stream_name ++ "/monitoring" in
      Ok (PyDict.set stream_name
            {| service := Some "kinesis";
               rtype := Some "stream";
               url := Some console_url;
               extra :=
                 [ ("arn", VStr (get_or (StreamARN stream_info) EmptyString));
                   ("status",
                     VStr (get_or (StreamStatus stream_info) "unknown"));
                   ("shard_count",
                     VInt (Z.of_nat
                             (List.length (get_or (Shards stream_info) []))));
                   ("region", VStr region) ] |}
            streams)
  end end.

Definition scan_streams (sdk : Sdk) (region : string)
  : ResourceCache * option exn :=
  loop_pages (list_streams sdk region)
    (fun page => get_or (StreamNames page) [])
    (store_stream sdk region) PyDict.empty.

(** [fetch_kinesis_streams(session, region)] *)
Definition fetch_kinesis_streams (sdk : Sdk) (region : string)
  : prog ResourceCache :=
  try_except
    (lift (client sdk "kinesis") ;;
     streams <- finish (scan_streams sdk region) ;;
     print ("   ✅ Found " ++ PyStr.of_nat (List.length streams)
            ++ " Kinesis streams") ;;
     ret streams)
    [ (is_ClientError,
       fun e => print ("   ❌ Error fetching Kinesis streams: " ++ exn_str e) ;;
                ret PyDict.empty) ].

(** The body of the loop of [fetch_dynamodb_tables]: a table that cannot be
    described is skipped. *)
Definition store_table (sdk : Sdk) (region : string) (table_name : string)
  (tables : ResourceCache) : result ResourceCache :=
  match describe_table sdk region table_name with
  | Raise e => if is_ClientError e then Ok tables else Raise e
  | Ok table_details =>
  match item "Table" (Table table_details) with
  | Raise e => Raise e
  | Ok table_info =>
      let console_url :=
        console region ++ "/dynamodbv2/home?region=" ++ region
          ++ "#table?name=" ++ table_name in
      Ok (PyDict.set table_name
            {| service := Some "dynamodb";
               rtype := Some "table";
               url := Some console_url;
               extra :=
                 [ ("arn", VStr (get_or (TableArn table_info) EmptyString));
                   ("status", VStr (get_or (TableStatus table_info) "unknown"));
                   ("item_count", VInt (get_or (ItemCount table_info) 0%Z));
                   ("region", VStr region) ] |}
            tables)
  end end.

Definition scan_tables (sdk : Sdk) (region : string)
  : ResourceCache * option exn :=
  loop_pages (list_tables sdk region)
    (fun page => get_or (TableNames page) [])
    (store_table sdk region) PyDict.empty.

(** [fetch_dynamodb_tables(session, region)] *)
Definition fetch_dynamodb_tables (sdk : Sdk) (region : string)
  : prog ResourceCache :=
  try_except
    (lift (client sdk "dynamodb") ;;
     tables <- finish (scan_tables sdk region) ;;
     print ("   ✅ Found " ++ PyStr.of_nat (List.length tables)
            ++ " DynamoDB tables") ;;
     ret tables)
    [ (is_ClientError,
       fun e => print ("   ❌ Error fetching DynamoDB tables: " ++ exn_str e) ;;
                ret PyDict.empty) ].

(** Leaving a [try] block in which a loop ran. *)
Definition check {S} (r : S * option exn) : prog unit :=
  match snd r with
  | None => ret tt
  | Some e => raise e
  end.

(** The bodies of the two loops of [fetch_rds_resources]. *)
Definition store_instance (region : string) (instance : DBInstance)
  (resources : ResourceCache) : result ResourceCache :=
  match item "DBInstanceIdentifier" (DBInstanceIdentifier instance) with
  | Raise e => Raise e
  | Ok name =>
      let console_url :=
        console region ++ "/rds/home?region=" ++ region
          ++ "#database:id=" ++ name ++ ";is-cluster=false" in
      Ok (PyDict.set name
            {| service := Some "rds";
               rtype := Some "instance";
               url := Some console_url;
               extra :=
                 [ ("arn", VStr (get_or (DBInstanceArn instance) EmptyString));
                   ("engine", VStr (get_or (InstanceEngine instance) "unknown"));
                   ("status",
                     VStr (get_or (DBInstanceStatus instance) "unknown"));
                   ("region", VStr region) ] |}
            resources)
  end.

Definition store_cluster (region : string) (cluster : DBCluster)
  (resources : ResourceCache) : result ResourceCache :=
  match item "DBClusterIdentifier" (DBClusterIdentifier cluster) with
  | Raise e => Raise e
  | Ok name =>
      let console_url :=
        console region ++ "/rds/home?region=" ++ region
          ++ "#database:id=" ++ name ++ ";is-cluster=true" in
      Ok (PyDict.set name
            {| service := Some "rds";
               rtype := Some "cluster";
               url := Some console_url;
               extra :=
                 [ ("arn", VStr (get_or (DBClusterArn cluster) EmptyString));
                   ("engine", VStr (get_or (ClusterEngine cluster) "unknown"));
                   ("status", VStr (get_or (Status cluster) "unknown"));
                   ("region", VStr region) ] |}
            resources)
  end.

Definition scan_instances (sdk : Sdk) (region : string)
  : ResourceCache * option exn :=
  loop_pages (describe_db_instances sdk region)
    (fun page => get_or (DBInstances page) [])
    (store_instance region) PyDict.empty.

Definition scan_clusters (sdk : Sdk) (region : string)
  (resources : ResourceCache) : ResourceCache * option exn :=
  loop_pages (describe_db_clusters sdk region)
    (fun page => get_or (DBClusters page) [])
    (store_cluster region) resources.

(** [fetch_rds_resources(session, region)]: each of the two loops has its
    own [try], and what a loop stored before it failed stays stored. *)
Definition fetch_rds_resources (sdk : Sdk) (region : string)
  : prog ResourceCache :=
  try_except
    (lift (client sdk "rds") ;;
     let instances := scan_instances sdk region in
     try_except (check instances)
       [ (is_ClientError,
          fun e => print ("   ⚠️  Error fetching RDS instances: " ++ exn_str e)) ] ;;
     let clusters := scan_clusters sdk region (fst instances) in
     try_except (check clusters)
       [ (is_ClientError,
          fun e => print ("   ⚠️  Error fetching RDS clusters: " ++ exn_str e)) ] ;;
     let resources := fst clusters in
     print ("   ✅ Found " ++ PyStr.of_nat (List.length resources)
            ++ " RDS resources") ;;
     ret resources)
    [ (is_ClientError,
       fun e => print ("   ❌ Error fetching RDS resources: " ++ exn_str e) ;;
                ret PyDict.empty) ].

(** The body of the loop of [fetch_api_gateway_apis]. *)
Definition store_api (region : string) (api : RestApi) (apis : ResourceCache)
  : result ResourceCache :=
  match item "name" (api_name api) with
  | Raise e => Raise e
  | Ok name =>
  match item "id" (id api) with
  | Raise e => Raise e
  | Ok api_id =>
      let console_url :=
        console region ++ "/apigateway/home?region=" ++ region
          ++ "#/apis/" ++ api_id in
      Ok (PyDict.set name
            {| service := Some "apigateway";
               rtype := Some "rest_api";
               url := Some console_url;
               extra :=
                 [ ("api_id", VStr api_id);
                   ("description", VStr (get_or (description api) EmptyString));
                   ("created_date",
                     VStr match createdDate api with
                          | Some d => isoformat d
                          | None => EmptyString
                          end);
                   ("region", VStr region) ] |}
            apis)
  end end.

Definition scan_apis (region : string) (response : GetRestApisOutput)
  : ResourceCache * option exn :=
  loop (store_api region) (get_or (items response) []) PyDict.empty.

(** [fetch_api_gateway_apis(session, region)] *)
Definition fetch_api_gateway_apis (sdk : Sdk) (region : string)
  : prog ResourceCache :=
  try_except
    (lift (client sdk "apigateway") ;;
     response <- lift (get_rest_apis sdk region) ;;
     apis <- finish (scan_apis region response) ;;
     print ("   ✅ Found " ++ PyStr.of_nat (List.length apis)
            ++ " API Gateway APIs") ;;
     ret apis)
    [ (is_ClientError,
       fun e => print ("   ❌ Error fetching API Gateway APIs: " ++ exn_str e) ;;
                ret PyDict.empty) ].

(** *** The cache file *)

(** [json.dump(..., default=str)] on one stored value: what JSON has no
    form for is written as its [str]. *)
Definition json_of_value (v : value) : json :=
  match v with
  | VStr s => JStr s
  | VInt z => JInt z
  | VDatetime d => JStr (datetime_str d)
  end.

Definition json_field (key : string) (field : option string)
  : list (string * json) :=
  match field with Some s => [(key, JStr s)] | None => [] end.

Definition json_of_extra (e : PyDict.dict value) : list (string * json) :=
  map (fun kv => (fst kv, json_of_value (snd kv))) e.

Definition json_of_record (r : ResourceRecord) : json :=
  JObj (json_field "service" (service r) ++ json_field "type" (rtype r)
        ++ json_field "url" (url r) ++ json_of_extra (extra r))%list.

(** The document [json.dump(all_resources, f, indent=2, default=str)] writes. *)
Definition json_of_cache (c : ResourceCache) : json :=
  JObj (map (fun kv => (fst kv, json_of_record (snd kv))) c).

(** *** The run *)

Definition opt_truthy (s : option string) : bool :=
  match s with Some x => PyStr.truthy x | None => false end.

(** [get_session(profile=None)] *)
Definition get_session (sdk : Sdk) (profile : option string) : prog (option unit) :=
  try_except
    (if opt_truthy profile then
       session <- lift (new_session sdk profile) ;;
       print ("Using AWS profile: " ++ get_or profile EmptyString) ;;
       ret (Some session)
     else if has_access_key_id sdk then
       session <- lift (new_session sdk None) ;;
       print "Using AWS environment variables for authentication" ;;
       ret (Some session)
     else
       session <- lift (new_session sdk None) ;;
       print "Using default AWS credentials" ;;
       ret (Some session))
    [ (fun e => match e with KeyboardInterrupt => false | _ => true end,
       fun e => print ("❌ Error creating AWS session: " ++ exn_str e) ;;
                ret None) ].

(** The argument loop of [main], over [sys.argv[1:]]; [i] is the position
    of the argument in [sys.argv].  [None]: the help flag was met. *)
Fixpoint parse_args (argv rest : list string) (i : nat)
  (region profile : option string) : option (option string * option string) :=
  match rest with
  | [] => Some (region, profile)
  | arg :: rest' =>
      if existsb (String.eqb arg) ["--region"; "-r"]
         && (i <? List.length argv)%nat
      then parse_args argv rest' (S i) (nth_error argv i) profile
      else if existsb (String.eqb arg) ["--profile"; "-p"]
              && (i <? List.length argv)%nat
      then parse_args argv rest' (S i) region (nth_error argv i)
      else if existsb (String.eqb arg) ["--help"; "-h"]
      then None
      else parse_args argv rest' (S i) region profile
  end.

(** [load_config()] *)
Definition load_config (sdk : Sdk) : Config :=
  match config_file sdk with
  | Some config => config
  | None => {| aws_region := Some "us-east-1"; aws_profile := None |}
  end.

(** The seven fetches of [main], merged by [all_resources.update]. *)
Definition fetch_all (sdk : Sdk) (region : string) : prog ResourceCache :=
  let all_resources := PyDict.empty in
  print "🔍 Fetching Lambda functions..." ;;
  d <- fetch_lambda_functions sdk region ;;
  let all_resources := PyDict.update all_resources d in
  print "🔍 Fetching S3 buckets..." ;;
  d <- fetch_s3_buckets sdk region ;;
  let all_resources := PyDict.update all_resources d in
  print "🔍 Fetching SQS queues..." ;;
  d <- fetch_sqs_queues sdk region ;;
  let all_resources := PyDict.update all_resources d in
  print "🔍 Fetching Kinesis streams..." ;;
  d <- fetch_kinesis_streams sdk region ;;
  let all_resources := PyDict.update all_resources d in
  print "🔍 Fetching DynamoDB tables..." ;;
  d <- fetch_dynamodb_tables sdk region ;;
  let all_resources := PyDict.update all_resources d in
  print "🔍 Fetching RDS instances and clusters..." ;;
  d <- fetch_rds_resources sdk region ;;
  let all_resources := PyDict.update all_resources d in
  print "🔍 Fetching API Gateway APIs..." ;;
  d <- fetch_api_gateway_apis sdk region ;;
  let all_resources := PyDict.update all_resources d in
  ret all_resources.

(** The summary loop of [main]: records counted by upper-cased service. *)
Definition count_services (all_resources : ResourceCache) : PyDict.dict nat :=
  fold_left
    (fun service_counts resource =>
       let service := PyStr.upper (get_or (service resource) "unknown") in
       PyDict.set service (get_or (PyDict.get service service_counts) 0 + 1)
         service_counts)
    (PyDict.values all_resources) PyDict.empty.

(** [main()], over [sys.argv[1:]] *)
Definition main (sdk : Sdk) (argv : list string) : prog (option Z) :=
  match parse_args argv argv 1 None None with
  | None => print usage ;; ret None
  | Some (region, profile) =>
      let config := load_config sdk in
      let region :=
        if opt_truthy region then get_or region EmptyString
        else get_or (aws_region config) "us-east-1" in
      let profile := if opt_truthy profile then profile else aws_profile config in
      print "🚀 AWS Resource Fetcher" ;;
      print (repeat_str "=" 50) ;;
      print ("Region: " ++ region) ;;
      session <- get_session sdk profile ;;
      match session with
      | None => ret (Some 1%Z)
      | Some _ =>
          credentials <- try_except
            (lift (client sdk "sts") ;;
             identity <- lift (get_caller_identity sdk) ;;
             print ("Account: " ++ get_or (Account identity) "unknown") ;;
             print ("User/Role: "
                    ++ last_segment (get_or (Arn identity) "unknown")) ;;
             ret true)
            [ (fun e => match e with
                        | ClientError _ | NoCredentialsError _ => true
                        | _ => false
                        end,
               fun e =>
                 print ("❌ AWS credential error: " ++ exn_str e) ;;
                 print "💡 Make sure AWS is configured (aws configure) or environment variables are set" ;;
                 ret false) ] ;;
          if negb credentials then ret (Some 1%Z)
          else
            print EmptyString ;;
            all_resources <- fetch_all sdk region ;;
            lift (makedirs sdk) ;;
            let output_file := DATA_DIR sdk ++ "/aws_resources.json" in
            saved <- try_except
              (lift (write_file sdk output_file (json_of_cache all_resources)) ;;
               emit (WriteFile output_file (json_of_cache all_resources)) ;;
               print (nl ++ "✅ Successfully saved "
                      ++ PyStr.of_nat (List.length all_resources)
                      ++ " resources to " ++ output_file) ;;
               ret true)
              [ (is_OSError,
                 fun e => print (nl ++ "❌ Error saving resources: " ++ exn_str e) ;;
                          ret false) ] ;;
            if negb saved then ret (Some 1%Z)
            else
              print (nl ++ "📊 Resource Summary:") ;;
              let service_counts := count_services all_resources in
              for_each (sorted String.leb (PyDict.keys service_counts))
                (fun service =>
                   print ("   " ++ PyStr.ljust 12 service ++ ": "
                          ++ PyStr.rjust 4
                               (PyStr.of_nat
                                  (get_or (PyDict.get service service_counts) 0))
                          ++ " resources")) ;;
              print (nl ++ "🎉 Resource collection complete! Use 'awsf' to search.") ;;
              ret (Some 0%Z)
      end
  end.

End Populate.

(** ** Reading the cache file back *)

(** A JSON object as [json.load] builds it: pairs are stored one after the
    other, so a repeated key keeps its first place and its last value. *)
Definition dict_of_pairs {V} (pairs : list (string * V)) : PyDict.dict V :=
  PyDict.update PyDict.empty pairs.

(** All of the options, or none. *)
Fixpoint sequence {A} (l : list (option A)) : option (list A) :=
  match l with
  | [] => Some []
  | None :: _ => None
  | Some a :: l' =>
      match sequence l' with Some r => Some (a :: r) | None => None end
  end.

Definition value_of_json (j : json) : option value :=
  match j with
  | JStr s => Some (VStr s)
  | JInt z => Some (VInt z)
  | _ => None
  end.

(** An interpreted field of a loaded record: absent, or a string. *)
Definition str_field (key : string) (d : PyDict.dict json)
  : option (option string) :=
  match PyDict.get key d with
  | None => Some None
  | Some (JStr s) => Some (Some s)
  | Some _ => None
  end.

Definition interpreted (key : string) : bool :=
  existsb (String.eqb key) ["service"; "type"; "url"].

(** A loaded JSON value as a record of the cache; [None] when it is not of
    the cache file format. *)
Definition record_of_json (j : json) : option ResourceRecord :=
  match j with
  | JObj fields =>
      let d := dict_of_pairs fields in
      match str_field "service" d, str_field "type" d, str_field "url" d,
            sequence
              (map (fun kv =>
                      match value_of_json (snd kv) with
                      | Some v => Some (fst kv, v)
                      | None => None
                      end)
                 (filter (fun kv => negb (interpreted (fst kv))) d))
      with
      | Some s, Some t, Some u, Some e =>
          Some {| service := s; rtype := t; url := u; extra := e |}
      | _, _, _, _ => None
      end
  | _ => None
  end.

(** [json.load(f)] on a document of the cache file format. *)
Definition cache_of_json (doc : json) : option ResourceCache :=
  match doc with
  | JObj fields =>
      sequence
        (map (fun kv =>
                match record_of_json (snd kv) with
                | Some r => Some (fst kv, r)
                | None => None
                end)
           (dict_of_pairs fields))
  | _ => None
  end.

(** ** Vocabulary of the specification *)

(** One of the markers occurs in the string. *)
Definition occurs (markers : list string) (s : string) : Prop :=
  exists m, In m markers /\ PyStr.Substring m s.

(** The environment tag as the specification words it: the categories are
    tried in the order PROD, STAGE, DEV, TEST, and the first one with a
    marker in the lower-cased name wins. *)
Inductive EnvTag (n : string) : string -> Prop :=
| TagProd :
    occurs ["prod"; "production"] n -> EnvTag n "🟢 PROD"
| TagStage :
    ~ occurs ["prod"; "production"] n ->
    occurs ["stag"; "staging"; "stage"] n -> EnvTag n "🟡 STAGE"
| TagDev :
    ~ occurs ["prod"; "production"] n ->
    ~ occurs ["stag"; "staging"; "stage"] n ->
    occurs ["dev"; "development"] n -> EnvTag n "🔵 DEV"
| TagTest :
    ~ occurs ["prod"; "production"] n ->
    ~ occurs ["stag"; "staging"; "stage"] n ->
    ~ occurs ["dev"; "development"] n ->
    occurs ["test"; "testing"] n -> EnvTag n "🟣 TEST"
| TagOther :
    ~ occurs ["prod"; "production"] n ->
    ~ occurs ["stag"; "staging"; "stage"] n ->
    ~ occurs ["dev"; "development"] n ->
    ~ occurs ["test"; "testing"] n -> EnvTag n "⚪ OTHER".

(** The service tag of a record as the filters read it. *)
Definition tag_of (r : ResourceRecord) : string :=
  PyStr.lower (Awsf.get_or (service r) EmptyString).

(** The settings in force in a world. *)
Definition enabled_in (w : Awsf.World) : list string :=
  Awsf.enabled_set (Awsf.load_settings w).

(** An event that opens a URL or starts the interactive matcher. *)
Definition launches (e : event) : bool :=
  match e with
  | Open _ | Fzf _ _ _ => true
  | _ => false
  end.

(** A run that opens nothing and starts no matcher. *)
Definition quiet (t : list event) : Prop :=
  forall e, In e t -> launches e = false.

(** The identifier a console URL is built on: the id of a REST API, the
    name of every other resource. *)
Definition identifier_of (name : string) (r : ResourceRecord) : string :=
  match PyDict.get "api_id" (extra r) with
  | Some (VStr api_id) => api_id
  | _ => name
  end.

(** The keys a record of a service carries besides the interpreted ones
    (section 6 of the specification). *)
Definition schema (service_tag : string) : list string :=
  if String.eqb service_tag "lambda"
  then ["arn"; "runtime"; "last_modified"; "region"]
  else if String.eqb service_tag "s3" then ["creation_date"; "region"]
  else if String.eqb service_tag "sqs" then ["queue_url"; "region"]
  else if String.eqb service_tag "kinesis"
  then ["arn"; "status"; "shard_count"; "region"]
  else if String.eqb service_tag "dynamodb"
  then ["arn"; "status"; "item_count"; "region"]
  else if String.eqb service_tag "rds" then ["arn"; "engine"; "status"; "region"]
  else if String.eqb service_tag "apigateway"
  then ["api_id"; "description"; "created_date"; "region"]
  else [].

(** A record as the specification wants the Collector to produce it: a
    service tag and a resource type that are not empty, a console URL in
    which the region and the identifier occur, and every key of the schema
    of its service, whatever the upstream answer lacked. *)
Definition well_formed_record (region name : string) (r : ResourceRecord)
  : Prop :=
  (exists s, service r = Some s /\ s <> EmptyString)
  /\ (exists t, rtype r = Some t /\ t <> EmptyString)
  /\ (exists u, url r = Some u
                /\ PyStr.Substring region u
                /\ PyStr.Substring (identifier_of name r) u)
  /\ PyDict.keys (extra r) = schema (Awsf.get_or (service r) EmptyString).

(** What a record must be like for the cache file to give it back: its
    other keys are distinct, none is an interpreted one, and no value is a
    time stamp. *)
Fixpoint distinct (l : list string) : bool :=
  match l with
  | [] => true
  | x :: l' => negb (set_in x l') && distinct l'
  end.

Definition storable_extra (e : PyDict.dict value) : bool :=
  distinct (PyDict.keys e)
  && forallb (fun kv =>
                negb (interpreted (fst kv))
                && match snd kv with VDatetime _ => false | _ => true end)
       e.

Definition storable (r : ResourceRecord) : bool := storable_extra (extra r).

(** *** Valid answers of the SDK

    A call is answered when it returns or fails with the SDK's
    [ClientError]; an answer is valid when it carries the fields that
    identify its items. *)

Definition present {A} (field : option A) : bool :=
  match field with Some _ => true | None => false end.

Definition answered {A} (r : result A) (valid : A -> bool) : bool :=
  match r with Ok a => valid a | Raise e => is_ClientError e end.

Definition ended_well {A} (pages : Populate.paged A) : bool :=
  match snd pages with None => true | Some e => is_ClientError e end.

Definition valid_lambda (sdk : Populate.Sdk) (region : string) : bool :=
  answered (Populate.client sdk "lambda") (fun _ => true)
  && ended_well (Populate.list_functions sdk region)
  && forallb (fun f => present (Populate.FunctionName f)
                       && present (Populate.FunctionArn f))
       (flat_map (fun page => Populate.get_or (Populate.Functions page) [])
          (fst (Populate.list_functions sdk region))).

Definition valid_s3 (sdk : Populate.Sdk) : bool :=
  answered (Populate.client sdk "s3") (fun _ => true)
  && answered (Populate.list_buckets sdk)
       (fun response =>
          forallb (fun b => present (Populate.Name b))
            (Populate.get_or (Populate.Buckets response) [])).

Definition valid_sqs (sdk : Populate.Sdk) (region : string) : bool :=
  answered (Populate.client sdk "sqs") (fun _ => true)
  && answered (Populate.list_queues sdk region) (fun _ => true).

Definition valid_kinesis (sdk : Populate.Sdk) (region : string) : bool :=
  answered (Populate.client sdk "kinesis") (fun _ => true)
  && ended_well (Populate.list_streams sdk region)
  && forallb (fun stream_name =>
                answered (Populate.describe_stream sdk region stream_name)
                  (fun d => present (Populate.StreamDescription d)))
       (flat_map (fun page => Populate.get_or (Populate.StreamNames page) [])
          (fst (Populate.list_streams sdk region))).

Definition valid_dynamodb (sdk : Populate.Sdk) (region : string) : bool :=
  answered (Populate.client sdk "dynamodb") (fun _ => true)
  && ended_well (Populate.list_tables sdk region)
  && forallb (fun table_name =>
                answered (Populate.describe_table sdk region table_name)
                  (fun d => present (Populate.Table d)))
       (flat_map (fun page => Populate.get_or (Populate.TableNames page) [])
          (fst (Populate.list_tables sdk region))).

Definition valid_rds (sdk : Populate.Sdk) (region : string) : bool :=
  answered (Populate.client sdk "rds") (fun _ => true)
  && ended_well (Populate.describe_db_instances sdk region)
  && forallb (fun i => present (Populate.DBInstanceIdentifier i))
       (flat_map (fun page => Populate.get_or (Populate.DBInstances page) [])
          (fst (Populate.describe_db_instances sdk region)))
  && ended_well (Populate.describe_db_clusters sdk region)
  && forallb (fun c => present (Populate.DBClusterIdentifier c))
       (flat_map (fun page => Populate.get_or (Populate.DBClusters page) [])
          (fst (Populate.describe_db_clusters sdk region))).

Definition valid_apigateway (sdk : Populate.Sdk) (region : string) : bool :=
  answered (Populate.client sdk "apigateway") (fun _ => true)
  && answered (Populate.get_rest_apis sdk region)
       (fun response =>
          forallb (fun a => present (Populate.api_name a)
                            && present (Populate.id a))
            (Populate.get_or (Populate.items response) [])).

Definition valid_responses (sdk : Populate.Sdk) (region : string) : bool :=
  valid_lambda sdk region && valid_s3 sdk && valid_sqs sdk region
  && valid_kinesis sdk region && valid_dynamodb sdk region
  && valid_rds sdk region && valid_apigateway sdk region.

(** A string in which a character does not occur. *)
Fixpoint free_of (c : ascii) (s : string) : Prop :=
  match s with
  | EmptyString => True
  | String d s' => d <> c /\ free_of c s'
  end.

(** The invariant of the dictionaries the Collector builds in a region:
    keys held once, records well formed and storable. *)
Definition sound (region : string) (d : ResourceCache) : Prop :=
  PyDict.wf d
  /\ forall name r,
       In (name, r) d -> well_formed_record region name r /\ storable r = true.

(** The fetchers in the order [main] runs them, by service tag. *)
Definition fetch_table
  : PyDict.dict (Populate.Sdk -> string -> prog ResourceCache) :=
  [ ("lambda", Populate.fetch_lambda_functions);
    ("s3", Populate.fetch_s3_buckets);
    ("sqs", Populate.fetch_sqs_queues);
    ("kinesis", Populate.fetch_kinesis_streams);
    ("dynamodb", Populate.fetch_dynamodb_tables);
    ("rds", Populate.fetch_rds_resources);
    ("apigateway", Populate.fetch_api_gateway_apis) ].

(** [all_resources] after the dictionaries [ds] have been merged into it,
    one [update] after the other. *)
Definition merge (ds : list ResourceCache) : ResourceCache :=
  fold_left (fun all d => PyDict.update all d) ds PyDict.empty.

(** The record of the latest of the dictionaries [ds] that has [name]. *)
Fixpoint latest (name : string) (ds : list ResourceCache)
  : option ResourceRecord :=
  match ds with
  | [] => None
  | d :: ds' =>
      match latest name ds' with
      | Some r => Some r
      | None => PyDict.get name d
      end
  end.

(** *** Failures of a collection run *)

(** The region a run works in; [None] when the run only prints the help. *)
Definition region_of (sdk : Populate.Sdk) (argv : list string) : option string :=
  match Populate.parse_args argv argv 1 None None with
  | None => None
  | Some (region, _) =>
      Some (if Populate.opt_truthy region
            then Populate.get_or region EmptyString
            else Populate.get_or
                   (Populate.aws_region (Populate.load_config sdk)) "us-east-1")
  end.

(** An exception that ends a Python program with status 1 when nobody
    catches it. *)
Definition fatal (e : exn) : Prop := e <> KeyboardInterrupt.

(** The credentials resolve: a session can be created and the caller's
    identity is known. *)
Definition credentials_resolve (sdk : Populate.Sdk) : Prop :=
  (forall profile, exists session, Populate.new_session sdk profile = Ok session)
  /\ (exists c, Populate.client sdk "sts" = Ok c)
  /\ exists identity, Populate.get_caller_identity sdk = Ok identity.

(** The credentials do not resolve, with the exception [e]. *)
Definition credentials_fail (sdk : Populate.Sdk) (e : exn) : Prop :=
  (forall profile, Populate.new_session sdk profile = Raise e)
  \/ ((forall profile,
         exists session, Populate.new_session sdk profile = Ok session)
      /\ (Populate.client sdk "sts" = Raise e
          \/ ((exists c, Populate.client sdk "sts" = Ok c)
              /\ Populate.get_caller_identity sdk = Raise e))).

(** The cache cannot be written, with the exception [e]. *)
Definition write_fails (sdk : Populate.Sdk) (e : exn) : Prop :=
  Populate.makedirs sdk = Raise e
  \/ ((exists u, Populate.makedirs sdk = Ok u)
      /\ forall path doc, Populate.write_file sdk path doc = Raise e).

Definition write_succeeds (sdk : Populate.Sdk) : Prop :=
  (exists u, Populate.makedirs sdk = Ok u)
  /\ forall path doc, exists u, Populate.write_file sdk path doc = Ok u.

Definition failed_call {A} (r : result A) : bool :=
  match r with Raise e => is_ClientError e | Ok _ => false end.

Definition failed_pages {A} (pages : Populate.paged A) : bool :=
  match snd pages with Some e => is_ClientError e | None => false end.

(** An enumeration call of the service fails with the SDK's error. *)
Definition enumeration_failed (sdk : Populate.Sdk) (region tag : string) : bool :=
  if String.eqb tag "lambda" then failed_pages (Populate.list_functions sdk region)
  else if String.eqb tag "s3" then failed_call (Populate.list_buckets sdk)
  else if String.eqb tag "sqs" then failed_call (Populate.list_queues sdk region)
  else if String.eqb tag "kinesis"
  then failed_pages (Populate.list_streams sdk region)
  else if String.eqb tag "dynamodb"
  then failed_pages (Populate.list_tables sdk region)
  else if String.eqb tag "rds"
  then failed_pages (Populate.describe_db_instances sdk region)
       || failed_pages (Populate.describe_db_clusters sdk region)
  else if String.eqb tag "apigateway"
  then failed_call (Populate.get_rest_apis sdk region)
  else false.

(** The sentence of the specification on a failing service, for a run in a
    region: the service whose enumeration fails contributes no record. *)
Definition failure_means_no_record (sdk : Populate.Sdk) (region : string)
  : Prop :=
  forall tag fetch,
    PyDict.get tag fetch_table = Some fetch ->
    enumeration_failed sdk region tag = true ->
    outcome (fetch sdk region) = Ok PyDict.empty.

(** What [main] announces, one line before each service. *)
Definition announcements : list string :=
  [ "🔍 Fetching Lambda functions...";
    "🔍 Fetching S3 buckets...";
    "🔍 Fetching SQS queues...";
    "🔍 Fetching Kinesis streams...";
    "🔍 Fetching DynamoDB tables...";
    "🔍 Fetching RDS instances and clusters...";
    "🔍 Fetching API Gateway APIs..." ].

(** ** Worlds used as examples *)

Definition lambda_record (u : string) : ResourceRecord :=
  {| service := Some "lambda"; rtype := Some "function"; url := Some u;
     extra := [] |}.

(** The cache of the scenarios of the specification. *)
Definition orders_cache : ResourceCache :=
  [ ("orders-prod", lambda_record "https://x/orders-prod");
    ("orders-dev", lambda_record "https://x/orders-dev") ].

(** A cache whose only record has an empty [url]. *)
Definition no_url_cache : ResourceCache :=
  [ ("orders-prod",
     {| service := Some "lambda"; rtype := Some "function";
        url := Some EmptyString; extra := [] |}) ].

(** A world around a cache and a list of enabled services; the matcher is
    installed and the user leaves it without choosing. *)
Definition world_of (cache : ResourceCache) (enabled : list string)
  : Awsf.World :=
  {| Awsf.RESOURCES_FILE := "/opt/awsf/data/aws_resources.json";
     Awsf.resources_file := Awsf.Holds cache;
     Awsf.settings_file := Some {| Awsf.enabled_services := Some enabled |};
     Awsf.fzf_installed := true;
     Awsf.fzf := fun _ _ _ => Awsf.Exited 1 EmptyString;
     Awsf.typed := None |}.

(** ** Accounts used as examples *)

(** An account with one resource or two per service, whose answers carry
    the identifying fields and nothing else.  The stream "audit" cannot be
    described.  The function, when it has the name "orders-prod", shares it
    with the REST API. *)
Definition example_sdk (function_name : option string)
  (instances : Populate.paged Populate.DBInstancesPage)
  (clusters : Populate.paged Populate.DBClustersPage)
  (identity : result Populate.Identity) (written : result unit)
  : Populate.Sdk :=
  {| Populate.DATA_DIR := "/opt/awsf/data";
     Populate.config_file := None;
     Populate.has_access_key_id := false;
     Populate.new_session := fun _ => Ok tt;
     Populate.client := fun _ => Ok tt;
     Populate.get_caller_identity := identity;
     Populate.list_functions := fun _ =>
       ([ {| Populate.Functions :=
               Some [ {| Populate.FunctionName := function_name;
                         Populate.FunctionArn :=
                           Some "arn:aws:lambda:us-east-1:123:function:orders-prod";
                         Populate.Runtime := None;
                         Populate.LastModified := None |} ] |} ], None);
     Populate.list_buckets :=
       Ok {| Populate.Buckets :=
               Some [ {| Populate.Name := Some "media";
                         Populate.CreationDate := None |} ] |};
     Populate.list_queues := fun _ =>
       Ok {| Populate.QueueUrls :=
               Some ["https://sqs.us-east-1.amazonaws.com/123/jobs"] |};
     Populate.list_streams := fun _ =>
       ([ {| Populate.StreamNames := Some ["events"; "audit"] |} ], None);
     Populate.describe_stream := fun _ stream_name =>
       if String.eqb stream_name "audit" then Raise (ClientError "AccessDenied")
       else Ok {| Populate.StreamDescription :=
                    Some {| Populate.StreamARN := None;
                            Populate.StreamStatus := None;
                            Populate.Shards := None |} |};
     Populate.list_tables := fun _ =>
       ([ {| Populate.TableNames := Some ["users"] |} ], None);
     Populate.describe_table := fun _ _ =>
       Ok {| Populate.Table :=
               Some {| Populate.TableArn := None;
                       Populate.TableStatus := None;
                       Populate.ItemCount := None |} |};
     Populate.describe_db_instances := fun _ => instances;
     Populate.describe_db_clusters := fun _ => clusters;
     Populate.get_rest_apis := fun _ =>
       Ok {| Populate.items :=
               Some [ {| Populate.api_name := Some "orders-prod";
                         Populate.id := Some "a1b2c3";
                         Populate.description := None;
                         Populate.createdDate := None |} ] |};
     Populate.makedirs := Ok tt;
     Populate.write_file := fun _ _ => written |}.

Definition instances_page : Populate.DBInstancesPage :=
  {| Populate.DBInstances :=
       Some [ {| Populate.DBInstanceIdentifier := Some "orders-db";
                 Populate.DBInstanceArn := None;
                 Populate.InstanceEngine := None;
                 Populate.DBInstanceStatus := None |} ] |}.

Definition clusters_page : Populate.DBClustersPage :=
  {| Populate.DBClusters :=
       Some [ {| Populate.DBClusterIdentifier := Some "orders-cluster";
                 Populate.DBClusterArn := None;
                 Populate.ClusterEngine := None;
                 Populate.Status := None |} ] |}.

Definition caller : Populate.Identity :=
  {| Populate.Account := Some "123";
     Populate.Arn := Some "arn:aws:iam::123:user/dev" |}.

(** Every call answers. *)
Definition bare_sdk : Populate.Sdk :=
  example_sdk (Some "orders-prod") ([instances_page], None)
    ([clusters_page], None) (Ok caller) (Ok tt).

(** The function is listed without its name. *)
Definition nameless_sdk : Populate.Sdk :=
  example_sdk None ([instances_page], None) ([clusters_page], None)
    (Ok caller) (Ok tt).

(** The listing of the RDS instances fails; the clusters are listed. *)
Definition rds_partial_sdk : Populate.Sdk :=
  example_sdk (Some "orders-prod") ([], Some (ClientError "Throttling"))
    ([clusters_page], None) (Ok caller) (Ok tt).

(** ** The settings and the configuration: the menus of [src/awsf.py]

    The routines that read the keyboard and rewrite the two files of the
    [config] directory.  The lines typed are a list, consumed one by each
    [input()]; when none is left, [input()] raises [EOFError].  The two
    files are a state, threaded through the routines: a file holds an
    object, or, absent or not JSON, nothing.  Of the settings object the
    key [enabled_services], a list of strings when present, is kept apart
    from the other keys; the values of the configuration object are
    strings or [null].  A file that is there can be read; a file that
    cannot be written fails at [open] with an [OSError]; the directory can
    be created.  [int] is the conversion of the language, [None] standing
    for its [ValueError]. *)

Module Menus.

Record SettingsDoc : Type := {
  enabled_services : option (list string);
  other_settings : PyDict.dict json
}.

Definition ConfigDoc : Type := PyDict.dict (option string).

Record Files : Type := {
  settings_file : option SettingsDoc;
  config_file : option ConfigDoc
}.

(** What does not change during a run: whether each file can be written
    (the message of the [OSError] when it cannot) and the world of the
    cache. *)
Record Desk : Type := {
  settings_error : option string;
  config_error : option string;
  cache : Awsf.World
}.

Definition EOFError : exn := OtherError "EOF when reading a line".

(** A routine: from the files and the lines still to be read to what the
    run shows, how it ends, the files it leaves and the lines it has not
    read. *)
Definition menu (A : Type) : Type :=
  Files -> list string -> prog A * Files * list string.

Definition mret {A} (a : A) : menu A := fun files keyboard =>
  (ret a, files, keyboard).

Definition mbind {A B} (m : menu A) (k : A -> menu B) : menu B :=
  fun files keyboard =>
    match m files keyboard with
    | ((t, Ok a), files', keyboard') =>
        match k a files' keyboard' with
        | ((t', r), files'', keyboard'') =>
            (((t ++ t')%list, r), files'', keyboard'')
        end
    | ((t, Raise e), files', keyboard') => ((t, Raise e), files', keyboard')
    end.

(** A step that neither reads the keyboard nor touches the files. *)
Definition run {A} (p : prog A) : menu A := fun files keyboard =>
  (p, files, keyboard).

Definition say (text : string) : menu unit := run (print text).

(** [input(prompt)] *)
Definition input (prompt : string) : menu string := fun files keyboard =>
  match keyboard with
  | line :: keyboard' => (([Input prompt], Ok line), files, keyboard')
  | [] => (([Input prompt], Raise EOFError), files, [])
  end.

Declare Scope menu_scope.
Delimit Scope menu_scope with menu.
Notation "x <- m ;; k" := (mbind m (fun x => k))
  (at level 61, m at next level, right associativity) : menu_scope.
Notation "m ;; k" := (mbind m (fun _ => k))
  (at level 61, right associativity) : menu_scope.

(** *** Python sets of strings, as lists without repetition *)

(** [s.remove(x)] for an [x] in [s], [s.add(x)] and [s.update(xs)] *)
Definition set_remove (x : string) (s : list string) : list string :=
  filter (fun y => negb (String.eqb x y)) s.

Definition set_add (x : string) (s : list string) : list string :=
  if set_in x s then s else (s ++ [x])%list.

Definition set_update (s xs : list string) : list string :=
  fold_left (fun acc x => set_add x acc) xs s.

(** [bool(s)] *)
Definition set_truthy (s : list string) : bool :=
  match s with [] => false | _ => true end.

Section Routines.

Variable desk : Desk.

(** [save_settings(settings)] *)
Definition save_settings (settings : SettingsDoc) : menu unit :=
  fun files keyboard =>
    match settings_error desk with
    | None =>
        (ret tt,
         {| settings_file := Some settings; config_file := config_file files |},
         keyboard)
    | Some msg =>
        (print ("❌ Error saving settings: " ++ msg), files, keyboard)
    end.

(** [load_settings()] *)
Definition load_settings : menu SettingsDoc := fun files keyboard =>
  let default_settings :=
    {| enabled_services := Some (PyDict.keys Awsf.SERVICE_CONFIG);
       other_settings := [] |} in
  match settings_file files with
  | Some settings =>
      match enabled_services settings with
      | None =>
          mret {| enabled_services := Some (PyDict.keys Awsf.SERVICE_CONFIG);
                  other_settings := other_settings settings |}
            files keyboard
      | Some _ => mret settings files keyboard
      end
  | None =>
      (save_settings default_settings ;; mret default_settings)%menu
        files keyboard
  end.

(** [save_config(config)] *)
Definition save_config (config : ConfigDoc) : menu unit :=
  fun files keyboard =>
    match config_error desk with
    | None =>
        (ret tt,
         {| settings_file := settings_file files; config_file := Some config |},
         keyboard)
    | Some msg => (print ("❌ Error saving config: " ++ msg), files, keyboard)
    end.

Definition default_config : ConfigDoc :=
  [ ("aws_region", Some "us-east-1");
    ("aws_profile", None);
    ("console_base_url", Some "https://console.aws.amazon.com") ].

(** [load_config()] *)
Definition load_config : menu ConfigDoc := fun files keyboard =>
  match config_file files with
  | Some config =>
      mret
        (fold_left
           (fun config kv =>
              if PyDict.mem (fst kv) config then config
              else PyDict.set (fst kv) (snd kv) config)
           (PyDict.items default_config) config)
        files keyboard
  | None =>
      (save_config default_config ;; mret default_config)%menu files keyboard
  end.

(** [f"{config.get(key, default)}"]: [None] is shown by its name. *)
Definition shown (config : ConfigDoc) (key default : string) : string :=
  match PyDict.get key config with
  | Some (Some s) => s
  | Some None => "None"
  | None => default
  end.

(** [enumerate(l, 1)] *)
Definition enumerate {A} (l : list A) : list (nat * A) :=
  combine (seq 1 (List.length l)) l.

Definition status (service : string) (enabled : list string) : string :=
  if set_in service enabled then "✅" else "❌".

(** What each turn of [show_service_toggle_menu] prints before it asks. *)
Definition toggle_screen (enabled : list string) : list event :=
  ([ Print (nl ++ "🎛️  Service Toggle Menu"); Print (repeat_str "=" 30) ]
   ++ map (fun item =>
             Print ("  " ++ PyStr.of_nat (fst item) ++ ". "
                    ++ status (fst (snd item)) enabled ++ " "
                    ++ Awsf.icon (snd (snd item)) ++ " "
                    ++ Awsf.name (snd (snd item))))
        (enumerate (PyDict.items Awsf.SERVICE_CONFIG))
   ++ [ Print ("  " ++ PyStr.of_nat (List.length Awsf.SERVICE_CONFIG + 1)
               ++ ". 🔄 Toggle all");
        Print ("  " ++ PyStr.of_nat (List.length Awsf.SERVICE_CONFIG + 2)
               ++ ". 💾 Save & back");
        Print EmptyString ])%list.

Definition toggle_prompt : string :=
  "🔧 Select service to toggle (1-"
    ++ PyStr.of_nat (List.length Awsf.SERVICE_CONFIG + 2) ++ "): ".

Variable int : string -> option Z.

(** The [try] block of a turn, on the line read: [Some] set to go on
    with, [None] once the settings have been saved. *)
Definition toggle_turn (choice : string) (enabled : list string)
  : menu (option (list string)) :=
  match int choice with
  | None => (say "❌ Please enter a valid number." ;; mret (Some enabled))%menu
  | Some choice_num =>
      let count := Z.of_nat (List.length Awsf.SERVICE_CONFIG) in
      if ((1 <=? choice_num) && (choice_num <=? count))%Z then
        match nth_error (PyDict.keys Awsf.SERVICE_CONFIG)
                (Z.to_nat (choice_num - 1)) with
        | None => run (raise (OtherError "list index out of range"))
        | Some service =>
            if set_in service enabled then
              (c <- run (Awsf.service_config service) ;;
               say ("❌ Disabled " ++ Awsf.name c) ;;
               mret (Some (set_remove service enabled)))%menu
            else
              (c <- run (Awsf.service_config service) ;;
               say ("✅ Enabled " ++ Awsf.name c) ;;
               mret (Some (set_add service enabled)))%menu
        end
      else if (choice_num =? count + 1)%Z then
        if (List.length enabled =? List.length Awsf.SERVICE_CONFIG)%nat then
          (say "❌ Disabled all services" ;; mret (Some []))%menu
        else
          (say "✅ Enabled all services" ;;
           mret (Some (set_update enabled (PyDict.keys Awsf.SERVICE_CONFIG))))%menu
      else if (choice_num =? count + 2)%Z then
        (enabled <-
           (if negb (set_truthy enabled) then
              say "⚠️  Warning: No services enabled! Enabling all services." ;;
              mret (set_update enabled (PyDict.keys Awsf.SERVICE_CONFIG))
            else mret enabled) ;;
         settings <- load_settings ;;
         save_settings {| enabled_services := Some enabled;
                          other_settings := other_settings settings |} ;;
         say "💾 Settings saved!" ;;
         mret None)%menu
      else (say "❌ Invalid option." ;; mret (Some enabled))%menu
  end.

(** [show_service_toggle_menu(enabled_services)]: a turn for each line
    read, until the settings are saved. *)
Fixpoint show_service_toggle_menu (enabled : list string) (files : Files)
  (keyboard : list string) : prog unit * Files * list string :=
  match keyboard with
  | [] =>
      (((toggle_screen enabled ++ [Input toggle_prompt])%list, Raise EOFError),
       files, [])
  | line :: keyboard' =>
      match toggle_turn (PyStr.strip line) enabled files keyboard' with
      | ((t, Ok (Some enabled')), files', _) =>
          match show_service_toggle_menu enabled' files' keyboard' with
          | ((t', r), files'', keyboard'') =>
              (((toggle_screen enabled ++ Input toggle_prompt :: t ++ t')%list,
                r),
               files'', keyboard'')
          end
      | ((t, Ok None), files', _) =>
          (((toggle_screen enabled ++ Input toggle_prompt :: t)%list, Ok tt),
           files', keyboard')
      | ((t, Raise e), files', _) =>
          (((toggle_screen enabled ++ Input toggle_prompt :: t)%list, Raise e),
           files', keyboard')
      end
  end.

(** [show_current_settings(enabled_services)] *)
Definition show_current_settings (enabled : list string) : menu unit :=
  (config <- load_config ;;
   say (nl ++ "📊 Current Settings:") ;;
   say (repeat_str "=" 30) ;;
   say "🎛️  Enabled Services:" ;;
   run (for_each (PyDict.items Awsf.SERVICE_CONFIG)
          (fun item =>
             print ("   " ++ status (fst item) enabled ++ " "
                    ++ Awsf.icon (snd item) ++ " " ++ Awsf.name (snd item)))) ;;
   say (nl ++ "⚙️  Configuration:") ;;
   say ("   🌍 AWS Region: " ++ shown config "aws_region" "us-east-1") ;;
   say ("   👤 AWS Profile: " ++ shown config "aws_profile" "default") ;;
   say ("   🔗 Console URL: "
        ++ shown config "console_base_url" "https://console.aws.amazon.com") ;;
   resources <- run (Awsf.load_aws_resources (cache desk)) ;;
   (if PyDict.truthy resources then
      let enabled_count :=
        List.length
          (filter
             (fun r =>
                set_in (PyStr.lower (Awsf.get_or (service r) EmptyString))
                  enabled)
             (PyDict.values resources)) in
      let total_count := List.length resources in
      say (nl ++ "📈 Resources: " ++ PyStr.of_nat enabled_count ++ "/"
           ++ PyStr.of_nat total_count ++ " available")
    else mret tt) ;;
   input (nl ++ "Press Enter to continue...") ;;
   mret tt)%menu.

(** [edit_configuration()] *)
Definition edit_configuration : menu unit :=
  (config <- load_config ;;
   say (nl ++ "⚙️  Configuration Editor") ;;
   say (repeat_str "=" 30) ;;
   say ("Current AWS Region: " ++ shown config "aws_region" "us-east-1") ;;
   line <- input "Enter new AWS region (or press Enter to keep current): " ;;
   let new_region := PyStr.strip line in
   let config :=
     if PyStr.truthy new_region
     then PyDict.set "aws_region" (Some new_region) config
     else config in
   say ("Current AWS Profile: " ++ shown config "aws_profile" "None") ;;
   line <- input "Enter AWS profile (or press Enter for none): " ;;
   let new_profile := PyStr.strip line in
   let config :=
     if PyStr.truthy new_profile
     then PyDict.set "aws_profile" (Some new_profile) config
     else if String.eqb new_profile EmptyString
     then PyDict.set "aws_profile" None config
     else config in
   save_config config ;;
   say "✅ Configuration saved!" ;;
   input (nl ++ "Press Enter to continue...") ;;
   mret tt)%menu.

End Routines.

End Menus.

(** The query side on the files the menus leave: the world [w] with the
    settings file of [files]. *)
Definition world_with (w : Awsf.World) (files : Menus.Files) : Awsf.World :=
  {| Awsf.RESOURCES_FILE := Awsf.RESOURCES_FILE w;
     Awsf.resources_file := Awsf.resources_file w;
     Awsf.settings_file :=
       match Menus.settings_file files with
       | Some s =>
           Some {| Awsf.enabled_services := Menus.enabled_services s |}
       | None => None
       end;
     Awsf.fzf_installed := Awsf.fzf_installed w;
     Awsf.fzf := Awsf.fzf w;
     Awsf.typed := Awsf.typed w |}.

(** ** Vocabulary of the further properties *)

(** A string that is not empty and has no white space at either end:
    [s and s.strip() == s]. *)
Definition trimmed (s : string) : bool :=
  PyStr.truthy s && String.eqb (PyStr.strip s) s.

(** Every character of the string is white space. *)
Fixpoint blank (s : string) : bool :=
  match s with
  | EmptyString => true
  | String c s' => PyStr.is_space c && blank s'
  end.

(** The value the command line of the Collector gives to a flag: the
    argument that follows the last occurrence of the flag that has an
    argument after it. *)
Fixpoint flag_value (flags : list string) (argv : list string)
  : option string :=
  match argv with
  | arg :: argv' =>
      match flag_value flags argv' with
      | Some v => Some v
      | None =>
          match argv' with
          | v :: _ => if existsb (String.eqb arg) flags then Some v else None
          | [] => None
          end
      end
  | [] => None
  end.

(** The help flag is among the arguments of the Collector. *)
Definition asks_help (argv : list string) : bool :=
  existsb (fun arg => existsb (String.eqb arg) ["--help"; "-h"]) argv.

(** The names under which the items of an answer are stored: an item
    without the identifying field has none. *)
Definition names_of {A} (name : A -> option string) (l : list A)
  : list string :=
  flat_map (fun x => match name x with Some n => [n] | None => [] end) l.

Definition returned {A} (r : result A) : bool :=
  match r with Ok _ => true | Raise _ => false end.

(** The resources the seven services list in a region, by the name the
    Collector stores them under; a stream or a table is among them when it
    can be described. *)
Definition listed_names (sdk : Populate.Sdk) (region : string) : list string :=
  (names_of Populate.FunctionName
     (flat_map (fun page => Populate.get_or (Populate.Functions page) [])
        (fst (Populate.list_functions sdk region)))
   ++ match Populate.list_buckets sdk with
      | Ok response =>
          names_of Populate.Name
            (Populate.get_or (Populate.Buckets response) [])
      | Raise _ => []
      end
   ++ match Populate.list_queues sdk region with
      | Ok response =>
          map Populate.last_segment
            (Populate.get_or (Populate.QueueUrls response) [])
      | Raise _ => []
      end
   ++ filter (fun n => returned (Populate.describe_stream sdk region n))
        (flat_map (fun page => Populate.get_or (Populate.StreamNames page) [])
           (fst (Populate.list_streams sdk region)))
   ++ filter (fun n => returned (Populate.describe_table sdk region n))
        (flat_map (fun page => Populate.get_or (Populate.TableNames page) [])
           (fst (Populate.list_tables sdk region)))
   ++ names_of Populate.DBInstanceIdentifier
        (flat_map (fun page => Populate.get_or (Populate.DBInstances page) [])
           (fst (Populate.describe_db_instances sdk region)))
   ++ names_of Populate.DBClusterIdentifier
        (flat_map (fun page => Populate.get_or (Populate.DBClusters page) [])
           (fst (Populate.describe_db_clusters sdk region)))
   ++ match Populate.get_rest_apis sdk region with
      | Ok response =>
          names_of Populate.api_name
            (Populate.get_or (Populate.items response) [])
      | Raise _ => []
      end)%list.

(** Every client can be created and no enumeration call fails. *)
Definition every_call_answers (sdk : Populate.Sdk) (region : string) : Prop :=
  (forall service_name, exists c, Populate.client sdk service_name = Ok c)
  /\ forall tag,
       In tag (PyDict.keys fetch_table) ->
       enumeration_failed sdk region tag = false.

(** A run that only prints, and prints none of the lines that announce
    the fetch of a service. *)
Definition announces_no_fetch (t : list event) : Prop :=
  forall ev,
    In ev t -> exists text, ev = Print text /\ ~ In text announcements.

(** Every listing of the seven services is refused with the SDK's error
    before it gives an item, and a client that cannot be created fails
    with that error too. *)
Definition every_listing_denied (sdk : Populate.Sdk) (region : string) : Prop :=
  (forall service_name,
     answered (Populate.client sdk service_name) (fun _ => true) = true)
  /\ (exists m, Populate.list_functions sdk region = ([], Some (ClientError m)))
  /\ (exists m, Populate.list_buckets sdk = Raise (ClientError m))
  /\ (exists m, Populate.list_queues sdk region = Raise (ClientError m))
  /\ (exists m, Populate.list_streams sdk region = ([], Some (ClientError m)))
  /\ (exists m, Populate.list_tables sdk region = ([], Some (ClientError m)))
  /\ (exists m,
        Populate.describe_db_instances sdk region = ([], Some (ClientError m)))
  /\ (exists m,
        Populate.describe_db_clusters sdk region = ([], Some (ClientError m)))
  /\ (exists m, Populate.get_rest_apis sdk region = Raise (ClientError m)).

(** ** A desk used as an example *)

(** [int] on the strings of decimal digits. *)
Fixpoint digits (s : string) (acc : Z) : option Z :=
  match s with
  | EmptyString => Some acc
  | String c s' =>
      let n := nat_of_ascii c in
      if ((48 <=? n) && (n <=? 57))%nat
      then digits s' (10 * acc + Z.of_nat (n - 48))%Z
      else None
  end.

Definition int_of_digits (s : string) : option Z :=
  match s with EmptyString => None | _ => digits s 0%Z end.

(** Both files can be written; the cache is the one of the scenarios. *)
Definition example_desk : Menus.Desk :=
  {| Menus.settings_error := None;
     Menus.config_error := None;
     Menus.cache := world_of orders_cache ["lambda"; "s3"] |}.

Definition no_files : Menus.Files :=
  {| Menus.settings_file := None; Menus.config_file := None |}.

(** An account whose user may list nothing. *)
Definition denied_sdk : Populate.Sdk :=
  {| Populate.DATA_DIR := "/opt/awsf/data";
     Populate.config_file := None;
     Populate.has_access_key_id := false;
     Populate.new_session := fun _ => Ok tt;
     Populate.client := fun _ => Ok tt;
     Populate.get_caller_identity := Ok caller;
     Populate.list_functions := fun _ => ([], Some (ClientError "AccessDenied"));
     Populate.list_buckets := Raise (ClientError "AccessDenied");
     Populate.list_queues := fun _ => Raise (ClientError "AccessDenied");
     Populate.list_streams := fun _ => ([], Some (ClientError "AccessDenied"));
     Populate.describe_stream := fun _ _ => Raise (ClientError "AccessDenied");
     Populate.list_tables := fun _ => ([], Some (ClientError "AccessDenied"));
     Populate.describe_table := fun _ _ => Raise (ClientError "AccessDenied");
     Populate.describe_db_instances := fun _ =>
       ([], Some (ClientError "AccessDenied"));
     Populate.describe_db_clusters := fun _ =>
       ([], Some (ClientError "AccessDenied"));
     Populate.get_rest_apis := fun _ => Raise (ClientError "AccessDenied");
     Populate.makedirs := Ok tt;
     Populate.write_file := fun _ _ => Ok tt |}.

(** ** Fields that degrade

    What the Collector keeps of an item of an answer.  A field the script
    reads with a default is stored as the upstream value, or as the
    placeholder when the answer lacks it: "unknown" for a runtime, a status
    and an engine, the empty string for an ARN, a date and a description,
    zero for the two counts.  The fields the script subscripts have no
    placeholder. *)

(** The stored form of a field read with a default. *)
Definition or_placeholder {A} (upstream : option A) (placeholder : A) : A :=
  match upstream with Some v => v | None => placeholder end.

(** The record under [name] is the one kept for an item that a service of
    the account lists in the region. *)
Inductive collected (sdk : Populate.Sdk) (region name : string)
  : ResourceRecord -> Prop :=
| collected_function func arn console_url :
    In func
      (flat_map (fun page => Populate.get_or (Populate.Functions page) [])
         (fst (Populate.list_functions sdk region))) ->
    Populate.FunctionName func = Some name ->
    Populate.FunctionArn func = Some arn ->
    collected sdk region name
      {| service := Some "lambda"; rtype := Some "function";
         url := Some console_url;
         extra :=
           [ ("arn", VStr arn);
             ("runtime",
               VStr (or_placeholder (Populate.Runtime func) "unknown"));
             ("last_modified",
               VStr (or_placeholder (Populate.LastModified func) EmptyString));
             ("region", VStr region) ] |}
| collected_bucket response bucket console_url :
    Populate.list_buckets sdk = Ok response ->
    In bucket (Populate.get_or (Populate.Buckets response) []) ->
    Populate.Name bucket = Some name ->
    collected sdk region name
      {| service := Some "s3"; rtype := Some "bucket";
         url := Some console_url;
         extra :=
           [ ("creation_date",
               VStr (or_placeholder
                       (option_map isoformat (Populate.CreationDate bucket))
                       EmptyString));
             ("region", VStr region) ] |}
| collected_queue response queue_url console_url :
    Populate.list_queues sdk region = Ok response ->
    In queue_url (Populate.get_or (Populate.QueueUrls response) []) ->
    Populate.last_segment queue_url = name ->
    collected sdk region name
      {| service := Some "sqs"; rtype := Some "queue";
         url := Some console_url;
         extra := [ ("queue_url", VStr queue_url); ("region", VStr region) ] |}
| collected_stream details info console_url :
    In name
      (flat_map (fun page => Populate.get_or (Populate.StreamNames page) [])
         (fst (Populate.list_streams sdk region))) ->
    Populate.describe_stream sdk region name = Ok details ->
    Populate.StreamDescription details = Some info ->
    collected sdk region name
      {| service := Some "kinesis"; rtype := Some "stream";
         url := Some console_url;
         extra :=
           [ ("arn",
               VStr (or_placeholder (Populate.StreamARN info) EmptyString));
             ("status",
               VStr (or_placeholder (Populate.StreamStatus info) "unknown"));
             ("shard_count",
               VInt (Z.of_nat
                       (List.length
                          (or_placeholder (Populate.Shards info) []))));
             ("region", VStr region) ] |}
| collected_table details info console_url :
    In name
      (flat_map (fun page => Populate.get_or (Populate.TableNames page) [])
         (fst (Populate.list_tables sdk region))) ->
    Populate.describe_table sdk region name = Ok details ->
    Populate.Table details = Some info ->
    collected sdk region name
      {| service := Some "dynamodb"; rtype := Some "table";
         url := Some console_url;
         extra :=
           [ ("arn",
               VStr (or_placeholder (Populate.TableArn info) EmptyString));
             ("status",
               VStr (or_placeholder (Populate.TableStatus info) "unknown"));
             ("item_count",
               VInt (or_placeholder (Populate.ItemCount info) 0%Z));
             ("region", VStr region) ] |}
| collected_instance instance console_url :
    In instance
      (flat_map (fun page => Populate.get_or (Populate.DBInstances page) [])
         (fst (Populate.describe_db_instances sdk region))) ->
    Populate.DBInstanceIdentifier instance = Some name ->
    collected sdk region name
      {| service := Some "rds"; rtype := Some "instance";
         url := Some console_url;
         extra :=
           [ ("arn",
               VStr (or_placeholder (Populate.DBInstanceArn instance)
                       EmptyString));
             ("engine",
               VStr (or_placeholder (Populate.InstanceEngine instance)
                       "unknown"));
             ("status",
               VStr (or_placeholder (Populate.DBInstanceStatus instance)
                       "unknown"));
             ("region", VStr region) ] |}
| collected_cluster cluster console_url :
    In cluster
      (flat_map (fun page => Populate.get_or (Populate.DBClusters page) [])
         (fst (Populate.describe_db_clusters sdk region))) ->
    Populate.DBClusterIdentifier cluster = Some name ->
    collected sdk region name
      {| service := Some "rds"; rtype := Some "cluster";
         url := Some console_url;
         extra :=
           [ ("arn",
               VStr (or_placeholder (Populate.DBClusterArn cluster)
                       EmptyString));
             ("engine",
               VStr (or_placeholder (Populate.ClusterEngine cluster)
                       "unknown"));
             ("status",
               VStr (or_placeholder (Populate.Status cluster) "unknown"));
             ("region", VStr region) ] |}
| collected_api response api api_id console_url :
    Populate.get_rest_apis sdk region = Ok response ->
    In api (Populate.get_or (Populate.items response) []) ->
    Populate.api_name api = Some name ->
    Populate.id api = Some api_id ->
    collected sdk region name
      {| service := Some "apigateway"; rtype := Some "rest_api";
         url := Some console_url;
         extra :=
           [ ("api_id", VStr api_id);
             ("description",
               VStr (or_placeholder (Populate.description api) EmptyString));
             ("created_date",
               VStr (or_placeholder
                       (option_map isoformat (Populate.createdDate api))
                       EmptyString));
             ("region", VStr region) ] |}.

(** Every record of the dictionary is the one kept for a listed item. *)
Definition kept (sdk : Populate.Sdk) (region : string) (d : ResourceCache)
  : Prop :=
  forall name r, In (name, r) d -> collected sdk region name r.

(** *** Answers that lack a field

    The calls of a service are answered when each returns or fails with
    the SDK's error; nothing is asked of the fields of the items. *)

Definition answered_lambda (sdk : Populate.Sdk) (region : string) : bool :=
  answered (Populate.client sdk "lambda") (fun _ => true)
  && ended_well (Populate.list_functions sdk region).

Definition answered_s3 (sdk : Populate.Sdk) : bool :=
  answered (Populate.client sdk "s3") (fun _ => true)
  && answered (Populate.list_buckets sdk) (fun _ => true).

Definition answered_sqs (sdk : Populate.Sdk) (region : string) : bool :=
  answered (Populate.client sdk "sqs") (fun _ => true)
  && answered (Populate.list_queues sdk region) (fun _ => true).

Definition answered_kinesis (sdk : Populate.Sdk) (region : string) : bool :=
  answered (Populate.client sdk "kinesis") (fun _ => true)
  && ended_well (Populate.list_streams sdk region)
  && forallb (fun stream_name =>
                answered (Populate.describe_stream sdk region stream_name)
                  (fun _ => true))
       (flat_map (fun page => Populate.get_or (Populate.StreamNames page) [])
          (fst (Populate.list_streams sdk region))).

Definition answered_dynamodb (sdk : Populate.Sdk) (region : string) : bool :=
  answered (Populate.client sdk "dynamodb") (fun _ => true)
  && ended_well (Populate.list_tables sdk region)
  && forallb (fun table_name =>
                answered (Populate.describe_table sdk region table_name)
                  (fun _ => true))
       (flat_map (fun page => Populate.get_or (Populate.TableNames page) [])
          (fst (Populate.list_tables sdk region))).

Definition answered_rds (sdk : Populate.Sdk) (region : string) : bool :=
  answered (Populate.client sdk "rds") (fun _ => true)
  && ended_well (Populate.describe_db_instances sdk region)
  && ended_well (Populate.describe_db_clusters sdk region).

Definition answered_apigateway (sdk : Populate.Sdk) (region : string) : bool :=
  answered (Populate.client sdk "apigateway") (fun _ => true)
  && answered (Populate.get_rest_apis sdk region) (fun _ => true).

(** Every call of a run in the region is answered. *)
Definition every_call_answered (sdk : Populate.Sdk) (region : string) : bool :=
  answered_lambda sdk region && answered_s3 sdk && answered_sqs sdk region
  && answered_kinesis sdk region && answered_dynamodb sdk region
  && answered_rds sdk region && answered_apigateway sdk region.

(** An item carries the fields the script subscripts. *)
Definition complete_function (func : Populate.LambdaFunction) : bool :=
  present (Populate.FunctionName func) && present (Populate.FunctionArn func).

Definition complete_bucket (bucket : Populate.Bucket) : bool :=
  present (Populate.Name bucket).

Definition complete_stream (sdk : Populate.Sdk) (region stream_name : string)
  : bool :=
  match Populate.describe_stream sdk region stream_name with
  | Ok details => present (Populate.StreamDescription details)
  | Raise _ => true
  end.

Definition complete_table (sdk : Populate.Sdk) (region table_name : string)
  : bool :=
  match Populate.describe_table sdk region table_name with
  | Ok details => present (Populate.Table details)
  | Raise _ => true
  end.

Definition complete_instance (instance : Populate.DBInstance) : bool :=
  present (Populate.DBInstanceIdentifier instance).

Definition complete_cluster (cluster : Populate.DBCluster) : bool :=
  present (Populate.DBClusterIdentifier cluster).

Definition complete_api (api : Populate.RestApi) : bool :=
  present (Populate.api_name api) && present (Populate.id api).

(** A service lists an item that lacks a field the script subscripts; the
    listing of a service whose client cannot be created is not read. *)
Definition lacks_lambda (sdk : Populate.Sdk) (region : string) : bool :=
  returned (Populate.client sdk "lambda")
  && negb (forallb complete_function
             (flat_map
                (fun page => Populate.get_or (Populate.Functions page) [])
                (fst (Populate.list_functions sdk region)))).

Definition lacks_s3 (sdk : Populate.Sdk) : bool :=
  returned (Populate.client sdk "s3")
  && match Populate.list_buckets sdk with
     | Ok response =>
         negb (forallb complete_bucket
                 (Populate.get_or (Populate.Buckets response) []))
     | Raise _ => false
     end.

Definition lacks_kinesis (sdk : Populate.Sdk) (region : string) : bool :=
  returned (Populate.client sdk "kinesis")
  && negb (forallb (complete_stream sdk region)
             (flat_map
                (fun page => Populate.get_or (Populate.StreamNames page) [])
                (fst (Populate.list_streams sdk region)))).

Definition lacks_dynamodb (sdk : Populate.Sdk) (region : string) : bool :=
  returned (Populate.client sdk "dynamodb")
  && negb (forallb (complete_table sdk region)
             (flat_map
                (fun page => Populate.get_or (Populate.TableNames page) [])
                (fst (Populate.list_tables sdk region)))).

Definition lacks_rds (sdk : Populate.Sdk) (region : string) : bool :=
  returned (Populate.client sdk "rds")
  && (negb (forallb complete_instance
              (flat_map
                 (fun page => Populate.get_or (Populate.DBInstances page) [])
                 (fst (Populate.describe_db_instances sdk region))))
      || negb (forallb complete_cluster
                 (flat_map
                    (fun page => Populate.get_or (Populate.DBClusters page) [])
                    (fst (Populate.describe_db_clusters sdk region))))).

Definition lacks_apigateway (sdk : Populate.Sdk) (region : string) : bool :=
  returned (Populate.client sdk "apigateway")
  && match Populate.get_rest_apis sdk region with
     | Ok response =>
         negb (forallb complete_api
                 (Populate.get_or (Populate.items response) []))
     | Raise _ => false
     end.

(** Some item the run reads lacks a field the script subscripts. *)
Definition lacks_a_field (sdk : Populate.Sdk) (region : string) : bool :=
  lacks_lambda sdk region || lacks_s3 sdk || lacks_kinesis sdk region
  || lacks_dynamodb sdk region || lacks_rds sdk region
  || lacks_apigateway sdk region.

(** The sentence of the specification on missing fields, for a run in a
    region: when every call is answered, whatever field an item lacks, the
    collection is not aborted. *)
Definition absence_degrades (sdk : Populate.Sdk) (region : string) : Prop :=
  every_call_answered sdk region = true ->
  exists all, outcome (Populate.fetch_all sdk region) = Ok all.

(** The account [sdk] with another listing of its functions. *)
Definition with_functions (sdk : Populate.Sdk)
  (pages : Populate.paged Populate.ListFunctionsPage) : Populate.Sdk :=
  {| Populate.DATA_DIR := Populate.DATA_DIR sdk;
     Populate.config_file := Populate.config_file sdk;
     Populate.has_access_key_id := Populate.has_access_key_id sdk;
     Populate.new_session := Populate.new_session sdk;
     Populate.client := Populate.client sdk;
     Populate.get_caller_identity := Populate.get_caller_identity sdk;
     Populate.list_functions := fun _ => pages;
     Populate.list_buckets := Populate.list_buckets sdk;
     Populate.list_queues := Populate.list_queues sdk;
     Populate.list_streams := Populate.list_streams sdk;
     Populate.describe_stream := Populate.describe_stream sdk;
     Populate.list_tables := Populate.list_tables sdk;
     Populate.describe_table := Populate.describe_table sdk;
     Populate.describe_db_instances := Populate.describe_db_instances sdk;
     Populate.describe_db_clusters := Populate.describe_db_clusters sdk;
     Populate.get_rest_apis := Populate.get_rest_apis sdk;
     Populate.makedirs := Populate.makedirs sdk;
     Populate.write_file := Populate.write_file sdk |}.

(** Every call answers; the function "thumbnails", an image without a
    runtime, is listed with its ARN. *)
Definition thumbnails_sdk : Populate.Sdk :=
  with_functions bare_sdk
    ([ {| Populate.Functions :=
            Some [ {| Populate.FunctionName := Some "thumbnails";
                      Populate.FunctionArn :=
                        Some "arn:aws:lambda:us-east-1:123:function:thumbnails";
                      Populate.Runtime := None;
                      Populate.LastModified := None |} ] |} ], None).

(** The same account, the function listed without its ARN. *)
Definition arnless_sdk : Populate.Sdk :=
  with_functions bare_sdk
    ([ {| Populate.Functions :=
            Some [ {| Populate.FunctionName := Some "thumbnails";
                      Populate.FunctionArn := None;
                      Populate.Runtime := Some "python3.12";
                      Populate.LastModified := None |} ] |} ], None).

(** How a scan ends decides how its fetcher ends. *)
Definition ends_like (scan : ResourceCache * option exn)
  : result ResourceCache :=
  match snd scan with
  | None => Ok (fst scan)
  | Some e => if is_ClientError e then Ok PyDict.empty else Raise e
  end.

(** How a fetcher ends when its calls are answered: with [KeyError] when
    an item it reads lacks a field, with a dictionary otherwise. *)
Definition aborts_or_returns (lacks : bool) (r : result ResourceCache)
  : Prop :=
  if lacks then exists key, r = Raise (KeyError key) else exists d, r = Ok d.

(** How one of the two loops of [fetch_rds_resources] leaves its [try]. *)
Definition passes (scan : ResourceCache * option exn) : option exn :=
  match snd scan with
  | None => None
  | Some e => if is_ClientError e then None else Some e
  end.

(** The first argument names a routine of [main] other than the search:
    the help, the settings menu or the configuration editor. *)
Definition names_a_routine (arg : string) : bool :=
  existsb (String.eqb arg) ["-h"; "--help"; "help"]
  || existsb (String.eqb arg) ["--settings"; "-s"; "settings"]
  || existsb (String.eqb arg) ["--config"; "-c"; "config"].

(** The arguments send [main] to the search. *)
Definition is_search (argv : list string) : bool :=
  match hd_error argv with
  | Some arg => negb (names_a_routine arg)
  | None => true
  end.

(** Two accounts that answer alike up to the test of the credentials: the
    same configuration and environment, the same sessions, the same
    identity.  Nothing is asked of what the seven services answer, nor of
    the directory and the file of the cache. *)
Definition same_credentials (sdk sdk' : Populate.Sdk) : Prop :=
  Populate.config_file sdk' = Populate.config_file sdk
  /\ Populate.has_access_key_id sdk' = Populate.has_access_key_id sdk
  /\ (forall profile,
        Populate.new_session sdk' profile = Populate.new_session sdk profile)
  /\ Populate.client sdk' "sts" = Populate.client sdk "sts"
  /\ Populate.get_caller_identity sdk' = Populate.get_caller_identity sdk.

(** An account without credentials whose user, besides, may list nothing
    and whose cache cannot be written. *)
Definition denied_sdk_without_credentials : Populate.Sdk :=
  {| Populate.DATA_DIR := "/opt/awsf/data";
     Populate.config_file := None;
     Populate.has_access_key_id := false;
     Populate.new_session := fun _ => Ok tt;
     Populate.client := fun service_name =>
       if String.eqb service_name "sts" then Ok tt
       else Raise (ClientError "AccessDenied");
     Populate.get_caller_identity :=
       Raise (NoCredentialsError "Unable to locate credentials");
     Populate.list_functions := fun _ => ([], Some (ClientError "AccessDenied"));
     Populate.list_buckets := Raise (ClientError "AccessDenied");
     Populate.list_queues := fun _ => Raise (ClientError "AccessDenied");
     Populate.list_streams := fun _ => ([], Some (ClientError "AccessDenied"));
     Populate.describe_stream := fun _ _ => Raise (ClientError "AccessDenied");
     Populate.list_tables := fun _ => ([], Some (ClientError "AccessDenied"));
     Populate.describe_table := fun _ _ => Raise (ClientError "AccessDenied");
     Populate.describe_db_instances := fun _ =>
       ([], Some (ClientError "AccessDenied"));
     Populate.describe_db_clusters := fun _ =>
       ([], Some (ClientError "AccessDenied"));
     Populate.get_rest_apis := fun _ => Raise (ClientError "AccessDenied");
     Populate.makedirs := Raise (OSError "Read-only file system");
     Populate.write_file := fun _ _ => Raise (OSError "Read-only file system") |}.

(** ** The two files as the script reads them: what can fail

    [Menus] takes the two files of the [config] directory to be readable
    and to hold objects, the directory to be creatable and the keyboard
    to give lines.  Here the loaders, the savers and the toggle menu are
    embedded with the failures these assumptions leave out: a file that
    cannot be opened for reading, a file that is not UTF-8, a JSON
    document that is not an object, a directory that cannot be created,
    and [Ctrl-C] at a prompt.  As in [Menus], a file that cannot be
    written fails at [open], and the objects are those of [Menus]. *)

Module Disk.

(** A JSON document that is not an object, as far as [in] and the
    assignment to a key tell its kinds apart: [null], a number or a truth
    value, by the name of its Python type; a string; a list. *)
Inductive plain : Type :=
| Atom (type_name : string)
| Text (s : string)
| Items (l : list json).

(** What a file holds: nothing ([open] raises [FileNotFoundError]), text
    that is not JSON ([json.load] raises [JSONDecodeError]), bytes that
    are not UTF-8 ([json.load] raises [UnicodeDecodeError], with its
    message), an object, or another JSON document. *)
Inductive content (A : Type) : Type :=
| Absent
| Malformed
| Undecodable (msg : string)
| Object (doc : A)
| Plain (doc : plain).

Arguments Absent {A}.
Arguments Malformed {A}.
Arguments Undecodable {A} msg.
Arguments Object {A} doc.
Arguments Plain {A} doc.

Record Files : Type := {
  settings_file : content Menus.SettingsDoc;
  config_file : content Menus.ConfigDoc
}.

(** What does not change during a run, each the message of the [OSError]
    when there is one: whether a file can be opened for reading (a file
    that is there and may not be read, a directory in its place), whether
    [os.makedirs] can create the [config] directory, and whether a file
    can be opened for writing. *)
Record Desk : Type := {
  settings_read_error : option string;
  config_read_error : option string;
  makedirs_error : option string;
  settings_error : option string;
  config_error : option string
}.

(** What a loader returns: a dictionary, or the document it read when
    that is none. *)
Inductive loaded (A : Type) : Type :=
| Dict (d : A)
| NotDict (v : plain).

Arguments Dict {A} d.
Arguments NotDict {A} v.

Definition TypeError (msg : string) : exn := OtherError msg.
Definition UnicodeDecodeError (msg : string) : exn := OtherError msg.

(** What [input()] meets at a prompt: a line typed, or [Ctrl-C], on which
    it raises [KeyboardInterrupt]; at the end of the input it raises
    [EOFError]. *)
Inductive key : Type :=
| Line (text : string)
| Interrupt.

Definition menu (A : Type) : Type :=
  Files -> list key -> prog A * Files * list key.

Definition mret {A} (a : A) : menu A := fun files keyboard =>
  (ret a, files, keyboard).

Definition mbind {A B} (m : menu A) (k : A -> menu B) : menu B :=
  fun files keyboard =>
    match m files keyboard with
    | ((t, Ok a), files', keyboard') =>
        match k a files' keyboard' with
        | ((t', r), files'', keyboard'') =>
            (((t ++ t')%list, r), files'', keyboard'')
        end
    | ((t, Raise e), files', keyboard') => ((t, Raise e), files', keyboard')
    end.

Definition run {A} (p : prog A) : menu A := fun files keyboard =>
  (p, files, keyboard).

Definition say (text : string) : menu unit := run (print text).

Declare Scope disk_scope.
Delimit Scope disk_scope with disk.
Notation "x <- m ;; k" := (mbind m (fun x => k))
  (at level 61, m at next level, right associativity) : disk_scope.
Notation "m ;; k" := (mbind m (fun _ => k))
  (at level 61, right associativity) : disk_scope.

(** [key in v] for a document that is not an object: a substring of a
    string, an element of a list, an error otherwise. *)
Definition plain_has (key : string) (v : plain) : result bool :=
  match v with
  | Atom type_name =>
      Raise (TypeError ("argument of type '" ++ type_name
                        ++ "' is not iterable"))
  | Text s => Ok (PyStr.contains key s)
  | Items l =>
      Ok (existsb (fun j => match j with
                            | JStr s => String.eqb s key
                            | _ => false
                            end) l)
  end.

(** The error of [v[key] = value] for a document that is not an object. *)
Definition plain_assign (v : plain) : exn :=
  match v with
  | Atom type_name =>
      TypeError ("'" ++ type_name ++ "' object does not support item assignment")
  | Text _ => TypeError "'str' object does not support item assignment"
  | Items _ => TypeError "list indices must be integers or slices, not str"
  end.

(** [for key in keys: if key not in v: v[key] = ...] for a document that
    is not an object: the first key it lacks cannot be assigned. *)
Fixpoint plain_setdefaults (keys : list string) (v : plain) : result unit :=
  match keys with
  | [] => Ok tt
  | key :: keys' =>
      match plain_has key v with
      | Raise e => Raise e
      | Ok true => plain_setdefaults keys' v
      | Ok false => Raise (plain_assign v)
      end
  end.

Section Routines.

Variable desk : Desk.

(** [save_settings(settings)] *)
Definition save_settings (settings : Menus.SettingsDoc) : menu unit :=
  fun files keyboard =>
    match makedirs_error desk with
    | Some msg => (print ("❌ Error saving settings: " ++ msg), files, keyboard)
    | None =>
        match settings_error desk with
        | Some msg =>
            (print ("❌ Error saving settings: " ++ msg), files, keyboard)
        | None =>
            (ret tt,
             {| settings_file := Object settings;
                config_file := config_file files |},
             keyboard)
        end
    end.

(** The [except] clause of [load_settings]: the directory is created
    outside any [try]. *)
Definition create_default_settings : menu (loaded Menus.SettingsDoc) :=
  let default_settings :=
    {| Menus.enabled_services := Some (PyDict.keys Awsf.SERVICE_CONFIG);
       Menus.other_settings := [] |} in
  match makedirs_error desk with
  | Some msg => run (raise (OSError msg))
  | None =>
      (save_settings default_settings ;; mret (Dict default_settings))%disk
  end.

(** [load_settings()] *)
Definition load_settings : menu (loaded Menus.SettingsDoc) :=
  fun files keyboard =>
    match settings_read_error desk with
    | Some msg => run (raise (OSError msg)) files keyboard
    | None =>
        match settings_file files with
        | Object settings =>
            match Menus.enabled_services settings with
            | None =>
                mret (Dict {| Menus.enabled_services :=
                                Some (PyDict.keys Awsf.SERVICE_CONFIG);
                              Menus.other_settings :=
                                Menus.other_settings settings |})
                  files keyboard
            | Some _ => mret (Dict settings) files keyboard
            end
        | Plain v =>
            match plain_setdefaults ["enabled_services"] v with
            | Ok _ => mret (NotDict v) files keyboard
            | Raise e => run (raise e) files keyboard
            end
        | Undecodable msg => run (raise (UnicodeDecodeError msg)) files keyboard
        | Absent | Malformed => create_default_settings files keyboard
        end
    end.

(** [save_config(config)] *)
Definition save_config (config : Menus.ConfigDoc) : menu unit :=
  fun files keyboard =>
    match makedirs_error desk with
    | Some msg => (print ("❌ Error saving config: " ++ msg), files, keyboard)
    | None =>
        match config_error desk with
        | Some msg =>
            (print ("❌ Error saving config: " ++ msg), files, keyboard)
        | None =>
            (ret tt,
             {| settings_file := settings_file files;
                config_file := Object config |},
             keyboard)
        end
    end.

(** The [except] clause of [load_config]. *)
Definition create_default_config : menu (loaded Menus.ConfigDoc) :=
  match makedirs_error desk with
  | Some msg => run (raise (OSError msg))
  | None =>
      (save_config Menus.default_config ;;
       mret (Dict Menus.default_config))%disk
  end.

(** [load_config()] *)
Definition load_config : menu (loaded Menus.ConfigDoc) := fun files keyboard =>
  match config_read_error desk with
  | Some msg => run (raise (OSError msg)) files keyboard
  | None =>
      match config_file files with
      | Object config =>
          mret
            (Dict
               (fold_left
                  (fun config kv =>
                     if PyDict.mem (fst kv) config then config
                     else PyDict.set (fst kv) (snd kv) config)
                  (PyDict.items Menus.default_config) config))
            files keyboard
      | Plain v =>
          match plain_setdefaults (PyDict.keys Menus.default_config) v with
          | Ok _ => mret (NotDict v) files keyboard
          | Raise e => run (raise e) files keyboard
          end
      | Undecodable msg => run (raise (UnicodeDecodeError msg)) files keyboard
      | Absent | Malformed => create_default_config files keyboard
      end
  end.

(** The branch "Save & back" of a turn of [show_service_toggle_menu]. *)
Definition save_and_back (enabled : list string)
  : menu (option (list string)) :=
  (enabled <-
     (if negb (Menus.set_truthy enabled) then
        say "⚠️  Warning: No services enabled! Enabling all services." ;;
        mret (Menus.set_update enabled (PyDict.keys Awsf.SERVICE_CONFIG))
      else mret enabled) ;;
   settings <- load_settings ;;
   match settings with
   | Dict settings =>
       save_settings
         {| Menus.enabled_services := Some enabled;
            Menus.other_settings := Menus.other_settings settings |} ;;
       say "💾 Settings saved!" ;;
       mret None
   | NotDict v => run (raise (plain_assign v))
   end)%disk.

Variable int : string -> option Z.

(** The [try] block of a turn of [show_service_toggle_menu], on the line
    read: [Some] set to go on with, [None] once the settings have been
    saved. *)
Definition toggle_turn (choice : string) (enabled : list string)
  : menu (option (list string)) :=
  match int choice with
  | None => (say "❌ Please enter a valid number." ;; mret (Some enabled))%disk
  | Some choice_num =>
      let count := Z.of_nat (List.length Awsf.SERVICE_CONFIG) in
      if ((1 <=? choice_num) && (choice_num <=? count))%Z then
        match nth_error (PyDict.keys Awsf.SERVICE_CONFIG)
                (Z.to_nat (choice_num - 1)) with
        | None => run (raise (OtherError "list index out of range"))
        | Some service =>
            if set_in service enabled then
              (c <- run (Awsf.service_config service) ;;
               say ("❌ Disabled " ++ Awsf.name c) ;;
               mret (Some (Menus.set_remove service enabled)))%disk
            else
              (c <- run (Awsf.service_config service) ;;
               say ("✅ Enabled " ++ Awsf.name c) ;;
               mret (Some (Menus.set_add service enabled)))%disk
        end
      else if (choice_num =? count + 1)%Z then
        if (List.length enabled =? List.length Awsf.SERVICE_CONFIG)%nat then
          (say "❌ Disabled all services" ;; mret (Some []))%disk
        else
          (say "✅ Enabled all services" ;;
           mret (Some (Menus.set_update enabled
                         (PyDict.keys Awsf.SERVICE_CONFIG))))%disk
      else if (choice_num =? count + 2)%Z then save_and_back enabled
      else (say "❌ Invalid option." ;; mret (Some enabled))%disk
  end.

(** [show_service_toggle_menu(enabled_services)]: a turn for each line
    read, until the settings are saved.  [input()] is outside the [try]:
    what it raises ends the menu. *)
Fixpoint show_service_toggle_menu (enabled : list string) (files : Files)
  (keyboard : list key) : prog unit * Files * list key :=
  match keyboard with
  | [] =>
      (((Menus.toggle_screen enabled ++ [Input Menus.toggle_prompt])%list,
        Raise Menus.EOFError),
       files, [])
  | Interrupt :: keyboard' =>
      (((Menus.toggle_screen enabled ++ [Input Menus.toggle_prompt])%list,
        Raise KeyboardInterrupt),
       files, keyboard')
  | Line line :: keyboard' =>
      match toggle_turn (PyStr.strip line) enabled files keyboard' with
      | ((t, Ok (Some enabled')), files', _) =>
          match show_service_toggle_menu enabled' files' keyboard' with
          | ((t', r), files'', keyboard'') =>
              (((Menus.toggle_screen enabled
                   ++ Input Menus.toggle_prompt :: t ++ t')%list,
                r),
               files'', keyboard'')
          end
      | ((t, Ok None), files', _) =>
          (((Menus.toggle_screen enabled
               ++ Input Menus.toggle_prompt :: t)%list, Ok tt),
           files', keyboard')
      | ((t, Raise e), files', _) =>
          (((Menus.toggle_screen enabled
               ++ Input Menus.toggle_prompt :: t)%list, Raise e),
           files', keyboard')
      end
  end.

End Routines.

End Disk.

(** The files of [Menus] among those of [Disk]: a file that holds an
    object, or one that is absent. *)
Definition on_disk (files : Menus.Files) : Disk.Files :=
  {| Disk.settings_file :=
       match Menus.settings_file files with
       | Some s => Disk.Object s
       | None => Disk.Absent
       end;
     Disk.config_file :=
       match Menus.config_file files with
       | Some c => Disk.Object c
       | None => Disk.Absent
       end |}.

(** The desk of [Menus] among those of [Disk]: every file can be opened
    for reading and the directory can be created. *)
Definition desk_on_disk (desk : Menus.Desk) : Disk.Desk :=
  {| Disk.settings_read_error := None;
     Disk.config_read_error := None;
     Disk.makedirs_error := None;
     Disk.settings_error := Menus.settings_error desk;
     Disk.config_error := Menus.config_error desk |}.

(** The exceptions the toggle menu can end with at "Save & back": the one
    [load_settings] raises, or the one of the assignment to a document
    that is no object. *)
Definition raised_on_save (desk : Disk.Desk) (files : Disk.Files) (e : exn)
  : Prop :=
  outcome (fst (fst (Disk.load_settings desk files []))) = Raise e
  \/ exists v, Disk.settings_file files = Disk.Plain v
               /\ e = Disk.plain_assign v.

(** A desk on which everything can be read and written. *)
Definition open_desk : Disk.Desk :=
  {| Disk.settings_read_error := None;
     Disk.config_read_error := None;
     Disk.makedirs_error := None;
     Disk.settings_error := None;
     Disk.config_error := None |}.

(** What a loader of [Menus] returns, as a loader of [Disk] returns it. *)
Definition as_dict {A} (r : result A) : result (Disk.loaded A) :=
  match r with Ok d => Ok (Disk.Dict d) | Raise e => Raise e end.

(* ================================================================== *)
(** * Part II: properties *)
(* ================================================================== *)

Unset Implicit Arguments.

(** ** Strings *)

Lemma append_nil_r (s : string) : s ++ EmptyString = s.
Proof. induction s as [|c s IH]; simpl; [reflexivity | now rewrite IH]. Qed.

Lemma append_assoc (a b c : string) : (a ++ b) ++ c = a ++ (b ++ c).
Proof. induction a as [|x a IH]; simpl; [reflexivity | now rewrite IH]. Qed.

Lemma prefix_spec (p s : string) :
  prefix p s = true <-> exists post, s = p ++ post.
Proof.
  revert s; induction p as [|c p IH]; intros s; simpl.
  - destruct s; split; intros _; try reflexivity; eexists; reflexivity.
  - destruct s as [|d s]; simpl.
    + split; [discriminate | intros [post H]; discriminate].
    + destruct (ascii_dec c d) as [->|Hne].
      * rewrite IH. split; intros [post H]; exists post.
        -- now rewrite H.
        -- now inversion H.
      * split; [discriminate | intros [post H]; inversion H; congruence].
Qed.

Lemma contains_spec (sub s : string) :
  PyStr.contains sub s = true <-> PyStr.Substring sub s.
Proof.
  unfold PyStr.Substring.
  induction s as [|c s IH]; cbn [PyStr.contains].
  - rewrite orb_false_r, prefix_spec. split.
    + intros [post H]. exists EmptyString, post. exact H.
    + intros [pre [post H]]. destruct pre; simpl in H.
      * now exists post.
      * discriminate.
  - rewrite orb_true_iff, IH, prefix_spec. split.
    + intros [[post H] | [pre [post H]]].
      * exists EmptyString, post. exact H.
      * exists (String c pre), post. simpl. now rewrite H.
    + intros [pre [post H]]. destruct pre as [|d pre]; simpl in H.
      * left. now exists post.
      * right. inversion H. now exists pre, post.
Qed.

Lemma any_in_spec (markers : list string) (s : string) :
  PyStr.any_in markers s = true <-> occurs markers s.
Proof.
  unfold PyStr.any_in, occurs. rewrite existsb_exists.
  split; intros [m [Hin H]]; exists m; split; trivial; now apply contains_spec.
Qed.

Lemma any_in_false (markers : list string) (s : string) :
  PyStr.any_in markers s = false <-> ~ occurs markers s.
Proof.
  rewrite <- any_in_spec. destruct (PyStr.any_in markers s); split; congruence.
Qed.

Lemma Substring_trans (a b c : string) :
  PyStr.Substring a b -> PyStr.Substring b c -> PyStr.Substring a c.
Proof.
  intros [p1 [q1 H1]] [p2 [q2 H2]]. subst.
  exists (p2 ++ p1), (q1 ++ q2). now rewrite !append_assoc.
Qed.

Lemma Substring_refl (s : string) : PyStr.Substring s s.
Proof. exists EmptyString, EmptyString. simpl. now rewrite append_nil_r. Qed.

(** ** The environment tag *)

Lemma EnvTag_functional (n t1 t2 : string) :
  EnvTag n t1 -> EnvTag n t2 -> t1 = t2.
Proof. intros H1 H2; inversion H1; inversion H2; subst; tauto. Qed.

(** C4. The environment tag of a name is the one the precedence order
    PROD, STAGE, DEV, TEST, OTHER assigns to its lower-cased form: the first
    category with a marker in the name wins.  It depends on the name up to
    case only, and a name with both "prod" and "test" in it, such as
    "prod-test-runner", is tagged PROD and not TEST. *)
Theorem environment_tag_precedence (resource_name : string) :
  EnvTag (PyStr.lower resource_name)
         (Awsf.get_environment_indicator resource_name)
  /\ (forall other,
        PyStr.lower other = PyStr.lower resource_name ->
        Awsf.get_environment_indicator other
        = Awsf.get_environment_indicator resource_name)
  /\ (PyStr.Substring "prod" (PyStr.lower resource_name) ->
      PyStr.Substring "test" (PyStr.lower resource_name) ->
      Awsf.get_environment_indicator resource_name = "🟢 PROD"
      /\ Awsf.get_environment_indicator resource_name <> "🟣 TEST")
  /\ Awsf.get_environment_indicator "prod-test-runner" = "🟢 PROD"
  /\ Awsf.get_environment_indicator "Prod-Test-Runner" = "🟢 PROD".
Proof.
  unfold Awsf.get_environment_indicator.
  repeat split.
  - destruct (PyStr.any_in ["prod"; "production"] _) eqn:Hp;
      [apply TagProd; now apply any_in_spec |].
    destruct (PyStr.any_in ["stag"; "staging"; "stage"] _) eqn:Hs;
      [apply TagStage; [now apply any_in_false | now apply any_in_spec] |].
    destruct (PyStr.any_in ["dev"; "development"] _) eqn:Hd;
      [apply TagDev; try (now apply any_in_false); now apply any_in_spec |].
    destruct (PyStr.any_in ["test"; "testing"] _) eqn:Ht;
      [apply TagTest; try (now apply any_in_false); now apply any_in_spec |].
    apply TagOther; now apply any_in_false.
  - intros other ->. reflexivity.
  - assert (Hp : PyStr.any_in ["prod"; "production"]
                   (PyStr.lower resource_name) = true).
    { apply any_in_spec. exists "prod". split; [now left | assumption]. }
    now rewrite Hp.
  - assert (Hp : PyStr.any_in ["prod"; "production"]
                   (PyStr.lower resource_name) = true).
    { apply any_in_spec. exists "prod". split; [now left | assumption]. }
    rewrite Hp. discriminate.
Qed.

(** ** Lists, sorting and dictionaries *)

Lemma set_in_spec (x : string) (s : list string) :
  set_in x s = true <-> In x s.
Proof.
  unfold set_in. rewrite existsb_exists. split.
  - intros [y [Hin Heq]]. apply String.eqb_eq in Heq. now subst.
  - intros Hin. exists x. split; [assumption | apply String.eqb_refl].
Qed.

Section SortingFacts.

Variable A : Type.
Variable leb : A -> A -> bool.

Lemma insert_sorted_perm (x : A) (l : list A) :
  Permutation (x :: l) (insert_sorted leb x l).
Proof.
  induction l as [|y l IH]; simpl; [reflexivity |].
  destruct (leb x y); [reflexivity |].
  rewrite perm_swap. now apply perm_skip.
Qed.

Lemma sorted_perm (l : list A) : Permutation l (sorted leb l).
Proof.
  induction l as [|x l IH]; simpl; [reflexivity |].
  rewrite <- insert_sorted_perm. now apply perm_skip.
Qed.

Lemma sorted_In (x : A) (l : list A) : In x (sorted leb l) <-> In x l.
Proof.
  split; apply Permutation_in;
    [apply Permutation_sym |]; apply sorted_perm.
Qed.

End SortingFacts.

Lemma comprehension_In V (p : string -> V -> bool) (d : PyDict.dict V) k v :
  In (k, v) (PyDict.comprehension p d) <-> In (k, v) d /\ p k v = true.
Proof. unfold PyDict.comprehension. now rewrite filter_In. Qed.

(** ** The filter *)

(** What [filter_by_service] keeps: the records of an enabled service and,
    when a service is named, of that service. *)
Lemma filter_by_service_In (w : Awsf.World) (resources : ResourceCache)
  (service_filter : option string) (name : string) (r : ResourceRecord) :
  In (name, r) (Awsf.filter_by_service w resources service_filter) <->
  In (name, r) resources
  /\ In (tag_of r) (enabled_in w)
  /\ (Awsf.given service_filter = true ->
      tag_of r = PyStr.lower (Awsf.get_or service_filter EmptyString)).
Proof.
  unfold Awsf.filter_by_service, enabled_in, tag_of.
  destruct service_filter as [f|]; simpl.
  - destruct (PyStr.truthy f) eqn:Hf.
    + rewrite !comprehension_In, set_in_spec, String.eqb_eq. tauto.
    + rewrite comprehension_In, set_in_spec.
      split; [intros [H1 H2]; repeat split; trivial; discriminate | tauto].
  - rewrite comprehension_In, set_in_spec.
    split; [intros [H1 H2]; repeat split; trivial; discriminate | tauto].
Qed.

(** With a service named, a record of a disabled service is not visible. *)
Lemma restrict_hides_disabled (w : Awsf.World) (resources : ResourceCache)
  (service_filter : option string) (name : string) (r : ResourceRecord) :
  Awsf.given service_filter = true ->
  In (name, r) (Awsf.restrict w resources service_filter) ->
  In (tag_of r) (enabled_in w).
Proof.
  unfold Awsf.restrict. intros ->. rewrite filter_by_service_In. tauto.
Qed.

Lemma find_matches_In (query : string) (resources : ResourceCache)
  (name : string) (r : ResourceRecord) :
  In (name, r) (Awsf.find_matches query resources) <->
  In (name, r) resources
  /\ PyStr.Substring (PyStr.lower query) (PyStr.lower name).
Proof.
  unfold Awsf.find_matches, PyDict.items.
  now rewrite filter_In, contains_spec.
Qed.

Lemma bind_ret_l A B (a : A) (k : A -> prog B) : bind (ret a) k = k a.
Proof. unfold bind, ret. now destruct (k a). Qed.

Lemma restrict_nil (w : Awsf.World) (service_filter : option string) :
  Awsf.restrict w [] service_filter = [].
Proof.
  unfold Awsf.restrict, Awsf.filter_by_service.
  destruct service_filter as [f|]; simpl; [| reflexivity].
  now destruct (PyStr.truthy f).
Qed.

(** ** Substring matching *)

(** C5. Among the records the query works on, a record is a match exactly
    when the lower-cased term occurs in its lower-cased name, and every such
    record is among the matches; so "PROD" matches every name with "prod"
    in it, in any case.  The search hands on all of them: two matches or
    more are the lines given to the interactive matcher. *)
Theorem substring_matching_total (ratio : string -> string -> Q)
  (w : Awsf.World) (resources : ResourceCache)
  (service_filter : option string) (query name : string) (r : ResourceRecord) :
  let visible := Awsf.restrict w resources service_filter in
  (In (name, r) (Awsf.find_matches query visible) <->
   In (name, r) (PyDict.items visible)
   /\ PyStr.Substring (PyStr.lower query) (PyStr.lower name))
  /\ (In (name, r) (PyDict.items visible) ->
      PyStr.Substring "prod" (PyStr.lower name) ->
      In (name, r) (Awsf.find_matches "PROD" visible)
      /\ In (name, r) (Awsf.find_matches "prod" visible)
      /\ In (name, r) (Awsf.find_matches "pRoD" visible))
  /\ (Awsf.resources_file w = Awsf.Holds resources ->
      forall first second rest,
        Awsf.find_matches query visible = first :: second :: rest ->
        Awsf.search_with_query ratio w query service_filter
        = Awsf.run_fzf_for_matches w (first :: second :: rest) service_filter).
Proof.
  intros visible. split; [| split].
  - apply find_matches_In.
  - intros Hin Hsub. repeat split; apply find_matches_In; split; assumption.
  - intros Hfile first second rest Hmatches.
    unfold Awsf.search_with_query, Awsf.load_aws_resources.
    rewrite Hfile, bind_ret_l.
    destruct resources as [|item resources'].
    + unfold visible in Hmatches. rewrite restrict_nil in Hmatches.
      discriminate Hmatches.
    + cbn [PyDict.truthy negb]. fold visible. rewrite Hmatches.
      now destruct first.
Qed.

(** ** Programs *)

Lemma outcome_bind A B (m : prog A) (k : A -> prog B) :
  outcome (bind m k)
  = match outcome m with Ok a => outcome (k a) | Raise e => Raise e end.
Proof.
  destruct m as [t [a|e]]; simpl; [| reflexivity]. now destruct (k a).
Qed.

Lemma trace_bind A B (m : prog A) (k : A -> prog B) :
  trace (bind m k)
  = (trace m ++ match outcome m with Ok a => trace (k a) | Raise _ => [] end)%list.
Proof.
  destruct m as [t [a|e]]; simpl; [| now rewrite app_nil_r]. now destruct (k a).
Qed.

Lemma quiet_app (t1 t2 : list event) : quiet t1 -> quiet t2 -> quiet (t1 ++ t2).
Proof.
  intros H1 H2 e Hin. apply in_app_or in Hin. destruct Hin; auto.
Qed.

Lemma quiet_nil : quiet [].
Proof. intros e []. Qed.

Lemma quiet_print (text : string) (t : list event) : quiet t -> quiet (Print text :: t).
Proof. intros H e [<- | Hin]; [reflexivity | auto]. Qed.

(** ** Disabled services and the query *)

(** C1 (the code departs from it). With only "s3" enabled, a query without
    a service filter still works on the lambda records of the cache: they
    are the matches of "orders", the single match of "orders-prod" is
    opened, and both are among the lines handed to the interactive
    matcher. *)
Theorem disabled_service_visible_without_filter (ratio : string -> string -> Q) :
  let w := world_of orders_cache ["s3"] in
  enabled_in w = ["s3"]
  /\ Awsf.find_matches "orders" (Awsf.restrict w orders_cache None)
     = [ ("orders-prod", lambda_record "https://x/orders-prod");
         ("orders-dev", lambda_record "https://x/orders-dev") ]
  /\ Awsf.search_with_query ratio w "orders-prod" None
     = ([ Open "https://x/orders-prod";
          Print "🚀 Opening orders-prod (λ Lambda) 🟢 PROD in AWS Console" ],
        Ok tt)
  /\ Awsf.prepare_resource_data w orders_cache None
     = [ "orders-dev | λ Lambda | 🔵 DEV | https://x/orders-dev";
         "orders-prod | λ Lambda | 🟢 PROD | https://x/orders-prod" ]
  /\ Awsf.run_fzf_search w None
     = ([ Fzf "🔍 Search AWS Resources (Enter=Open, Ctrl+C=Copy URL)"
              "☁️ Search: "
              [ "orders-dev | λ Lambda | 🔵 DEV | https://x/orders-dev";
                "orders-prod | λ Lambda | 🟢 PROD | https://x/orders-prod" ] ],
        Ok tt).
Proof. repeat split. Qed.

(** ** One match *)

(** C10. When the search has exactly one match and the match has no [url],
    or an empty one, the run consists of the message naming the record:
    nothing is opened and no matcher is started. *)
Theorem single_match_without_url (ratio : string -> string -> Q)
  (w : Awsf.World) (resources : ResourceCache) (query : string)
  (service_filter : option string) (name : string) (resource : ResourceRecord) :
  Awsf.resources_file w = Awsf.Holds resources ->
  Awsf.find_matches query (Awsf.restrict w resources service_filter)
  = [(name, resource)] ->
  url resource = None \/ url resource = Some EmptyString ->
  Awsf.search_with_query ratio w query service_filter
  = ([Print ("❌ No URL available for " ++ name)], Ok tt)
  /\ quiet (trace (Awsf.search_with_query ratio w query service_filter)).
Proof.
  intros Hfile Hmatch Hurl.
  assert (Hrun : Awsf.search_with_query ratio w query service_filter
                 = ([Print ("❌ No URL available for " ++ name)], Ok tt)).
  { unfold Awsf.search_with_query, Awsf.load_aws_resources.
    rewrite Hfile, bind_ret_l.
    destruct resources as [|item resources'].
    - rewrite restrict_nil in Hmatch. discriminate.
    - cbn [PyDict.truthy negb]. rewrite Hmatch.
      destruct Hurl as [-> | ->]; reflexivity. }
  split; [exact Hrun |].
  rewrite Hrun. apply quiet_print, quiet_nil.
Qed.

Lemma single_match_without_url_witness :
  Awsf.search_with_query Difflib.ratio (world_of no_url_cache ["lambda"])
    "orders" None
  = ([Print "❌ No URL available for orders-prod"], Ok tt).
Proof.
  apply (single_match_without_url Difflib.ratio
           (world_of no_url_cache ["lambda"]) no_url_cache
           "orders" None "orders-prod"
           {| service := Some "lambda"; rtype := Some "function";
              url := Some EmptyString; extra := [] |}).
  - reflexivity.
  - reflexivity.
  - right. reflexivity.
Defined.

(** ** Filtering by a named service *)

Lemma filter_absorb A (p q : A -> bool) (l : list A) :
  (forall x, In x l -> q x = true -> p x = true) ->
  filter q (filter p l) = filter q l.
Proof.
  induction l as [|x l IH]; intros H; simpl; [reflexivity |].
  destruct (p x) eqn:Hp; simpl.
  - destruct (q x); rewrite IH; auto using in_cons.
  - destruct (q x) eqn:Hq.
    + rewrite (H x (in_eq x l) Hq) in Hp. discriminate.
    + apply IH. auto using in_cons.
Qed.

Lemma filter_none A (p : A -> bool) (l : list A) :
  (forall x, In x l -> p x = false) -> filter p l = [].
Proof.
  induction l as [|x l IH]; intros H; simpl; [reflexivity |].
  rewrite (H x (in_eq x l)). apply IH. auto using in_cons.
Qed.

(** The seven service tags are lower-case, non-empty, and none is a flag of
    the command line. *)
Lemma service_tag_facts (t : string) :
  In t (PyDict.keys Awsf.SERVICE_CONFIG) ->
  PyStr.lower t = t /\ PyStr.truthy t = true
  /\ forall terms, Awsf.parse_search_query (t :: terms)
                   = (Some t, PyStr.join " " terms).
Proof.
  simpl. intros H.
  repeat (destruct H as [<- | H]; [repeat split; intros [|x terms]; reflexivity |]).
  contradiction.
Qed.

Lemma filter_by_service_disabled (w : Awsf.World) (resources : ResourceCache)
  (t : string) :
  PyStr.lower t = t -> PyStr.truthy t = true -> ~ In t (enabled_in w) ->
  Awsf.filter_by_service w resources (Some t) = [].
Proof.
  intros Hlow Ht Hoff.
  destruct (Awsf.filter_by_service w resources (Some t)) as [|[name r] rest] eqn:E;
    [reflexivity | exfalso].
  assert (Hin : In (name, r) (Awsf.filter_by_service w resources (Some t)))
    by (rewrite E; apply in_eq).
  apply filter_by_service_In in Hin. destruct Hin as [_ [Hen Htag]].
  simpl in Htag. rewrite (Htag Ht), Hlow in Hen. contradiction.
Qed.

Lemma search_without_resources (ratio : string -> string -> Q) (w : Awsf.World)
  (query : string) (service_filter : option string) :
  (forall resources, Awsf.resources_file w = Awsf.Holds resources ->
                     Awsf.restrict w resources service_filter = []) ->
  quiet (trace (Awsf.search_with_query ratio w query service_filter))
  /\ outcome (Awsf.search_with_query ratio w query service_filter) = Ok tt.
Proof.
  intros Hnone. unfold Awsf.search_with_query, Awsf.load_aws_resources.
  destruct (Awsf.resources_file w) as [| |msg|resources] eqn:Hfile;
    try (split; [repeat apply quiet_print; apply quiet_nil | reflexivity]).
  rewrite bind_ret_l. destruct resources as [|item resources'].
  - split; [apply quiet_nil | reflexivity].
  - cbn [PyDict.truthy negb]. rewrite (Hnone _ eq_refl).
    split; [repeat apply quiet_print; apply quiet_nil | reflexivity].
Qed.

(** C2. For a service tag [t]: when [t] is enabled, filtering by the
    enabled services and then by [t] keeps the same records as keeping the
    records tagged [t]; when [t] is disabled, nothing is kept, a search
    scoped to [t] has no match whatever the term, opens nothing, and [main]
    stops at the notice that the service is disabled. *)
Theorem service_filter_composition (w : Awsf.World) (resources : ResourceCache)
  (t : string) :
  In t (PyDict.keys Awsf.SERVICE_CONFIG) ->
  (In t (enabled_in w) ->
   Awsf.filter_by_service w resources (Some t)
   = PyDict.comprehension (fun _ r => String.eqb (tag_of r) t) resources)
  /\ (~ In t (enabled_in w) ->
      Awsf.filter_by_service w resources (Some t) = []
      /\ forall (ratio : string -> string -> Q) (query : string),
           Awsf.find_matches query (Awsf.restrict w resources (Some t)) = []
           /\ quiet (trace (Awsf.search_with_query ratio w query (Some t)))
           /\ outcome (Awsf.search_with_query ratio w query (Some t)) = Ok tt
           /\ forall terms,
                Awsf.main ratio w (t :: terms)
                = ([ Print ("⚠️  Service '" ++ t ++ "' is disabled in settings.");
                     Print "💡 Use '--settings' to enable services or search all enabled services." ],
                   Ok tt)).
Proof.
  intros Hvalid.
  destruct (service_tag_facts t Hvalid) as [Hlow [Ht Hparse]].
  split.
  - intros Hon. unfold Awsf.filter_by_service. rewrite Ht, Hlow.
    unfold PyDict.comprehension. apply filter_absorb.
    intros [name r] _ Heq. simpl in *. apply String.eqb_eq in Heq.
    apply set_in_spec. unfold tag_of in Heq. rewrite Heq. exact Hon.
  - intros Hoff.
    assert (Hempty : forall rs, Awsf.restrict w rs (Some t) = []).
    { intros rs. unfold Awsf.restrict. cbn [Awsf.given]. rewrite Ht.
      now apply filter_by_service_disabled. }
    split; [now apply filter_by_service_disabled |].
    intros ratio query. rewrite Hempty.
    split; [reflexivity |].
    destruct (search_without_resources ratio w query (Some t)) as [Hq Ho];
      [intros rs _; apply Hempty |].
    repeat split; trivial.
    intros terms. unfold Awsf.main.
    assert (Hoff' : set_in t (Awsf.enabled_set (Awsf.load_settings w)) = false).
    { destruct (set_in t _) eqn:E; [| reflexivity].
      apply set_in_spec in E. contradiction. }
    rewrite Hparse. simpl in Hvalid.
    repeat (destruct Hvalid as [<- | Hvalid];
            [cbn -[set_in Awsf.load_settings Awsf.enabled_set];
             rewrite Hoff'; reflexivity |]).
    contradiction.
Qed.

Lemma service_filter_composition_witness :
  Awsf.filter_by_service (world_of orders_cache ["lambda"; "s3"]) orders_cache
    (Some "lambda")
  = PyDict.comprehension (fun _ r => String.eqb (tag_of r) "lambda") orders_cache
  /\ Awsf.filter_by_service (world_of orders_cache ["s3"]) orders_cache
       (Some "lambda") = [].
Proof.
  split.
  - apply (service_filter_composition
             (world_of orders_cache ["lambda"; "s3"]) orders_cache "lambda").
    + simpl. tauto.
    + simpl. tauto.
  - apply (service_filter_composition
             (world_of orders_cache ["s3"]) orders_cache "lambda").
    + simpl. tauto.
    + simpl. intros [H | []]. discriminate.
Defined.

(** ** The suggestion fallback *)

Lemma firstn_incl A (n : nat) (l : list A) (x : A) :
  In x (firstn n l) -> In x l.
Proof.
  revert l; induction n as [|n IH]; intros [|y l]; simpl; try tauto.
  intros [-> | H]; auto.
Qed.

Section SuggestionFacts.

Variable ratio : string -> string -> Q.

(** At most [n] names come back, each one of the possibilities and each
    scoring at least the cutoff. *)
Lemma get_close_matches_sound (word : string) (possibilities : list string)
  (n : nat) (cutoff : Q) :
  (List.length (Awsf.get_close_matches ratio word possibilities n cutoff) <= n)%nat
  /\ forall x,
       In x (Awsf.get_close_matches ratio word possibilities n cutoff) ->
       In x possibilities /\ (cutoff <= ratio x word)%Q.
Proof.
  unfold Awsf.get_close_matches. split.
  - rewrite length_map. apply firstn_le_length.
  - intros x Hin. apply in_map_iff in Hin. destruct Hin as [[q y] [Heq Hin]].
    simpl in Heq. subst y. apply firstn_incl, sorted_In in Hin.
    apply in_map_iff in Hin. destruct Hin as [y [Heq Hin]].
    inversion Heq; subst. apply filter_In in Hin. destruct Hin as [Hin Hle].
    split; [assumption | now apply Qle_bool_iff].
Qed.

Lemma keys_In V (d : PyDict.dict V) (k : string) :
  In k (PyDict.keys d) <-> exists v, In (k, v) d.
Proof.
  unfold PyDict.keys. rewrite in_map_iff. split.
  - intros [[k' v] [Heq Hin]]. simpl in Heq. subst. now exists v.
  - intros [v Hin]. now exists (k, v).
Qed.

(** What holds of the fallback on the code: there are at most three
    suggestions, each the name of a record the query works on and each
    scoring at least 0.3; with a service named, each belongs to an enabled
    service; and a search without a match opens nothing.  That it runs only
    then is [suggestions_only_without_match]. *)
Lemma suggestion_fallback_sound (w : Awsf.World) (resources : ResourceCache)
  (query : string) (service_filter : option string) :
  let visible := Awsf.restrict w resources service_filter in
  (List.length (Awsf.suggestions_for ratio query visible) <= 3)%nat
  /\ (forall s, In s (Awsf.suggestions_for ratio query visible) ->
                (3 # 10 <= ratio s query)%Q
                /\ exists r, In (s, r) visible
                             /\ (Awsf.given service_filter = true ->
                                 In (tag_of r) (enabled_in w)))
  /\ (Awsf.resources_file w = Awsf.Holds resources ->
      Awsf.find_matches query visible = [] ->
      quiet (trace (Awsf.search_with_query ratio w query service_filter))).
Proof.
  intros visible.
  destruct (get_close_matches_sound query (PyDict.keys visible) 3 (3 # 10))
    as [Hlen Hsound].
  split; [exact Hlen |]. split.
  - intros s Hin. destruct (Hsound s Hin) as [Hkey Hscore].
    split; [exact Hscore |].
    apply keys_In in Hkey. destruct Hkey as [r Hr]. exists r.
    split; [exact Hr |].
    intros Hgiven. now apply (restrict_hides_disabled w resources service_filter s).
  - intros Hfile Hnone.
    unfold Awsf.search_with_query, Awsf.load_aws_resources.
    rewrite Hfile, bind_ret_l.
    destruct resources as [|item resources']; [apply quiet_nil |].
    cbn [PyDict.truthy negb]. fold visible. rewrite Hnone.
    rewrite trace_bind. apply quiet_app; [apply quiet_print, quiet_nil |].
    cbn [outcome print emit snd].
    destruct (Awsf.suggestions_for ratio query visible) as [|s0 rest];
      [apply quiet_nil |].
    rewrite trace_bind. apply quiet_app; [apply quiet_print, quiet_nil |].
    cbn [outcome print emit snd].
    generalize (s0 :: rest). intros l.
    induction l as [|s l IH]; [apply quiet_nil |].
    cbn [for_each]. rewrite trace_bind. apply quiet_app.
    + unfold Awsf.subscript, Awsf.service_of.
      destruct (PyDict.get s visible) as [r|]; [| apply quiet_nil].
      rewrite bind_ret_l.
      destruct (service r) as [sv|]; [| apply quiet_nil].
      rewrite bind_ret_l. apply quiet_print, quiet_nil.
    + destruct (outcome _); [exact IH | apply quiet_nil].
Qed.

(** The fallback runs only after a search without a match: when there is
    a match, no suggestion is announced. *)
Lemma suggestions_only_without_match (w : Awsf.World)
  (resources : ResourceCache) (query : string)
  (service_filter : option string) :
  Awsf.resources_file w = Awsf.Holds resources ->
  Awsf.find_matches query (Awsf.restrict w resources service_filter) <> [] ->
  ~ In (Print "💡 Did you mean:")
       (trace (Awsf.search_with_query ratio w query service_filter)).
Proof.
  intros Hfile Hsome.
  unfold Awsf.search_with_query, Awsf.load_aws_resources.
  rewrite Hfile, bind_ret_l.
  destruct resources as [|item resources'].
  { rewrite restrict_nil in Hsome. now elim Hsome. }
  cbn [PyDict.truthy negb].
  destruct (Awsf.find_matches query _) as [|[name r] [|second rest]];
    [now elim Hsome | |].
  - destruct (PyStr.truthy (Awsf.get_or (url r) EmptyString)).
    + unfold Awsf.service_of. destruct (service r) as [sv|]; simpl;
        intros [H | H]; try discriminate H; try contradiction;
        destruct H as [H | []]; discriminate H.
    + simpl. intros [H | []]. discriminate H.
  - unfold Awsf.run_fzf_for_matches, Awsf.spawn_fzf.
    destruct (Awsf.fzf w _ _ _) as [e | | returncode stdout].
    + unfold try_except, raise, bind. cbn [find_handler].
      destruct (is_OSError e || _); simpl; [| tauto].
      intros [H | []]. discriminate H.
    + simpl. intros [H | []]. discriminate H.
    + unfold Awsf.open_selected. cbn [bind emit ret app].
      destruct ((returncode =? 0)%Z && PyStr.truthy (PyStr.strip stdout));
        [| simpl; intros [H | []]; discriminate H].
      destruct (4 <=? List.length (PyStr.split " | " (PyStr.strip stdout)))%nat;
        simpl.
      * intros [H | [H | [H | []]]]; discriminate H.
      * intros [H | []]; discriminate H.
Qed.

End SuggestionFacts.

(** C3 (the code departs from it). With only "s3" enabled and no service
    named, a search without a match draws its suggestions from the lambda
    records as well: "ordrs-prod" is answered with the names of the two
    lambda functions.  (The other parts of the claim hold on the code:
    [suggestion_fallback_sound].) *)
Theorem suggestion_names_disabled_service :
  let w := world_of orders_cache ["s3"] in
  enabled_in w = ["s3"]
  /\ Awsf.find_matches "ordrs-prod" (Awsf.restrict w orders_cache None) = []
  /\ Awsf.suggestions_for Difflib.ratio "ordrs-prod"
       (Awsf.restrict w orders_cache None)
     = ["orders-prod"; "orders-dev"]
  /\ Awsf.search_with_query Difflib.ratio w "ordrs-prod" None
     = ([ Print "❌ No resources found matching: 'ordrs-prod'";
          Print "💡 Did you mean:";
          Print "   • orders-prod (λ Lambda)";
          Print "   • orders-dev (λ Lambda)" ],
        Ok tt).
Proof. repeat split. Qed.

(** ** Dictionaries *)

Section DictFacts.

Variable V : Type.
Implicit Types (d o : PyDict.dict V) (k : string) (v : V).

Lemma get_set_same d k v : PyDict.get k (PyDict.set k v d) = Some v.
Proof.
  induction d as [|[k' v'] d IH]; simpl.
  - now rewrite String.eqb_refl.
  - destruct (String.eqb k k') eqn:E; simpl.
    + now rewrite String.eqb_refl.
    + now rewrite E.
Qed.

Lemma get_set_other d k k' v :
  k <> k' -> PyDict.get k (PyDict.set k' v d) = PyDict.get k d.
Proof.
  intros Hne. apply String.eqb_neq in Hne.
  induction d as [|[k0 v0] d IH]; simpl.
  - now rewrite Hne.
  - destruct (String.eqb k' k0) eqn:E; simpl.
    + apply String.eqb_eq in E. subst k0. now rewrite Hne.
    + destruct (String.eqb k k0); [reflexivity | exact IH].
Qed.

Lemma get_None d k : PyDict.get k d = None <-> ~ In k (PyDict.keys d).
Proof.
  induction d as [|[k' v'] d IH]; simpl; [tauto |].
  destruct (String.eqb k k') eqn:E.
  - apply String.eqb_eq in E. subst. split; [discriminate | tauto].
  - apply String.eqb_neq in E. rewrite IH. split; [intros H [Heq | Hin] | tauto];
      [now subst | contradiction].
Qed.

Lemma get_In d k v : PyDict.get k d = Some v -> In (k, v) d.
Proof.
  induction d as [|[k' v'] d IH]; simpl; [discriminate |].
  destruct (String.eqb k k') eqn:E.
  - apply String.eqb_eq in E. subst. intros H. inversion H. now left.
  - intros H. right. now apply IH.
Qed.

Lemma In_get d k v : PyDict.wf d -> In (k, v) d -> PyDict.get k d = Some v.
Proof.
  unfold PyDict.wf. induction d as [|[k' v'] d IH]; simpl; [tauto |].
  intros Hnd [Heq | Hin]; inversion Hnd as [|? ? Hnotin Hnd']; subst.
  - inversion Heq; subst. now rewrite String.eqb_refl.
  - destruct (String.eqb k k') eqn:E; [| now apply IH].
    apply String.eqb_eq in E. subst. exfalso. apply Hnotin.
    apply in_map_iff. now exists (k', v).
Qed.

Lemma set_absent d k v :
  ~ In k (PyDict.keys d) -> PyDict.set k v d = (d ++ [(k, v)])%list.
Proof.
  induction d as [|[k' v'] d IH]; simpl; [reflexivity |].
  intros Hnotin. destruct (String.eqb k k') eqn:E.
  - apply String.eqb_eq in E. subst. tauto.
  - rewrite IH; [reflexivity | tauto].
Qed.

Lemma keys_set d k v :
  PyDict.keys (PyDict.set k v d)
  = if PyDict.mem k d then PyDict.keys d else (PyDict.keys d ++ [k])%list.
Proof.
  unfold PyDict.mem. induction d as [|[k' v'] d IH]; simpl; [reflexivity |].
  destruct (String.eqb k k') eqn:E; simpl.
  - apply String.eqb_eq in E. now subst.
  - rewrite IH. now destruct (PyDict.get k d).
Qed.

Lemma wf_set d k v : PyDict.wf d -> PyDict.wf (PyDict.set k v d).
Proof.
  unfold PyDict.wf. rewrite keys_set. unfold PyDict.mem.
  destruct (PyDict.get k d) eqn:E; [trivial |].
  intros Hnd. apply get_None in E.
  apply NoDup_rev in Hnd. rewrite <- (rev_involutive (_ ++ _)).
  apply NoDup_rev. rewrite rev_app_distr. simpl. constructor; [| exact Hnd].
  now rewrite <- in_rev.
Qed.

Lemma In_set d k v k' v' :
  In (k', v') (PyDict.set k v d) -> (k', v') = (k, v) \/ In (k', v') d.
Proof.
  induction d as [|[k0 v0] d IH]; simpl.
  - intros [H | []]. now left.
  - destruct (String.eqb k k0); simpl; intros [H | H]; auto.
    destruct (IH H); auto.
Qed.

Lemma In_update d o k v :
  In (k, v) (PyDict.update d o) -> In (k, v) d \/ In (k, v) o.
Proof.
  unfold PyDict.update. revert d.
  induction o as [|[k' v'] o IH]; intros d; simpl; [now left |].
  intros H. destruct (IH _ H) as [H' | H']; [| auto].
  destruct (In_set _ _ _ _ _ H') as [Heq | Hin]; auto.
Qed.

Lemma wf_update d o : PyDict.wf d -> PyDict.wf (PyDict.update d o).
Proof.
  unfold PyDict.update. revert d.
  induction o as [|[k' v'] o IH]; intros d Hwf; simpl; [exact Hwf |].
  apply IH. now apply wf_set.
Qed.

(** After [d.update(o)] a key holds what [o] holds for it, and what [d]
    held when [o] does not have it. *)
Lemma get_update d o k :
  PyDict.wf o ->
  PyDict.get k (PyDict.update d o)
  = match PyDict.get k o with Some v => Some v | None => PyDict.get k d end.
Proof.
  unfold PyDict.update, PyDict.wf. revert d.
  induction o as [|[k' v'] o IH]; intros d Hnd; simpl; [reflexivity |].
  inversion Hnd as [|? ? Hnotin Hnd']; subst.
  rewrite (IH _ Hnd'). destruct (String.eqb k k') eqn:E.
  - apply String.eqb_eq in E. subst k'. apply get_None in Hnotin.
    now rewrite Hnotin, get_set_same.
  - apply String.eqb_neq in E. now rewrite (get_set_other _ _ _ _ E).
Qed.

Lemma update_app d o :
  NoDup (PyDict.keys (d ++ o)%list) -> PyDict.update d o = (d ++ o)%list.
Proof.
  unfold PyDict.update. revert d.
  induction o as [|[k v] o IH]; intros d Hnd; simpl.
  - now rewrite app_nil_r.
  - assert (Hk : ~ In k (PyDict.keys d)).
    { unfold PyDict.keys in *. rewrite map_app in Hnd. simpl in Hnd.
      apply NoDup_remove_2 in Hnd. intros Hin. apply Hnd.
      apply in_or_app. now left. }
    rewrite (set_absent _ _ _ Hk), IH; rewrite <- app_assoc; [reflexivity |].
    exact Hnd.
Qed.

End DictFacts.

(** ** Queue names and queue URLs *)

Lemma free_of_app (c : ascii) (a b : string) :
  free_of c (a ++ b) <-> free_of c a /\ free_of c b.
Proof. induction a as [|d a IH]; simpl; [tauto | rewrite IH; tauto]. Qed.

Lemma string_of_list_app (l1 l2 : list ascii) :
  string_of_list_ascii (l1 ++ l2)
  = string_of_list_ascii l1 ++ string_of_list_ascii l2.
Proof. induction l1 as [|c l1 IH]; simpl; [reflexivity | now rewrite IH]. Qed.

Lemma rev_cons (c : ascii) (s : string) :
  PyStr.rev (String c s) = PyStr.rev s ++ String c EmptyString.
Proof. unfold PyStr.rev. simpl. now rewrite string_of_list_app. Qed.

Lemma free_of_rev (c : ascii) (s : string) : free_of c s -> free_of c (PyStr.rev s).
Proof.
  induction s as [|d s IH]; [trivial |].
  intros [Hd Hs]. rewrite rev_cons. apply free_of_app. simpl. auto.
Qed.

Lemma split_aux_nonempty (sep s : string) (skip : nat) (cur : string) :
  PyStr.split_aux sep s skip cur <> [].
Proof.
  revert skip cur.
  induction s as [|c s IH]; intros skip cur; cbn [PyStr.split_aux];
    [discriminate |].
  destruct skip; [| apply IH].
  destruct (prefix sep (String c s)); [discriminate | apply IH].
Qed.

Lemma last_cons A (x : A) (l : list A) (d : A) :
  l <> [] -> last (x :: l) d = last l d.
Proof. destruct l; [congruence | reflexivity]. Qed.

(** The last piece of a split at "/" ends the string and has no "/". *)
Lemma split_slash_last (s cur : string) :
  let piece := last (PyStr.split_aux "/" s 0 cur) EmptyString in
  (exists pre, PyStr.rev cur ++ s = pre ++ piece)
  /\ (free_of "/" cur -> free_of "/" piece).
Proof.
  cbv zeta.
  revert cur. induction s as [|c s IH]; intros cur; cbn [PyStr.split_aux].
  - split.
    + exists EmptyString. simpl. apply append_nil_r.
    + simpl. apply free_of_rev.
  - change (prefix "/" (String c s))
      with (if ascii_dec "/" c then prefix EmptyString s else false).
    destruct (ascii_dec "/" c) as [<- | Hne].
    + replace (prefix EmptyString s) with true by (now destruct s).
      change (String.length "/" - 1) with 0.
      rewrite last_cons by apply split_aux_nonempty.
      destruct (IH EmptyString) as [[pre Hpre] Hfree]. split.
      * exists (PyStr.rev cur ++ String "/" pre).
        change (PyStr.rev EmptyString ++ s) with s in Hpre.
        rewrite append_assoc. simpl. now rewrite <- Hpre.
      * intros _. apply Hfree. exact I.
    + destruct (IH (String c cur)) as [[pre Hpre] Hfree]. split.
      * exists pre. rewrite <- Hpre, rev_cons, append_assoc. reflexivity.
      * intros Hcur. apply Hfree. simpl. split; [congruence | exact Hcur].
Qed.

Lemma replace_free (seg : string) :
  free_of "/" seg -> PyStr.replace_aux "://" "%3A//" seg 0 = seg.
Proof.
  induction seg as [|c seg IH]; [reflexivity |].
  intros [Hc Hseg]. cbn [PyStr.replace_aux].
  destruct (prefix "://" (String c seg)) eqn:E.
  - apply prefix_spec in E. destruct E as [post E]. simpl in E.
    inversion E; subst. simpl in Hseg. tauto.
  - now rewrite IH.
Qed.

(** Replacing "://" leaves a final piece without "/" where it is. *)
Lemma replace_keeps_suffix (pre seg : string) (skip : nat) :
  free_of "/" seg -> skip <= String.length pre ->
  exists out, PyStr.replace_aux "://" "%3A//" (pre ++ seg) skip = out ++ seg.
Proof.
  intros Hseg. revert skip.
  induction pre as [|c pre IH]; intros skip Hskip.
  - assert (skip = 0) by (simpl in Hskip; lia). subst.
    exists EmptyString. simpl. now apply replace_free.
  - change (String c pre ++ seg) with (String c (pre ++ seg)).
    cbn [PyStr.replace_aux]. destruct skip as [|skip].
    + destruct (prefix "://" (String c (pre ++ seg))) eqn:E.
      * change (String.length "://" - 1) with 2.
        apply prefix_spec in E. destruct E as [post E]. simpl in E.
        inversion E as [[Hc Hrest]].
        assert (Hlen : 2 <= String.length pre).
        { destruct pre as [|x [|y pre']]; simpl in Hrest.
          - subst seg. simpl in Hseg. tauto.
          - inversion Hrest; subst. simpl in Hseg. tauto.
          - simpl. lia. }
        destruct (IH 2 Hlen) as [out Hout]. exists ("%3A//" ++ out).
        rewrite Hout. now rewrite append_assoc.
      * destruct (IH 0 (Nat.le_0_l _)) as [out Hout].
        exists (String c out). now rewrite Hout.
    + simpl in Hskip. destruct (IH skip) as [out Hout]; [lia |].
      exists out. exact Hout.
Qed.

(** The name of a queue occurs in the escaped queue URL. *)
Lemma queue_name_in_url (queue_url : string) :
  PyStr.Substring (Populate.last_segment queue_url)
    (PyStr.replace "://" "%3A//" queue_url).
Proof.
  unfold Populate.last_segment, PyStr.split, PyStr.replace.
  destruct (split_slash_last queue_url EmptyString) as [[pre Hpre] Hfree].
  change (PyStr.rev EmptyString ++ queue_url) with queue_url in Hpre.
  set (piece := last (PyStr.split_aux "/" queue_url 0 EmptyString) EmptyString)
    in *.
  destruct (replace_keeps_suffix pre piece 0 (Hfree I) (Nat.le_0_l _))
    as [out Hout].
  rewrite <- Hpre in Hout. rewrite Hout.
  exists out, EmptyString. now rewrite append_nil_r.
Qed.

(** ** What the Collector stores *)

Lemma Substring_here (s b : string) : PyStr.Substring s (s ++ b).
Proof. now exists EmptyString, b. Qed.

Lemma Substring_skip (a s t : string) :
  PyStr.Substring s t -> PyStr.Substring s (a ++ t).
Proof.
  intros [pre [post H]]. exists (a ++ pre), post. subst.
  now rewrite append_assoc.
Qed.

Lemma Substring_in_console (region rest : string) :
  PyStr.Substring region (Populate.console region ++ rest).
Proof.
  unfold Populate.console. rewrite !append_assoc.
  apply Substring_skip, Substring_here.
Qed.

Ltac find_substring :=
  repeat first
    [ apply Substring_refl | apply Substring_here | apply queue_name_in_url
    | apply Substring_skip ].

Lemma identifier_is_name (name : string) (r : ResourceRecord) :
  PyDict.get "api_id" (extra r) = None -> identifier_of name r = name.
Proof. unfold identifier_of. now intros ->. Qed.

Lemma sound_empty (region : string) : sound region PyDict.empty.
Proof. split; [constructor | intros name r []]. Qed.

Lemma sound_wf (region : string) (d : ResourceCache) :
  sound region d -> PyDict.wf d.
Proof. now intros [H _]. Qed.

Lemma sound_set (region : string) (d : ResourceCache) (name : string)
  (r : ResourceRecord) :
  sound region d -> well_formed_record region name r -> storable r = true ->
  sound region (PyDict.set name r d).
Proof.
  intros [Hwf Hall] Hr Hs. split; [now apply wf_set |].
  intros name' r' Hin. apply In_set in Hin. destruct Hin as [Heq | Hin].
  - inversion Heq; subst. auto.
  - auto.
Qed.

Lemma sound_update (region : string) (d o : ResourceCache) :
  sound region d -> sound region o -> sound region (PyDict.update d o).
Proof.
  intros [Hwf Hall] [Hwf' Hall']. split; [now apply wf_update |].
  intros name r Hin. apply In_update in Hin. destruct Hin; auto.
Qed.

Section LoopFacts.

Variables A S : Type.
Variable body : A -> S -> result S.

Lemma loop_invariant (P : S -> Prop) (l : list A) (s : S) :
  (forall x s s', P s -> body x s = Ok s' -> P s') ->
  P s -> P (fst (Populate.loop body l s)).
Proof.
  intros Hstep. revert s. induction l as [|x l IH]; intros s Hs; simpl;
    [exact Hs |].
  destruct (body x s) as [s'|e] eqn:E; [| exact Hs].
  apply IH. now apply (Hstep x s).
Qed.

(** A loop whose body returns on every item runs to its end. *)
Lemma loop_completes (l : list A) (s : S) :
  (forall x s, In x l -> exists s', body x s = Ok s') ->
  snd (Populate.loop body l s) = None.
Proof.
  revert s. induction l as [|x l IH]; intros s Hok; simpl; [reflexivity |].
  destruct (Hok x s (in_eq x l)) as [s' ->].
  apply IH. intros y s0 Hin. apply Hok. now right.
Qed.

Variable P : Type.

Lemma loop_pages_invariant (Q : S -> Prop) (pages : Populate.paged P)
  (items_of : P -> list A) (s : S) :
  (forall x s s', Q s -> body x s = Ok s' -> Q s') ->
  Q s -> Q (fst (Populate.loop_pages pages items_of body s)).
Proof.
  intros Hstep Hs. unfold Populate.loop_pages.
  pose proof (loop_invariant Q (flat_map items_of (fst pages)) s Hstep Hs) as H.
  destruct (Populate.loop body _ s) as [s' [e|]]; exact H.
Qed.

Lemma loop_pages_completes (pages : Populate.paged P)
  (items_of : P -> list A) (s : S) :
  (forall x s, In x (flat_map items_of (fst pages)) ->
               exists s', body x s = Ok s') ->
  snd (Populate.loop_pages pages items_of body s) = snd pages.
Proof.
  intros Hok. unfold Populate.loop_pages.
  pose proof (loop_completes (flat_map items_of (fst pages)) s Hok) as H.
  destruct (Populate.loop body _ s) as [s' [e|]]; simpl in *;
    [discriminate | reflexivity].
Qed.

End LoopFacts.

Lemma Ok_inj A (a b : A) : Ok a = Ok b -> a = b.
Proof. now intros [= ->]. Qed.

Ltac record_facts :=
  unfold well_formed_record; cbn [service rtype url extra];
  repeat split;
  [ eexists; split; [reflexivity | discriminate]
  | eexists; split; [reflexivity | discriminate]
  | eexists; split; [reflexivity |];
    split;
    [ first [ apply Substring_in_console | find_substring ]
    | first [ rewrite identifier_is_name by reflexivity | idtac ];
      find_substring ] ].

Lemma store_function_sound (region : string) (func : Populate.LambdaFunction)
  (d d' : ResourceCache) :
  sound region d -> Populate.store_function region func d = Ok d' ->
  sound region d'.
Proof.
  unfold Populate.store_function, Populate.item. intros Hd.
  destruct (Populate.FunctionName func) as [name|]; [| discriminate].
  destruct (Populate.FunctionArn func) as [arn|]; [| discriminate].
  intros H. apply Ok_inj in H. subst d'.
  apply sound_set; [assumption | record_facts | reflexivity].
Qed.

Lemma store_bucket_sound (region : string) (bucket : Populate.Bucket)
  (d d' : ResourceCache) :
  sound region d -> Populate.store_bucket region bucket d = Ok d' ->
  sound region d'.
Proof.
  unfold Populate.store_bucket, Populate.item. intros Hd.
  destruct (Populate.Name bucket) as [name|]; [| discriminate].
  intros H. apply Ok_inj in H. subst d'.
  apply sound_set; [assumption | record_facts | reflexivity].
Qed.

Lemma store_queue_sound (region queue_url : string) (d d' : ResourceCache) :
  sound region d -> Populate.store_queue region queue_url d = Ok d' ->
  sound region d'.
Proof.
  unfold Populate.store_queue. intros Hd H. apply Ok_inj in H. subst d'.
  apply sound_set; [assumption | record_facts | reflexivity].
Qed.

Lemma store_stream_sound (sdk : Populate.Sdk) (region stream_name : string)
  (d d' : ResourceCache) :
  sound region d -> Populate.store_stream sdk region stream_name d = Ok d' ->
  sound region d'.
Proof.
  unfold Populate.store_stream, Populate.item. intros Hd.
  destruct (Populate.describe_stream sdk region stream_name) as [details|e].
  - destruct (Populate.StreamDescription details) as [info|]; [| discriminate].
    intros H. apply Ok_inj in H. subst d'.
    apply sound_set; [assumption | record_facts | reflexivity].
  - destruct (is_ClientError e); [| discriminate].
    intros H. apply Ok_inj in H. subst d'. exact Hd.
Qed.

Lemma store_table_sound (sdk : Populate.Sdk) (region table_name : string)
  (d d' : ResourceCache) :
  sound region d -> Populate.store_table sdk region table_name d = Ok d' ->
  sound region d'.
Proof.
  unfold Populate.store_table, Populate.item. intros Hd.
  destruct (Populate.describe_table sdk region table_name) as [details|e].
  - destruct (Populate.Table details) as [info|]; [| discriminate].
    intros H. apply Ok_inj in H. subst d'.
    apply sound_set; [assumption | record_facts | reflexivity].
  - destruct (is_ClientError e); [| discriminate].
    intros H. apply Ok_inj in H. subst d'. exact Hd.
Qed.

Lemma store_instance_sound (region : string) (instance : Populate.DBInstance)
  (d d' : ResourceCache) :
  sound region d -> Populate.store_instance region instance d = Ok d' ->
  sound region d'.
Proof.
  unfold Populate.store_instance, Populate.item. intros Hd.
  destruct (Populate.DBInstanceIdentifier instance) as [name|]; [| discriminate].
  intros H. apply Ok_inj in H. subst d'.
  apply sound_set; [assumption | record_facts | reflexivity].
Qed.

Lemma store_cluster_sound (region : string) (cluster : Populate.DBCluster)
  (d d' : ResourceCache) :
  sound region d -> Populate.store_cluster region cluster d = Ok d' ->
  sound region d'.
Proof.
  unfold Populate.store_cluster, Populate.item. intros Hd.
  destruct (Populate.DBClusterIdentifier cluster) as [name|]; [| discriminate].
  intros H. apply Ok_inj in H. subst d'.
  apply sound_set; [assumption | record_facts | reflexivity].
Qed.

Lemma store_api_sound (region : string) (api : Populate.RestApi)
  (d d' : ResourceCache) :
  sound region d -> Populate.store_api region api d = Ok d' ->
  sound region d'.
Proof.
  unfold Populate.store_api, Populate.item. intros Hd.
  destruct (Populate.api_name api) as [name|]; [| discriminate].
  destruct (Populate.id api) as [api_id|]; [| discriminate].
  intros H. apply Ok_inj in H. subst d'.
  apply sound_set; [assumption | record_facts | reflexivity].
Qed.

(** ** Outcomes of programs *)

Lemma outcome_ret A (a : A) : outcome (ret a) = Ok a.
Proof. reflexivity. Qed.

Lemma outcome_print (text : string) : outcome (print text) = Ok tt.
Proof. reflexivity. Qed.

Lemma outcome_emit (e : event) : outcome (emit e) = Ok tt.
Proof. reflexivity. Qed.

Lemma outcome_raise A (e : exn) : outcome (@raise A e) = Raise e.
Proof. reflexivity. Qed.

Lemma outcome_lift A (r : result A) : outcome (Populate.lift r) = r.
Proof. reflexivity. Qed.

Lemma outcome_finish S (r : S * option exn) :
  outcome (Populate.finish r)
  = match snd r with None => Ok (fst r) | Some e => Raise e end.
Proof. unfold Populate.finish. now destruct (snd r). Qed.

Lemma outcome_check S (r : S * option exn) :
  outcome (Populate.check r)
  = match snd r with None => Ok tt | Some e => Raise e end.
Proof. unfold Populate.check. now destruct (snd r). Qed.

Lemma outcome_try_except A (m : prog A)
  (clauses : list ((exn -> bool) * (exn -> prog A))) :
  outcome (try_except m clauses)
  = match outcome m with
    | Ok a => Ok a
    | Raise e =>
        match find_handler clauses e with
        | Some handler => outcome (handler e)
        | None => Raise e
        end
    end.
Proof.
  destruct m as [t [a|e]]; simpl; [reflexivity |].
  destruct (find_handler clauses e) as [h|]; [| reflexivity].
  now destruct (h e).
Qed.

Create Rewrite HintDb outcomes.

#[local] Hint Rewrite outcome_bind outcome_try_except outcome_ret
  outcome_print outcome_emit outcome_raise outcome_lift outcome_finish
  outcome_check : outcomes.

(** Case analysis on an innermost scrutinee of the goal, or of [H]. *)
Ltac split_match :=
  match goal with
  | |- context [match ?x with _ => _ end] =>
      lazymatch x with
      | context [match _ with _ => _ end] => fail
      | _ => destruct x eqn:?
      end
  end.

Ltac split_match_in H :=
  match type of H with
  | context [match ?x with _ => _ end] =>
      lazymatch x with
      | context [match _ with _ => _ end] => fail
      | _ => destruct x eqn:?
      end
  end.

(** ** What the fetchers return *)

Lemma scan_functions_sound (sdk : Populate.Sdk) (region : string) :
  sound region (fst (Populate.scan_functions sdk region)).
Proof.
  unfold Populate.scan_functions.
  apply loop_pages_invariant with (Q := sound region); [| apply sound_empty].
  intros x s s'. apply store_function_sound.
Qed.

Lemma scan_buckets_sound (region : string) (response : Populate.ListBucketsOutput) :
  sound region (fst (Populate.scan_buckets region response)).
Proof.
  unfold Populate.scan_buckets.
  apply loop_invariant with (P := sound region); [| apply sound_empty].
  intros x s s'. apply store_bucket_sound.
Qed.

Lemma scan_queues_sound (region : string) (response : Populate.ListQueuesOutput) :
  sound region (fst (Populate.scan_queues region response)).
Proof.
  unfold Populate.scan_queues.
  apply loop_invariant with (P := sound region); [| apply sound_empty].
  intros x s s'. apply store_queue_sound.
Qed.

Lemma scan_streams_sound (sdk : Populate.Sdk) (region : string) :
  sound region (fst (Populate.scan_streams sdk region)).
Proof.
  unfold Populate.scan_streams.
  apply loop_pages_invariant with (Q := sound region); [| apply sound_empty].
  intros x s s'. apply store_stream_sound.
Qed.

Lemma scan_tables_sound (sdk : Populate.Sdk) (region : string) :
  sound region (fst (Populate.scan_tables sdk region)).
Proof.
  unfold Populate.scan_tables.
  apply loop_pages_invariant with (Q := sound region); [| apply sound_empty].
  intros x s s'. apply store_table_sound.
Qed.

Lemma scan_instances_sound (sdk : Populate.Sdk) (region : string) :
  sound region (fst (Populate.scan_instances sdk region)).
Proof.
  unfold Populate.scan_instances.
  apply loop_pages_invariant with (Q := sound region); [| apply sound_empty].
  intros x s s'. apply store_instance_sound.
Qed.

Lemma scan_clusters_sound (sdk : Populate.Sdk) (region : string)
  (start : ResourceCache) :
  sound region start -> sound region (fst (Populate.scan_clusters sdk region start)).
Proof.
  intros Hstart. unfold Populate.scan_clusters.
  apply loop_pages_invariant with (Q := sound region); [| exact Hstart].
  intros x s s'. apply store_cluster_sound.
Qed.

Lemma scan_apis_sound (region : string) (response : Populate.GetRestApisOutput) :
  sound region (fst (Populate.scan_apis region response)).
Proof.
  unfold Populate.scan_apis.
  apply loop_invariant with (P := sound region); [| apply sound_empty].
  intros x s s'. apply store_api_sound.
Qed.

Create HintDb collector.

#[local] Hint Resolve sound_empty scan_functions_sound scan_buckets_sound
  scan_queues_sound scan_streams_sound scan_tables_sound scan_instances_sound
  scan_clusters_sound scan_apis_sound : collector.

(** Whatever a fetcher returns is sound. *)
Ltac fetcher_sound :=
  intros H; autorewrite with outcomes in H; cbn [find_handler] in H;
  repeat (split_match_in H; autorewrite with outcomes in H;
          cbn [find_handler] in H; try discriminate H);
  apply Ok_inj in H; subst; auto with collector.

Lemma fetch_lambda_functions_sound (sdk : Populate.Sdk) (region : string)
  (d : ResourceCache) :
  outcome (Populate.fetch_lambda_functions sdk region) = Ok d -> sound region d.
Proof. unfold Populate.fetch_lambda_functions. fetcher_sound. Qed.

Lemma fetch_s3_buckets_sound (sdk : Populate.Sdk) (region : string)
  (d : ResourceCache) :
  outcome (Populate.fetch_s3_buckets sdk region) = Ok d -> sound region d.
Proof. unfold Populate.fetch_s3_buckets. fetcher_sound. Qed.

Lemma fetch_sqs_queues_sound (sdk : Populate.Sdk) (region : string)
  (d : ResourceCache) :
  outcome (Populate.fetch_sqs_queues sdk region) = Ok d -> sound region d.
Proof. unfold Populate.fetch_sqs_queues. fetcher_sound. Qed.

Lemma fetch_kinesis_streams_sound (sdk : Populate.Sdk) (region : string)
  (d : ResourceCache) :
  outcome (Populate.fetch_kinesis_streams sdk region) = Ok d -> sound region d.
Proof. unfold Populate.fetch_kinesis_streams. fetcher_sound. Qed.

Lemma fetch_dynamodb_tables_sound (sdk : Populate.Sdk) (region : string)
  (d : ResourceCache) :
  outcome (Populate.fetch_dynamodb_tables sdk region) = Ok d -> sound region d.
Proof. unfold Populate.fetch_dynamodb_tables. fetcher_sound. Qed.

Lemma fetch_rds_resources_sound (sdk : Populate.Sdk) (region : string)
  (d : ResourceCache) :
  outcome (Populate.fetch_rds_resources sdk region) = Ok d -> sound region d.
Proof. unfold Populate.fetch_rds_resources. fetcher_sound. Qed.

Lemma fetch_api_gateway_apis_sound (sdk : Populate.Sdk) (region : string)
  (d : ResourceCache) :
  outcome (Populate.fetch_api_gateway_apis sdk region) = Ok d -> sound region d.
Proof. unfold Populate.fetch_api_gateway_apis. fetcher_sound. Qed.

(** ** The merged cache *)

(** [fetch_all] returns when the seven fetchers do, and then returns the
    merge of what they returned, in the order of [main]. *)
Lemma fetch_all_outcome (sdk : Populate.Sdk) (region : string)
  (all : ResourceCache) :
  outcome (Populate.fetch_all sdk region) = Ok all <->
  exists ds,
    Forall2 (fun f d => outcome (snd f sdk region) = Ok d) fetch_table ds
    /\ all = merge ds.
Proof.
  unfold Populate.fetch_all. split.
  - intros H. autorewrite with outcomes in H.
    repeat (split_match_in H; [| discriminate H];
            autorewrite with outcomes in H).
    apply Ok_inj in H. subst all.
    eexists. split.
    + unfold fetch_table. repeat (constructor; [cbn [snd]; eassumption |]).
      constructor.
    + reflexivity.
  - intros [ds [Hall ->]]. unfold fetch_table in Hall.
    repeat match goal with
           | H : Forall2 _ (_ :: _) _ |- _ => inversion H; subst; clear H
           | H : Forall2 _ [] _ |- _ => inversion H; subst; clear H
           end.
    cbn [snd] in *.
    repeat (autorewrite with outcomes;
            match goal with
            | H : outcome _ = Ok _ |- _ => rewrite H; clear H
            end).
    reflexivity.
Qed.

Lemma merge_sound (region : string) (ds : list ResourceCache) :
  Forall (sound region) ds -> sound region (merge ds).
Proof.
  unfold merge. generalize (sound_empty region).
  generalize (@PyDict.empty ResourceRecord).
  induction ds as [|d ds IH]; intros acc Hacc Hall; simpl; [exact Hacc |].
  inversion Hall; subst. apply IH; [now apply sound_update | assumption].
Qed.

Lemma fetch_all_sound (sdk : Populate.Sdk) (region : string)
  (all : ResourceCache) :
  outcome (Populate.fetch_all sdk region) = Ok all -> sound region all.
Proof.
  intros H. apply fetch_all_outcome in H. destruct H as [ds [Hall ->]].
  apply merge_sound. unfold fetch_table in Hall.
  repeat match goal with
         | H : Forall2 _ (_ :: _) _ |- _ => inversion H; subst; clear H
         | H : Forall2 _ [] _ |- _ => inversion H; subst; clear H
         end.
  cbn [snd] in *.
  repeat (apply Forall_cons;
          [ eauto using fetch_lambda_functions_sound, fetch_s3_buckets_sound,
              fetch_sqs_queues_sound, fetch_kinesis_streams_sound,
              fetch_dynamodb_tables_sound, fetch_rds_resources_sound,
              fetch_api_gateway_apis_sound |]).
  apply Forall_nil.
Qed.

(** ** Valid answers make the fetchers return *)

Lemma loop_pages_ends A P (body : A -> ResourceCache -> result ResourceCache)
  (pages : Populate.paged P) (items_of : P -> list A) (ok : A -> bool)
  (start : ResourceCache) :
  forallb ok (flat_map items_of (fst pages)) = true ->
  (forall x s, ok x = true -> exists s', body x s = Ok s') ->
  snd (Populate.loop_pages pages items_of body start) = snd pages.
Proof.
  intros Hall Hok. apply loop_pages_completes.
  intros x s Hin. apply Hok.
  rewrite forallb_forall in Hall. now apply Hall.
Qed.

Lemma loop_ends A (body : A -> ResourceCache -> result ResourceCache)
  (l : list A) (ok : A -> bool) :
  forallb ok l = true ->
  (forall x s, ok x = true -> exists s', body x s = Ok s') ->
  snd (Populate.loop body l PyDict.empty) = None.
Proof.
  intros Hall Hok. apply loop_completes.
  intros x s Hin. apply Hok.
  rewrite forallb_forall in Hall. now apply Hall.
Qed.

(** The run of a fetcher over a paginated call whose answer is valid: an
    error message and no record when the client or the call failed, the
    count and the records otherwise. *)
Lemma paged_fetcher_run (c : result unit) (scan : ResourceCache * option exn)
  (found : ResourceCache -> string) (err : exn -> string) :
  answered c (fun _ => true) = true ->
  match snd scan with None => true | Some e => is_ClientError e end = true ->
  try_except
    (Populate.lift c ;;
     x <- Populate.finish scan ;;
     print (found x) ;;
     ret x)
    [ (is_ClientError, fun e => print (err e) ;; ret PyDict.empty) ]
  = match c, snd scan with
    | Raise e, _ | Ok _, Some e => ([Print (err e)], Ok PyDict.empty)
    | Ok _, None => ([Print (found (fst scan))], Ok (fst scan))
    end.
Proof.
  destruct c as [u|e]; destruct scan as [d [e'|]]; simpl; intros Hc Hs;
    try rewrite Hc; try rewrite Hs; reflexivity.
Qed.

(** The same over a call that is not paginated. *)
Lemma call_fetcher_run A (c : result unit) (r : result A)
  (scan : A -> ResourceCache * option exn)
  (found : ResourceCache -> string) (err : exn -> string) :
  answered c (fun _ => true) = true ->
  answered r (fun a => match snd (scan a) with None => true | _ => false end)
  = true ->
  try_except
    (Populate.lift c ;;
     response <- Populate.lift r ;;
     x <- Populate.finish (scan response) ;;
     print (found x) ;;
     ret x)
    [ (is_ClientError, fun e => print (err e) ;; ret PyDict.empty) ]
  = match c, r with
    | Raise e, _ | Ok _, Raise e => ([Print (err e)], Ok PyDict.empty)
    | Ok _, Ok a => ([Print (found (fst (scan a)))], Ok (fst (scan a)))
    end.
Proof.
  destruct c as [u|e]; destruct r as [a|e']; simpl; intros Hc Hr;
    try rewrite Hc; try rewrite Hr; try reflexivity.
  destruct (scan a) as [d [e''|]]; simpl in *; [discriminate | reflexivity].
Qed.

Lemma store_function_returns (region : string) (f : Populate.LambdaFunction)
  (s : ResourceCache) :
  present (Populate.FunctionName f) && present (Populate.FunctionArn f) = true ->
  exists s', Populate.store_function region f s = Ok s'.
Proof.
  unfold Populate.store_function.
  destruct (Populate.FunctionName f), (Populate.FunctionArn f);
    try discriminate. intros _. eexists. reflexivity.
Qed.

Lemma store_bucket_returns (region : string) (b : Populate.Bucket)
  (s : ResourceCache) :
  present (Populate.Name b) = true ->
  exists s', Populate.store_bucket region b s = Ok s'.
Proof.
  unfold Populate.store_bucket.
  destruct (Populate.Name b); try discriminate. intros _. eexists. reflexivity.
Qed.

Lemma store_stream_returns (sdk : Populate.Sdk) (region n : string)
  (s : ResourceCache) :
  answered (Populate.describe_stream sdk region n)
    (fun d => present (Populate.StreamDescription d)) = true ->
  exists s', Populate.store_stream sdk region n s = Ok s'.
Proof.
  unfold Populate.store_stream.
  destruct (Populate.describe_stream sdk region n) as [d|e]; simpl.
  - destruct (Populate.StreamDescription d); try discriminate.
    intros _. eexists. reflexivity.
  - intros ->. eexists. reflexivity.
Qed.

Lemma store_table_returns (sdk : Populate.Sdk) (region n : string)
  (s : ResourceCache) :
  answered (Populate.describe_table sdk region n)
    (fun d => present (Populate.Table d)) = true ->
  exists s', Populate.store_table sdk region n s = Ok s'.
Proof.
  unfold Populate.store_table.
  destruct (Populate.describe_table sdk region n) as [d|e]; simpl.
  - destruct (Populate.Table d); try discriminate.
    intros _. eexists. reflexivity.
  - intros ->. eexists. reflexivity.
Qed.

Lemma store_instance_returns (region : string) (i : Populate.DBInstance)
  (s : ResourceCache) :
  present (Populate.DBInstanceIdentifier i) = true ->
  exists s', Populate.store_instance region i s = Ok s'.
Proof.
  unfold Populate.store_instance.
  destruct (Populate.DBInstanceIdentifier i); try discriminate.
  intros _. eexists. reflexivity.
Qed.

Lemma store_cluster_returns (region : string) (c : Populate.DBCluster)
  (s : ResourceCache) :
  present (Populate.DBClusterIdentifier c) = true ->
  exists s', Populate.store_cluster region c s = Ok s'.
Proof.
  unfold Populate.store_cluster.
  destruct (Populate.DBClusterIdentifier c); try discriminate.
  intros _. eexists. reflexivity.
Qed.

Lemma store_api_returns (region : string) (a : Populate.RestApi)
  (s : ResourceCache) :
  present (Populate.api_name a) && present (Populate.id a) = true ->
  exists s', Populate.store_api region a s = Ok s'.
Proof.
  unfold Populate.store_api.
  destruct (Populate.api_name a), (Populate.id a); try discriminate.
  intros _. eexists. reflexivity.
Qed.

(** *** The runs of the seven fetchers on valid answers *)

Lemma fetch_lambda_functions_run (sdk : Populate.Sdk) (region : string) :
  valid_lambda sdk region = true ->
  Populate.fetch_lambda_functions sdk region
  = match Populate.client sdk "lambda",
          snd (Populate.list_functions sdk region) with
    | Raise e, _ | Ok _, Some e =>
        ([Print ("   ❌ Error fetching Lambda functions: " ++ exn_str e)],
         Ok PyDict.empty)
    | Ok _, None =>
        ([Print ("   ✅ Found "
                 ++ PyStr.of_nat
                      (List.length (fst (Populate.scan_functions sdk region)))
                 ++ " Lambda functions")],
         Ok (fst (Populate.scan_functions sdk region)))
    end.
Proof.
  unfold valid_lambda. intros Hv.
  apply andb_true_iff in Hv. destruct Hv as [Hv Hids].
  apply andb_true_iff in Hv. destruct Hv as [Hc He].
  assert (Hs : snd (Populate.scan_functions sdk region)
               = snd (Populate.list_functions sdk region)).
  { eapply loop_pages_ends; [exact Hids |].
    intros x s Hx. now apply store_function_returns. }
  rewrite <- Hs. unfold ended_well in He. rewrite <- Hs in He.
  unfold Populate.fetch_lambda_functions.
  now apply paged_fetcher_run.
Qed.

Lemma fetch_s3_buckets_run (sdk : Populate.Sdk) (region : string) :
  valid_s3 sdk = true ->
  Populate.fetch_s3_buckets sdk region
  = match Populate.client sdk "s3", Populate.list_buckets sdk with
    | Raise e, _ | Ok _, Raise e =>
        ([Print ("   ❌ Error fetching S3 buckets: " ++ exn_str e)],
         Ok PyDict.empty)
    | Ok _, Ok response =>
        ([Print ("   ✅ Found "
                 ++ PyStr.of_nat
                      (List.length (fst (Populate.scan_buckets region response)))
                 ++ " S3 buckets")],
         Ok (fst (Populate.scan_buckets region response)))
    end.
Proof.
  unfold valid_s3. intros Hv.
  apply andb_true_iff in Hv. destruct Hv as [Hc Hr].
  unfold Populate.fetch_s3_buckets.
  apply call_fetcher_run; [exact Hc |].
  destruct (Populate.list_buckets sdk) as [response|e]; [| exact Hr].
  simpl in *. unfold Populate.scan_buckets.
  erewrite loop_ends; [reflexivity | exact Hr |].
  intros x s Hx. now apply store_bucket_returns.
Qed.

Lemma fetch_sqs_queues_run (sdk : Populate.Sdk) (region : string) :
  valid_sqs sdk region = true ->
  Populate.fetch_sqs_queues sdk region
  = match Populate.client sdk "sqs", Populate.list_queues sdk region with
    | Raise e, _ | Ok _, Raise e =>
        ([Print ("   ❌ Error fetching SQS queues: " ++ exn_str e)],
         Ok PyDict.empty)
    | Ok _, Ok response =>
        ([Print ("   ✅ Found "
                 ++ PyStr.of_nat
                      (List.length (fst (Populate.scan_queues region response)))
                 ++ " SQS queues")],
         Ok (fst (Populate.scan_queues region response)))
    end.
Proof.
  unfold valid_sqs. intros Hv.
  apply andb_true_iff in Hv. destruct Hv as [Hc Hr].
  unfold Populate.fetch_sqs_queues.
  apply call_fetcher_run; [exact Hc |].
  destruct (Populate.list_queues sdk region) as [response|e]; [| exact Hr].
  simpl. unfold Populate.scan_queues.
  erewrite loop_ends with (ok := fun _ => true); [reflexivity | |].
  - apply forallb_forall. reflexivity.
  - intros x s _. eexists. reflexivity.
Qed.

Lemma fetch_kinesis_streams_run (sdk : Populate.Sdk) (region : string) :
  valid_kinesis sdk region = true ->
  Populate.fetch_kinesis_streams sdk region
  = match Populate.client sdk "kinesis",
          snd (Populate.list_streams sdk region) with
    | Raise e, _ | Ok _, Some e =>
        ([Print ("   ❌ Error fetching Kinesis streams: " ++ exn_str e)],
         Ok PyDict.empty)
    | Ok _, None =>
        ([Print ("   ✅ Found "
                 ++ PyStr.of_nat
                      (List.length (fst (Populate.scan_streams sdk region)))
                 ++ " Kinesis streams")],
         Ok (fst (Populate.scan_streams sdk region)))
    end.
Proof.
  unfold valid_kinesis. intros Hv.
  apply andb_true_iff in Hv. destruct Hv as [Hv Hids].
  apply andb_true_iff in Hv. destruct Hv as [Hc He].
  assert (Hs : snd (Populate.scan_streams sdk region)
               = snd (Populate.list_streams sdk region)).
  { eapply loop_pages_ends; [exact Hids |].
    intros x s Hx. now apply store_stream_returns. }
  rewrite <- Hs. unfold ended_well in He. rewrite <- Hs in He.
  unfold Populate.fetch_kinesis_streams.
  now apply paged_fetcher_run.
Qed.

Lemma fetch_dynamodb_tables_run (sdk : Populate.Sdk) (region : string) :
  valid_dynamodb sdk region = true ->
  Populate.fetch_dynamodb_tables sdk region
  = match Populate.client sdk "dynamodb",
          snd (Populate.list_tables sdk region) with
    | Raise e, _ | Ok _, Some e =>
        ([Print ("   ❌ Error fetching DynamoDB tables: " ++ exn_str e)],
         Ok PyDict.empty)
    | Ok _, None =>
        ([Print ("   ✅ Found "
                 ++ PyStr.of_nat
                      (List.length (fst (Populate.scan_tables sdk region)))
                 ++ " DynamoDB tables")],
         Ok (fst (Populate.scan_tables sdk region)))
    end.
Proof.
  unfold valid_dynamodb. intros Hv.
  apply andb_true_iff in Hv. destruct Hv as [Hv Hids].
  apply andb_true_iff in Hv. destruct Hv as [Hc He].
  assert (Hs : snd (Populate.scan_tables sdk region)
               = snd (Populate.list_tables sdk region)).
  { eapply loop_pages_ends; [exact Hids |].
    intros x s Hx. now apply store_table_returns. }
  rewrite <- Hs. unfold ended_well in He. rewrite <- Hs in He.
  unfold Populate.fetch_dynamodb_tables.
  now apply paged_fetcher_run.
Qed.

Lemma fetch_api_gateway_apis_run (sdk : Populate.Sdk) (region : string) :
  valid_apigateway sdk region = true ->
  Populate.fetch_api_gateway_apis sdk region
  = match Populate.client sdk "apigateway",
          Populate.get_rest_apis sdk region with
    | Raise e, _ | Ok _, Raise e =>
        ([Print ("   ❌ Error fetching API Gateway APIs: " ++ exn_str e)],
         Ok PyDict.empty)
    | Ok _, Ok response =>
        ([Print ("   ✅ Found "
                 ++ PyStr.of_nat
                      (List.length (fst (Populate.scan_apis region response)))
                 ++ " API Gateway APIs")],
         Ok (fst (Populate.scan_apis region response)))
    end.
Proof.
  unfold valid_apigateway. intros Hv.
  apply andb_true_iff in Hv. destruct Hv as [Hc Hr].
  unfold Populate.fetch_api_gateway_apis.
  apply call_fetcher_run; [exact Hc |].
  destruct (Populate.get_rest_apis sdk region) as [response|e]; [| exact Hr].
  simpl in *. unfold Populate.scan_apis.
  erewrite loop_ends; [reflexivity | exact Hr |].
  intros x s Hx. now apply store_api_returns.
Qed.

(** The warning of a loop of [fetch_rds_resources] that failed. *)
Lemma rds_loop_trace (warn : exn -> string) (scan : ResourceCache * option exn) :
  match snd scan with None => true | Some e => is_ClientError e end = true ->
  try_except (Populate.check scan)
    [ (is_ClientError, fun e => print (warn e)) ]
  = (match snd scan with None => [] | Some e => [Print (warn e)] end, Ok tt).
Proof.
  destruct scan as [d [e|]]; simpl; [| reflexivity].
  unfold Populate.check. simpl. now intros ->.
Qed.

Lemma fetch_rds_resources_run (sdk : Populate.Sdk) (region : string) :
  valid_rds sdk region = true ->
  let instances := Populate.scan_instances sdk region in
  let clusters := Populate.scan_clusters sdk region (fst instances) in
  Populate.fetch_rds_resources sdk region
  = match Populate.client sdk "rds" with
    | Raise e =>
        ([Print ("   ❌ Error fetching RDS resources: " ++ exn_str e)],
         Ok PyDict.empty)
    | Ok _ =>
        ((match snd (Populate.describe_db_instances sdk region) with
          | None => []
          | Some e =>
              [Print ("   ⚠️  Error fetching RDS instances: " ++ exn_str e)]
          end
          ++ match snd (Populate.describe_db_clusters sdk region) with
             | None => []
             | Some e =>
                 [Print ("   ⚠️  Error fetching RDS clusters: " ++ exn_str e)]
             end
          ++ [Print ("   ✅ Found "
                     ++ PyStr.of_nat (List.length (fst clusters))
                     ++ " RDS resources")])%list,
         Ok (fst clusters))
    end.
Proof.
  intros Hv instances clusters. unfold valid_rds in Hv.
  apply andb_true_iff in Hv. destruct Hv as [Hv Hcids].
  apply andb_true_iff in Hv. destruct Hv as [Hv Hce].
  apply andb_true_iff in Hv. destruct Hv as [Hv Hiids].
  apply andb_true_iff in Hv. destruct Hv as [Hc Hie].
  assert (Hi : snd instances = snd (Populate.describe_db_instances sdk region)).
  { eapply loop_pages_ends; [exact Hiids |].
    intros x s Hx. now apply store_instance_returns. }
  assert (Hk : snd clusters = snd (Populate.describe_db_clusters sdk region)).
  { eapply loop_pages_ends; [exact Hcids |].
    intros x s Hx. now apply store_cluster_returns. }
  unfold ended_well in Hie, Hce. rewrite <- Hi in Hie. rewrite <- Hk in Hce.
  rewrite <- Hi, <- Hk.
  unfold Populate.fetch_rds_resources. fold instances. fold clusters.
  pose proof (rds_loop_trace
                (fun e => "   ⚠️  Error fetching RDS instances: " ++ exn_str e)
                instances Hie) as Ti.
  pose proof (rds_loop_trace
                (fun e => "   ⚠️  Error fetching RDS clusters: " ++ exn_str e)
                clusters Hce) as Tk.
  cbv beta in Ti, Tk.
  destruct (Populate.client sdk "rds") as [u|e]; simpl in Hc.
  - cbn [Populate.lift bind app]. rewrite Ti, Tk.
    destruct (snd instances), (snd clusters); reflexivity.
  - unfold try_except, bind, Populate.lift. simpl. now rewrite Hc.
Qed.


Lemma fetch_all_returns (sdk : Populate.Sdk) (region : string) :
  valid_responses sdk region = true ->
  exists all, outcome (Populate.fetch_all sdk region) = Ok all.
Proof.
  unfold valid_responses. intros Hv.
  do 6 (apply andb_true_iff in Hv; destruct Hv as [Hv ?]).
  assert (exists d, outcome (Populate.fetch_lambda_functions sdk region) = Ok d)
    as [d1 E1].
  { rewrite fetch_lambda_functions_run by assumption.
    destruct (Populate.client sdk "lambda"),
      (snd (Populate.list_functions sdk region)); eexists; reflexivity. }
  assert (exists d, outcome (Populate.fetch_s3_buckets sdk region) = Ok d)
    as [d2 E2].
  { rewrite fetch_s3_buckets_run by assumption.
    destruct (Populate.client sdk "s3"), (Populate.list_buckets sdk);
      eexists; reflexivity. }
  assert (exists d, outcome (Populate.fetch_sqs_queues sdk region) = Ok d)
    as [d3 E3].
  { rewrite fetch_sqs_queues_run by assumption.
    destruct (Populate.client sdk "sqs"), (Populate.list_queues sdk region);
      eexists; reflexivity. }
  assert (exists d, outcome (Populate.fetch_kinesis_streams sdk region) = Ok d)
    as [d4 E4].
  { rewrite fetch_kinesis_streams_run by assumption.
    destruct (Populate.client sdk "kinesis"),
      (snd (Populate.list_streams sdk region)); eexists; reflexivity. }
  assert (exists d, outcome (Populate.fetch_dynamodb_tables sdk region) = Ok d)
    as [d5 E5].
  { rewrite fetch_dynamodb_tables_run by assumption.
    destruct (Populate.client sdk "dynamodb"),
      (snd (Populate.list_tables sdk region)); eexists; reflexivity. }
  assert (exists d, outcome (Populate.fetch_rds_resources sdk region) = Ok d)
    as [d6 E6].
  { rewrite fetch_rds_resources_run by assumption.
    destruct (Populate.client sdk "rds"); eexists; reflexivity. }
  assert (exists d, outcome (Populate.fetch_api_gateway_apis sdk region) = Ok d)
    as [d7 E7].
  { rewrite fetch_api_gateway_apis_run by assumption.
    destruct (Populate.client sdk "apigateway"),
      (Populate.get_rest_apis sdk region); eexists; reflexivity. }
  exists (merge [d1; d2; d3; d4; d5; d6; d7]). apply fetch_all_outcome.
  exists [d1; d2; d3; d4; d5; d6; d7]. split; [| reflexivity].
  unfold fetch_table. repeat (constructor; [cbn [snd]; assumption |]).
  constructor.
Qed.

(** ** The cache file read back *)

Lemma dict_of_pairs_id V (l : PyDict.dict V) :
  PyDict.wf l -> dict_of_pairs l = l.
Proof.
  intros Hwf. unfold dict_of_pairs. now rewrite update_app.
Qed.

Lemma sequence_decode A B (enc : A -> B) (dec : B -> option A) (l : list A) :
  (forall x, In x l -> dec (enc x) = Some x) ->
  sequence (map dec (map enc l)) = Some l.
Proof.
  induction l as [|x l IH]; intros H; simpl; [reflexivity |].
  rewrite (H x (in_eq x l)), IH; [reflexivity |].
  intros y Hy. apply H. now right.
Qed.

Lemma distinct_NoDup (l : list string) : distinct l = true -> NoDup l.
Proof.
  induction l as [|x l IH]; simpl; [constructor |].
  intros H. apply andb_true_iff in H. destruct H as [Hx Hl].
  constructor; [| now apply IH].
  intros Hin. apply set_in_spec in Hin. now rewrite Hin in Hx.
Qed.

Lemma keys_map_snd V W (f : V -> W) (d : PyDict.dict V) :
  PyDict.keys (map (fun kv => (fst kv, f (snd kv))) d) = PyDict.keys d.
Proof.
  unfold PyDict.keys. rewrite map_map. apply map_ext. reflexivity.
Qed.

Section RecordRoundTrip.

Variable e : PyDict.dict value.
Hypothesis Hstorable : storable_extra e = true.

Lemma extra_distinct : NoDup (PyDict.keys e).
Proof.
  unfold storable_extra in Hstorable. apply andb_true_iff in Hstorable.
  apply distinct_NoDup. tauto.
Qed.

Lemma extra_plain (kv : string * value) :
  In kv e ->
  interpreted (fst kv) = false
  /\ value_of_json (Populate.json_of_value (snd kv)) = Some (snd kv).
Proof.
  unfold storable_extra in Hstorable. apply andb_true_iff in Hstorable.
  destruct Hstorable as [_ Hall]. rewrite forallb_forall in Hall.
  intros Hin. specialize (Hall kv Hin).
  apply andb_true_iff in Hall. destruct Hall as [Hk Hv].
  split; [now destruct (interpreted (fst kv)) |].
  now destruct (snd kv).
Qed.

Lemma encoded_get_interpreted (k : string) :
  interpreted k = true -> PyDict.get k (Populate.json_of_extra e) = None.
Proof.
  intros Hk. apply get_None. unfold Populate.json_of_extra.
  rewrite keys_map_snd.
  intros Hin. unfold PyDict.keys in Hin. apply in_map_iff in Hin.
  destruct Hin as [kv [<- Hin]].
  destruct (extra_plain kv Hin) as [Hfalse _]. congruence.
Qed.

Lemma encoded_filter :
  filter (fun kv : string * json => negb (interpreted (fst kv)))
    (Populate.json_of_extra e)
  = Populate.json_of_extra e.
Proof.
  unfold Populate.json_of_extra. apply forallb_filter_id. apply forallb_forall.
  intros kv Hin. apply in_map_iff in Hin. destruct Hin as [kv' [<- Hin]].
  simpl. destruct (extra_plain kv' Hin) as [-> _]. reflexivity.
Qed.

Lemma encoded_decode :
  sequence
    (map (fun kv : string * json =>
            match value_of_json (snd kv) with
            | Some v => Some (fst kv, v)
            | None => None
            end) (Populate.json_of_extra e))
  = Some e.
Proof.
  unfold Populate.json_of_extra. apply sequence_decode.
  intros [k v] Hin. destruct (extra_plain (k, v) Hin) as [_ Hv].
  simpl in *. now rewrite Hv.
Qed.

Lemma encoded_wf (front : list (string * json)) :
  NoDup (PyDict.keys front) ->
  (forall k, In k (PyDict.keys front) -> interpreted k = true) ->
  PyDict.wf (front ++ Populate.json_of_extra e)%list.
Proof.
  intros Hfront Hint. unfold PyDict.wf, PyDict.keys. rewrite map_app.
  apply NoDup_app; [exact Hfront | |].
  - fold (PyDict.keys (Populate.json_of_extra e)).
    unfold Populate.json_of_extra. rewrite keys_map_snd.
    apply extra_distinct.
  - intros k Hin Hin'. specialize (Hint k Hin).
    fold (PyDict.keys (Populate.json_of_extra e)) in Hin'.
    apply get_None in Hin'; [exact Hin' |].
    now apply encoded_get_interpreted.
Qed.

(** A storable record written to the file is the record read back. *)
Lemma record_round_trip (s t u : option string) :
  record_of_json
    (Populate.json_of_record
       {| service := s; rtype := t; url := u; extra := e |})
  = Some {| service := s; rtype := t; url := u; extra := e |}.
Proof.
  unfold Populate.json_of_record, record_of_json.
  cbn [service rtype url extra].
  assert (Hwf : PyDict.wf (Populate.json_field "service" s
                           ++ Populate.json_field "type" t
                           ++ Populate.json_field "url" u
                           ++ Populate.json_of_extra e)%list).
  { replace (Populate.json_field "service" s ++ Populate.json_field "type" t
             ++ Populate.json_field "url" u ++ Populate.json_of_extra e)%list
      with ((Populate.json_field "service" s ++ Populate.json_field "type" t
             ++ Populate.json_field "url" u) ++ Populate.json_of_extra e)%list
      by (now rewrite <- !app_assoc).
    apply encoded_wf.
    - destruct s, t, u; simpl; repeat constructor; simpl; intuition discriminate.
    - intros k. destruct s, t, u; simpl; intuition (subst; reflexivity). }
  rewrite (dict_of_pairs_id _ _ Hwf).
  pose proof (encoded_get_interpreted "service" eq_refl) as Gs.
  pose proof (encoded_get_interpreted "type" eq_refl) as Gt.
  pose proof (encoded_get_interpreted "url" eq_refl) as Gu.
  pose proof encoded_filter as Hf. pose proof encoded_decode as Hd.
  cbn -[Populate.json_of_extra sequence] in Hf.
  unfold str_field.
  destruct s, t, u; cbn -[Populate.json_of_extra sequence];
    rewrite ?Gs, ?Gt, ?Gu, ?Hf, ?Hd; reflexivity.
Qed.

End RecordRoundTrip.

Lemma cache_round_trip (c : ResourceCache) :
  PyDict.wf c ->
  (forall name r, In (name, r) c -> storable r = true) ->
  cache_of_json (Populate.json_of_cache c) = Some c.
Proof.
  intros Hwf Hall. unfold Populate.json_of_cache, cache_of_json.
  rewrite dict_of_pairs_id.
  - apply sequence_decode. intros [name r] Hin. cbn [fst snd].
    destruct r as [sv t u e]. rewrite record_round_trip; [reflexivity |].
    exact (Hall name _ Hin).
  - unfold PyDict.wf. now rewrite keys_map_snd.
Qed.

(** A time stamp stored as such would not come back: the file holds its
    [str], and reading gives a string. *)
Lemma datetime_does_not_round_trip :
  let stamped :=
    [ ("media",
       {| service := Some "s3"; rtype := Some "bucket"; url := None;
          extra := [ ("creation_date",
                      VDatetime {| dt_date := "2024-01-01";
                                   dt_time := "00:00:00" |}) ] |}) ] in
  cache_of_json (Populate.json_of_cache stamped)
  = Some [ ("media",
            {| service := Some "s3"; rtype := Some "bucket"; url := None;
               extra := [ ("creation_date", VStr "2024-01-01 00:00:00") ] |}) ].
Proof. reflexivity. Qed.

(** ** Names that collide *)

Lemma get_merge_from (name : string) (ds : list ResourceCache)
  (acc : ResourceCache) :
  Forall (@PyDict.wf ResourceRecord) ds ->
  PyDict.get name (fold_left (fun all d => PyDict.update all d) ds acc)
  = match latest name ds with
    | Some r => Some r
    | None => PyDict.get name acc
    end.
Proof.
  revert acc. induction ds as [|d ds IH]; intros acc Hwf; simpl; [reflexivity |].
  inversion Hwf; subst. rewrite IH by assumption.
  destruct (latest name ds); [reflexivity |].
  now apply get_update.
Qed.

Lemma latest_nth (name : string) (ds : list ResourceCache) (i : nat)
  (d : ResourceCache) :
  nth_error ds i = Some d ->
  In name (PyDict.keys d) ->
  (forall j d', i < j -> nth_error ds j = Some d' -> ~ In name (PyDict.keys d')) ->
  latest name ds = PyDict.get name d.
Proof.
  revert i. induction ds as [|d0 ds IH]; intros i Hi Hin Hlater.
  - destruct i; discriminate.
  - simpl. destruct i as [|i]; simpl in Hi.
    + inversion Hi; subst d0.
      assert (Hnone : latest name ds = None).
      { clear -Hlater. 
        assert (H : forall j d', nth_error ds j = Some d' ->
                                 ~ In name (PyDict.keys d')).
        { intros j d' Hj. apply (Hlater (S j) d'); [lia | exact Hj]. }
        clear Hlater. induction ds as [|d1 ds IH]; [reflexivity |].
        simpl. rewrite IH.
        - apply get_None. apply (H 0 d1). reflexivity.
        - intros j d' Hj. apply (H (S j) d'). exact Hj. }
      now rewrite Hnone.
    + rewrite (IH i Hi Hin).
      * destruct (PyDict.get name d) eqn:E; [reflexivity |].
        apply get_None in E. contradiction.
      * intros j d' Hlt Hj. apply (Hlater (S j) d'); [lia | exact Hj].
Qed.

(** C9. The cache is the merge of the seven dictionaries in the order
    lambda, s3, sqs, kinesis, dynamodb, rds, apigateway.  It holds a name
    once, and for a name that several services produced the record it holds
    is the one of the service fetched last among them; the records the
    earlier services produced for that name are not in it.  Nothing is
    reported of it: the run of the collection is the announcements and the
    runs of the fetchers. *)
Theorem latest_service_wins (sdk : Populate.Sdk) (region : string)
  (all : ResourceCache) :
  outcome (Populate.fetch_all sdk region) = Ok all ->
  exists ds,
    Forall2 (fun f d => outcome (snd f sdk region) = Ok d) fetch_table ds
    /\ PyDict.keys fetch_table
       = ["lambda"; "s3"; "sqs"; "kinesis"; "dynamodb"; "rds"; "apigateway"]
    /\ NoDup (PyDict.keys all)
    /\ (forall name i d,
          nth_error ds i = Some d ->
          In name (PyDict.keys d) ->
          (forall j d', i < j -> nth_error ds j = Some d' ->
                        ~ In name (PyDict.keys d')) ->
          forall r, In (name, r) all <-> PyDict.get name d = Some r)
    /\ trace (Populate.fetch_all sdk region)
       = flat_map (fun af => Print (fst af) :: trace (snd af sdk region))
           (combine announcements (map snd fetch_table)).
Proof.
  intros Hall.
  destruct (fetch_all_sound sdk region all Hall) as [Hwf _].
  apply fetch_all_outcome in Hall. destruct Hall as [ds [Hds ->]].
  assert (Htrace : trace (Populate.fetch_all sdk region)
                   = flat_map
                       (fun af => Print (fst af) :: trace (snd af sdk region))
                       (combine announcements (map snd fetch_table))).
  { clear Hwf. unfold fetch_table in Hds.
    repeat match goal with
           | H : Forall2 _ (_ :: _) _ |- _ => inversion H; subst; clear H
           | H : Forall2 _ [] _ |- _ => inversion H; subst; clear H
           end.
    cbn [snd] in *. unfold Populate.fetch_all.
    repeat (rewrite trace_bind; cbn [outcome print emit snd trace fst];
            f_equal;
            rewrite trace_bind;
            match goal with
            | H : outcome ?m = Ok _ |- context [outcome ?m] => rewrite H
            end;
            f_equal).
    reflexivity. }
  assert (Hwfs : Forall (@PyDict.wf ResourceRecord) ds).
  { clear -Hds. unfold fetch_table in Hds.
    repeat match goal with
           | H : Forall2 _ (_ :: _) _ |- _ => inversion H; subst; clear H
           | H : Forall2 _ [] _ |- _ => inversion H; subst; clear H
           end.
    cbn [snd] in *.
    repeat (apply Forall_cons;
            [ eapply sound_wf;
              eauto using fetch_lambda_functions_sound, fetch_s3_buckets_sound,
                fetch_sqs_queues_sound, fetch_kinesis_streams_sound,
                fetch_dynamodb_tables_sound, fetch_rds_resources_sound,
                fetch_api_gateway_apis_sound |]).
    apply Forall_nil. }
  exists ds.
  split; [exact Hds |]. split; [reflexivity |]. split; [exact Hwf |].
  split; [| exact Htrace].
  intros name i d Hi Hin Hlater r.
  pose proof (get_merge_from name ds PyDict.empty Hwfs) as Hget.
  rewrite (latest_nth name ds i d Hi Hin Hlater) in Hget.
  fold (merge ds) in Hget.
  assert (Hsome : PyDict.get name (merge ds) = PyDict.get name d).
  { rewrite Hget. destruct (PyDict.get name d) eqn:E; [reflexivity |].
    apply get_None in E. contradiction. }
  rewrite <- Hsome. split.
  - now apply In_get.
  - apply get_In.
Qed.

(** ** Failures of a collection run *)

Lemma get_session_outcome (sdk : Populate.Sdk) (profile : option string) :
  outcome (Populate.get_session sdk profile)
  = match Populate.new_session sdk
            (if Populate.opt_truthy profile then profile else None) with
    | Ok session => Ok (Some session)
    | Raise KeyboardInterrupt => Raise KeyboardInterrupt
    | Raise _ => Ok None
    end.
Proof.
  unfold Populate.get_session. autorewrite with outcomes.
  destruct (Populate.opt_truthy profile), (Populate.has_access_key_id sdk);
    autorewrite with outcomes;
    destruct (Populate.new_session sdk _) as [u|[]]; reflexivity.
Qed.

Lemma for_each_print_outcome A (l : list A) (line : A -> string) :
  outcome (for_each l (fun x => print (line x))) = Ok tt.
Proof.
  induction l as [|x l IH]; [reflexivity |].
  cbn [for_each]. now autorewrite with outcomes.
Qed.

Lemma parse_of_region (sdk : Populate.Sdk) (argv : list string) (region : string) :
  region_of sdk argv = Some region ->
  exists region0 profile0,
    Populate.parse_args argv argv 1 None None = Some (region0, profile0)
    /\ region = (if Populate.opt_truthy region0
                 then Populate.get_or region0 EmptyString
                 else Populate.get_or
                        (Populate.aws_region (Populate.load_config sdk))
                        "us-east-1").
Proof.
  unfold region_of.
  destruct (Populate.parse_args argv argv 1 None None) as [[r0 p0]|];
    [| discriminate].
  intros H. apply (f_equal (fun o => match o with Some x => x | None => region end)) in H.
  exists r0, p0. split; [reflexivity | now symmetry].
Qed.

(** The status of a run whose credentials do not resolve. *)
Lemma main_credentials_fail (sdk : Populate.Sdk) (argv : list string)
  (region : string) (e : exn) :
  region_of sdk argv = Some region ->
  credentials_fail sdk e -> fatal e ->
  exit_status (outcome (Populate.main sdk argv)) = 1%Z.
Proof.
  intros Hregion Hfail Hfatal.
  destruct (parse_of_region sdk argv region Hregion) as [r0 [p0 [Hparse _]]].
  unfold Populate.main. rewrite Hparse.
  autorewrite with outcomes. rewrite get_session_outcome.
  destruct Hfail as [Hsession | [Hsession Hsts]].
  - rewrite Hsession. destruct e; try reflexivity. now elim Hfatal.
  - destruct (Hsession (if Populate.opt_truthy
                             (if Populate.opt_truthy p0 then p0
                              else Populate.aws_profile (Populate.load_config sdk))
                        then (if Populate.opt_truthy p0 then p0
                              else Populate.aws_profile (Populate.load_config sdk))
                        else None)) as [session ->].
    autorewrite with outcomes. cbn [find_handler].
    destruct Hsts as [-> | [[c ->] ->]]; autorewrite with outcomes;
      destruct e; try reflexivity; now elim Hfatal.
Qed.

Lemma prog_eta A (m : prog A) : m = (trace m, outcome m).
Proof. now destruct m. Qed.

Lemma for_each_print_run A (l : list A) (line : A -> string) :
  for_each l (fun x => print (line x))
  = (map (fun x => Print (line x)) l, Ok tt).
Proof.
  induction l as [|x l IH]; [reflexivity |].
  cbn [for_each]. rewrite IH. reflexivity.
Qed.

(** How a run whose credentials resolve ends: as the collection, the
    creation of the data directory and the writing of the file let it. *)
Lemma main_outcome_with_credentials (sdk : Populate.Sdk) (argv : list string)
  (region : string) :
  region_of sdk argv = Some region ->
  credentials_resolve sdk ->
  outcome (Populate.main sdk argv)
  = match outcome (Populate.fetch_all sdk region) with
    | Raise e => Raise e
    | Ok all =>
        match Populate.makedirs sdk with
        | Raise e => Raise e
        | Ok _ =>
            match Populate.write_file sdk
                    (Populate.DATA_DIR sdk ++ "/aws_resources.json")
                    (Populate.json_of_cache all) with
            | Ok _ => Ok (Some 0%Z)
            | Raise e => if is_OSError e then Ok (Some 1%Z) else Raise e
            end
        end
    end.
Proof.
  intros Hregion [Hsession [[c Hclient] [identity Hidentity]]].
  destruct (parse_of_region sdk argv region Hregion) as [r0 [p0 [Hparse Hr]]].
  unfold Populate.main. rewrite Hparse, <- Hr.
  set (profile := if Populate.opt_truthy p0 then p0
                  else Populate.aws_profile (Populate.load_config sdk)).
  autorewrite with outcomes. rewrite get_session_outcome.
  destruct (Hsession (if Populate.opt_truthy profile then profile else None))
    as [session ->].
  autorewrite with outcomes. rewrite Hclient, Hidentity.
  autorewrite with outcomes. cbn [negb].
  autorewrite with outcomes.
  destruct (outcome (Populate.fetch_all sdk region)) as [all|e];
    [| reflexivity].
  autorewrite with outcomes.
  destruct (Populate.makedirs sdk) as [u|e]; [| reflexivity].
  autorewrite with outcomes.
  destruct (Populate.write_file sdk _ (Populate.json_of_cache all)) as [u'|e].
  - autorewrite with outcomes. cbn [negb]. autorewrite with outcomes.
    rewrite for_each_print_outcome. now autorewrite with outcomes.
  - cbn [find_handler]. destruct (is_OSError e); [| reflexivity].
    now autorewrite with outcomes.
Qed.

Lemma In_trace_bind A B (m : prog A) (k : A -> prog B) (x : event) :
  In x (trace (bind m k)) <->
  In x (trace m) \/ exists a, outcome m = Ok a /\ In x (trace (k a)).
Proof.
  rewrite trace_bind, in_app_iff. split; (intros [H | H]; [now left | right]).
  - destruct (outcome m) as [a|e]; [| contradiction]. now exists a.
  - destruct H as [a [-> H]]. exact H.
Qed.

Lemma In_trace_after A B (m : prog A) (k : A -> prog B) (x : event) (a : A) :
  outcome m = Ok a -> In x (trace (k a)) -> In x (trace (bind m k)).
Proof. intros Hm Hk. apply In_trace_bind. right. now exists a. Qed.

Lemma In_trace_first A B (m : prog A) (k : A -> prog B) (x : event) :
  In x (trace m) -> In x (trace (bind m k)).
Proof. intros H. apply In_trace_bind. now left. Qed.

Lemma In_trace_try A (m : prog A)
  (clauses : list ((exn -> bool) * (exn -> prog A))) (x : event) :
  In x (trace m) -> In x (trace (try_except m clauses)).
Proof.
  destruct m as [t [a|e]]; simpl; [trivial |].
  destruct (find_handler clauses e) as [h|]; [| trivial].
  destruct (h e). simpl. intros H. apply in_or_app. now left.
Qed.

(** A run whose credentials resolve goes through the collection, and
    writes the cache when the collection returns and the file system lets
    it. *)
Lemma main_trace_with_credentials (sdk : Populate.Sdk) (argv : list string)
  (region : string) :
  region_of sdk argv = Some region ->
  credentials_resolve sdk ->
  (forall x, In x (trace (Populate.fetch_all sdk region)) ->
             In x (trace (Populate.main sdk argv)))
  /\ (forall all,
        outcome (Populate.fetch_all sdk region) = Ok all ->
        write_succeeds sdk ->
        In (WriteFile (Populate.DATA_DIR sdk ++ "/aws_resources.json")
              (Populate.json_of_cache all))
           (trace (Populate.main sdk argv))).
Proof.
  intros Hregion [Hsession [[c Hclient] [identity Hidentity]]].
  destruct (parse_of_region sdk argv region Hregion) as [r0 [p0 [Hparse Hr]]].
  unfold Populate.main. rewrite Hparse, <- Hr.
  set (profile := if Populate.opt_truthy p0 then p0
                  else Populate.aws_profile (Populate.load_config sdk)).
  destruct (Hsession (if Populate.opt_truthy profile then profile else None))
    as [session Hnew].
  assert (Hs : outcome (Populate.get_session sdk profile) = Ok (Some session))
    by (now rewrite get_session_outcome, Hnew).
  assert (reach : forall x (rest : prog (option Z)),
            In x (trace rest) ->
            In x (trace
                    (print "🚀 AWS Resource Fetcher" ;;
                     print (repeat_str "=" 50) ;;
                     print ("Region: " ++ region) ;;
                     session <- Populate.get_session sdk profile ;;
                     match session with
                     | None => ret (Some 1%Z)
                     | Some _ =>
                         credentials <- try_except
                           (Populate.lift (Populate.client sdk "sts") ;;
                            identity <- Populate.lift
                                          (Populate.get_caller_identity sdk) ;;
                            print ("Account: "
                                   ++ Populate.get_or
                                        (Populate.Account identity) "unknown") ;;
                            print ("User/Role: "
                                   ++ Populate.last_segment
                                        (Populate.get_or
                                           (Populate.Arn identity) "unknown")) ;;
                            ret true)
                           [ (fun e => match e with
                                       | ClientError _ | NoCredentialsError _ =>
                                           true
                                       | _ => false
                                       end,
                              fun e =>
                                print ("❌ AWS credential error: " ++ exn_str e) ;;
                                print "💡 Make sure AWS is configured (aws configure) or environment variables are set" ;;
                                ret false) ] ;;
                         if negb credentials then ret (Some 1%Z)
                         else print EmptyString ;; rest
                     end))).
  { intros x rest Hx.
    apply In_trace_after with (a := tt); [reflexivity |].
    apply In_trace_after with (a := tt); [reflexivity |].
    apply In_trace_after with (a := tt); [reflexivity |].
    apply In_trace_after with (a := Some session); [exact Hs |].
    apply In_trace_after with (a := true).
    - autorewrite with outcomes. rewrite Hclient, Hidentity.
      now autorewrite with outcomes.
    - cbn [negb]. apply In_trace_after with (a := tt); [reflexivity |].
      exact Hx. }
  split.
  - intros x Hx. apply reach. now apply In_trace_first.
  - intros all Hall [[u Hmk] Hwrite]. apply reach.
    apply In_trace_after with (a := all); [exact Hall |].
    apply In_trace_after with (a := u); [exact Hmk |].
    destruct (Hwrite (Populate.DATA_DIR sdk ++ "/aws_resources.json")
                (Populate.json_of_cache all)) as [u' Hw].
    apply In_trace_first, In_trace_try.
    apply In_trace_after with (a := u'); [exact Hw |].
    apply In_trace_first. now left.
Qed.

(** On valid answers the collection announces each of the seven services:
    none is skipped because an earlier one failed. *)
Lemma fetch_all_announces (sdk : Populate.Sdk) (region : string) (msg : string) :
  valid_responses sdk region = true ->
  In msg announcements ->
  In (Print msg) (trace (Populate.fetch_all sdk region)).
Proof.
  intros Hv Hmsg.
  destruct (fetch_all_returns sdk region Hv) as [all Hall].
  apply fetch_all_outcome in Hall. destruct Hall as [ds [Hds _]].
  unfold fetch_table in Hds.
  repeat match goal with
         | H : Forall2 _ (_ :: _) _ |- _ => inversion H; subst; clear H
         | H : Forall2 _ [] _ |- _ => inversion H; subst; clear H
         end.
  cbn [snd] in *. unfold Populate.fetch_all.
  unfold announcements in Hmsg. simpl in Hmsg.
  repeat (destruct Hmsg as [<- | Hmsg];
          [ repeat first
              [ apply In_trace_first; now left
              | eapply In_trace_after; [first [reflexivity | eassumption] |] ]
          |]).
  contradiction.
Qed.

Lemma Some_inj A (a b : A) : Some a = Some b -> a = b.
Proof. now intros [= ->]. Qed.

(** ** The cache file written and read back *)

(** C7. A cache the Collector has collected, written as the JSON document
    of the cache file and read back, is the same mapping: the same keys in
    the same order, and under each key the same record.  The document is
    the one a run writes when its credentials resolve and the file system
    lets it, and a query that finds it works on the collected cache. *)
Theorem cache_file_round_trip (sdk : Populate.Sdk) (region : string)
  (all : ResourceCache) :
  outcome (Populate.fetch_all sdk region) = Ok all ->
  (exists reloaded,
     cache_of_json (Populate.json_of_cache all) = Some reloaded
     /\ PyDict.keys reloaded = PyDict.keys all
     /\ (forall name, PyDict.get name reloaded = PyDict.get name all)
     /\ reloaded = all)
  /\ (forall argv,
        region_of sdk argv = Some region ->
        credentials_resolve sdk -> write_succeeds sdk ->
        exists doc,
          In (WriteFile (Populate.DATA_DIR sdk ++ "/aws_resources.json") doc)
             (trace (Populate.main sdk argv))
          /\ forall w reloaded,
               cache_of_json doc = Some reloaded ->
               Awsf.resources_file w = Awsf.Holds reloaded ->
               Awsf.load_aws_resources w = ret all).
Proof.
  intros Hall.
  destruct (fetch_all_sound sdk region all Hall) as [Hwf Hrecords].
  assert (Hread : cache_of_json (Populate.json_of_cache all) = Some all).
  { apply cache_round_trip; [exact Hwf |].
    intros name r Hin. now apply (Hrecords name r). }
  split.
  - exists all. repeat split; trivial.
  - intros argv Hregion Hcred Hwrite.
    exists (Populate.json_of_cache all). split.
    + now apply (main_trace_with_credentials sdk argv region Hregion Hcred).
    + intros w reloaded Hdoc Hfile. rewrite Hread in Hdoc.
      apply Some_inj in Hdoc. subst reloaded.
      unfold Awsf.load_aws_resources. now rewrite Hfile.
Qed.

Lemma cache_file_round_trip_witness :
  exists all,
    outcome (Populate.fetch_all bare_sdk "us-east-1") = Ok all
    /\ cache_of_json (Populate.json_of_cache all) = Some all.
Proof.
  eexists. split; [reflexivity |].
  destruct (cache_file_round_trip bare_sdk "us-east-1" _ eq_refl)
    as [[reloaded [Hread [_ [_ ->]]]] _].
  exact Hread.
Defined.

Lemma failed_pages_inv A (pages : Populate.paged A) :
  failed_pages pages = true ->
  exists e, snd pages = Some e /\ is_ClientError e = true.
Proof.
  unfold failed_pages. destruct (snd pages) as [e|]; [| discriminate].
  intros H. now exists e.
Qed.

Lemma failed_call_inv A (r : result A) :
  failed_call r = true -> exists e, r = Raise e /\ is_ClientError e = true.
Proof.
  unfold failed_call. destruct r as [a|e]; [discriminate |].
  intros H. now exists e.
Qed.

(** On valid answers, a service other than RDS whose enumeration fails
    reports one line and contributes no record. *)
Lemma failed_service_contributes_nothing (sdk : Populate.Sdk)
  (region tag : string)
  (fetch : Populate.Sdk -> string -> prog ResourceCache) :
  valid_responses sdk region = true ->
  PyDict.get tag fetch_table = Some fetch ->
  tag <> "rds" ->
  enumeration_failed sdk region tag = true ->
  outcome (fetch sdk region) = Ok PyDict.empty
  /\ exists line, trace (fetch sdk region) = [Print line].
Proof.
  unfold valid_responses. intros Hv Hget Hrds Hfail.
  do 6 (apply andb_true_iff in Hv; destruct Hv as [Hv ?]).
  unfold fetch_table in Hget. unfold enumeration_failed in Hfail.
  cbn [PyDict.get] in Hget.
  destruct (String.eqb tag "lambda").
  { apply Some_inj in Hget. subst fetch.
    apply failed_pages_inv in Hfail. destruct Hfail as [e [He _]].
    rewrite fetch_lambda_functions_run, He by assumption.
    destruct (Populate.client sdk "lambda"); split; try reflexivity;
      eexists; reflexivity. }
  destruct (String.eqb tag "s3").
  { apply Some_inj in Hget. subst fetch.
    apply failed_call_inv in Hfail. destruct Hfail as [e [He _]].
    rewrite fetch_s3_buckets_run, He by assumption.
    destruct (Populate.client sdk "s3"); split; try reflexivity;
      eexists; reflexivity. }
  destruct (String.eqb tag "sqs").
  { apply Some_inj in Hget. subst fetch.
    apply failed_call_inv in Hfail. destruct Hfail as [e [He _]].
    rewrite fetch_sqs_queues_run, He by assumption.
    destruct (Populate.client sdk "sqs"); split; try reflexivity;
      eexists; reflexivity. }
  destruct (String.eqb tag "kinesis").
  { apply Some_inj in Hget. subst fetch.
    apply failed_pages_inv in Hfail. destruct Hfail as [e [He _]].
    rewrite fetch_kinesis_streams_run, He by assumption.
    destruct (Populate.client sdk "kinesis"); split; try reflexivity;
      eexists; reflexivity. }
  destruct (String.eqb tag "dynamodb").
  { apply Some_inj in Hget. subst fetch.
    apply failed_pages_inv in Hfail. destruct Hfail as [e [He _]].
    rewrite fetch_dynamodb_tables_run, He by assumption.
    destruct (Populate.client sdk "dynamodb"); split; try reflexivity;
      eexists; reflexivity. }
  destruct (String.eqb tag "rds") eqn:E.
  { apply String.eqb_eq in E. contradiction. }
  destruct (String.eqb tag "apigateway"); [| discriminate].
  apply Some_inj in Hget. subst fetch.
  apply failed_call_inv in Hfail. destruct Hfail as [e [He _]].
  rewrite fetch_api_gateway_apis_run, He by assumption.
  destruct (Populate.client sdk "apigateway"); split; try reflexivity;
    eexists; reflexivity.
Qed.

(** C8 (as amended). A run whose credentials do not resolve ends with
    status 1.  On valid answers: a service other than RDS whose enumeration
    fails with the SDK's error reports it and contributes no record; RDS
    contributes what its two enumerations stored, so the failure of one of
    them leaves the records of the other; every service is announced,
    whichever failed before it; the run ends with status 0 and writes the
    cache when the file system lets it, and with status 1 when the cache
    cannot be written. *)
Theorem collection_failures (sdk : Populate.Sdk) (argv : list string)
  (region : string) :
  region_of sdk argv = Some region ->
  (forall e, credentials_fail sdk e -> fatal e ->
             exit_status (outcome (Populate.main sdk argv)) = 1%Z)
  /\ (valid_responses sdk region = true ->
      (forall tag fetch,
         PyDict.get tag fetch_table = Some fetch ->
         tag <> "rds" ->
         enumeration_failed sdk region tag = true ->
         outcome (fetch sdk region) = Ok PyDict.empty
         /\ exists line, trace (fetch sdk region) = [Print line])
      /\ outcome (Populate.fetch_rds_resources sdk region)
         = Ok match Populate.client sdk "rds" with
              | Ok _ =>
                  fst (Populate.scan_clusters sdk region
                         (fst (Populate.scan_instances sdk region)))
              | Raise _ => PyDict.empty
              end
      /\ (credentials_resolve sdk ->
          (forall msg, In msg announcements ->
                       In (Print msg) (trace (Populate.main sdk argv)))
          /\ (write_succeeds sdk ->
              exit_status (outcome (Populate.main sdk argv)) = 0%Z
              /\ exists all,
                   outcome (Populate.fetch_all sdk region) = Ok all
                   /\ In (WriteFile
                            (Populate.DATA_DIR sdk ++ "/aws_resources.json")
                            (Populate.json_of_cache all))
                        (trace (Populate.main sdk argv)))
          /\ (forall e, write_fails sdk e -> fatal e ->
                        exit_status (outcome (Populate.main sdk argv)) = 1%Z))).
Proof.
  intros Hregion. split.
  - intros e. now apply main_credentials_fail with (region := region).
  - intros Hv. split; [| split].
    + intros tag fetch. now apply failed_service_contributes_nothing.
    + assert (Hrds : valid_rds sdk region = true).
      { unfold valid_responses in Hv.
        do 6 (apply andb_true_iff in Hv; destruct Hv as [Hv ?]). assumption. }
      rewrite (fetch_rds_resources_run sdk region Hrds).
      now destruct (Populate.client sdk "rds").
    + intros Hcred.
      destruct (main_trace_with_credentials sdk argv region Hregion Hcred)
        as [Hthrough Hwritten].
      destruct (fetch_all_returns sdk region Hv) as [all Hall].
      pose proof (main_outcome_with_credentials sdk argv region Hregion Hcred)
        as Hout.
      rewrite Hall in Hout.
      split; [| split].
      * intros msg Hmsg. apply Hthrough. now apply fetch_all_announces.
      * intros Hw. split.
        -- rewrite Hout. destruct Hw as [[u ->] Hw].
           destruct (Hw (Populate.DATA_DIR sdk ++ "/aws_resources.json")
                       (Populate.json_of_cache all)) as [u' ->].
           reflexivity.
        -- exists all. split; [exact Hall | now apply Hwritten].
      * intros e [Hmk | [[u Hmk] Hw]] Hfatal; rewrite Hout, Hmk.
        -- destruct e; try reflexivity. now elim Hfatal.
        -- rewrite Hw. destruct e; try reflexivity. now elim Hfatal.
Qed.

Lemma example_credentials_resolve function_name instances clusters written :
  credentials_resolve
    (example_sdk function_name instances clusters (Ok caller) written).
Proof.
  split; [intros profile; exists tt; reflexivity |].
  split; [exists tt; reflexivity | exists caller; reflexivity].
Qed.

(** C8, as the specification words it, does not hold: the sentence on
    failing services fails on an account whose RDS instances cannot be
    listed and whose RDS clusters can, where the service contributes the
    cluster. *)
Lemma rds_partial_failure_keeps_records :
  ~ failure_means_no_record rds_partial_sdk "us-east-1".
Proof.
  intros H.
  specialize (H "rds" Populate.fetch_rds_resources eq_refl eq_refl).
  vm_compute in H. discriminate H.
Qed.

Lemma collection_failures_witness :
  exit_status (outcome (Populate.main rds_partial_sdk [])) = 0%Z
  /\ outcome (Populate.fetch_rds_resources rds_partial_sdk "us-east-1")
     = Ok [ ("orders-cluster",
             {| service := Some "rds"; rtype := Some "cluster";
                url := Some "https://us-east-1.console.aws.amazon.com/rds/home?region=us-east-1#database:id=orders-cluster;is-cluster=true";
                extra := [ ("arn", VStr EmptyString);
                           ("engine", VStr "unknown");
                           ("status", VStr "unknown");
                           ("region", VStr "us-east-1") ] |}) ].
Proof.
  destruct (collection_failures rds_partial_sdk [] "us-east-1" eq_refl)
    as [_ Hvalid].
  destruct (Hvalid eq_refl) as [_ [Hrds Hrun]].
  destruct (Hrun (example_credentials_resolve _ _ _ _)) as [_ [Hwritten _]].
  split.
  - apply Hwritten. split; [exists tt; reflexivity |].
    intros path doc. exists tt. reflexivity.
  - rewrite Hrds. reflexivity.
Defined.

Lemma latest_service_wins_witness :
  exists all,
    outcome (Populate.fetch_all bare_sdk "us-east-1") = Ok all
    /\ NoDup (PyDict.keys all).
Proof.
  eexists. split; [reflexivity |].
  destruct (latest_service_wins bare_sdk "us-east-1" _ eq_refl)
    as [ds [_ [_ [Hnodup _]]]].
  exact Hnodup.
Defined.

(** ** Records of the Collector *)

Section LoopMembers.

Variables A S : Type.
Variable body : A -> S -> result S.

(** An invariant that the body keeps on the items of the list is kept by
    the loop. *)
Lemma loop_invariant_in (Q : S -> Prop) (l : list A) (s : S) :
  (forall x s s', In x l -> Q s -> body x s = Ok s' -> Q s') ->
  Q s -> Q (fst (Populate.loop body l s)).
Proof.
  revert s. induction l as [|x l IH]; intros s Hstep Hs; simpl; [exact Hs |].
  destruct (body x s) as [s'|e] eqn:E; [| exact Hs].
  apply IH.
  - intros y s0 s1 Hin. apply Hstep. now right.
  - apply (Hstep x s); [now left | exact Hs | exact E].
Qed.

Variable P : Type.

Lemma loop_pages_invariant_in (Q : S -> Prop) (pages : Populate.paged P)
  (items_of : P -> list A) (s : S) :
  (forall x s s',
     In x (flat_map items_of (fst pages)) -> Q s -> body x s = Ok s' -> Q s') ->
  Q s -> Q (fst (Populate.loop_pages pages items_of body s)).
Proof.
  intros Hstep Hs. unfold Populate.loop_pages.
  pose proof (loop_invariant_in Q (flat_map items_of (fst pages)) s Hstep Hs)
    as H.
  destruct (Populate.loop body _ s) as [s' [e|]]; exact H.
Qed.

End LoopMembers.

Lemma kept_empty (sdk : Populate.Sdk) (region : string) :
  kept sdk region PyDict.empty.
Proof. intros name r []. Qed.

Lemma kept_set (sdk : Populate.Sdk) (region : string) (d : ResourceCache)
  (name : string) (r : ResourceRecord) :
  kept sdk region d -> collected sdk region name r ->
  kept sdk region (PyDict.set name r d).
Proof.
  intros Hd Hr name' r' Hin. apply In_set in Hin. destruct Hin as [Heq | Hin].
  - inversion Heq; subst. exact Hr.
  - now apply Hd.
Qed.

Lemma kept_update (sdk : Populate.Sdk) (region : string) (d o : ResourceCache) :
  kept sdk region d -> kept sdk region o -> kept sdk region (PyDict.update d o).
Proof.
  intros Hd Ho name r Hin. apply In_update in Hin.
  destruct Hin; [now apply Hd | now apply Ho].
Qed.

Lemma scan_functions_kept (sdk : Populate.Sdk) (region : string) :
  kept sdk region (fst (Populate.scan_functions sdk region)).
Proof.
  unfold Populate.scan_functions.
  apply loop_pages_invariant_in with (Q := kept sdk region);
    [| apply kept_empty].
  intros func d d' Hin Hd. unfold Populate.store_function, Populate.item.
  destruct (Populate.FunctionName func) as [name|] eqn:Hname; [| discriminate].
  destruct (Populate.FunctionArn func) as [arn|] eqn:Harn; [| discriminate].
  intros H. apply Ok_inj in H. subst d'.
  apply kept_set; [exact Hd |]. now apply collected_function with (func := func).
Qed.

Lemma scan_buckets_kept (sdk : Populate.Sdk) (region : string)
  (response : Populate.ListBucketsOutput) :
  Populate.list_buckets sdk = Ok response ->
  kept sdk region (fst (Populate.scan_buckets region response)).
Proof.
  intros Hcall. unfold Populate.scan_buckets.
  apply loop_invariant_in with (Q := kept sdk region); [| apply kept_empty].
  intros bucket d d' Hin Hd. unfold Populate.store_bucket, Populate.item.
  destruct (Populate.Name bucket) as [name|] eqn:Hname; [| discriminate].
  intros H. apply Ok_inj in H. subst d'.
  apply kept_set; [exact Hd |].
  replace (VStr match Populate.CreationDate bucket with
                | Some d0 => isoformat d0
                | None => EmptyString
                end)
    with (VStr (or_placeholder
                  (option_map isoformat (Populate.CreationDate bucket))
                  EmptyString))
    by (now destruct (Populate.CreationDate bucket)).
  now apply collected_bucket with (response := response) (bucket := bucket).
Qed.

Lemma scan_queues_kept (sdk : Populate.Sdk) (region : string)
  (response : Populate.ListQueuesOutput) :
  Populate.list_queues sdk region = Ok response ->
  kept sdk region (fst (Populate.scan_queues region response)).
Proof.
  intros Hcall. unfold Populate.scan_queues.
  apply loop_invariant_in with (Q := kept sdk region); [| apply kept_empty].
  intros queue_url d d' Hin Hd. unfold Populate.store_queue.
  intros H. apply Ok_inj in H. subst d'.
  apply kept_set; [exact Hd |].
  now apply collected_queue with (response := response).
Qed.

Lemma scan_streams_kept (sdk : Populate.Sdk) (region : string) :
  kept sdk region (fst (Populate.scan_streams sdk region)).
Proof.
  unfold Populate.scan_streams.
  apply loop_pages_invariant_in with (Q := kept sdk region);
    [| apply kept_empty].
  intros stream_name d d' Hin Hd. unfold Populate.store_stream, Populate.item.
  destruct (Populate.describe_stream sdk region stream_name)
    as [details|e] eqn:Hcall.
  - destruct (Populate.StreamDescription details) as [info|] eqn:Hinfo;
      [| discriminate].
    intros H. apply Ok_inj in H. subst d'.
    apply kept_set; [exact Hd |].
    now apply collected_stream with (details := details).
  - destruct (is_ClientError e); [| discriminate].
    intros H. apply Ok_inj in H. now subst d'.
Qed.

Lemma scan_tables_kept (sdk : Populate.Sdk) (region : string) :
  kept sdk region (fst (Populate.scan_tables sdk region)).
Proof.
  unfold Populate.scan_tables.
  apply loop_pages_invariant_in with (Q := kept sdk region);
    [| apply kept_empty].
  intros table_name d d' Hin Hd. unfold Populate.store_table, Populate.item.
  destruct (Populate.describe_table sdk region table_name)
    as [details|e] eqn:Hcall.
  - destruct (Populate.Table details) as [info|] eqn:Hinfo; [| discriminate].
    intros H. apply Ok_inj in H. subst d'.
    apply kept_set; [exact Hd |].
    now apply collected_table with (details := details).
  - destruct (is_ClientError e); [| discriminate].
    intros H. apply Ok_inj in H. now subst d'.
Qed.

Lemma scan_instances_kept (sdk : Populate.Sdk) (region : string) :
  kept sdk region (fst (Populate.scan_instances sdk region)).
Proof.
  unfold Populate.scan_instances.
  apply loop_pages_invariant_in with (Q := kept sdk region);
    [| apply kept_empty].
  intros instance d d' Hin Hd. unfold Populate.store_instance, Populate.item.
  destruct (Populate.DBInstanceIdentifier instance) as [name|] eqn:Hname;
    [| discriminate].
  intros H. apply Ok_inj in H. subst d'.
  apply kept_set; [exact Hd |]. now apply collected_instance.
Qed.

Lemma scan_clusters_kept (sdk : Populate.Sdk) (region : string)
  (start : ResourceCache) :
  kept sdk region start ->
  kept sdk region (fst (Populate.scan_clusters sdk region start)).
Proof.
  intros Hstart. unfold Populate.scan_clusters.
  apply loop_pages_invariant_in with (Q := kept sdk region); [| exact Hstart].
  intros cluster d d' Hin Hd. unfold Populate.store_cluster, Populate.item.
  destruct (Populate.DBClusterIdentifier cluster) as [name|] eqn:Hname;
    [| discriminate].
  intros H. apply Ok_inj in H. subst d'.
  apply kept_set; [exact Hd |]. now apply collected_cluster.
Qed.

Lemma scan_apis_kept (sdk : Populate.Sdk) (region : string)
  (response : Populate.GetRestApisOutput) :
  Populate.get_rest_apis sdk region = Ok response ->
  kept sdk region (fst (Populate.scan_apis region response)).
Proof.
  intros Hcall. unfold Populate.scan_apis.
  apply loop_invariant_in with (Q := kept sdk region); [| apply kept_empty].
  intros api d d' Hin Hd. unfold Populate.store_api, Populate.item.
  destruct (Populate.api_name api) as [name|] eqn:Hname; [| discriminate].
  destruct (Populate.id api) as [api_id|] eqn:Hid; [| discriminate].
  intros H. apply Ok_inj in H. subst d'.
  apply kept_set; [exact Hd |].
  replace (VStr match Populate.createdDate api with
                | Some d0 => isoformat d0
                | None => EmptyString
                end)
    with (VStr (or_placeholder
                  (option_map isoformat (Populate.createdDate api))
                  EmptyString))
    by (now destruct (Populate.createdDate api)).
  now apply collected_api with (response := response) (api := api).
Qed.

#[local] Hint Resolve kept_empty scan_functions_kept scan_buckets_kept
  scan_queues_kept scan_streams_kept scan_tables_kept scan_instances_kept
  scan_clusters_kept scan_apis_kept : collector.

(** Whatever a fetcher returns was kept for listed items. *)
Ltac fetcher_kept :=
  intros H; autorewrite with outcomes in H; cbn [find_handler] in H;
  repeat (split_match_in H; autorewrite with outcomes in H;
          cbn [find_handler] in H; try discriminate H);
  apply Ok_inj in H; subst; auto with collector.

Lemma fetcher_kept_all (sdk : Populate.Sdk) (region : string)
  (ds : list ResourceCache) :
  Forall2 (fun f d => outcome (snd f sdk region) = Ok d) fetch_table ds ->
  Forall (kept sdk region) ds.
Proof.
  intros Hall. unfold fetch_table in Hall.
  repeat match goal with
         | H : Forall2 _ (_ :: _) _ |- _ => inversion H; subst; clear H
         | H : Forall2 _ [] _ |- _ => inversion H; subst; clear H
         end.
  cbn [snd] in *.
  repeat (apply Forall_cons;
          [ match goal with
            | H : outcome (?fetch sdk region) = Ok ?d |- kept _ _ ?d =>
                revert H; unfold fetch; fetcher_kept
            end |]).
  apply Forall_nil.
Qed.

Lemma merge_kept (sdk : Populate.Sdk) (region : string)
  (ds : list ResourceCache) :
  Forall (kept sdk region) ds -> kept sdk region (merge ds).
Proof.
  unfold merge. generalize (kept_empty sdk region).
  generalize (@PyDict.empty ResourceRecord).
  induction ds as [|d ds IH]; intros acc Hacc Hall; simpl; [exact Hacc |].
  inversion Hall; subst. apply IH; [now apply kept_update | assumption].
Qed.

Lemma fetch_all_kept (sdk : Populate.Sdk) (region : string)
  (all : ResourceCache) :
  outcome (Populate.fetch_all sdk region) = Ok all -> kept sdk region all.
Proof.
  intros H. apply fetch_all_outcome in H. destruct H as [ds [Hall ->]].
  apply merge_kept. now apply fetcher_kept_all.
Qed.

(** *** Answers that lack a field *)

(** A loop whose body returns on the complete items and raises [KeyError]
    on the others runs to its end when every item is complete, and ends
    with [KeyError] at the first one that is not. *)
Lemma loop_aborts A (body : A -> ResourceCache -> result ResourceCache)
  (complete : A -> bool) (l : list A) (s : ResourceCache) :
  (forall x s, In x l -> complete x = true -> exists s', body x s = Ok s') ->
  (forall x s, In x l -> complete x = false ->
               exists key, body x s = Raise (KeyError key)) ->
  if forallb complete l
  then snd (Populate.loop body l s) = None
  else exists key, snd (Populate.loop body l s) = Some (KeyError key).
Proof.
  revert s. induction l as [|x l IH]; intros s Hok Hko;
    cbn [forallb Populate.loop]; [reflexivity |].
  destruct (complete x) eqn:Hx; cbn [andb].
  - destruct (Hok x s (in_eq x l) Hx) as [s' ->].
    apply IH; intros y s0 Hin; [apply Hok | apply Hko]; now right.
  - destruct (Hko x s (in_eq x l) Hx) as [key ->]. now exists key.
Qed.

Lemma loop_pages_aborts A P
  (body : A -> ResourceCache -> result ResourceCache) (complete : A -> bool)
  (pages : Populate.paged P) (items_of : P -> list A) (s : ResourceCache) :
  (forall x s, In x (flat_map items_of (fst pages)) -> complete x = true ->
               exists s', body x s = Ok s') ->
  (forall x s, In x (flat_map items_of (fst pages)) -> complete x = false ->
               exists key, body x s = Raise (KeyError key)) ->
  if forallb complete (flat_map items_of (fst pages))
  then snd (Populate.loop_pages pages items_of body s) = snd pages
  else exists key,
         snd (Populate.loop_pages pages items_of body s)
         = Some (KeyError key).
Proof.
  intros Hok Hko.
  pose proof (loop_aborts A body complete (flat_map items_of (fst pages)) s
                Hok Hko) as H.
  unfold Populate.loop_pages.
  destruct (forallb complete (flat_map items_of (fst pages)));
    destruct (Populate.loop body _ s) as [s' [e|]]; cbn [snd] in *.
  - discriminate H.
  - reflexivity.
  - exact H.
  - destruct H as [key H]. discriminate H.
Qed.

Lemma paged_fetcher_outcome (c : result unit)
  (scan : ResourceCache * option exn)
  (found : ResourceCache -> string) (err : exn -> string) :
  answered c (fun _ => true) = true ->
  outcome
    (try_except
       (Populate.lift c ;;
        x <- Populate.finish scan ;;
        print (found x) ;;
        ret x)
       [ (is_ClientError, fun e => print (err e) ;; ret PyDict.empty) ])
  = match c with Ok _ => ends_like scan | Raise _ => Ok PyDict.empty end.
Proof.
  unfold ends_like.
  destruct c as [u|e]; destruct scan as [d [e'|]]; simpl; intros Hc;
    try rewrite Hc; try reflexivity.
  now destruct (is_ClientError e').
Qed.

Lemma call_fetcher_outcome A (c : result unit) (r : result A)
  (scan : A -> ResourceCache * option exn)
  (found : ResourceCache -> string) (err : exn -> string) :
  answered c (fun _ => true) = true ->
  answered r (fun _ => true) = true ->
  outcome
    (try_except
       (Populate.lift c ;;
        response <- Populate.lift r ;;
        x <- Populate.finish (scan response) ;;
        print (found x) ;;
        ret x)
       [ (is_ClientError, fun e => print (err e) ;; ret PyDict.empty) ])
  = match c, r with
    | Ok _, Ok response => ends_like (scan response)
    | _, _ => Ok PyDict.empty
    end.
Proof.
  unfold ends_like.
  destruct c as [u|e]; destruct r as [a|e']; simpl; intros Hc Hr;
    try rewrite Hc; try rewrite Hr; try reflexivity.
  destruct (scan a) as [d [e''|]]; simpl; [| reflexivity].
  now destruct (is_ClientError e'').
Qed.

(** A scan that ends with the end of its pages, or with [KeyError]. *)
Lemma ends_like_cases (scan : ResourceCache * option exn) (last : option exn)
  (complete : bool) :
  match last with None => true | Some e => is_ClientError e end = true ->
  (if complete then snd scan = last
   else exists key, snd scan = Some (KeyError key)) ->
  if complete then exists d, ends_like scan = Ok d
  else exists key, ends_like scan = Raise (KeyError key).
Proof.
  unfold ends_like. intros Hlast Hscan. destruct complete.
  - rewrite Hscan. destruct last as [e|]; [rewrite Hlast |]; now eexists.
  - destruct Hscan as [key ->]. now exists key.
Qed.

Lemma store_function_raises (region : string) (f : Populate.LambdaFunction)
  (s : ResourceCache) :
  complete_function f = false ->
  exists key, Populate.store_function region f s = Raise (KeyError key).
Proof.
  unfold complete_function, Populate.store_function, Populate.item.
  destruct (Populate.FunctionName f); [| now eexists].
  destruct (Populate.FunctionArn f); [discriminate | now eexists].
Qed.

Lemma fetch_lambda_functions_ends (sdk : Populate.Sdk) (region : string) :
  answered_lambda sdk region = true ->
  aborts_or_returns (lacks_lambda sdk region)
    (outcome (Populate.fetch_lambda_functions sdk region)).
Proof.
  unfold answered_lambda, lacks_lambda, aborts_or_returns. intros Ha.
  apply andb_true_iff in Ha as [Hc He].
  unfold Populate.fetch_lambda_functions.
  rewrite paged_fetcher_outcome by exact Hc.
  destruct (Populate.client sdk "lambda") as [c|e]; cbn [returned andb];
    [| now eexists].
  pose proof (loop_pages_aborts _ _ (Populate.store_function region)
                complete_function (Populate.list_functions sdk region)
                (fun page => Populate.get_or (Populate.Functions page) [])
                PyDict.empty
                (fun x s _ H => store_function_returns region x s H)
                (fun x s _ H => store_function_raises region x s H)) as Hscan.
  fold (Populate.scan_functions sdk region) in Hscan.
  pose proof (ends_like_cases (Populate.scan_functions sdk region) _ _ He Hscan)
    as H.
  now destruct (forallb complete_function _).
Qed.

Lemma store_bucket_raises (region : string) (b : Populate.Bucket)
  (s : ResourceCache) :
  complete_bucket b = false ->
  exists key, Populate.store_bucket region b s = Raise (KeyError key).
Proof.
  unfold complete_bucket, Populate.store_bucket, Populate.item.
  destruct (Populate.Name b); [discriminate | now eexists].
Qed.

Lemma fetch_s3_buckets_ends (sdk : Populate.Sdk) (region : string) :
  answered_s3 sdk = true ->
  aborts_or_returns (lacks_s3 sdk)
    (outcome (Populate.fetch_s3_buckets sdk region)).
Proof.
  unfold answered_s3, lacks_s3, aborts_or_returns. intros Ha.
  apply andb_true_iff in Ha as [Hc Hr].
  unfold Populate.fetch_s3_buckets.
  rewrite call_fetcher_outcome by assumption.
  destruct (Populate.client sdk "s3") as [c|e]; cbn [returned andb];
    [| now eexists].
  destruct (Populate.list_buckets sdk) as [response|e]; [| now eexists].
  pose proof (loop_aborts _ (Populate.store_bucket region) complete_bucket
                (Populate.get_or (Populate.Buckets response) []) PyDict.empty
                (fun x s _ H => store_bucket_returns region x s H)
                (fun x s _ H => store_bucket_raises region x s H)) as Hscan.
  fold (Populate.scan_buckets region response) in Hscan.
  pose proof (ends_like_cases (Populate.scan_buckets region response) None _
                eq_refl Hscan) as H.
  now destruct (forallb complete_bucket _).
Qed.

Lemma fetch_sqs_queues_ends (sdk : Populate.Sdk) (region : string) :
  answered_sqs sdk region = true ->
  exists d, outcome (Populate.fetch_sqs_queues sdk region) = Ok d.
Proof.
  unfold answered_sqs. intros Ha.
  apply andb_true_iff in Ha as [Hc Hr].
  unfold Populate.fetch_sqs_queues.
  rewrite call_fetcher_outcome by assumption.
  destruct (Populate.client sdk "sqs") as [c|e]; [| now eexists].
  destruct (Populate.list_queues sdk region) as [response|e]; [| now eexists].
  unfold ends_like, Populate.scan_queues.
  erewrite loop_ends with (ok := fun _ => true); [now eexists | |].
  - apply forallb_forall. reflexivity.
  - intros x s _. eexists. reflexivity.
Qed.

Lemma fetch_kinesis_streams_ends (sdk : Populate.Sdk) (region : string) :
  answered_kinesis sdk region = true ->
  aborts_or_returns (lacks_kinesis sdk region)
    (outcome (Populate.fetch_kinesis_streams sdk region)).
Proof.
  unfold answered_kinesis, lacks_kinesis, aborts_or_returns. intros Ha.
  apply andb_true_iff in Ha as [Ha Hd].
  apply andb_true_iff in Ha as [Hc He].
  rewrite forallb_forall in Hd.
  unfold Populate.fetch_kinesis_streams.
  rewrite paged_fetcher_outcome by exact Hc.
  destruct (Populate.client sdk "kinesis") as [c|e]; cbn [returned andb];
    [| now eexists].
  assert (Hscan :
    if forallb (complete_stream sdk region)
         (flat_map (fun page => Populate.get_or (Populate.StreamNames page) [])
            (fst (Populate.list_streams sdk region)))
    then snd (Populate.scan_streams sdk region)
         = snd (Populate.list_streams sdk region)
    else exists key,
           snd (Populate.scan_streams sdk region) = Some (KeyError key)).
  { apply loop_pages_aborts.
    - intros n s Hin Hn. specialize (Hd n Hin).
      unfold complete_stream in Hn. unfold Populate.store_stream, Populate.item.
      destruct (Populate.describe_stream sdk region n) as [d|e]; cbn in Hd.
      + destruct (Populate.StreamDescription d); [now eexists | discriminate].
      + rewrite Hd. now eexists.
    - intros n s Hin Hn.
      unfold complete_stream in Hn. unfold Populate.store_stream, Populate.item.
      destruct (Populate.describe_stream sdk region n) as [d|e];
        [| discriminate].
      destruct (Populate.StreamDescription d); [discriminate | now eexists]. }
  pose proof (ends_like_cases (Populate.scan_streams sdk region) _ _ He Hscan)
    as H.
  now destruct (forallb (complete_stream sdk region) _).
Qed.

Lemma fetch_dynamodb_tables_ends (sdk : Populate.Sdk) (region : string) :
  answered_dynamodb sdk region = true ->
  aborts_or_returns (lacks_dynamodb sdk region)
    (outcome (Populate.fetch_dynamodb_tables sdk region)).
Proof.
  unfold answered_dynamodb, lacks_dynamodb, aborts_or_returns. intros Ha.
  apply andb_true_iff in Ha as [Ha Hd].
  apply andb_true_iff in Ha as [Hc He].
  rewrite forallb_forall in Hd.
  unfold Populate.fetch_dynamodb_tables.
  rewrite paged_fetcher_outcome by exact Hc.
  destruct (Populate.client sdk "dynamodb") as [c|e]; cbn [returned andb];
    [| now eexists].
  assert (Hscan :
    if forallb (complete_table sdk region)
         (flat_map (fun page => Populate.get_or (Populate.TableNames page) [])
            (fst (Populate.list_tables sdk region)))
    then snd (Populate.scan_tables sdk region)
         = snd (Populate.list_tables sdk region)
    else exists key,
           snd (Populate.scan_tables sdk region) = Some (KeyError key)).
  { apply loop_pages_aborts.
    - intros n s Hin Hn. specialize (Hd n Hin).
      unfold complete_table in Hn. unfold Populate.store_table, Populate.item.
      destruct (Populate.describe_table sdk region n) as [d|e]; cbn in Hd.
      + destruct (Populate.Table d); [now eexists | discriminate].
      + rewrite Hd. now eexists.
    - intros n s Hin Hn.
      unfold complete_table in Hn. unfold Populate.store_table, Populate.item.
      destruct (Populate.describe_table sdk region n) as [d|e];
        [| discriminate].
      destruct (Populate.Table d); [discriminate | now eexists]. }
  pose proof (ends_like_cases (Populate.scan_tables sdk region) _ _ He Hscan)
    as H.
  now destruct (forallb (complete_table sdk region) _).
Qed.

Lemma store_instance_raises (region : string) (i : Populate.DBInstance)
  (s : ResourceCache) :
  complete_instance i = false ->
  exists key, Populate.store_instance region i s = Raise (KeyError key).
Proof.
  unfold complete_instance, Populate.store_instance, Populate.item.
  destruct (Populate.DBInstanceIdentifier i); [discriminate | now eexists].
Qed.

Lemma store_cluster_raises (region : string) (c : Populate.DBCluster)
  (s : ResourceCache) :
  complete_cluster c = false ->
  exists key, Populate.store_cluster region c s = Raise (KeyError key).
Proof.
  unfold complete_cluster, Populate.store_cluster, Populate.item.
  destruct (Populate.DBClusterIdentifier c); [discriminate | now eexists].
Qed.

Lemma rds_fetcher_outcome (c : result unit)
  (i k : ResourceCache * option exn) (w1 w2 err : exn -> string)
  (found : string) :
  answered c (fun _ => true) = true ->
  outcome
    (try_except
       (Populate.lift c ;;
        try_except (Populate.check i)
          [ (is_ClientError, fun e => print (w1 e)) ] ;;
        try_except (Populate.check k)
          [ (is_ClientError, fun e => print (w2 e)) ] ;;
        print found ;;
        ret (fst k))
       [ (is_ClientError, fun e => print (err e) ;; ret PyDict.empty) ])
  = match c with
    | Raise _ => Ok PyDict.empty
    | Ok _ =>
        match passes i, passes k with
        | Some e, _ => Raise e
        | None, Some e => Raise e
        | None, None => Ok (fst k)
        end
    end.
Proof.
  unfold passes.
  destruct c as [u|e]; destruct i as [di [ei|]]; destruct k as [dk [ek|]];
    cbn; intros Hc; try rewrite Hc; try reflexivity;
    try (destruct (is_ClientError ei) eqn:Hi; cbn; rewrite ?Hi);
    try (destruct (is_ClientError ek) eqn:Hk; cbn; rewrite ?Hk);
    try reflexivity.
Qed.

Lemma passes_cases (scan : ResourceCache * option exn) (last : option exn)
  (complete : bool) :
  match last with None => true | Some e => is_ClientError e end = true ->
  (if complete then snd scan = last
   else exists key, snd scan = Some (KeyError key)) ->
  if complete then passes scan = None
  else exists key, passes scan = Some (KeyError key).
Proof.
  unfold passes. intros Hlast Hscan. destruct complete.
  - rewrite Hscan. destruct last as [e|]; [now rewrite Hlast | reflexivity].
  - destruct Hscan as [key ->]. now exists key.
Qed.

Lemma fetch_rds_resources_ends (sdk : Populate.Sdk) (region : string) :
  answered_rds sdk region = true ->
  aborts_or_returns (lacks_rds sdk region)
    (outcome (Populate.fetch_rds_resources sdk region)).
Proof.
  unfold answered_rds, lacks_rds, aborts_or_returns. intros Ha.
  apply andb_true_iff in Ha as [Ha Hce].
  apply andb_true_iff in Ha as [Hc Hie].
  pose proof (loop_pages_aborts _ _ (Populate.store_instance region)
                complete_instance (Populate.describe_db_instances sdk region)
                (fun page => Populate.get_or (Populate.DBInstances page) [])
                PyDict.empty
                (fun x s _ H => store_instance_returns region x s H)
                (fun x s _ H => store_instance_raises region x s H)) as Hi.
  fold (Populate.scan_instances sdk region) in Hi.
  apply passes_cases in Hi; [| exact Hie].
  pose proof (loop_pages_aborts _ _ (Populate.store_cluster region)
                complete_cluster (Populate.describe_db_clusters sdk region)
                (fun page => Populate.get_or (Populate.DBClusters page) [])
                (fst (Populate.scan_instances sdk region))
                (fun x s _ H => store_cluster_returns region x s H)
                (fun x s _ H => store_cluster_raises region x s H)) as Hk.
  fold (Populate.scan_clusters sdk region
          (fst (Populate.scan_instances sdk region))) in Hk.
  apply passes_cases in Hk; [| exact Hce].
  unfold Populate.fetch_rds_resources. cbv zeta.
  rewrite rds_fetcher_outcome by exact Hc.
  destruct (Populate.client sdk "rds") as [c|e]; cbn [returned andb];
    [| now eexists].
  destruct (forallb complete_instance _); cbn [negb orb].
  - rewrite Hi. destruct (forallb complete_cluster _); cbn [negb].
    + rewrite Hk. now eexists.
    + destruct Hk as [key ->]. now exists key.
  - destruct Hi as [key ->]. now exists key.
Qed.

Lemma store_api_raises (region : string) (a : Populate.RestApi)
  (s : ResourceCache) :
  complete_api a = false ->
  exists key, Populate.store_api region a s = Raise (KeyError key).
Proof.
  unfold complete_api, Populate.store_api, Populate.item.
  destruct (Populate.api_name a); [| now eexists].
  destruct (Populate.id a); [discriminate | now eexists].
Qed.

Lemma fetch_api_gateway_apis_ends (sdk : Populate.Sdk) (region : string) :
  answered_apigateway sdk region = true ->
  aborts_or_returns (lacks_apigateway sdk region)
    (outcome (Populate.fetch_api_gateway_apis sdk region)).
Proof.
  unfold answered_apigateway, lacks_apigateway, aborts_or_returns. intros Ha.
  apply andb_true_iff in Ha as [Hc Hr].
  unfold Populate.fetch_api_gateway_apis.
  rewrite call_fetcher_outcome by assumption.
  destruct (Populate.client sdk "apigateway") as [c|e]; cbn [returned andb];
    [| now eexists].
  destruct (Populate.get_rest_apis sdk region) as [response|e];
    [| now eexists].
  pose proof (loop_aborts _ (Populate.store_api region) complete_api
                (Populate.get_or (Populate.items response) []) PyDict.empty
                (fun x s _ H => store_api_returns region x s H)
                (fun x s _ H => store_api_raises region x s H)) as Hscan.
  fold (Populate.scan_apis region response) in Hscan.
  pose proof (ends_like_cases (Populate.scan_apis region response) None _
                eq_refl Hscan) as H.
  now destruct (forallb complete_api _).
Qed.

(** When every call is answered, the collection ends with [KeyError] if an
    item it reads lacks a field the script subscripts, and returns a cache
    otherwise. *)
Lemma fetch_all_ends (sdk : Populate.Sdk) (region : string) :
  every_call_answered sdk region = true ->
  aborts_or_returns (lacks_a_field sdk region)
    (outcome (Populate.fetch_all sdk region)).
Proof.
  unfold every_call_answered, lacks_a_field. intros Ha.
  apply andb_true_iff in Ha as [Ha A7]. apply andb_true_iff in Ha as [Ha A6].
  apply andb_true_iff in Ha as [Ha A5]. apply andb_true_iff in Ha as [Ha A4].
  apply andb_true_iff in Ha as [Ha A3]. apply andb_true_iff in Ha as [A1 A2].
  pose proof (fetch_lambda_functions_ends sdk region A1) as H1.
  pose proof (fetch_s3_buckets_ends sdk region A2) as H2.
  pose proof (fetch_sqs_queues_ends sdk region A3) as H3.
  pose proof (fetch_kinesis_streams_ends sdk region A4) as H4.
  pose proof (fetch_dynamodb_tables_ends sdk region A5) as H5.
  pose proof (fetch_rds_resources_ends sdk region A6) as H6.
  pose proof (fetch_api_gateway_apis_ends sdk region A7) as H7.
  unfold aborts_or_returns in *. unfold Populate.fetch_all.
  autorewrite with outcomes.
  destruct (lacks_lambda sdk region); cbn [orb];
    [destruct H1 as [key ->]; now exists key | destruct H1 as [d1 ->]].
  autorewrite with outcomes.
  destruct (lacks_s3 sdk); cbn [orb];
    [destruct H2 as [key ->]; now exists key | destruct H2 as [d2 ->]].
  autorewrite with outcomes.
  destruct H3 as [d3 ->]. autorewrite with outcomes.
  destruct (lacks_kinesis sdk region); cbn [orb];
    [destruct H4 as [key ->]; now exists key | destruct H4 as [d4 ->]].
  autorewrite with outcomes.
  destruct (lacks_dynamodb sdk region); cbn [orb];
    [destruct H5 as [key ->]; now exists key | destruct H5 as [d5 ->]].
  autorewrite with outcomes.
  destruct (lacks_rds sdk region); cbn [orb];
    [destruct H6 as [key ->]; now exists key | destruct H6 as [d6 ->]].
  autorewrite with outcomes.
  destruct (lacks_apigateway sdk region);
    [destruct H7 as [key ->]; now exists key | destruct H7 as [d7 ->]].
  autorewrite with outcomes. now eexists.
Qed.



(** Where validity ends: an item without the field the code subscripts
    raises [KeyError], which no handler of the script catches, and the run
    ends with status 1. *)
Lemma missing_identifier_aborts :
  valid_responses nameless_sdk "us-east-1" = false
  /\ outcome (Populate.fetch_lambda_functions nameless_sdk "us-east-1")
     = Raise (KeyError "FunctionName")
  /\ outcome (Populate.main nameless_sdk []) = Raise (KeyError "FunctionName")
  /\ exit_status (outcome (Populate.main nameless_sdk [])) = 1%Z.
Proof. repeat split. Qed.


(* ================================================================== *)
(** * Part III: further properties of the code *)
(* ================================================================== *)

(** ** Lines of the matcher and what a selection opens *)

Lemma rev_app (a b : string) : PyStr.rev (a ++ b) = PyStr.rev b ++ PyStr.rev a.
Proof.
  induction a as [|c a IH]; cbn [append].
  - change (PyStr.rev EmptyString) with EmptyString.
    now rewrite append_nil_r.
  - now rewrite !rev_cons, IH, append_assoc.
Qed.

Lemma rev_involutive (s : string) : PyStr.rev (PyStr.rev s) = s.
Proof.
  unfold PyStr.rev.
  now rewrite list_ascii_of_string_of_list_ascii, List.rev_involutive,
    string_of_list_ascii_of_string.
Qed.

Lemma length_append (a b : string) :
  String.length (a ++ b) = (String.length a + String.length b)%nat.
Proof. induction a as [|c a IH]; cbn; [reflexivity | now rewrite IH]. Qed.

Lemma rev_length (s : string) : String.length (PyStr.rev s) = String.length s.
Proof.
  induction s as [|c s IH]; [reflexivity |].
  rewrite rev_cons, length_append, IH. cbn. lia.
Qed.

Lemma lstrip_length (s : string) :
  (String.length (PyStr.lstrip s) <= String.length s)%nat.
Proof.
  induction s as [|c s IH]; cbn; [lia |].
  destruct (PyStr.is_space c); cbn; lia.
Qed.

Lemma lstrip_blank (ws s : string) :
  blank ws = true -> PyStr.lstrip (ws ++ s) = PyStr.lstrip s.
Proof.
  induction ws as [|c ws IH]; cbn; [reflexivity |].
  intros H. apply andb_true_iff in H as [Hc Hws].
  now rewrite Hc, IH.
Qed.

Lemma blank_app (a b : string) : blank (a ++ b) = blank a && blank b.
Proof.
  induction a as [|c a IH]; cbn; [reflexivity |].
  now rewrite IH, andb_assoc.
Qed.

Lemma blank_rev (s : string) : blank s = true -> blank (PyStr.rev s) = true.
Proof.
  induction s as [|c s IH]; [reflexivity |].
  cbn [blank]. intros H. apply andb_true_iff in H as [Hc Hs].
  rewrite rev_cons, blank_app, IH by assumption. cbn [blank andb].
  now rewrite Hc.
Qed.

(** A string between a first and a last character that are not white
    space is what [strip] leaves of it, whatever white space follows. *)
Lemma strip_framed (c d : ascii) (a ws : string) :
  PyStr.is_space c = false -> PyStr.is_space d = false -> blank ws = true ->
  PyStr.strip (String c a ++ String d ws) = String c a ++ String d EmptyString.
Proof.
  intros Hc Hd Hws. unfold PyStr.strip.
  cbn [append PyStr.lstrip]. rewrite Hc.
  change (String c (a ++ String d ws)) with (String c a ++ String d ws).
  change (String d ws) with (String d EmptyString ++ ws).
  rewrite !rev_app, append_assoc, lstrip_blank by now apply blank_rev.
  change (PyStr.rev (String d EmptyString)) with (String d EmptyString).
  cbn [append PyStr.lstrip]. rewrite Hd.
  change (String d (PyStr.rev (String c a)))
    with (PyStr.rev (String d EmptyString) ++ PyStr.rev (String c a)).
  now rewrite <- rev_app, rev_involutive.
Qed.

Lemma trimmed_first (s : string) :
  trimmed s = true ->
  exists c a, s = String c a /\ PyStr.is_space c = false.
Proof.
  unfold trimmed. intros H. apply andb_true_iff in H as [Hne Heq].
  apply String.eqb_eq in Heq.
  destruct s as [|c a]; [discriminate |].
  exists c, a. split; [reflexivity |].
  destruct (PyStr.is_space c) eqn:Hc; [exfalso | reflexivity].
  assert (Hlen : (String.length (PyStr.strip (String c a))
                  <= String.length a)%nat).
  { unfold PyStr.strip. rewrite rev_length.
    etransitivity; [apply lstrip_length |]. rewrite rev_length.
    cbn [PyStr.lstrip]. rewrite Hc. apply lstrip_length. }
  rewrite Heq in Hlen. cbn in Hlen. lia.
Qed.

Lemma trimmed_last (s : string) :
  trimmed s = true ->
  exists a d, s = a ++ String d EmptyString /\ PyStr.is_space d = false.
Proof.
  intros H. destruct (trimmed_first s H) as (c & a & -> & Hc).
  unfold trimmed in H. apply andb_true_iff in H as [_ Heq].
  apply String.eqb_eq in Heq. unfold PyStr.strip in Heq.
  cbn [PyStr.lstrip] in Heq. rewrite Hc in Heq.
  apply (f_equal PyStr.rev) in Heq. rewrite rev_involutive in Heq.
  destruct (PyStr.rev (String c a)) as [|d t] eqn:Hrev.
  - apply (f_equal String.length) in Hrev. rewrite rev_length in Hrev.
    discriminate Hrev.
  - exists (PyStr.rev t), d. split.
    + rewrite <- (rev_involutive (String c a)), Hrev. apply rev_cons.
    + cbn [PyStr.lstrip] in Heq.
      destruct (PyStr.is_space d) eqn:Hd; [exfalso | reflexivity].
      apply (f_equal String.length) in Heq.
      pose proof (lstrip_length t). cbn in Heq. lia.
Qed.

Lemma contains_char_free (c : ascii) (s : string) :
  PyStr.contains (String c EmptyString) s = false -> free_of c s.
Proof.
  induction s as [|d s IH]; cbn [PyStr.contains free_of prefix]; [easy |].
  intros H. apply orb_false_iff in H as [Hd Hs].
  split; [| now apply IH].
  intros ->. destruct (ascii_dec c c) as [_ | Hne]; [| now apply Hne].
  now destruct s.
Qed.

(** [split] takes a piece in which no bar occurs up to the separator that
    follows it. *)
Lemma split_piece (a rest cur : string) :
  free_of "|" a ->
  PyStr.split_aux " | " (a ++ " | " ++ rest) 0 cur
  = (PyStr.rev cur ++ a) :: PyStr.split_aux " | " rest 0 EmptyString.
Proof.
  revert cur. induction a as [|c a IH]; intros cur Hfree.
  - rewrite append_nil_r. destruct rest as [|x [|y rest]]; reflexivity.
  - destruct Hfree as [Hc Hfree].
    assert (Hno : prefix " | " (String c a ++ " | " ++ rest) = false).
    { cbn [append prefix]. destruct (ascii_dec " " c); [| reflexivity].
      destruct a as [|d a]; cbn [append prefix].
      - reflexivity.
      - destruct (ascii_dec "|" d) as [<- | _]; [| reflexivity].
        now destruct Hfree as [Hd _]. }
    change (String c a ++ " | " ++ rest)
      with (String c (a ++ " | " ++ rest)) in *.
    cbn [PyStr.split_aux]. rewrite Hno, IH by assumption.
    now rewrite rev_cons, append_assoc.
Qed.

(** A string in which the separator does not occur is one piece. *)
Lemma split_whole (sep s cur : string) :
  PyStr.contains sep s = false ->
  PyStr.split_aux sep s 0 cur = [PyStr.rev cur ++ s].
Proof.
  revert cur. induction s as [|c s IH]; intros cur H.
  - cbn. now rewrite append_nil_r.
  - cbn [PyStr.contains] in H. apply orb_false_iff in H as [Hp Hs].
    cbn [PyStr.split_aux]. rewrite Hp, IH by assumption.
    now rewrite rev_cons, append_assoc.
Qed.

Lemma upper_free_of_bar (s : string) :
  free_of "|" s -> free_of "|" (PyStr.upper s).
Proof.
  induction s as [|c s IH]; cbn [PyStr.upper PyStr.map_chars free_of];
    [easy |].
  intros [Hc Hs]. split; [| now apply IH].
  unfold PyStr.upper_char, PyStr.is_lower.
  destruct ((97 <=? nat_of_ascii c)%nat && (nat_of_ascii c <=? 122)%nat) eqn:E;
    [| exact Hc].
  apply andb_true_iff in E as [Hlo Hhi].
  apply Nat.leb_le in Hlo, Hhi. intros Heq.
  apply (f_equal nat_of_ascii) in Heq.
  rewrite nat_ascii_embedding in Heq by lia. cbn in Heq. lia.
Qed.

Lemma service_display_free_of_bar (s : string) (t : option string) :
  free_of "|" s -> free_of "|" (Awsf.get_service_display s t).
Proof.
  intros Hs. unfold Awsf.get_service_display.
  assert (Hconfig :
    forall c, PyDict.get s Awsf.SERVICE_CONFIG = Some c ->
              free_of "|" (Awsf.icon c) /\ free_of "|" (Awsf.name c)).
  { unfold Awsf.SERVICE_CONFIG. cbn [PyDict.get].
    intros c H.
    repeat match type of H with
           | (if ?b then _ else _) = _ =>
               destruct b;
               [apply Some_inj in H; subst c;
                split; apply contains_char_free; reflexivity |]
           end.
    discriminate H. }
  assert (Hall :
    forall c, free_of "|" (Awsf.icon c) -> free_of "|" (Awsf.name c) ->
      free_of "|" (Awsf.icon c ++ " " ++ Awsf.name c)
      /\ free_of "|" (Awsf.icon c ++ " " ++ Awsf.name c ++ " Cluster")).
  { intros c Hi Hn. split; repeat (apply free_of_app; split);
      try assumption; apply contains_char_free; reflexivity. }
  destruct (PyDict.get s Awsf.SERVICE_CONFIG) as [c|] eqn:Hget.
  - destruct (Hconfig c eq_refl) as [Hi Hn].
    destruct (Hall c Hi Hn) as [H1 H2].
    destruct t as [t|]; [| exact H1].
    now destruct (PyStr.truthy t && existsb (String.eqb t) ["cluster"]).
  - destruct (Hall {| Awsf.icon := "❓"; Awsf.color := "⚪";
                      Awsf.name := PyStr.upper s |}) as [H1 H2].
    + apply contains_char_free; reflexivity.
    + now apply upper_free_of_bar.
    + destruct t as [t|]; [| exact H1].
      now destruct (PyStr.truthy t && existsb (String.eqb t) ["cluster"]).
Qed.

(** The five tags, and what they have in common as fields of a line. *)
Lemma environment_indicator_cases (n : string) :
  In (Awsf.get_environment_indicator n)
    ["🟢 PROD"; "🟡 STAGE"; "🔵 DEV"; "🟣 TEST"; "⚪ OTHER"].
Proof.
  unfold Awsf.get_environment_indicator.
  repeat match goal with
         | |- context [if ?b then _ else _] => destruct b
         end; cbn; auto 6.
Qed.

Lemma environment_indicator_field (n : string) :
  free_of "|" (Awsf.get_environment_indicator n)
  /\ PyStr.contains " | " (Awsf.get_environment_indicator n ++ " |") = false
  /\ exists c a d,
       Awsf.get_environment_indicator n ++ " |"
       = String c a ++ String d EmptyString
       /\ PyStr.is_space c = false /\ PyStr.is_space d = false.
Proof.
  pose proof (environment_indicator_cases n) as H. cbn [In] in H.
  repeat (destruct H as [<- | H]); try contradiction;
    (split; [apply contains_char_free; reflexivity |]);
    (split; [reflexivity |]).
  all: match goal with
       | |- exists c a d, ?s ++ " |" = _ /\ _ =>
           let t := eval cbv in (PyStr.rev (s ++ " |")) in
           match t with
           | String ?d ?r =>
               let a := eval cbv in (PyStr.rev r) in
               match a with
               | String ?c ?a' => exists c, a', d
               end
           end
       end; repeat split.
Qed.

Ltac assoc_append :=
  repeat (progress (cbn [append]; repeat rewrite append_assoc)).

(** X1.  The line of a record, given back by the matcher, opens the URL of
    that record: when the name and the URL are not empty and have no white
    space at their ends, no bar occurs in the name or in the service tag,
    and the separator does not occur in the URL, [open_selected] on the
    line followed by a line feed opens exactly the URL and reports the
    name and the service display. *)
Theorem selected_line_opens_record (name : string) (r : ResourceRecord)
  (u : string) :
  url r = Some u ->
  trimmed name = true -> trimmed u = true ->
  PyStr.contains "|" name = false ->
  PyStr.contains "|" (Awsf.get_or (service r) "unknown") = false ->
  PyStr.contains " | " u = false ->
  Awsf.open_selected (Awsf.format_line (name, r) ++ nl)
  = ([ Open u;
       Print ("🚀 Opening " ++ name ++ " ("
              ++ Awsf.get_service_display
                   (Awsf.get_or (service r) "unknown")
                   (Some (Awsf.get_or (rtype r) "unknown"))
              ++ ") in AWS Console") ],
     Ok tt).
Proof.
  intros Hu Hname Hutrim Hn Hs Hnosep.
  destruct (trimmed_first _ Hname) as (c & a & Ename & Hc).
  destruct (trimmed_last _ Hutrim) as (b & d & Eu & Hd).
  apply contains_char_free in Hn, Hs.
  pose proof (service_display_free_of_bar _
                (Some (Awsf.get_or (rtype r) "unknown")) Hs) as Hdisp.
  destruct (environment_indicator_field name) as (Henv & _).
  unfold Awsf.open_selected, Awsf.format_line. rewrite Hu.
  cbn [Awsf.get_or].
  set (disp := Awsf.get_service_display _ _) in *.
  set (env := Awsf.get_environment_indicator name) in *.
  assert (Hstrip :
    PyStr.strip ((name ++ " | " ++ disp ++ " | " ++ env ++ " | " ++ u) ++ nl)
    = name ++ " | " ++ disp ++ " | " ++ env ++ " | " ++ u).
  { rewrite Ename, Eu.
    replace ((String c a ++ " | " ++ disp ++ " | " ++ env ++ " | "
                ++ b ++ String d EmptyString) ++ nl)
      with (String c (a ++ " | " ++ disp ++ " | " ++ env ++ " | " ++ b)
              ++ String d nl)
      by (assoc_append; reflexivity).
    rewrite strip_framed by (assumption || reflexivity).
    assoc_append. reflexivity. }
  rewrite Hstrip. unfold PyStr.split.
  rewrite !split_piece, split_whole by assumption.
  change (PyStr.rev EmptyString) with EmptyString. cbn [append].
  reflexivity.
Qed.

Lemma selected_line_opens_record_witness :
  Awsf.open_selected
    (Awsf.format_line ("orders-prod", lambda_record "https://x/orders-prod")
       ++ nl)
  = ([ Open "https://x/orders-prod";
       Print "🚀 Opening orders-prod (λ Lambda) in AWS Console" ],
     Ok tt).
Proof.
  exact (selected_line_opens_record "orders-prod"
           (lambda_record "https://x/orders-prod") "https://x/orders-prod"
           eq_refl eq_refl eq_refl eq_refl eq_refl eq_refl).
Defined.

(** X2.  A record without a URL opens nothing when its line is selected,
    provided its name has no white space at either end and neither the
    name nor the service tag contains a bar: with the key absent or the
    URL empty, the line ends in the separator, [strip] takes its last
    space, three fields are left, and [open_selected] returns without an
    event. *)
Theorem selected_line_without_url_opens_nothing (name : string)
  (r : ResourceRecord) :
  Awsf.get_or (url r) EmptyString = EmptyString ->
  trimmed name = true ->
  PyStr.contains "|" name = false ->
  PyStr.contains "|" (Awsf.get_or (service r) "unknown") = false ->
  Awsf.open_selected (Awsf.format_line (name, r) ++ nl) = ([], Ok tt).
Proof.
  intros Hu Hname Hn Hs.
  destruct (trimmed_first _ Hname) as (c & a & Ename & Hc).
  apply contains_char_free in Hn, Hs.
  pose proof (service_display_free_of_bar _
                (Some (Awsf.get_or (rtype r) "unknown")) Hs) as Hdisp.
  destruct (environment_indicator_field name)
    as (_ & Hwhole & c' & a' & d' & Eenv & Hc' & Hd').
  unfold Awsf.open_selected, Awsf.format_line. rewrite Hu.
  set (disp := Awsf.get_service_display _ _) in *.
  set (env := Awsf.get_environment_indicator name) in *.
  assert (Hstrip :
    PyStr.strip
      ((name ++ " | " ++ disp ++ " | " ++ env ++ " | " ++ EmptyString) ++ nl)
    = name ++ " | " ++ disp ++ " | " ++ (env ++ " |")).
  { replace ((name ++ " | " ++ disp ++ " | " ++ env ++ " | " ++ EmptyString)
               ++ nl)
      with (name ++ " | " ++ disp ++ " | " ++ (env ++ " |") ++ " " ++ nl)
      by (assoc_append; reflexivity).
    rewrite Eenv, Ename.
    replace (String c a ++ " | " ++ disp ++ " | "
               ++ (String c' a' ++ String d' EmptyString) ++ " " ++ nl)
      with (String c (a ++ " | " ++ disp ++ " | " ++ String c' a')
              ++ String d' (" " ++ nl))
      by (assoc_append; reflexivity).
    rewrite strip_framed by (assumption || reflexivity).
    assoc_append. reflexivity. }
  rewrite Hstrip. unfold PyStr.split.
  rewrite !split_piece, split_whole by assumption.
  reflexivity.
Qed.

Lemma selected_line_without_url_opens_nothing_witness :
  Awsf.open_selected
    (Awsf.format_line
       ("orders-prod",
        {| service := Some "lambda"; rtype := Some "function";
           url := None; extra := [] |}) ++ nl)
  = ([], Ok tt).
Proof.
  exact (selected_line_without_url_opens_nothing "orders-prod"
           {| service := Some "lambda"; rtype := Some "function";
              url := None; extra := [] |}
           eq_refl eq_refl eq_refl eq_refl).
Defined.

(** The proviso on the name is needed: a bar in it moves the fields, and
    the fourth, the environment tag, is what [open] is given. *)
Lemma selected_line_with_a_bar_opens_a_field :
  Awsf.open_selected
    (Awsf.format_line
       ("a | b",
        {| service := Some "lambda"; rtype := Some "function"; url := None;
           extra := [] |}) ++ nl)
  = ([ Open "⚪ OTHER |"; Print "🚀 Opening a (b) in AWS Console" ], Ok tt).
Proof. reflexivity. Qed.

(** ** The lines handed to the matcher *)

Section SortedOrder.

Variable A : Type.
Variable leb : A -> A -> bool.
Hypothesis leb_total : forall x y, leb x y = true \/ leb y x = true.

Lemma insert_sorted_Sorted (x : A) (l : list A) :
  Sorted (fun a b => leb a b = true) l ->
  Sorted (fun a b => leb a b = true) (insert_sorted leb x l).
Proof.
  induction l as [|y l IH]; intros Hs; cbn [insert_sorted].
  - repeat constructor.
  - destruct (leb x y) eqn:Hxy.
    + constructor; [exact Hs | now constructor].
    + apply Sorted_inv in Hs as [Hl Hy].
      constructor; [now apply IH |].
      destruct l as [|z l]; cbn [insert_sorted].
      * constructor. destruct (leb_total x y); congruence.
      * destruct (leb x z).
        -- constructor. destruct (leb_total x y); congruence.
        -- constructor. now apply HdRel_inv in Hy.
Qed.

Lemma sorted_Sorted (l : list A) :
  Sorted (fun a b => leb a b = true) (sorted leb l).
Proof.
  induction l as [|x l IH]; cbn [sorted fold_right]; [constructor |].
  now apply insert_sorted_Sorted.
Qed.

End SortedOrder.

(** X3.  The lines [prepare_resource_data] returns are in ascending
    order, and they are the lines of the records the service filter leaves,
    one for each: nothing is dropped and nothing is added by the sort.  An
    empty cache gives no line. *)
Theorem prepare_resource_data_sorted (w : Awsf.World)
  (resources : ResourceCache) (service_filter : option string) :
  Sorted (fun a b => String.leb a b = true)
    (Awsf.prepare_resource_data w resources service_filter)
  /\ Permutation
       (map Awsf.format_line (Awsf.restrict w resources service_filter))
       (Awsf.prepare_resource_data w resources service_filter)
  /\ Awsf.prepare_resource_data w [] service_filter = [].
Proof.
  unfold Awsf.prepare_resource_data.
  destruct resources as [|item resources].
  - rewrite restrict_nil. repeat split; constructor.
  - cbn [PyDict.truthy negb PyDict.items].
    repeat split.
    + apply sorted_Sorted, String.leb_total.
    + apply sorted_perm.
Qed.

(** ** The arguments of a query *)

Lemma service_config_returns (s : string) :
  In s (PyDict.keys Awsf.SERVICE_CONFIG) ->
  exists c, Awsf.service_config s = ret c.
Proof.
  cbn. intros H.
  repeat (destruct H as [<- | H]; [eexists; reflexivity |]).
  contradiction.
Qed.

Lemma parse_search_query_cases (args : list string) :
  match Awsf.parse_search_query args with
  | (Some s, q) =>
      In s (PyDict.keys Awsf.SERVICE_CONFIG)
      /\ exists a rest,
           args = a :: rest /\ s = PyStr.lower a /\ q = PyStr.join " " rest
  | (None, q) => q = PyStr.join " " args
  end.
Proof.
  destruct args as [|a rest]; [reflexivity |].
  unfold Awsf.parse_search_query.
  destruct (existsb (String.eqb (PyStr.lower a))
              (PyDict.keys Awsf.SERVICE_CONFIG)) eqn:E; [| reflexivity].
  split.
  - apply existsb_exists in E as (k & Hin & Heq).
    apply String.eqb_eq in Heq. now rewrite Heq.
  - exists a, rest. repeat split.
    destruct rest; reflexivity.
Qed.

(** X4.  The service [parse_search_query] returns is always one of the
    seven tags of [SERVICE_CONFIG]: it is the first argument in lower case,
    the search term is the other arguments joined by a space, and the
    subscript [SERVICE_CONFIG[service]] of the callers finds it.  With any
    other first argument there is no service and every argument belongs to
    the search term. *)
Theorem parse_search_query_service (args : list string) :
  match Awsf.parse_search_query args with
  | (Some s, q) =>
      In s (PyDict.keys Awsf.SERVICE_CONFIG)
      /\ (exists c, Awsf.service_config s = ret c)
      /\ Awsf.given (Some s) = true
      /\ exists a rest,
           args = a :: rest /\ s = PyStr.lower a /\ q = PyStr.join " " rest
  | (None, q) =>
      q = PyStr.join " " args
      /\ forall a rest,
           args = a :: rest ->
           ~ In (PyStr.lower a) (PyDict.keys Awsf.SERVICE_CONFIG)
  end.
Proof.
  pose proof (parse_search_query_cases args) as H.
  destruct (Awsf.parse_search_query args) as [[s|] q] eqn:E.
  - destruct H as [Hin Hargs]. repeat split; try assumption.
    + now apply service_config_returns.
    + now apply service_tag_facts.
  - split; [exact H |].
    intros a rest ->. intros Hin.
    unfold Awsf.parse_search_query in E.
    destruct (existsb (String.eqb (PyStr.lower a))
                (PyDict.keys Awsf.SERVICE_CONFIG)) eqn:Ex; [discriminate |].
    assert (Htrue : existsb (String.eqb (PyStr.lower a))
                      (PyDict.keys Awsf.SERVICE_CONFIG) = true).
    { apply existsb_exists. exists (PyStr.lower a).
      split; [exact Hin | apply String.eqb_refl]. }
    congruence.
Qed.

(** ** A cache that is missing or empty *)

Lemma quiet_ok_bind A B (m : prog A) (k : A -> prog B) (b : B) :
  quiet (trace m) ->
  (exists a, outcome m = Ok a /\ quiet (trace (k a)) /\ outcome (k a) = Ok b) ->
  quiet (trace (bind m k)) /\ outcome (bind m k) = Ok b.
Proof.
  intros Hm (a & Ha & Hk & Hb).
  rewrite trace_bind, outcome_bind, Ha.
  split; [now apply quiet_app | exact Hb].
Qed.

Lemma quiet_ok_print (text : string) :
  quiet (trace (print text)) /\ outcome (print text) = Ok tt.
Proof. split; [apply quiet_print, quiet_nil | reflexivity]. Qed.

Lemma load_without_resources (w : Awsf.World) :
  (forall c, Awsf.resources_file w = Awsf.Holds c -> c = []) ->
  quiet (trace (Awsf.load_aws_resources w))
  /\ outcome (Awsf.load_aws_resources w) = Ok [].
Proof.
  intros Hnone. unfold Awsf.load_aws_resources.
  destruct (Awsf.resources_file w) as [| |msg|c] eqn:Hfile;
    try (split; [repeat apply quiet_print; apply quiet_nil | reflexivity]).
  rewrite (Hnone c eq_refl). split; [apply quiet_nil | reflexivity].
Qed.

Lemma run_fzf_search_without_resources (w : Awsf.World)
  (service_filter : option string) :
  (forall c, Awsf.resources_file w = Awsf.Holds c -> c = []) ->
  quiet (trace (Awsf.run_fzf_search w service_filter))
  /\ outcome (Awsf.run_fzf_search w service_filter) = Ok tt.
Proof.
  intros Hnone. unfold Awsf.run_fzf_search.
  apply quiet_ok_bind; [apply (load_without_resources w Hnone) |].
  exists []. split; [apply (load_without_resources w Hnone) |].
  cbn [Awsf.prepare_resource_data PyDict.truthy negb].
  destruct (Awsf.given service_filter); apply quiet_ok_print.
Qed.



(** ** One match with a URL *)

(** X6.  When the search has exactly one match and the match has a URL
    that is not empty, the URL is opened at once.  With a [service] key the
    run ends with the line that names the record, its service and its
    environment; without one the subscript [resource['service']] raises
    [KeyError] after the URL has been opened. *)
Theorem single_match_opens_its_url (ratio : string -> string -> Q)
  (w : Awsf.World) (resources : ResourceCache) (query : string)
  (service_filter : option string) (name : string) (resource : ResourceRecord)
  (u : string) :
  Awsf.resources_file w = Awsf.Holds resources ->
  Awsf.find_matches query (Awsf.restrict w resources service_filter)
  = [(name, resource)] ->
  url resource = Some u -> PyStr.truthy u = true ->
  Awsf.search_with_query ratio w query service_filter
  = match service resource with
    | Some s =>
        ([ Open u;
           Print ("🚀 Opening " ++ name ++ " ("
                  ++ Awsf.get_service_display s (rtype resource) ++ ") "
                  ++ Awsf.get_environment_indicator name
                  ++ " in AWS Console") ],
         Ok tt)
    | None => ([Open u], Raise (KeyError "service"))
    end.
Proof.
  intros Hfile Hmatch Hurl Hu.
  unfold Awsf.search_with_query, Awsf.load_aws_resources.
  rewrite Hfile, bind_ret_l.
  destruct resources as [|item resources'].
  - rewrite restrict_nil in Hmatch. discriminate.
  - cbn [PyDict.truthy negb]. rewrite Hmatch, Hurl.
    cbn [Awsf.get_or]. rewrite Hu. unfold Awsf.service_of.
    destruct (service resource); reflexivity.
Qed.

Lemma single_match_opens_its_url_witness :
  Awsf.search_with_query Difflib.ratio (world_of orders_cache ["lambda"])
    "orders-prod" (Some "lambda")
  = ([ Open "https://x/orders-prod";
       Print "🚀 Opening orders-prod (λ Lambda) 🟢 PROD in AWS Console" ],
     Ok tt).
Proof.
  exact (single_match_opens_its_url Difflib.ratio
           (world_of orders_cache ["lambda"]) orders_cache "orders-prod"
           (Some "lambda") "orders-prod"
           (lambda_record "https://x/orders-prod") "https://x/orders-prod"
           eq_refl eq_refl eq_refl eq_refl).
Defined.

(** ** The ways the matcher ends *)

Lemma open_selected_returns (stdout : string) :
  outcome (Awsf.open_selected stdout) = Ok tt.
Proof.
  unfold Awsf.open_selected.
  now destruct (4 <=? List.length (PyStr.split " | " (PyStr.strip stdout)))%nat.
Qed.

(** X7.  [run_fzf_search] ends normally however the matcher ends: when it
    cannot be started, with [FileNotFoundError], another [OSError] or a
    [SubprocessError], when the user interrupts it, and with any exit
    status.  It opens a URL only after the matcher has exited with status
    0. *)
Theorem matcher_failures_are_handled (w : Awsf.World)
  (service_filter : option string) :
  (Awsf.given service_filter = true ->
   In (Awsf.get_or service_filter EmptyString)
     (PyDict.keys Awsf.SERVICE_CONFIG)) ->
  (forall header prompt lines e,
     Awsf.fzf w header prompt lines = Awsf.NotSpawned e ->
     is_OSError e = true \/ exists msg, e = SubprocessError msg) ->
  outcome (Awsf.run_fzf_search w service_filter) = Ok tt
  /\ forall u,
       In (Open u) (trace (Awsf.run_fzf_search w service_filter)) ->
       exists header prompt lines stdout,
         Awsf.fzf w header prompt lines = Awsf.Exited 0 stdout.
Proof.
  intros Hvalid Hspawn. unfold Awsf.run_fzf_search.
  assert (Hload : exists t resources,
            Awsf.load_aws_resources w = (t, Ok resources)
            /\ forall u, ~ In (Open u) t).
  { unfold Awsf.load_aws_resources.
    destruct (Awsf.resources_file w); do 2 eexists;
      (split; [reflexivity |]); cbn; intros u H;
      repeat (destruct H as [H | H]; [discriminate H |]); exact H. }
  destruct Hload as (t & resources & -> & Ht).
  cbn [bind].
  set (lines := Awsf.prepare_resource_data w resources service_filter).
  assert (Hhp : exists hp,
            (if Awsf.given service_filter
             then c <- Awsf.service_config
                         (Awsf.get_or service_filter EmptyString) ;;
                  ret ("🔍 Search " ++ Awsf.name c
                         ++ " Resources (Enter=Open, Ctrl+C=Copy URL)",
                       Awsf.icon c ++ " Search: ")
             else ret ("🔍 Search AWS Resources (Enter=Open, Ctrl+C=Copy URL)",
                       "☁️ Search: ")) = ret hp).
  { destruct (Awsf.given service_filter); [| eexists; reflexivity].
    destruct (service_config_returns _ (Hvalid eq_refl)) as [c ->].
    eexists. reflexivity. }
  destruct Hhp as [[header prompt] Hhp].
  destruct lines as [|line lines'] eqn:Hlines.
  { destruct (Awsf.given service_filter); cbn; rewrite ?app_nil_r;
      (split; [reflexivity |]); intros u H; apply in_app_or in H;
      destruct H as [H | [H | []]]; [now apply Ht in H | discriminate H
                                    | now apply Ht in H | discriminate H]. }
  rewrite Hhp, bind_ret_l. cbn [fst snd].
  unfold Awsf.spawn_fzf.
  destruct (Awsf.fzf w header prompt (line :: lines')) as [e| |code stdout]
    eqn:Hfzf.
  - destruct (Hspawn _ _ _ _ Hfzf) as [He | [msg ->]].
    + destruct e; try discriminate He; cbn; rewrite ?app_nil_r;
        (split; [reflexivity |]); intros u H; apply in_app_or in H;
        destruct H as [H | [H | []]];
        solve [now apply Ht in H | discriminate H].
    + cbn. split; [reflexivity |]. intros u H. apply in_app_or in H.
      destruct H as [H | [H | []]];
        solve [now apply Ht in H | discriminate H].
  - cbn. split; [reflexivity |]. intros u H. apply in_app_or in H.
    destruct H as [H | [H | [H | []]]];
      solve [now apply Ht in H | discriminate H].
  - cbn [bind emit ret app try_except].
    destruct ((code =? 0)%Z && PyStr.truthy (PyStr.strip stdout)) eqn:Hcode.
    + apply andb_true_iff in Hcode as [Hcode _].
      apply Z.eqb_eq in Hcode. subst code.
      pose proof (open_selected_returns stdout) as Hopen.
      destruct (Awsf.open_selected stdout) as [t' r'].
      cbn [outcome snd] in Hopen. subst r'. cbn.
      split; [reflexivity |]. intros u _. now exists header, prompt, (line :: lines'), stdout.
    + assert (Hrest : exists t',
                (if (code =? 130)%Z
                 then print "📋 URL copied to clipboard" else ret tt)
                = (t', Ok tt) /\ forall u, ~ In (Open u) t').
      { destruct (code =? 130)%Z; eexists; (split; [reflexivity |]);
          intros u H; cbn in H;
          repeat (destruct H as [H | H]; [discriminate H |]); exact H. }
      destruct Hrest as (t' & -> & Ht'). cbn.
      split; [reflexivity |]. intros u H. apply in_app_or in H.
      destruct H as [H | [H | H]];
        solve [now apply Ht in H | discriminate H | now apply Ht' in H].
Qed.

Lemma matcher_failures_are_handled_witness :
  outcome (Awsf.run_fzf_search (world_of orders_cache ["lambda"])
             (Some "lambda")) = Ok tt.
Proof.
  apply (matcher_failures_are_handled (world_of orders_cache ["lambda"])
           (Some "lambda")).
  - intros _. cbn. auto.
  - intros header prompt lines e H. discriminate H.
Defined.

(** X8.  An interrupt during the choice among several matches is not
    caught: when the search has more than one match and the user
    interrupts the matcher, [run_fzf_for_matches] has no handler for it
    and [search_with_query] ends with [KeyboardInterrupt], after the
    matcher has been started and before anything is opened. *)
Theorem interrupt_in_selection_is_not_caught (ratio : string -> string -> Q)
  (w : Awsf.World) (resources : ResourceCache) (query : string)
  (service_filter : option string) (first second : string * ResourceRecord)
  (others : list (string * ResourceRecord)) :
  Awsf.resources_file w = Awsf.Holds resources ->
  Awsf.find_matches query (Awsf.restrict w resources service_filter)
  = first :: second :: others ->
  (forall header prompt lines,
     Awsf.fzf w header prompt lines = Awsf.Interrupted) ->
  outcome (Awsf.search_with_query ratio w query service_filter)
  = Raise KeyboardInterrupt
  /\ forall u,
       ~ In (Open u)
           (trace (Awsf.search_with_query ratio w query service_filter)).
Proof.
  intros Hfile Hmatch Hfzf.
  unfold Awsf.search_with_query, Awsf.load_aws_resources.
  rewrite Hfile, bind_ret_l.
  destruct resources as [|item resources'].
  - rewrite restrict_nil in Hmatch. discriminate.
  - cbn [PyDict.truthy negb]. rewrite Hmatch.
    destruct first as [name resource].
    unfold Awsf.run_fzf_for_matches, Awsf.spawn_fzf. rewrite Hfzf.
    cbn. split; [reflexivity |].
    intros u [H | []]. discriminate H.
Qed.

Lemma interrupt_in_selection_is_not_caught_witness :
  outcome (Awsf.search_with_query Difflib.ratio
             {| Awsf.RESOURCES_FILE := "/opt/awsf/data/aws_resources.json";
                Awsf.resources_file := Awsf.Holds orders_cache;
                Awsf.settings_file := None;
                Awsf.fzf_installed := true;
                Awsf.fzf := fun _ _ _ => Awsf.Interrupted;
                Awsf.typed := None |}
             "orders" None)
  = Raise KeyboardInterrupt.
Proof.
  apply (interrupt_in_selection_is_not_caught Difflib.ratio
           {| Awsf.RESOURCES_FILE := "/opt/awsf/data/aws_resources.json";
              Awsf.resources_file := Awsf.Holds orders_cache;
              Awsf.settings_file := None;
              Awsf.fzf_installed := true;
              Awsf.fzf := fun _ _ _ => Awsf.Interrupted;
              Awsf.typed := None |}
           orders_cache "orders" None
           ("orders-prod", lambda_record "https://x/orders-prod")
           ("orders-dev", lambda_record "https://x/orders-dev") []);
    reflexivity.
Defined.

(** ** Filtering twice *)

Lemma filter_twice A (p q : A -> bool) (l : list A) :
  filter q (filter p (filter q (filter p l))) = filter q (filter p l).
Proof.
  induction l as [|x l IH]; [reflexivity |].
  cbn [filter]. destruct (p x) eqn:Hp; [| exact IH].
  cbn [filter]. destruct (q x) eqn:Hq; [| exact IH].
  cbn [filter]. rewrite Hp. cbn [filter]. rewrite Hq. now rewrite IH.
Qed.

Lemma wf_comprehension V (p : string -> V -> bool) (d : PyDict.dict V) :
  PyDict.wf d -> PyDict.wf (PyDict.comprehension p d).
Proof.
  unfold PyDict.wf, PyDict.comprehension, PyDict.keys.
  induction d as [|[k v] d IH]; cbn [filter map fst snd]; [trivial |].
  intros Hnd. inversion Hnd as [|? ? Hnotin Hnd']; subst.
  destruct (p k v); cbn [map fst]; [| now apply IH].
  constructor; [| now apply IH].
  intros Hin. apply Hnotin. apply in_map_iff in Hin as ([k' v'] & Hk & Hin).
  apply filter_In in Hin as [Hin _]. apply in_map_iff.
  now exists (k', v').
Qed.

(** X9.  [filter_by_service] is a projection: filtering what it returned,
    with the same settings and the same service, changes nothing; the
    names stay distinct; and filtering by a second, different service
    what was kept for a first leaves nothing. *)
Theorem filter_by_service_idempotent (w : Awsf.World)
  (resources : ResourceCache) (service_filter : option string) :
  Awsf.filter_by_service w
    (Awsf.filter_by_service w resources service_filter) service_filter
  = Awsf.filter_by_service w resources service_filter
  /\ (PyDict.wf resources ->
      PyDict.wf (Awsf.filter_by_service w resources service_filter))
  /\ forall a b,
       PyStr.truthy a = true -> PyStr.truthy b = true ->
       PyStr.lower a <> PyStr.lower b ->
       Awsf.filter_by_service w
         (Awsf.filter_by_service w resources (Some a)) (Some b) = [].
Proof.
  repeat split.
  - unfold Awsf.filter_by_service, PyDict.comprehension.
    destruct service_filter as [f|]; [destruct (PyStr.truthy f) |].
    + apply filter_twice.
    + apply filter_absorb. auto.
    + apply filter_absorb. auto.
  - intros Hwf. unfold Awsf.filter_by_service.
    destruct service_filter as [f|]; [destruct (PyStr.truthy f) |];
      repeat apply wf_comprehension; exact Hwf.
  - intros a b Ha Hb Hne.
    destruct (Awsf.filter_by_service w
                (Awsf.filter_by_service w resources (Some a)) (Some b))
      as [|[name r] rest] eqn:E; [reflexivity | exfalso].
    assert (Hin : In (name, r)
                    (Awsf.filter_by_service w
                       (Awsf.filter_by_service w resources (Some a)) (Some b)))
      by (rewrite E; apply in_eq).
    apply filter_by_service_In in Hin as (Hin & _ & Hb').
    apply filter_by_service_In in Hin as (_ & _ & Ha').
    apply Hne. cbn [Awsf.given Awsf.get_or] in Ha', Hb'.
    now rewrite <- (Ha' Ha), <- (Hb' Hb).
Qed.

(** ** The command line of the Collector *)

Lemma parse_args_help (argv rest : list string) (i : nat)
  (region profile : option string) :
  asks_help rest = true ->
  Populate.parse_args argv rest i region profile = None.
Proof.
  revert i region profile.
  induction rest as [|arg rest IH]; intros i region profile H;
    [discriminate H |].
  change (asks_help (arg :: rest))
    with (existsb (String.eqb arg) ["--help"; "-h"] || asks_help rest) in H.
  cbn [Populate.parse_args].
  destruct (existsb (String.eqb arg) ["--help"; "-h"]) eqn:Hhelp.
  - assert (Hr : existsb (String.eqb arg) ["--region"; "-r"] = false).
    { cbn in Hhelp |- *.
      destruct (String.eqb_spec arg "--help") as [-> |];
        [reflexivity |].
      destruct (String.eqb_spec arg "-h") as [-> |];
        [reflexivity | discriminate Hhelp]. }
    assert (Hp : existsb (String.eqb arg) ["--profile"; "-p"] = false).
    { cbn in Hhelp |- *.
      destruct (String.eqb_spec arg "--help") as [-> |];
        [reflexivity |].
      destruct (String.eqb_spec arg "-h") as [-> |];
        [reflexivity | discriminate Hhelp]. }
    now rewrite Hr, Hp.
  - cbn [orb] in H.
    destruct (existsb (String.eqb arg) ["--region"; "-r"]
              && (i <? List.length argv)%nat); [now apply IH |].
    destruct (existsb (String.eqb arg) ["--profile"; "-p"]
              && (i <? List.length argv)%nat); now apply IH.
Qed.

(** X10.  The help flag anywhere on the command line of the Collector, even
    in the place of the value of another flag, makes the run print the
    usage text and end with status 0: nothing else is printed and no file
    is written. *)
Theorem help_flag_only_prints_usage (sdk : Populate.Sdk)
  (argv : list string) :
  asks_help argv = true ->
  Populate.main sdk argv = ([Print Populate.usage], Ok None)
  /\ exit_status (outcome (Populate.main sdk argv)) = 0%Z.
Proof.
  intros H. unfold Populate.main.
  rewrite (parse_args_help argv argv 1 None None H). split; reflexivity.
Qed.

Lemma help_flag_only_prints_usage_witness :
  Populate.main bare_sdk ["--region"; "--help"]
  = ([Print Populate.usage], Ok None).
Proof.
  apply (help_flag_only_prints_usage bare_sdk ["--region"; "--help"]).
  reflexivity.
Defined.

Lemma flags_disjoint (arg : string) :
  existsb (String.eqb arg) ["--region"; "-r"] = true ->
  existsb (String.eqb arg) ["--profile"; "-p"] = false.
Proof.
  cbn. destruct (String.eqb_spec arg "--region") as [-> |];
    [reflexivity |].
  destruct (String.eqb_spec arg "-r") as [-> |]; [reflexivity | discriminate].
Qed.

(** The argument loop from any position on: what it has read so far stays
    unless a later flag with a value replaces it. *)
Lemma parse_args_from (pre rest : list string) (region profile : option string) :
  asks_help rest = false ->
  Populate.parse_args (pre ++ rest) rest (S (List.length pre)) region profile
  = Some (match flag_value ["--region"; "-r"] rest with
          | Some v => Some v
          | None => region
          end,
          match flag_value ["--profile"; "-p"] rest with
          | Some v => Some v
          | None => profile
          end).
Proof.
  revert pre region profile.
  induction rest as [|arg rest IH]; intros pre region profile Hhelp;
    [reflexivity |].
  change (asks_help (arg :: rest))
    with (existsb (String.eqb arg) ["--help"; "-h"] || asks_help rest)
    in Hhelp.
  apply orb_false_iff in Hhelp as [Harg Hrest].
  assert (Hnext : Populate.parse_args (pre ++ arg :: rest) rest
                    (S (S (List.length pre)))
                  = Populate.parse_args ((pre ++ [arg]) ++ rest) rest
                      (S (List.length (pre ++ [arg])))).
  { rewrite <- app_assoc, length_app. cbn [app List.length].
    now rewrite Nat.add_1_r. }
  assert (Hlen : (S (List.length pre) <? List.length (pre ++ arg :: rest))%nat
                 = match rest with [] => false | _ => true end).
  { rewrite length_app. cbn [List.length].
    destruct rest; [apply Nat.ltb_ge | apply Nat.ltb_lt]; cbn; lia. }
  assert (Hnth : nth_error (pre ++ arg :: rest) (S (List.length pre))
                 = hd_error rest).
  { rewrite nth_error_app2 by lia.
    replace (S (List.length pre) - List.length pre)%nat with 1%nat by lia.
    now destruct rest. }
  cbn [Populate.parse_args flag_value]. rewrite Hlen, Hnth, Harg, Hnext.
  destruct (existsb (String.eqb arg) ["--region"; "-r"]) eqn:Hr.
  - rewrite (flags_disjoint arg Hr).
    destruct rest as [|v rest']; cbn [andb hd_error].
    + reflexivity.
    + rewrite IH by assumption.
      destruct (flag_value ["--region"; "-r"] (v :: rest'));
        now destruct (flag_value ["--profile"; "-p"] (v :: rest')).
  - cbn [andb].
    destruct (existsb (String.eqb arg) ["--profile"; "-p"]) eqn:Hp.
    + destruct rest as [|v rest']; cbn [andb hd_error].
      * reflexivity.
      * rewrite IH by assumption.
        destruct (flag_value ["--region"; "-r"] (v :: rest'));
          now destruct (flag_value ["--profile"; "-p"] (v :: rest')).
    + cbn [andb]. rewrite IH by assumption.
      destruct rest as [|v rest']; [reflexivity |].
      destruct (flag_value ["--region"; "-r"] (v :: rest'));
        now destruct (flag_value ["--profile"; "-p"] (v :: rest')).
Qed.

(** X11.  Without the help flag the argument loop of the Collector always
    ends, and the region and the profile it returns are the arguments
    that follow the last [--region]/[-r] and the last [--profile]/[-p]
    that have an argument after them: a later flag replaces an earlier
    one, and a flag in the last place is ignored.  The region of the run
    is that of the command line unless it is absent or empty, then the one
    of the configuration file, then "us-east-1". *)
Theorem last_flag_wins (sdk : Populate.Sdk) (argv : list string) :
  asks_help argv = false ->
  Populate.parse_args argv argv 1 None None
  = Some (flag_value ["--region"; "-r"] argv,
          flag_value ["--profile"; "-p"] argv)
  /\ region_of sdk argv
     = Some (match flag_value ["--region"; "-r"] argv with
             | Some (String c v) => String c v
             | _ =>
                 match Populate.config_file sdk with
                 | Some {| Populate.aws_region := Some r |} => r
                 | _ => "us-east-1"
                 end
             end).
Proof.
  intros H.
  pose proof (parse_args_from [] argv None None H) as Hparse.
  cbn [app List.length] in Hparse.
  assert (Hsame : Populate.parse_args argv argv 1 None None
                  = Some (flag_value ["--region"; "-r"] argv,
                          flag_value ["--profile"; "-p"] argv)).
  { rewrite Hparse.
    destruct (flag_value ["--region"; "-r"] argv);
      now destruct (flag_value ["--profile"; "-p"] argv). }
  split; [exact Hsame |].
  unfold region_of. rewrite Hsame. unfold Populate.load_config.
  destruct (flag_value ["--region"; "-r"] argv) as [[|c v]|];
    cbn [Populate.opt_truthy PyStr.truthy Populate.get_or];
    destruct (Populate.config_file sdk) as [[[r|] p]|]; reflexivity.
Qed.

Lemma last_flag_wins_witness :
  region_of bare_sdk ["-r"; "eu-west-1"; "--region"; "us-west-2"; "--region"]
  = Some "us-west-2".
Proof.
  apply (last_flag_wins bare_sdk
           ["-r"; "eu-west-1"; "--region"; "us-west-2"; "--region"]).
  reflexivity.
Defined.

(** ** The summary of a collection run *)

Lemma count_step (d : PyDict.dict nat) (k : string) :
  list_sum
    (PyDict.values
       (PyDict.set k (Populate.get_or (PyDict.get k d) 0 + 1) d))
  = (list_sum (PyDict.values d) + 1)%nat.
Proof.
  induction d as [|[k' v'] d IH]; cbn [PyDict.get PyDict.set]; [reflexivity |].
  destruct (String.eqb k k'); cbn [PyDict.values map list_sum fold_right snd
                                    Populate.get_or].
  - fold (list_sum (map snd d)). lia.
  - fold (list_sum (map snd d)).
    change (map snd (PyDict.set k (Populate.get_or (PyDict.get k d) 0 + 1) d))
      with (PyDict.values
              (PyDict.set k (Populate.get_or (PyDict.get k d) 0 + 1) d)).
    fold (list_sum
            (PyDict.values
               (PyDict.set k (Populate.get_or (PyDict.get k d) 0 + 1) d))).
    rewrite IH. unfold PyDict.values. lia.
Qed.

Lemma In_keys_set V (d : PyDict.dict V) (k : string) (v : V) (n : string) :
  In n (PyDict.keys (PyDict.set k v d)) <-> In n (PyDict.keys d) \/ n = k.
Proof.
  rewrite keys_set. unfold PyDict.mem.
  destruct (PyDict.get k d) eqn:E.
  - split; [now left |]. intros [H | ->]; [exact H |].
    apply get_In in E. apply keys_In. now exists v0.
  - rewrite in_app_iff. cbn. intuition.
Qed.

(** X12.  The counts of the summary add up to the number of records
    saved, there is one count for each service tag that occurs in the
    cache, in upper case, and for no other. *)
Theorem service_counts_add_up (all : ResourceCache) :
  list_sum (PyDict.values (Populate.count_services all)) = List.length all
  /\ PyDict.wf (Populate.count_services all)
  /\ forall k,
       In k (PyDict.keys (Populate.count_services all)) <->
       exists name r,
         In (name, r) all
         /\ k = PyStr.upper (Populate.get_or (service r) "unknown").
Proof.
  unfold Populate.count_services.
  set (step := fun (service_counts : PyDict.dict nat) (resource : ResourceRecord) =>
                 PyDict.set
                   (PyStr.upper (Populate.get_or (service resource) "unknown"))
                   (Populate.get_or
                      (PyDict.get
                         (PyStr.upper
                            (Populate.get_or (service resource) "unknown"))
                         service_counts) 0 + 1)
                   service_counts).
  assert (Hgen : forall (l : ResourceCache) (acc : PyDict.dict nat),
            PyDict.wf acc ->
            list_sum (PyDict.values (fold_left step (PyDict.values l) acc))
            = (list_sum (PyDict.values acc) + List.length l)%nat
            /\ PyDict.wf (fold_left step (PyDict.values l) acc)
            /\ forall k,
                 In k (PyDict.keys (fold_left step (PyDict.values l) acc)) <->
                 In k (PyDict.keys acc)
                 \/ exists name r,
                      In (name, r) l
                      /\ k = PyStr.upper
                               (Populate.get_or (service r) "unknown")).
  { induction l as [|[name r] l IH]; intros acc Hwf.
    - cbn [PyDict.values map fold_left List.length]. repeat split.
      + symmetry. apply Nat.add_0_r.
      + exact Hwf.
      + now left.
      + intros [H | (n & r & [] & _)]. exact H.
    - cbn [PyDict.values map fold_left snd].
      destruct (IH (step acc r)) as (Hsum & Hwf' & Hkeys).
      { now apply wf_set. }
      fold (PyDict.values l) in *.
      repeat split.
      + etransitivity; [exact Hsum |].
        unfold step. rewrite count_step. cbn [List.length]. lia.
      + exact Hwf'.
      + intros H. apply Hkeys in H as [H | (n & r' & Hin & ->)].
        * unfold step in H. apply In_keys_set in H as [H | ->];
            [now left | right].
          exists name, r. split; [apply in_eq | reflexivity].
        * right. exists n, r'. split; [now apply in_cons | reflexivity].
      + intros H. apply Hkeys.
        destruct H as [H | (n & r' & [Heq | Hin] & ->)].
        * left. unfold step. apply In_keys_set. now left.
        * inversion Heq; subst. left. unfold step. apply In_keys_set.
          now right.
        * right. exists n, r'. now split. }
  destruct (Hgen all PyDict.empty) as (Hsum & Hwf & Hkeys); [constructor |].
  repeat split.
  - exact Hsum.
  - exact Hwf.
  - intros H. apply Hkeys in H as [[] | H]. exact H.
  - intros H. apply Hkeys. now right.
Qed.

(** ** The names a fetcher stores *)

Section LoopKeys.

Variables (A : Type) (body : A -> ResourceCache -> result ResourceCache).
Variable name_of : A -> option string.

(** A loop whose body stores each item under its name, or skips it, ends
    with the names it started with and those of its items. *)
Lemma loop_keys (l : list A) (s : ResourceCache) :
  (forall x s0, In x l ->
     exists s', body x s0 = Ok s'
                /\ forall n, In n (PyDict.keys s') <->
                             In n (PyDict.keys s0) \/ name_of x = Some n) ->
  forall n,
    In n (PyDict.keys (fst (Populate.loop body l s))) <->
    In n (PyDict.keys s) \/ exists x, In x l /\ name_of x = Some n.
Proof.
  revert s. induction l as [|x l IH]; intros s Hbody n.
  - cbn. split; [now left |]. now intros [H | (x & [] & _)].
  - cbn [Populate.loop].
    destruct (Hbody x s (in_eq x l)) as (s' & -> & Hkeys).
    rewrite IH by (intros y s0 Hy; apply Hbody; now apply in_cons).
    rewrite Hkeys. split.
    + intros [[H | H] | (y & Hy & Hn)].
      * now left.
      * right. exists x. split; [apply in_eq | exact H].
      * right. exists y. split; [now apply in_cons | exact Hn].
    + intros [H | (y & [<- | Hy] & Hn)].
      * left. now left.
      * left. now right.
      * right. now exists y.
Qed.

End LoopKeys.

Lemma In_names_of A (name : A -> option string) (l : list A) (n : string) :
  In n (names_of name l) <-> exists x, In x l /\ name x = Some n.
Proof.
  unfold names_of. rewrite in_flat_map. split.
  - intros (x & Hx & Hn). exists x. split; [exact Hx |].
    destruct (name x); [| contradiction]. destruct Hn as [-> | []].
    reflexivity.
  - intros (x & Hx & Hn). exists x. split; [exact Hx |].
    rewrite Hn. now left.
Qed.

Lemma store_stream_keys (sdk : Populate.Sdk) (region n : string)
  (s : ResourceCache) :
  answered (Populate.describe_stream sdk region n)
    (fun d => present (Populate.StreamDescription d)) = true ->
  exists s',
    Populate.store_stream sdk region n s = Ok s'
    /\ forall m, In m (PyDict.keys s') <->
                 In m (PyDict.keys s)
                 \/ (if returned (Populate.describe_stream sdk region n)
                     then Some n else None) = Some m.
Proof.
  unfold Populate.store_stream, answered.
  destruct (Populate.describe_stream sdk region n) as [d|e]; cbn [returned].
  - destruct (Populate.StreamDescription d); [| discriminate]. intros _.
    eexists. split; [reflexivity |]. intros m. rewrite In_keys_set.
    split; (intros [H | H]; [now left | right; congruence]).
  - intros ->. exists s. split; [reflexivity |]. intros m.
    split; [now left | now intros [H | H]].
Qed.

Lemma store_table_keys (sdk : Populate.Sdk) (region n : string)
  (s : ResourceCache) :
  answered (Populate.describe_table sdk region n)
    (fun d => present (Populate.Table d)) = true ->
  exists s',
    Populate.store_table sdk region n s = Ok s'
    /\ forall m, In m (PyDict.keys s') <->
                 In m (PyDict.keys s)
                 \/ (if returned (Populate.describe_table sdk region n)
                     then Some n else None) = Some m.
Proof.
  unfold Populate.store_table, answered.
  destruct (Populate.describe_table sdk region n) as [d|e]; cbn [returned].
  - destruct (Populate.Table d); [| discriminate]. intros _.
    eexists. split; [reflexivity |]. intros m. rewrite In_keys_set.
    split; (intros [H | H]; [now left | right; congruence]).
  - intros ->. exists s. split; [reflexivity |]. intros m.
    split; [now left | now intros [H | H]].
Qed.

Lemma In_described (describe : string -> bool) (names : list string)
  (n : string) :
  (exists x, In x names /\ (if describe x then Some x else None) = Some n)
  <-> In n (filter describe names).
Proof.
  rewrite filter_In. split.
  - intros (x & Hx & Hn). destruct (describe x) eqn:E; [| discriminate].
    apply Some_inj in Hn. subst x. now split.
  - intros [Hn Hd]. exists n. split; [exact Hn |]. now rewrite Hd.
Qed.

Lemma scan_streams_keys (sdk : Populate.Sdk) (region : string) (n : string) :
  valid_kinesis sdk region = true ->
  In n (PyDict.keys (fst (Populate.scan_streams sdk region))) <->
  In n (filter (fun n => returned (Populate.describe_stream sdk region n))
          (flat_map (fun page => Populate.get_or (Populate.StreamNames page) [])
             (fst (Populate.list_streams sdk region)))).
Proof.
  unfold valid_kinesis. intros Hv.
  apply andb_true_iff in Hv as [_ Hids]. rewrite forallb_forall in Hids.
  unfold Populate.scan_streams, Populate.loop_pages.
  set (names := flat_map _ _) in *.
  assert (Hfst : forall r : ResourceCache * option exn,
            fst (match r with
                 | (s', Some e) => (s', Some e)
                 | (s', None) =>
                     (s', snd (Populate.list_streams sdk region))
                 end) = fst r) by (now intros [s' [e|]]).
  rewrite Hfst.
  rewrite (loop_keys _ (Populate.store_stream sdk region)
             (fun x => if returned (Populate.describe_stream sdk region x)
                       then Some x else None)).
  - rewrite <- In_described. cbn. tauto.
  - intros x s0 Hx. apply store_stream_keys. now apply Hids.
Qed.

Lemma scan_tables_keys (sdk : Populate.Sdk) (region : string) (n : string) :
  valid_dynamodb sdk region = true ->
  In n (PyDict.keys (fst (Populate.scan_tables sdk region))) <->
  In n (filter (fun n => returned (Populate.describe_table sdk region n))
          (flat_map (fun page => Populate.get_or (Populate.TableNames page) [])
             (fst (Populate.list_tables sdk region)))).
Proof.
  unfold valid_dynamodb. intros Hv.
  apply andb_true_iff in Hv as [_ Hids]. rewrite forallb_forall in Hids.
  unfold Populate.scan_tables, Populate.loop_pages.
  set (names := flat_map _ _) in *.
  assert (Hfst : forall r : ResourceCache * option exn,
            fst (match r with
                 | (s', Some e) => (s', Some e)
                 | (s', None) =>
                     (s', snd (Populate.list_tables sdk region))
                 end) = fst r) by (now intros [s' [e|]]).
  rewrite Hfst.
  rewrite (loop_keys _ (Populate.store_table sdk region)
             (fun x => if returned (Populate.describe_table sdk region x)
                       then Some x else None)).
  - rewrite <- In_described. cbn. tauto.
  - intros x s0 Hx. apply store_table_keys. now apply Hids.
Qed.

(** X13.  A stream or a table that cannot be described is skipped, and the
    others are kept: when the listing succeeds and every description
    either answers or fails with the SDK's error, the Kinesis fetcher
    returns a record under exactly the listed stream names whose
    description answered, and the DynamoDB fetcher does the same for the
    tables. *)
Theorem undescribable_items_are_skipped (sdk : Populate.Sdk)
  (region : string) :
  valid_kinesis sdk region = true ->
  valid_dynamodb sdk region = true ->
  (forall service_name, exists c, Populate.client sdk service_name = Ok c) ->
  snd (Populate.list_streams sdk region) = None ->
  snd (Populate.list_tables sdk region) = None ->
  (exists streams,
     outcome (Populate.fetch_kinesis_streams sdk region) = Ok streams
     /\ forall n,
          In n (PyDict.keys streams) <->
          In n (flat_map
                  (fun page => Populate.get_or (Populate.StreamNames page) [])
                  (fst (Populate.list_streams sdk region)))
          /\ exists d, Populate.describe_stream sdk region n = Ok d)
  /\ exists tables,
       outcome (Populate.fetch_dynamodb_tables sdk region) = Ok tables
       /\ forall n,
            In n (PyDict.keys tables) <->
            In n (flat_map
                    (fun page => Populate.get_or (Populate.TableNames page) [])
                    (fst (Populate.list_tables sdk region)))
            /\ exists d, Populate.describe_table sdk region n = Ok d.
Proof.
  intros Hk Hd Hclient Hstreams Htables. split.
  - exists (fst (Populate.scan_streams sdk region)). split.
    + rewrite (fetch_kinesis_streams_run sdk region Hk), Hstreams.
      now destruct (Hclient "kinesis") as [c ->].
    + intros n. rewrite (scan_streams_keys sdk region n Hk), filter_In.
      split; intros [Hn Hret]; (split; [exact Hn |]).
      * destruct (Populate.describe_stream sdk region n) as [d|e];
          [now exists d | discriminate Hret].
      * now destruct Hret as [d ->].
  - exists (fst (Populate.scan_tables sdk region)). split.
    + rewrite (fetch_dynamodb_tables_run sdk region Hd), Htables.
      now destruct (Hclient "dynamodb") as [c ->].
    + intros n. rewrite (scan_tables_keys sdk region n Hd), filter_In.
      split; intros [Hn Hret]; (split; [exact Hn |]).
      * destruct (Populate.describe_table sdk region n) as [d|e];
          [now exists d | discriminate Hret].
      * now destruct Hret as [d ->].
Qed.

Lemma undescribable_items_are_skipped_witness :
  exists streams,
    outcome (Populate.fetch_kinesis_streams bare_sdk "us-east-1") = Ok streams
    /\ forall n,
         In n (PyDict.keys streams) <->
         In n ["events"; "audit"]
         /\ exists d, Populate.describe_stream bare_sdk "us-east-1" n = Ok d.
Proof.
  destruct (undescribable_items_are_skipped bare_sdk "us-east-1")
    as [Hstreams _]; try reflexivity.
  - intros service_name. exists tt. reflexivity.
  - exact Hstreams.
Defined.

(** ** Two RDS resources of one name *)

Section LoopGet.

Variables (A : Type) (body : A -> ResourceCache -> result ResourceCache).
Variable key : A -> string.

Lemma loop_get_stored (P : ResourceRecord -> Prop) (l : list A)
  (s : ResourceCache) (n : string) :
  (forall x s0, In x l ->
     exists r, body x s0 = Ok (PyDict.set (key x) r s0) /\ P r) ->
  (exists x, In x l /\ key x = n)
  \/ (exists r, PyDict.get n s = Some r /\ P r) ->
  exists r, PyDict.get n (fst (Populate.loop body l s)) = Some r /\ P r.
Proof.
  revert s. induction l as [|x l IH]; intros s Hbody H.
  - destruct H as [(x & [] & _) | H]. exact H.
  - cbn [Populate.loop].
    destruct (Hbody x s (in_eq x l)) as (r & -> & Hr).
    apply IH; [intros y s0 Hy; apply Hbody; now apply in_cons |].
    destruct (String.eqb_spec n (key x)) as [-> | Hne].
    + right. exists r. split; [apply get_set_same | exact Hr].
    + destruct H as [(y & [<- | Hy] & Hn) | (r0 & Hget & Hr0)].
      * now symmetry in Hn.
      * left. now exists y.
      * right. exists r0. split; [| exact Hr0].
        rewrite get_set_other by exact Hne. exact Hget.
Qed.

Lemma loop_get_untouched (l : list A) (s : ResourceCache) (n : string) :
  (forall x s0, In x l -> exists r, body x s0 = Ok (PyDict.set (key x) r s0)) ->
  (forall x, In x l -> key x <> n) ->
  PyDict.get n (fst (Populate.loop body l s)) = PyDict.get n s.
Proof.
  revert s. induction l as [|x l IH]; intros s Hbody Hn; [reflexivity |].
  cbn [Populate.loop].
  destruct (Hbody x s (in_eq x l)) as (r & ->).
  rewrite IH.
  - apply get_set_other. intros ->. now apply (Hn x (in_eq x l)).
  - intros y s0 Hy. apply Hbody. now apply in_cons.
  - intros y Hy. apply Hn. now apply in_cons.
Qed.

End LoopGet.

Lemma fst_loop_pages A P (body : A -> ResourceCache -> result ResourceCache)
  (pages : Populate.paged P) (items_of : P -> list A) (s : ResourceCache) :
  fst (Populate.loop_pages pages items_of body s)
  = fst (Populate.loop body (flat_map items_of (fst pages)) s).
Proof.
  unfold Populate.loop_pages.
  now destruct (Populate.loop body (flat_map items_of (fst pages)) s)
    as [s' [e|]].
Qed.

(** X14.  Within RDS a cluster replaces an instance of the same
    identifier: when the answers carry the identifiers, whether or not a
    listing ends in the SDK's error, the fetcher returns under the
    identifier of every listed cluster a record of type "cluster", and
    under the identifier of a listed instance a record of type "instance"
    only when no listed cluster has that identifier. *)
Theorem rds_cluster_replaces_instance (sdk : Populate.Sdk) (region : string) :
  valid_rds sdk region = true ->
  (exists c, Populate.client sdk "rds" = Ok c) ->
  let instances :=
    flat_map (fun page => Populate.get_or (Populate.DBInstances page) [])
      (fst (Populate.describe_db_instances sdk region)) in
  let clusters :=
    flat_map (fun page => Populate.get_or (Populate.DBClusters page) [])
      (fst (Populate.describe_db_clusters sdk region)) in
  exists d,
    outcome (Populate.fetch_rds_resources sdk region) = Ok d
    /\ (forall c n,
          In c clusters -> Populate.DBClusterIdentifier c = Some n ->
          exists r, PyDict.get n d = Some r /\ rtype r = Some "cluster")
    /\ (forall i n,
          In i instances -> Populate.DBInstanceIdentifier i = Some n ->
          (forall c, In c clusters -> Populate.DBClusterIdentifier c <> Some n) ->
          exists r, PyDict.get n d = Some r /\ rtype r = Some "instance").
Proof.
  intros Hv [u Hclient] instances clusters.
  pose proof (fetch_rds_resources_run sdk region Hv) as Hrun.
  cbv zeta in Hrun. rewrite Hclient in Hrun.
  unfold valid_rds in Hv.
  apply andb_true_iff in Hv as [Hv Hcids].
  apply andb_true_iff in Hv as [Hv _].
  apply andb_true_iff in Hv as [_ Hiids].
  rewrite forallb_forall in Hcids, Hiids.
  fold instances in Hiids. fold clusters in Hcids.
  assert (Hstore_i : forall x s0, In x instances ->
            exists r,
              Populate.store_instance region x s0
              = Ok (PyDict.set
                      (Populate.get_or (Populate.DBInstanceIdentifier x)
                         EmptyString) r s0)
              /\ rtype r = Some "instance").
  { intros x s0 Hx. apply Hiids in Hx. unfold Populate.store_instance.
    destruct (Populate.DBInstanceIdentifier x); [| discriminate Hx].
    eexists. split; reflexivity. }
  assert (Hstore_c : forall x s0, In x clusters ->
            exists r,
              Populate.store_cluster region x s0
              = Ok (PyDict.set
                      (Populate.get_or (Populate.DBClusterIdentifier x)
                         EmptyString) r s0)
              /\ rtype r = Some "cluster").
  { intros x s0 Hx. apply Hcids in Hx. unfold Populate.store_cluster.
    destruct (Populate.DBClusterIdentifier x); [| discriminate Hx].
    eexists. split; reflexivity. }
  eexists. split; [rewrite Hrun; reflexivity |].
  unfold Populate.scan_clusters, Populate.scan_instances.
  rewrite !fst_loop_pages. fold instances. fold clusters.
  split.
  - intros c n Hc Hn.
    apply (loop_get_stored _ (Populate.store_cluster region)
             (fun x => Populate.get_or (Populate.DBClusterIdentifier x)
                         EmptyString)
             (fun r => rtype r = Some "cluster"));
      [exact Hstore_c |].
    left. exists c. split; [exact Hc | now rewrite Hn].
  - intros i n Hi Hn Hfree.
    rewrite (loop_get_untouched _ (Populate.store_cluster region)
               (fun x => Populate.get_or (Populate.DBClusterIdentifier x)
                           EmptyString)).
    + apply (loop_get_stored _ (Populate.store_instance region)
               (fun x => Populate.get_or (Populate.DBInstanceIdentifier x)
                           EmptyString)
               (fun r => rtype r = Some "instance"));
        [exact Hstore_i |].
      left. exists i. split; [exact Hi | now rewrite Hn].
    + intros x s0 Hx. destruct (Hstore_c x s0 Hx) as (r & Hr & _).
      now exists r.
    + intros x Hx Heq. apply (Hfree x Hx).
      apply Hcids in Hx.
      destruct (Populate.DBClusterIdentifier x); [| discriminate Hx].
      cbn in Heq. now subst.
Qed.

Lemma rds_cluster_replaces_instance_witness :
  exists d,
    outcome (Populate.fetch_rds_resources
               (example_sdk (Some "orders-prod") ([instances_page], None)
                  ([ {| Populate.DBClusters :=
                          Some [ {| Populate.DBClusterIdentifier :=
                                      Some "orders-db";
                                    Populate.DBClusterArn := None;
                                    Populate.ClusterEngine := None;
                                    Populate.Status := None |} ] |} ], None)
                  (Ok caller) (Ok tt))
               "us-east-1") = Ok d
    /\ exists r, PyDict.get "orders-db" d = Some r
                 /\ rtype r = Some "cluster".
Proof.
  destruct (rds_cluster_replaces_instance
              (example_sdk (Some "orders-prod") ([instances_page], None)
                 ([ {| Populate.DBClusters :=
                         Some [ {| Populate.DBClusterIdentifier :=
                                     Some "orders-db";
                                   Populate.DBClusterArn := None;
                                   Populate.ClusterEngine := None;
                                   Populate.Status := None |} ] |} ], None)
                 (Ok caller) (Ok tt))
              "us-east-1" eq_refl (ex_intro _ tt eq_refl))
    as (d & Hd & Hclusters & _).
  exists d. split; [exact Hd |].
  eapply Hclusters; [apply in_eq | reflexivity].
Defined.

(** ** The names in the cache *)

Lemma keys_update V (d o : PyDict.dict V) (n : string) :
  In n (PyDict.keys (PyDict.update d o)) <->
  In n (PyDict.keys d) \/ In n (PyDict.keys o).
Proof.
  unfold PyDict.update. revert d.
  induction o as [|[k v] o IH]; intros d; cbn [fold_left fst snd].
  - cbn. tauto.
  - rewrite IH, In_keys_set. cbn [PyDict.keys map fst In].
    intuition congruence.
Qed.

Lemma scan_keys A (name : A -> option string)
  (body : A -> ResourceCache -> result ResourceCache) (ok : A -> bool)
  (l : list A) (n : string) :
  forallb ok l = true ->
  (forall x s, ok x = true ->
     exists s', body x s = Ok s'
                /\ forall m, In m (PyDict.keys s') <->
                             In m (PyDict.keys s) \/ name x = Some m) ->
  In n (PyDict.keys (fst (Populate.loop body l PyDict.empty))) <->
  In n (names_of name l).
Proof.
  intros Hall Hbody. rewrite forallb_forall in Hall.
  rewrite (loop_keys _ body name), In_names_of.
  - cbn. tauto.
  - intros x s0 Hx. apply Hbody. now apply Hall.
Qed.

Lemma store_function_keys (region : string) (f : Populate.LambdaFunction)
  (s : ResourceCache) :
  present (Populate.FunctionName f) && present (Populate.FunctionArn f) = true ->
  exists s',
    Populate.store_function region f s = Ok s'
    /\ forall m, In m (PyDict.keys s') <->
                 In m (PyDict.keys s) \/ Populate.FunctionName f = Some m.
Proof.
  unfold Populate.store_function.
  destruct (Populate.FunctionName f), (Populate.FunctionArn f);
    try discriminate. intros _.
  eexists. split; [reflexivity |]. intros m. rewrite In_keys_set.
  split; (intros [H | H]; [now left | right; congruence]).
Qed.

Lemma store_bucket_keys (region : string) (b : Populate.Bucket)
  (s : ResourceCache) :
  present (Populate.Name b) = true ->
  exists s',
    Populate.store_bucket region b s = Ok s'
    /\ forall m, In m (PyDict.keys s') <->
                 In m (PyDict.keys s) \/ Populate.Name b = Some m.
Proof.
  unfold Populate.store_bucket.
  destruct (Populate.Name b); try discriminate. intros _.
  eexists. split; [reflexivity |]. intros m. rewrite In_keys_set.
  split; (intros [H | H]; [now left | right; congruence]).
Qed.

Lemma store_queue_keys (region queue_url : string) (s : ResourceCache) :
  exists s',
    Populate.store_queue region queue_url s = Ok s'
    /\ forall m, In m (PyDict.keys s') <->
                 In m (PyDict.keys s)
                 \/ Some (Populate.last_segment queue_url) = Some m.
Proof.
  unfold Populate.store_queue.
  eexists. split; [reflexivity |]. intros m. rewrite In_keys_set.
  split; (intros [H | H]; [now left | right; congruence]).
Qed.

Lemma store_instance_keys (region : string) (i : Populate.DBInstance)
  (s : ResourceCache) :
  present (Populate.DBInstanceIdentifier i) = true ->
  exists s',
    Populate.store_instance region i s = Ok s'
    /\ forall m, In m (PyDict.keys s') <->
                 In m (PyDict.keys s)
                 \/ Populate.DBInstanceIdentifier i = Some m.
Proof.
  unfold Populate.store_instance.
  destruct (Populate.DBInstanceIdentifier i); try discriminate. intros _.
  eexists. split; [reflexivity |]. intros m. rewrite In_keys_set.
  split; (intros [H | H]; [now left | right; congruence]).
Qed.

Lemma store_cluster_keys (region : string) (c : Populate.DBCluster)
  (s : ResourceCache) :
  present (Populate.DBClusterIdentifier c) = true ->
  exists s',
    Populate.store_cluster region c s = Ok s'
    /\ forall m, In m (PyDict.keys s') <->
                 In m (PyDict.keys s)
                 \/ Populate.DBClusterIdentifier c = Some m.
Proof.
  unfold Populate.store_cluster.
  destruct (Populate.DBClusterIdentifier c); try discriminate. intros _.
  eexists. split; [reflexivity |]. intros m. rewrite In_keys_set.
  split; (intros [H | H]; [now left | right; congruence]).
Qed.

Lemma store_api_keys (region : string) (a : Populate.RestApi)
  (s : ResourceCache) :
  present (Populate.api_name a) && present (Populate.id a) = true ->
  exists s',
    Populate.store_api region a s = Ok s'
    /\ forall m, In m (PyDict.keys s') <->
                 In m (PyDict.keys s) \/ Populate.api_name a = Some m.
Proof.
  unfold Populate.store_api.
  destruct (Populate.api_name a), (Populate.id a); try discriminate.
  intros _.
  eexists. split; [reflexivity |]. intros m. rewrite In_keys_set.
  split; (intros [H | H]; [now left | right; congruence]).
Qed.

Lemma pages_returned A (pages : Populate.paged A) :
  ended_well pages = true -> failed_pages pages = false -> snd pages = None.
Proof.
  unfold ended_well, failed_pages. destruct (snd pages); [congruence | easy].
Qed.

Lemma call_returned A (r : result A) (valid : A -> bool) :
  answered r valid = true -> failed_call r = false ->
  exists a, r = Ok a /\ valid a = true.
Proof.
  unfold answered, failed_call. destruct r as [a|e]; [| congruence].
  intros H _. now exists a.
Qed.

(** X15.  When every client can be created, no enumeration call fails and
    the answers carry the identifying fields, the cache that [main] saves
    holds a record under every name the seven services list, and under no
    other name: the function, bucket, stream, table and API names, the
    last segment of each queue URL, and the identifiers of the database
    instances and clusters. *)
Theorem cache_holds_the_listed_names (sdk : Populate.Sdk) (region : string) :
  valid_responses sdk region = true ->
  every_call_answers sdk region ->
  exists all,
    outcome (Populate.fetch_all sdk region) = Ok all
    /\ forall n, In n (PyDict.keys all) <-> In n (listed_names sdk region).
Proof.
  unfold valid_responses. intros Hv [Hclient Hno].
  apply andb_true_iff in Hv as [Hv Hapi].
  apply andb_true_iff in Hv as [Hv Hrds].
  apply andb_true_iff in Hv as [Hv Hdyn].
  apply andb_true_iff in Hv as [Hv Hkin].
  apply andb_true_iff in Hv as [Hv Hsqs].
  apply andb_true_iff in Hv as [Hv Hs3].
  assert (Hfail : forall tag, In tag (PyDict.keys fetch_table) ->
                              enumeration_failed sdk region tag = false)
    by exact Hno.
  pose proof (Hfail "lambda") as F1. pose proof (Hfail "s3") as F2.
  pose proof (Hfail "sqs") as F3. pose proof (Hfail "kinesis") as F4.
  pose proof (Hfail "dynamodb") as F5. pose proof (Hfail "rds") as F6.
  pose proof (Hfail "apigateway") as F7.
  cbn in F1, F2, F3, F4, F5, F6, F7.
  specialize (F1 ltac:(tauto)). specialize (F2 ltac:(tauto)).
  specialize (F3 ltac:(tauto)). specialize (F4 ltac:(tauto)).
  specialize (F5 ltac:(tauto)). specialize (F6 ltac:(tauto)).
  specialize (F7 ltac:(tauto)).
  apply orb_false_iff in F6 as [F6i F6c].
  (* lambda *)
  assert (E1 : outcome (Populate.fetch_lambda_functions sdk region)
               = Ok (fst (Populate.scan_functions sdk region))).
  { rewrite fetch_lambda_functions_run by assumption.
    destruct (Hclient "lambda") as [c ->].
    unfold valid_lambda in Hv.
    apply andb_true_iff in Hv as [Hv _]. apply andb_true_iff in Hv as [_ He].
    now rewrite (pages_returned _ _ He F1). }
  assert (K1 : forall n,
            In n (PyDict.keys (fst (Populate.scan_functions sdk region))) <->
            In n (names_of Populate.FunctionName
                    (flat_map
                       (fun page => Populate.get_or (Populate.Functions page) [])
                       (fst (Populate.list_functions sdk region))))).
  { intros n. unfold Populate.scan_functions. rewrite fst_loop_pages.
    unfold valid_lambda in Hv. apply andb_true_iff in Hv as [_ Hids].
    apply (scan_keys _ _ _ _ _ n Hids).
    intros x s Hx. now apply store_function_keys. }
  (* s3 *)
  unfold valid_s3 in Hs3.
  apply andb_true_iff in Hs3 as [_ Hb].
  destruct (call_returned _ _ _ Hb F2) as (buckets & Eb & Hbids).
  assert (E2 : outcome (Populate.fetch_s3_buckets sdk region)
               = Ok (fst (Populate.scan_buckets region buckets))).
  { rewrite fetch_s3_buckets_run
      by (unfold valid_s3; destruct (Hclient "s3") as [c ->]; exact Hb).
    destruct (Hclient "s3") as [c ->]. now rewrite Eb. }
  assert (K2 : forall n,
            In n (PyDict.keys (fst (Populate.scan_buckets region buckets))) <->
            In n (names_of Populate.Name
                    (Populate.get_or (Populate.Buckets buckets) []))).
  { intros n. apply (scan_keys _ _ _ _ _ n Hbids).
    intros x s Hx. now apply store_bucket_keys. }
  (* sqs *)
  unfold valid_sqs in Hsqs.
  apply andb_true_iff in Hsqs as [_ Hq].
  destruct (call_returned _ _ _ Hq F3) as (queues & Eq & _).
  assert (E3 : outcome (Populate.fetch_sqs_queues sdk region)
               = Ok (fst (Populate.scan_queues region queues))).
  { rewrite fetch_sqs_queues_run
      by (unfold valid_sqs; destruct (Hclient "sqs") as [c ->]; exact Hq).
    destruct (Hclient "sqs") as [c ->]. now rewrite Eq. }
  assert (K3 : forall n,
            In n (PyDict.keys (fst (Populate.scan_queues region queues))) <->
            In n (map Populate.last_segment
                    (Populate.get_or (Populate.QueueUrls queues) []))).
  { intros n. unfold Populate.scan_queues.
    rewrite (loop_keys _ (Populate.store_queue region)
               (fun u => Some (Populate.last_segment u)))
      by (intros x s0 _; apply store_queue_keys).
    rewrite in_map_iff. cbn. split.
    - intros [[] | (x & Hx & Hn)]. exists x. split; [congruence | exact Hx].
    - intros (x & Hn & Hx). right. exists x. split; [exact Hx | congruence]. }
  (* kinesis *)
  assert (E4 : outcome (Populate.fetch_kinesis_streams sdk region)
               = Ok (fst (Populate.scan_streams sdk region))).
  { rewrite fetch_kinesis_streams_run by assumption.
    destruct (Hclient "kinesis") as [c ->].
    unfold valid_kinesis in Hkin.
    apply andb_true_iff in Hkin as [Hkin _].
    apply andb_true_iff in Hkin as [_ He].
    now rewrite (pages_returned _ _ He F4). }
  (* dynamodb *)
  assert (E5 : outcome (Populate.fetch_dynamodb_tables sdk region)
               = Ok (fst (Populate.scan_tables sdk region))).
  { rewrite fetch_dynamodb_tables_run by assumption.
    destruct (Hclient "dynamodb") as [c ->].
    unfold valid_dynamodb in Hdyn.
    apply andb_true_iff in Hdyn as [Hdyn _].
    apply andb_true_iff in Hdyn as [_ He].
    now rewrite (pages_returned _ _ He F5). }
  (* rds *)
  assert (E6 : outcome (Populate.fetch_rds_resources sdk region)
               = Ok (fst (Populate.scan_clusters sdk region
                            (fst (Populate.scan_instances sdk region))))).
  { rewrite fetch_rds_resources_run by assumption.
    now destruct (Hclient "rds") as [c ->]. }
  assert (K6 : forall n,
            In n (PyDict.keys
                    (fst (Populate.scan_clusters sdk region
                            (fst (Populate.scan_instances sdk region))))) <->
            In n (names_of Populate.DBInstanceIdentifier
                    (flat_map
                       (fun page =>
                          Populate.get_or (Populate.DBInstances page) [])
                       (fst (Populate.describe_db_instances sdk region))))
            \/ In n (names_of Populate.DBClusterIdentifier
                       (flat_map
                          (fun page =>
                             Populate.get_or (Populate.DBClusters page) [])
                          (fst (Populate.describe_db_clusters sdk region))))).
  { intros n. unfold valid_rds in Hrds.
    apply andb_true_iff in Hrds as [Hrds Hcids].
    apply andb_true_iff in Hrds as [Hrds _].
    apply andb_true_iff in Hrds as [_ Hiids].
    rewrite forallb_forall in Hcids.
    unfold Populate.scan_clusters, Populate.scan_instances.
    rewrite !fst_loop_pages.
    rewrite (loop_keys _ (Populate.store_cluster region)
               Populate.DBClusterIdentifier)
      by (intros x s0 Hx; apply store_cluster_keys; now apply Hcids).
    rewrite <- In_names_of.
    rewrite (scan_keys _ Populate.DBInstanceIdentifier _ _ _ n Hiids)
      by (intros x s Hx; now apply store_instance_keys).
    reflexivity. }
  (* apigateway *)
  unfold valid_apigateway in Hapi.
  apply andb_true_iff in Hapi as [_ Ha].
  destruct (call_returned _ _ _ Ha F7) as (apis & Ea & Haids).
  assert (E7 : outcome (Populate.fetch_api_gateway_apis sdk region)
               = Ok (fst (Populate.scan_apis region apis))).
  { rewrite fetch_api_gateway_apis_run
      by (unfold valid_apigateway; destruct (Hclient "apigateway") as [c ->];
          exact Ha).
    destruct (Hclient "apigateway") as [c ->]. now rewrite Ea. }
  assert (K7 : forall n,
            In n (PyDict.keys (fst (Populate.scan_apis region apis))) <->
            In n (names_of Populate.api_name
                    (Populate.get_or (Populate.items apis) []))).
  { intros n. apply (scan_keys _ _ _ _ _ n Haids).
    intros x s Hx. now apply store_api_keys. }
  eexists. split.
  - apply fetch_all_outcome. eexists. split; [| reflexivity].
    unfold fetch_table.
    repeat (apply Forall2_cons; [cbn [snd]; eassumption |]).
    apply Forall2_nil.
  - intros n. unfold merge, listed_names. cbn [fold_left].
    rewrite !keys_update, K1, K2, K3, K6, K7.
    rewrite (scan_streams_keys sdk region n) by assumption.
    rewrite (scan_tables_keys sdk region n) by assumption.
    rewrite Eb, Eq, Ea. rewrite !in_app_iff. cbn. tauto.
Qed.

Lemma cache_holds_the_listed_names_witness :
  exists all,
    outcome (Populate.fetch_all bare_sdk "us-east-1") = Ok all
    /\ forall n,
         In n (PyDict.keys all) <->
         In n ["orders-prod"; "media"; "jobs"; "events"; "users";
               "orders-db"; "orders-cluster"; "orders-prod"].
Proof.
  apply (cache_holds_the_listed_names bare_sdk "us-east-1").
  - reflexivity.
  - split.
    + intros service_name. exists tt. reflexivity.
    + intros tag Htag. cbn in Htag.
      repeat (destruct Htag as [<- | Htag]; [reflexivity |]).
      contradiction.
Defined.

(** ** A run without credentials *)

Lemma announces_no_fetch_bind A B (m : prog A) (k : A -> prog B) :
  announces_no_fetch (trace m) ->
  (forall a, outcome m = Ok a -> announces_no_fetch (trace (k a))) ->
  announces_no_fetch (trace (bind m k)).
Proof.
  intros Hm Hk ev Hin. apply In_trace_bind in Hin.
  destruct Hin as [Hin | (a & Ha & Hin)]; [now apply Hm | now apply (Hk a)].
Qed.

Lemma announces_no_fetch_nil : announces_no_fetch [].
Proof. intros ev []. Qed.

Lemma announces_no_fetch_print (text : string) :
  ~ In text announcements -> announces_no_fetch (trace (print text)).
Proof.
  intros Hno ev [<- | []]. now exists text.
Qed.

(** A line that does not begin like the announcements is none of them. *)
Lemma not_announced (c : ascii) (text : string) :
  c <> "240"%char -> ~ In (String c text) announcements.
Proof.
  intros Hc Hin. cbn in Hin.
  repeat (destruct Hin as [Hin | Hin]; [inversion Hin; now apply Hc |]).
  exact Hin.
Qed.

Lemma announces_no_fetch_cons (text : string) (t : list event) :
  ~ In text announcements -> announces_no_fetch t ->
  announces_no_fetch (Print text :: t).
Proof.
  intros Hno Ht ev [<- | Hin]; [now exists text | now apply Ht].
Qed.

Ltac prints_unannounced :=
  repeat first
    [ apply announces_no_fetch_nil
    | apply announces_no_fetch_cons;
      [first [ apply not_announced; discriminate
             | cbn; intuition discriminate ] |]
    | apply announces_no_fetch_bind; [| intros ? _] ].

Lemma get_session_announces_no_fetch (sdk : Populate.Sdk)
  (profile : option string) :
  announces_no_fetch (trace (Populate.get_session sdk profile)).
Proof.
  unfold Populate.get_session.
  destruct (Populate.opt_truthy profile);
    [| destruct (Populate.has_access_key_id sdk)];
    match goal with
    | |- context [Populate.new_session sdk ?p] =>
        destruct (Populate.new_session sdk p) as [session|e]
    end;
    try (cbn; prints_unannounced);
    destruct e; cbn; prints_unannounced.
Qed.

(** Two runs that begin alike and go on alike are the same run. *)
Lemma bind_same_start A B (m : prog A) (k k' : A -> prog B) :
  (forall a, outcome m = Ok a -> k a = k' a) -> bind m k = bind m k'.
Proof.
  intros H. destruct m as [t [a|e]]; [| reflexivity].
  cbn [bind]. now rewrite (H a eq_refl).
Qed.

Lemma get_session_same (sdk sdk' : Populate.Sdk) (profile : option string) :
  same_credentials sdk sdk' ->
  Populate.get_session sdk' profile = Populate.get_session sdk profile.
Proof.
  intros (_ & Hkey & Hsession & _). unfold Populate.get_session.
  now rewrite Hkey, !Hsession.
Qed.

(** X16.  When the credentials do not resolve, whatever the exception, no
    service is asked for its resources and no cache file is written: the
    run of the Collector only prints, prints none of the lines that
    announce a service, and is the same run on every account with the same
    credentials, whatever the seven services of that account would answer
    and whether or not its cache file could be written. *)
Theorem credential_failure_fetches_nothing (sdk sdk' : Populate.Sdk)
  (argv : list string) (e : exn) :
  credentials_fail sdk e ->
  same_credentials sdk sdk' ->
  announces_no_fetch (trace (Populate.main sdk argv))
  /\ Populate.main sdk' argv = Populate.main sdk argv.
Proof.
  intros Hfail Hsame. split.
  - unfold Populate.main.
    destruct (Populate.parse_args argv argv 1 None None) as [[region profile]|].
    2: { cbn. prints_unannounced. }
    set (region' := if Populate.opt_truthy region then _ else _).
    set (profile' := if Populate.opt_truthy profile then _ else _).
    apply announces_no_fetch_bind; [prints_unannounced | intros _ _].
    apply announces_no_fetch_bind; [prints_unannounced | intros _ _].
    apply announces_no_fetch_bind; [prints_unannounced | intros _ _].
    apply announces_no_fetch_bind; [apply get_session_announces_no_fetch |].
    intros [session|] Hsession; [| apply announces_no_fetch_nil].
    destruct Hfail as [Hnone | (_ & Hsts)].
    { rewrite get_session_outcome, Hnone in Hsession.
      destruct e; discriminate Hsession. }
    apply announces_no_fetch_bind.
    + destruct Hsts as [-> | ((c & ->) & ->)]; destruct e; cbn;
        prints_unannounced.
    + intros credentials Hc.
      assert (credentials = false) as ->.
      { destruct Hsts as [Hs | ((c & Hs) & Hi)];
          rewrite Hs in Hc; try rewrite Hi in Hc;
          destruct e; cbn in Hc; congruence. }
      apply announces_no_fetch_nil.
  - destruct Hsame as (Hconfig & Hkey & Hsession & Hclient & Hidentity).
    unfold Populate.main, Populate.load_config. rewrite Hconfig.
    destruct (Populate.parse_args argv argv 1 None None) as [[region profile]|];
      [| reflexivity].
    set (region' := if Populate.opt_truthy region then _ else _).
    set (profile' := if Populate.opt_truthy profile then _ else _).
    do 3 (apply bind_same_start; intros _ _).
    rewrite (get_session_same sdk sdk' profile')
      by (repeat split; assumption).
    apply bind_same_start. intros [session|] Hgot; [| reflexivity].
    rewrite Hclient, Hidentity.
    apply bind_same_start. intros credentials Hc.
    assert (credentials = false) as ->; [| reflexivity].
    destruct Hfail as [Hnone | (_ & Hsts)].
    { rewrite get_session_outcome, Hnone in Hgot.
      destruct e; discriminate Hgot. }
    destruct Hsts as [Hs | ((c & Hs) & Hi)];
      rewrite Hs in Hc; try rewrite Hi in Hc;
      destruct e; cbn in Hc; congruence.
Qed.

Lemma credential_failure_fetches_nothing_witness :
  Populate.main denied_sdk_without_credentials []
  = Populate.main
      (example_sdk (Some "orders-prod") ([instances_page], None)
         ([clusters_page], None)
         (Raise (NoCredentialsError "Unable to locate credentials"))
         (Ok tt))
      [].
Proof.
  apply (@credential_failure_fetches_nothing
           (example_sdk (Some "orders-prod") ([instances_page], None)
              ([clusters_page], None)
              (Raise (NoCredentialsError "Unable to locate credentials"))
              (Ok tt))
           denied_sdk_without_credentials []
           (NoCredentialsError "Unable to locate credentials")).
  - right. split.
    + intros profile. exists tt. reflexivity.
    + right. split; [exists tt |]; reflexivity.
  - repeat split.
Defined.

(** ** A run in which every listing is refused *)

Lemma denied_fetch_all (sdk : Populate.Sdk) (region : string) :
  every_listing_denied sdk region ->
  outcome (Populate.fetch_all sdk region) = Ok [].
Proof.
  intros (Hclient & (m1 & H1) & (m2 & H2) & (m3 & H3) & (m4 & H4) & (m5 & H5)
          & (m6 & H6) & (m7 & H7) & (m8 & H8)).
  assert (Hc : forall service_name,
            (exists c, Populate.client sdk service_name = Ok c)
            \/ exists m, Populate.client sdk service_name
                         = Raise (ClientError m)).
  { intros service_name. specialize (Hclient service_name).
    destruct (Populate.client sdk service_name) as [c|e];
      [left; now exists c |].
    destruct e; try discriminate Hclient. right. now eexists. }
  apply fetch_all_outcome. exists [[]; []; []; []; []; []; []].
  split; [| reflexivity].
  unfold fetch_table.
  repeat (apply Forall2_cons; [cbn [snd] |]); [| | | | | | | apply Forall2_nil].
  - unfold Populate.fetch_lambda_functions, Populate.scan_functions,
      Populate.loop_pages.
    rewrite H1. destruct (Hc "lambda") as [[c ->] | [m ->]]; reflexivity.
  - unfold Populate.fetch_s3_buckets. rewrite H2.
    destruct (Hc "s3") as [[c ->] | [m ->]]; reflexivity.
  - unfold Populate.fetch_sqs_queues. rewrite H3.
    destruct (Hc "sqs") as [[c ->] | [m ->]]; reflexivity.
  - unfold Populate.fetch_kinesis_streams, Populate.scan_streams,
      Populate.loop_pages.
    rewrite H4. destruct (Hc "kinesis") as [[c ->] | [m ->]]; reflexivity.
  - unfold Populate.fetch_dynamodb_tables, Populate.scan_tables,
      Populate.loop_pages.
    rewrite H5. destruct (Hc "dynamodb") as [[c ->] | [m ->]]; reflexivity.
  - unfold Populate.fetch_rds_resources, Populate.scan_instances,
      Populate.scan_clusters, Populate.loop_pages.
    rewrite H6, H7. destruct (Hc "rds") as [[c ->] | [m ->]]; reflexivity.
  - unfold Populate.fetch_api_gateway_apis. rewrite H8.
    destruct (Hc "apigateway") as [[c ->] | [m ->]]; reflexivity.
Qed.

(** X17.  A run in which every listing is refused still replaces the
    cache: with credentials that resolve and a file that can be written,
    when each of the seven services refuses its listing with the SDK's
    error, [main] writes the empty object to the cache file and ends with
    status 0, so the records of an earlier run are lost. *)
Theorem denied_listings_empty_the_cache (sdk : Populate.Sdk)
  (argv : list string) (region : string) :
  region_of sdk argv = Some region ->
  credentials_resolve sdk ->
  write_succeeds sdk ->
  every_listing_denied sdk region ->
  In (WriteFile (Populate.DATA_DIR sdk ++ "/aws_resources.json") (JObj []))
    (trace (Populate.main sdk argv))
  /\ exit_status (outcome (Populate.main sdk argv)) = 0%Z.
Proof.
  intros Hregion Hcred Hwrite Hdenied.
  pose proof (denied_fetch_all sdk region Hdenied) as Hall.
  split.
  - destruct (main_trace_with_credentials sdk argv region Hregion Hcred)
      as [_ Hfile].
    exact (Hfile [] Hall Hwrite).
  - rewrite (main_outcome_with_credentials sdk argv region Hregion Hcred), Hall.
    destruct Hwrite as [[u ->] Hfile].
    now destruct (Hfile (Populate.DATA_DIR sdk ++ "/aws_resources.json")
                    (Populate.json_of_cache [])) as [u' ->].
Qed.

Lemma denied_listings_empty_the_cache_witness :
  In (WriteFile "/opt/awsf/data/aws_resources.json" (JObj []))
    (trace (Populate.main denied_sdk []))
  /\ exit_status (outcome (Populate.main denied_sdk [])) = 0%Z.
Proof.
  apply (denied_listings_empty_the_cache denied_sdk [] "us-east-1").
  - reflexivity.
  - split; [intros profile; exists tt; reflexivity |].
    split; [exists tt | exists caller]; reflexivity.
  - split; [exists tt; reflexivity |].
    intros path doc. exists tt. reflexivity.
  - repeat split; try (eexists; reflexivity).
Defined.

(** ** The toggle menu *)

Lemma In_set_remove (x y : string) (s : list string) :
  In x (Menus.set_remove y s) <-> In x s /\ x <> y.
Proof.
  unfold Menus.set_remove. rewrite filter_In. split; intros [Hin H].
  - split; [exact Hin |]. intros ->. now rewrite String.eqb_refl in H.
  - split; [exact Hin |].
    destruct (String.eqb_spec y x) as [-> |]; [now elim H | reflexivity].
Qed.

Lemma In_set_add (x y : string) (s : list string) :
  In x (Menus.set_add y s) <-> In x s \/ x = y.
Proof.
  unfold Menus.set_add. destruct (set_in y s) eqn:E.
  - split; [now left |]. intros [H | ->]; [exact H |].
    now apply set_in_spec.
  - rewrite in_app_iff. cbn. intuition.
Qed.

Lemma In_set_update (x : string) (s xs : list string) :
  In x (Menus.set_update s xs) <-> In x s \/ In x xs.
Proof.
  unfold Menus.set_update. revert s.
  induction xs as [|y xs IH]; intros s; cbn [fold_left].
  - cbn. tauto.
  - rewrite IH, In_set_add. cbn. intuition.
Qed.

(** The number of a service on the screen is its place in
    [SERVICE_CONFIG]. *)
Lemma choice_in_range (n : Z) :
  (1 <=? n)%Z && (n <=? Z.of_nat (List.length Awsf.SERVICE_CONFIG))%Z = true ->
  exists service c,
    nth_error (PyDict.keys Awsf.SERVICE_CONFIG) (Z.to_nat (n - 1))
    = Some service
    /\ In service (PyDict.keys Awsf.SERVICE_CONFIG)
    /\ Awsf.service_config service = ret c.
Proof.
  intros H. apply andb_true_iff in H as [Hlo Hhi].
  apply Z.leb_le in Hlo, Hhi. cbn in Hhi.
  assert (Hidx : (Z.to_nat (n - 1) < 7)%nat) by lia.
  destruct (Z.to_nat (n - 1)) as [|[|[|[|[|[|[|i]]]]]]]; try lia;
    do 2 eexists; (split; [reflexivity |]); (split; [| reflexivity]);
    cbn; tauto.
Qed.

(** What a turn of the menu can do: go on with a set whose members were
    enabled or are services, the files untouched; or, on the number of
    "Save & back", leave, with the settings written when the file can be
    written.  A turn raises nothing. *)
Lemma toggle_turn_cases (desk : Menus.Desk) (int : string -> option Z)
  (choice : string) (enabled : list string) (files : Menus.Files)
  (keyboard : list string) :
  match Menus.toggle_turn desk int choice enabled files keyboard with
  | ((t, Ok (Some enabled')), files', keyboard') =>
      files' = files /\ keyboard' = keyboard
      /\ forall x, In x enabled' ->
                   In x enabled \/ In x (PyDict.keys Awsf.SERVICE_CONFIG)
  | ((t, Ok None), files', keyboard') =>
      int choice
      = Some (Z.of_nat (List.length Awsf.SERVICE_CONFIG) + 2)%Z
      /\ keyboard' = keyboard
      /\ Menus.config_file files' = Menus.config_file files
      /\ match Menus.settings_error desk with
         | Some _ => Menus.settings_file files' = Menus.settings_file files
         | None =>
             exists l,
               Menus.settings_file files'
               = Some {| Menus.enabled_services := Some l;
                         Menus.other_settings :=
                           match Menus.settings_file files with
                           | Some s => Menus.other_settings s
                           | None => []
                           end |}
               /\ l <> []
               /\ (forall x, In x l <->
                     In x (if Menus.set_truthy enabled then enabled
                           else PyDict.keys Awsf.SERVICE_CONFIG))
         end
  | ((t, Raise e), _, _) => False
  end.
Proof.
  unfold Menus.toggle_turn.
  destruct (int choice) as [n|]; [| cbn; auto].
  destruct ((1 <=? n)%Z
            && (n <=? Z.of_nat (List.length Awsf.SERVICE_CONFIG))%Z) eqn:Hrange.
  { destruct (choice_in_range n Hrange) as (service & c & -> & Hin & Hc).
    destruct (set_in service enabled);
      unfold Menus.mbind, Menus.run, Menus.say, Menus.mret;
      rewrite Hc; cbn [ret print emit app]; repeat split; intros x Hx.
    - apply In_set_remove in Hx. now left.
    - apply In_set_add in Hx as [Hx | ->]; [now left | now right]. }
  destruct (n =? Z.of_nat (List.length Awsf.SERVICE_CONFIG) + 1)%Z.
  { destruct (List.length enabled =? List.length Awsf.SERVICE_CONFIG)%nat;
      cbn -[Menus.set_update]; repeat split; intros x Hx; [contradiction |].
    now apply In_set_update in Hx. }
  destruct (n =? Z.of_nat (List.length Awsf.SERVICE_CONFIG) + 2)%Z eqn:Hsave;
    [| cbn; auto].
  apply Z.eqb_eq in Hsave. subst n.
  assert (Hall : Menus.set_update [] (PyDict.keys Awsf.SERVICE_CONFIG) <> []
                 /\ forall x,
                      In x (Menus.set_update []
                              (PyDict.keys Awsf.SERVICE_CONFIG)) <->
                      In x (PyDict.keys Awsf.SERVICE_CONFIG)).
  { split; [discriminate |]. intros x. rewrite In_set_update. cbn. tauto. }
  destruct Hall as [Hne Hmem].
  destruct files as [[[[l|] other]|] config];
    destruct enabled as [|service enabled];
    destruct (Menus.settings_error desk) as [msg|] eqn:Herr;
    unfold Menus.mbind, Menus.run, Menus.say, Menus.mret, Menus.load_settings,
      Menus.save_settings;
    cbn [Menus.set_truthy negb ret print emit app Menus.enabled_services
         Menus.other_settings Menus.settings_file Menus.config_file];
    rewrite ?Herr;
    cbn [Menus.set_truthy negb ret print emit app Menus.enabled_services
         Menus.other_settings Menus.settings_file Menus.config_file];
    repeat split;
    try (eexists; split; [reflexivity |]; split;
         [first [exact Hne | discriminate]
         | first [exact Hmem | reflexivity]]).
Qed.

(** The two ways [show_service_toggle_menu] ends. *)
Lemma toggle_menu_cases (desk : Menus.Desk) (int : string -> option Z)
  (keyboard : list string) (enabled : list string) (files : Menus.Files) :
  match Menus.show_service_toggle_menu desk int enabled files keyboard with
  | ((t, Ok _), files', rest) =>
      Menus.config_file files' = Menus.config_file files
      /\ match Menus.settings_error desk with
         | Some _ => Menus.settings_file files' = Menus.settings_file files
         | None =>
             exists l,
               Menus.settings_file files'
               = Some {| Menus.enabled_services := Some l;
                         Menus.other_settings :=
                           match Menus.settings_file files with
                           | Some s => Menus.other_settings s
                           | None => []
                           end |}
               /\ l <> []
               /\ forall x, In x l ->
                    In x enabled \/ In x (PyDict.keys Awsf.SERVICE_CONFIG)
         end
  | ((t, Raise e), files', rest) =>
      e = Menus.EOFError /\ files' = files /\ rest = []
  end.
Proof.
  revert enabled. induction keyboard as [|line keyboard IH]; intros enabled.
  - cbn [Menus.show_service_toggle_menu]. auto.
  - cbn [Menus.show_service_toggle_menu].
    pose proof (toggle_turn_cases desk int (PyStr.strip line) enabled files
                  keyboard) as Hturn.
    destruct (Menus.toggle_turn desk int (PyStr.strip line) enabled files
                keyboard) as [[[t [[enabled'|]|e]] files'] keyboard'].
    + destruct Hturn as (-> & _ & Hsub).
      specialize (IH enabled').
      destruct (Menus.show_service_toggle_menu desk int enabled' files keyboard)
        as [[[t' [u|e]] files''] rest]; [| exact IH].
      destruct IH as [Hconfig Hsettings]. split; [exact Hconfig |].
      destruct (Menus.settings_error desk); [exact Hsettings |].
      destruct Hsettings as (l & Hl & Hne & Hin).
      exists l. repeat split; try assumption.
      intros x Hx. destruct (Hin x Hx) as [H | H]; [now apply Hsub | now right].
    + destruct Hturn as (_ & _ & Hconfig & Hsettings).
      split; [exact Hconfig |].
      destruct (Menus.settings_error desk); [exact Hsettings |].
      destruct Hsettings as (l & Hl & Hne & Hin).
      exists l. repeat split; try assumption.
      intros x Hx. apply Hin in Hx.
      destruct (Menus.set_truthy enabled); [now left | now right].
    + contradiction.
Qed.

(** X18.  The toggle menu never saves an empty set of services: when it
    returns and the settings file can be written, the file holds a list
    of enabled services that is not empty, each of them enabled at the
    start or one of the seven services, the other keys of the file are as
    they were, and the configuration file is untouched. *)
Theorem toggle_menu_never_saves_an_empty_set (desk : Menus.Desk)
  (int : string -> option Z) (enabled : list string) (files : Menus.Files)
  (keyboard : list string) :
  Menus.settings_error desk = None ->
  outcome (fst (fst (Menus.show_service_toggle_menu desk int enabled files
                       keyboard))) = Ok tt ->
  let files' :=
    snd (fst (Menus.show_service_toggle_menu desk int enabled files keyboard))
  in
  Menus.config_file files' = Menus.config_file files
  /\ exists l,
       Menus.settings_file files'
       = Some {| Menus.enabled_services := Some l;
                 Menus.other_settings :=
                   match Menus.settings_file files with
                   | Some s => Menus.other_settings s
                   | None => []
                   end |}
       /\ l <> []
       /\ forall x, In x l ->
            In x enabled \/ In x (PyDict.keys Awsf.SERVICE_CONFIG).
Proof.
  intros Hwritable Hok.
  pose proof (toggle_menu_cases desk int keyboard enabled files) as H.
  destruct (Menus.show_service_toggle_menu desk int enabled files keyboard)
    as [[[t [u|e]] files'] rest]; [| discriminate Hok].
  rewrite Hwritable in H. exact H.
Qed.

Lemma toggle_menu_never_saves_an_empty_set_witness :
  exists l,
    Menus.settings_file
      (snd (fst (Menus.show_service_toggle_menu example_desk int_of_digits
                   ["lambda"] no_files ["1"; "9"])))
    = Some {| Menus.enabled_services := Some l; Menus.other_settings := [] |}
    /\ l <> [].
Proof.
  destruct (toggle_menu_never_saves_an_empty_set example_desk int_of_digits
              ["lambda"] no_files ["1"; "9"] eq_refl eq_refl)
    as (_ & l & Hl & Hne & _).
  exists l. split; [exact Hl | exact Hne].
Defined.

Lemma NoDup_set_add (x : string) (s : list string) :
  NoDup s -> NoDup (Menus.set_add x s).
Proof.
  intros Hs. unfold Menus.set_add. destruct (set_in x s) eqn:E; [exact Hs |].
  apply NoDup_rev in Hs. rewrite <- (List.rev_involutive (s ++ [x])).
  apply NoDup_rev. rewrite rev_app_distr. cbn [List.rev app].
  constructor; [| exact Hs].
  rewrite <- in_rev. intros Hin. apply set_in_spec in Hin. congruence.
Qed.

Lemma NoDup_set_update (s xs : list string) :
  NoDup s -> NoDup (Menus.set_update s xs).
Proof.
  unfold Menus.set_update. revert s.
  induction xs as [|x xs IH]; intros s Hs; cbn [fold_left]; [exact Hs |].
  now apply IH, NoDup_set_add.
Qed.

Lemma toggle_turn_distinct (desk : Menus.Desk) (int : string -> option Z)
  (choice : string) (enabled : list string) (files : Menus.Files)
  (keyboard : list string) :
  NoDup enabled ->
  match Menus.toggle_turn desk int choice enabled files keyboard with
  | ((t, Ok (Some enabled')), _, _) => NoDup enabled'
  | ((t, Ok None), files', _) =>
      Menus.settings_error desk = None ->
      exists l other,
        Menus.settings_file files'
        = Some {| Menus.enabled_services := Some l;
                  Menus.other_settings := other |}
        /\ NoDup l
  | ((t, Raise e), _, _) => True
  end.
Proof.
  intros Hnd. unfold Menus.toggle_turn.
  destruct (int choice) as [n|]; [| exact Hnd].
  destruct ((1 <=? n)%Z
            && (n <=? Z.of_nat (List.length Awsf.SERVICE_CONFIG))%Z) eqn:Hrange.
  { destruct (choice_in_range n Hrange) as (service & c & -> & Hin & Hc).
    destruct (set_in service enabled);
      unfold Menus.mbind, Menus.run, Menus.say, Menus.mret;
      rewrite Hc; cbn [ret print emit app].
    - now apply NoDup_filter.
    - now apply NoDup_set_add. }
  destruct (n =? Z.of_nat (List.length Awsf.SERVICE_CONFIG) + 1)%Z.
  { destruct (List.length enabled =? List.length Awsf.SERVICE_CONFIG)%nat;
      cbn -[Menus.set_update]; [constructor | now apply NoDup_set_update]. }
  destruct (n =? Z.of_nat (List.length Awsf.SERVICE_CONFIG) + 2)%Z;
    [| exact Hnd].
  assert (Hall : NoDup (Menus.set_update []
                          (PyDict.keys Awsf.SERVICE_CONFIG)))
    by (apply NoDup_set_update; constructor).
  destruct files as [[[[l|] other]|] config];
    destruct enabled as [|service enabled];
    destruct (Menus.settings_error desk) as [msg|] eqn:Herr;
    unfold Menus.mbind, Menus.run, Menus.say, Menus.mret, Menus.load_settings,
      Menus.save_settings;
    cbn [Menus.set_truthy negb ret print emit app Menus.enabled_services
         Menus.other_settings Menus.settings_file Menus.config_file];
    rewrite ?Herr;
    cbn [Menus.set_truthy negb ret print emit app Menus.enabled_services
         Menus.other_settings Menus.settings_file Menus.config_file];
    intros Hwritable; try discriminate Hwritable;
    do 2 eexists; (split; [reflexivity |]); assumption.
Qed.

(** X20.  The toggle menu keeps the set of enabled services a set: when
    it starts from services that are distinct and saves to a file that
    can be written, the list it writes has no service twice. *)
Theorem toggle_menu_saves_distinct_services (desk : Menus.Desk)
  (int : string -> option Z) (keyboard : list string)
  (enabled : list string) (files : Menus.Files) :
  NoDup enabled ->
  Menus.settings_error desk = None ->
  outcome (fst (fst (Menus.show_service_toggle_menu desk int enabled files
                       keyboard))) = Ok tt ->
  exists l other,
    Menus.settings_file
      (snd (fst (Menus.show_service_toggle_menu desk int enabled files
                   keyboard)))
    = Some {| Menus.enabled_services := Some l;
              Menus.other_settings := other |}
    /\ NoDup l.
Proof.
  revert enabled. induction keyboard as [|line keyboard IH];
    intros enabled Hnd Hwritable Hok; [discriminate Hok |].
  cbn [Menus.show_service_toggle_menu] in *.
  pose proof (toggle_turn_distinct desk int (PyStr.strip line) enabled files
                keyboard Hnd) as Hturn.
  pose proof (toggle_turn_cases desk int (PyStr.strip line) enabled files
                keyboard) as Hcases.
  destruct (Menus.toggle_turn desk int (PyStr.strip line) enabled files
              keyboard) as [[[t [[enabled'|]|e]] files'] keyboard'].
  - destruct Hcases as (-> & _ & _).
    specialize (IH enabled' Hturn Hwritable).
    destruct (Menus.show_service_toggle_menu desk int enabled' files keyboard)
      as [[[t' r] files''] rest].
    apply IH. exact Hok.
  - exact (Hturn Hwritable).
  - discriminate Hok.
Qed.

Lemma toggle_menu_saves_distinct_services_witness :
  exists l other,
    Menus.settings_file
      (snd (fst (Menus.show_service_toggle_menu example_desk int_of_digits
                   ["lambda"] no_files ["2"; "2"; "3"; "8"; "1"; "9"])))
    = Some {| Menus.enabled_services := Some l;
              Menus.other_settings := other |}
    /\ NoDup l.
Proof.
  apply (toggle_menu_saves_distinct_services example_desk int_of_digits
           ["2"; "2"; "3"; "8"; "1"; "9"] ["lambda"] no_files).
  - repeat constructor. intros [].
  - reflexivity.
  - reflexivity.
Defined.

(** ** From the menu to the query *)

Lemma service_is_no_flag (t : string) (terms : list string)
  (ratio : string -> string -> Q) (w : Awsf.World) :
  In t (PyDict.keys Awsf.SERVICE_CONFIG) ->
  set_in t (enabled_in w) = false ->
  Awsf.main ratio w (t :: terms)
  = ([ Print ("⚠️  Service '" ++ t ++ "' is disabled in settings.");
       Print "💡 Use '--settings' to enable services or search all enabled services." ],
     Ok tt).
Proof.
  intros Hin Hoff. unfold enabled_in in Hoff.
  destruct (service_tag_facts t Hin) as (_ & _ & Hparse).
  specialize (Hparse terms). cbn in Hin.
  repeat (destruct Hin as [<- | Hin];
          [unfold Awsf.main; cbn [hd_error existsb String.eqb Ascii.eqb
                                    Bool.eqb orb];
           rewrite Hparse;
           cbn [Awsf.given Awsf.get_or PyStr.truthy andb];
           rewrite Hoff; reflexivity |]).
  contradiction.
Qed.

(** X21.  A service switched off in the menu is off for the query: when a
    service that is enabled, and not the only one, is toggled and the
    settings are saved to a file that can be written, a query scoped to
    that service, run on the files the menu leaves, stops at the notice
    that the service is disabled. *)
Theorem service_disabled_in_the_menu_is_disabled_in_the_query
  (ratio : string -> string -> Q) (desk : Menus.Desk)
  (int : string -> option Z) (w : Awsf.World) (enabled : list string)
  (files : Menus.Files) (pick save : string) (place : nat) (t : string)
  (terms : list string) :
  nth_error (PyDict.keys Awsf.SERVICE_CONFIG) place = Some t ->
  int (PyStr.strip pick) = Some (Z.of_nat place + 1)%Z ->
  int (PyStr.strip save) = Some 9%Z ->
  set_in t enabled = true ->
  (exists other, In other enabled /\ other <> t) ->
  Menus.settings_error desk = None ->
  let files' :=
    snd (fst (Menus.show_service_toggle_menu desk int enabled files
                [pick; save])) in
  (forall x, In x (enabled_in (world_with w files')) <->
             In x enabled /\ x <> t)
  /\ Awsf.main ratio (world_with w files') (t :: terms)
     = ([ Print ("⚠️  Service '" ++ t ++ "' is disabled in settings.");
          Print "💡 Use '--settings' to enable services or search all enabled services." ],
        Ok tt).
Proof.
  intros Hplace Hpick Hsave Hon (other & Hother & Hne) Hwritable files'.
  assert (Hin : In t (PyDict.keys Awsf.SERVICE_CONFIG))
    by (eapply nth_error_In; exact Hplace).
  destruct (service_config_returns t Hin) as [c Hc].
  assert (Hlt : (place < 7)%nat).
  { change 7%nat with (List.length (PyDict.keys Awsf.SERVICE_CONFIG)).
    apply nth_error_Some. rewrite Hplace. discriminate. }
  assert (Hleft : Menus.set_remove t enabled <> []).
  { intros Hnil.
    assert (H : In other (Menus.set_remove t enabled))
      by (apply In_set_remove; now split).
    rewrite Hnil in H. contradiction. }
  assert (Hfiles :
    Menus.settings_file files'
    = Some {| Menus.enabled_services := Some (Menus.set_remove t enabled);
              Menus.other_settings :=
                match Menus.settings_file files with
                | Some s => Menus.other_settings s
                | None => []
                end |}).
  { subst files'. cbn [Menus.show_service_toggle_menu].
    unfold Menus.toggle_turn at 1. rewrite Hpick.
    replace ((1 <=? Z.of_nat place + 1)%Z
             && (Z.of_nat place + 1
                 <=? Z.of_nat (List.length Awsf.SERVICE_CONFIG))%Z)
      with true
      by (symmetry; apply andb_true_iff; split; apply Z.leb_le; cbn; lia).
    replace (Z.to_nat (Z.of_nat place + 1 - 1)) with place by lia.
    rewrite Hplace, Hon.
    unfold Menus.mbind at 1 2, Menus.run at 1, Menus.say at 1, Menus.mret at 1.
    rewrite Hc. cbn [ret print emit app Menus.run].
    unfold Menus.toggle_turn. rewrite Hsave.
    cbn [Z.leb Z.eqb Z.compare Pos.compare Pos.compare_cont Z.of_nat
         List.length Awsf.SERVICE_CONFIG Pos.of_succ_nat Pos.succ Z.add
         Pos.add andb Pos.eqb].
    destruct (Menus.set_remove t enabled) as [|y rest] eqn:Hrem;
      [now elim Hleft |].
    unfold Menus.mbind, Menus.run, Menus.say, Menus.mret,
      Menus.load_settings, Menus.save_settings.
    rewrite Hwritable.
    destruct files as [[[[l|] other_keys]|] config]; reflexivity. }
  assert (Hset : enabled_in (world_with w files')
                 = Menus.set_remove t enabled).
  { unfold enabled_in, world_with, Awsf.load_settings, Awsf.enabled_set.
    cbn [Awsf.settings_file]. now rewrite Hfiles. }
  split.
  - intros x. rewrite Hset. apply In_set_remove.
  - apply service_is_no_flag; [exact Hin |].
    rewrite Hset.
    destruct (set_in t (Menus.set_remove t enabled)) eqn:E; [| reflexivity].
    apply set_in_spec, In_set_remove in E. now destruct E.
Qed.

Lemma service_disabled_in_the_menu_is_disabled_in_the_query_witness :
  Awsf.main Difflib.ratio
    (world_with (world_of orders_cache [])
       (snd (fst (Menus.show_service_toggle_menu example_desk int_of_digits
                    ["lambda"; "s3"] no_files ["1"; "9"]))))
    ["lambda"; "orders"]
  = ([ Print "⚠️  Service 'lambda' is disabled in settings.";
       Print "💡 Use '--settings' to enable services or search all enabled services." ],
     Ok tt).
Proof.
  apply (service_disabled_in_the_menu_is_disabled_in_the_query Difflib.ratio
           example_desk int_of_digits (world_of orders_cache [])
           ["lambda"; "s3"] no_files "1" "9" 0 "lambda" ["orders"]);
    try reflexivity.
  exists "s3". split; [cbn; auto | discriminate].
Defined.

(** ** The configuration file *)

Lemma get_setdefault V (d : PyDict.dict V) (k k' : string) (v : V) :
  PyDict.get k (if PyDict.mem k' d then d else PyDict.set k' v d)
  = match PyDict.get k d with
    | Some x => Some x
    | None => if String.eqb k k' then Some v else None
    end.
Proof.
  unfold PyDict.mem. destruct (PyDict.get k' d) as [x|] eqn:E.
  - destruct (PyDict.get k d) eqn:Ek; [reflexivity |].
    destruct (String.eqb_spec k k') as [-> |]; [congruence | reflexivity].
  - destruct (String.eqb_spec k k') as [-> | Hne].
    + now rewrite get_set_same, E.
    + rewrite get_set_other by exact Hne. now destruct (PyDict.get k d).
Qed.

Lemma merged_config (config : Menus.ConfigDoc) (k : string) :
  PyDict.get k
    (fold_left
       (fun config kv =>
          if PyDict.mem (fst kv) config then config
          else PyDict.set (fst kv) (snd kv) config)
       (PyDict.items Menus.default_config) config)
  = match PyDict.get k config with
    | Some v => Some v
    | None => PyDict.get k Menus.default_config
    end.
Proof.
  cbn [fold_left PyDict.items Menus.default_config fst snd].
  rewrite !get_setdefault.
  destruct (PyDict.get k config); [reflexivity |].
  unfold Menus.default_config. cbn [PyDict.get].
  repeat (destruct (String.eqb k _); [reflexivity |]). reflexivity.
Qed.

Lemma load_config_returns (desk : Menus.Desk) (files : Menus.Files)
  (keyboard : list string) :
  exists t config files',
    Menus.load_config desk files keyboard = ((t, Ok config), files', keyboard)
    /\ Menus.settings_file files' = Menus.settings_file files
    /\ (forall k,
          PyDict.get k config
          = match Menus.config_file files with
            | Some c =>
                match PyDict.get k c with
                | Some v => Some v
                | None => PyDict.get k Menus.default_config
                end
            | None => PyDict.get k Menus.default_config
            end).
Proof.
  unfold Menus.load_config.
  destruct (Menus.config_file files) as [c|].
  - do 3 eexists. split; [reflexivity |]. split; [reflexivity |].
    apply merged_config.
  - unfold Menus.mbind, Menus.save_config, Menus.mret.
    destruct (Menus.config_error desk) as [msg|];
      do 3 eexists; repeat split.
Qed.

Lemma edited_config (loaded : Menus.ConfigDoc)
  (new_region new_profile : string) :
  let config1 :=
    if PyStr.truthy new_region
    then PyDict.set "aws_region" (Some new_region) loaded
    else loaded in
  let config2 :=
    if PyStr.truthy new_profile
    then PyDict.set "aws_profile" (Some new_profile) config1
    else if String.eqb new_profile EmptyString
         then PyDict.set "aws_profile" None config1
         else config1 in
  PyDict.get "aws_region" config2
  = (if PyStr.truthy new_region then Some (Some new_region)
     else PyDict.get "aws_region" loaded)
  /\ PyDict.get "aws_profile" config2
     = Some (if PyStr.truthy new_profile then Some new_profile else None)
  /\ forall k,
       k <> "aws_region" -> k <> "aws_profile" ->
       PyDict.get k config2 = PyDict.get k loaded.
Proof.
  intros config1 config2.
  assert (Hprofile_key : forall k, k <> "aws_profile" ->
            PyDict.get k config2 = PyDict.get k config1).
  { intros k Hk. unfold config2.
    destruct (PyStr.truthy new_profile);
      [now apply get_set_other |].
    destruct (String.eqb new_profile EmptyString);
      [now apply get_set_other | reflexivity]. }
  assert (Hregion_key : forall k, k <> "aws_region" ->
            PyDict.get k config1 = PyDict.get k loaded).
  { intros k Hk. unfold config1.
    destruct (PyStr.truthy new_region);
      [now apply get_set_other | reflexivity]. }
  repeat split.
  - rewrite Hprofile_key by discriminate. unfold config1.
    destruct (PyStr.truthy new_region);
      [apply get_set_same | reflexivity].
  - unfold config2. destruct new_profile as [|c s];
      cbn [PyStr.truthy String.eqb]; apply get_set_same.
  - intros k Hr Hp. now rewrite Hprofile_key, Hregion_key.
Qed.

(** The files a routine leaves are those its continuation leaves. *)
Lemma files_mbind A B (m : Menus.menu A) (k : A -> Menus.menu B)
  (files : Menus.Files) (keyboard : list string) (t : list event) (a : A)
  (files' : Menus.Files) (keyboard' : list string) :
  m files keyboard = ((t, Ok a), files', keyboard') ->
  snd (fst (Menus.mbind m k files keyboard))
  = snd (fst (k a files' keyboard')).
Proof.
  intros H. unfold Menus.mbind. rewrite H.
  now destruct (k a files' keyboard') as [[[t' r] files''] keyboard''].
Qed.

(** X23.  In the configuration editor the two prompts differ: an empty
    answer, or one of white space, keeps the region but clears the
    profile.  When the configuration file can be written and two lines
    are typed, the file then holds the region typed, or the one it had
    (the default when it had none); the profile typed, or [null]
    whatever profile it held; and every other key as [load_config] gave
    it.  The settings file is untouched. *)
Theorem edit_configuration_clears_the_profile (desk : Menus.Desk)
  (files : Menus.Files) (region_line profile_line : string)
  (keyboard : list string) :
  Menus.config_error desk = None ->
  let before k :=
    match Menus.config_file files with
    | Some c =>
        match PyDict.get k c with
        | Some v => Some v
        | None => PyDict.get k Menus.default_config
        end
    | None => PyDict.get k Menus.default_config
    end in
  let files' :=
    snd (fst (Menus.edit_configuration desk files
                (region_line :: profile_line :: keyboard))) in
  Menus.settings_file files' = Menus.settings_file files
  /\ exists config,
       Menus.config_file files' = Some config
       /\ PyDict.get "aws_region" config
          = (if PyStr.truthy (PyStr.strip region_line)
             then Some (Some (PyStr.strip region_line))
             else before "aws_region")
       /\ PyDict.get "aws_profile" config
          = Some (if PyStr.truthy (PyStr.strip profile_line)
                  then Some (PyStr.strip profile_line)
                  else None)
       /\ forall k,
            k <> "aws_region" -> k <> "aws_profile" ->
            PyDict.get k config = before k.
Proof.
  intros Hwritable before files'.
  destruct (load_config_returns desk files
              (region_line :: profile_line :: keyboard))
    as (t & loaded & files0 & Hload & Hsettings & Hget).
  destruct (edited_config loaded (PyStr.strip region_line)
              (PyStr.strip profile_line)) as (Hregion & Hprofile & Hother).
  subst files'. unfold Menus.edit_configuration.
  erewrite files_mbind by exact Hload.
  do 4 (erewrite files_mbind by reflexivity).
  cbv zeta.
  do 2 (erewrite files_mbind by reflexivity).
  erewrite files_mbind
    by (unfold Menus.save_config; rewrite Hwritable; reflexivity).
  erewrite files_mbind by reflexivity.
  assert (Hend : forall (f : Menus.Files) (k : list string),
            snd (fst (Menus.mbind
                        (Menus.input (nl ++ "Press Enter to continue..."))
                        (fun _ => Menus.mret tt) f k)) = f)
    by (intros f [|line k]; reflexivity).
  rewrite Hend. cbn [Menus.settings_file Menus.config_file].
  split; [exact Hsettings |]. eexists. split; [reflexivity |].
  repeat split.
  - rewrite Hregion. unfold before. now rewrite <- Hget.
  - exact Hprofile.
  - intros k Hr Hp. rewrite (Hother k Hr Hp). apply Hget.
Qed.

Lemma edit_configuration_clears_the_profile_witness :
  exists config,
    Menus.config_file
      (snd (fst (Menus.edit_configuration example_desk
                   {| Menus.settings_file := None;
                      Menus.config_file :=
                        Some [ ("aws_region", Some "eu-west-1");
                               ("aws_profile", Some "work") ] |}
                   [EmptyString; EmptyString])))
    = Some config
    /\ PyDict.get "aws_region" config = Some (Some "eu-west-1")
    /\ PyDict.get "aws_profile" config = Some None.
Proof.
  destruct (edit_configuration_clears_the_profile example_desk
              {| Menus.settings_file := None;
                 Menus.config_file :=
                   Some [ ("aws_region", Some "eu-west-1");
                          ("aws_profile", Some "work") ] |}
              EmptyString EmptyString [] eq_refl)
    as (_ & config & Hfile & Hregion & Hprofile & _).
  exists config. repeat split; assumption.
Defined.

(** ** The view of the settings *)

Lemma In_shown_after A B (m : Menus.menu A) (k : A -> Menus.menu B)
  (files : Menus.Files) (keyboard : list string) (t : list event) (a : A)
  (files' : Menus.Files) (keyboard' : list string) (ev : event) :
  m files keyboard = ((t, Ok a), files', keyboard') ->
  In ev (trace (fst (fst (k a files' keyboard')))) ->
  In ev (trace (fst (fst (Menus.mbind m k files keyboard)))).
Proof.
  intros H Hin. unfold Menus.mbind. rewrite H.
  destruct (k a files' keyboard') as [[[t' r] files''] keyboard''].
  cbn in *. apply in_or_app. now right.
Qed.

Lemma In_shown_first A B (m : Menus.menu A) (k : A -> Menus.menu B)
  (files : Menus.Files) (keyboard : list string) (ev : event) :
  In ev (trace (fst (fst (m files keyboard)))) ->
  In ev (trace (fst (fst (Menus.mbind m k files keyboard)))).
Proof.
  intros Hin. unfold Menus.mbind.
  destruct (m files keyboard) as [[[t [a|e]] files'] keyboard'];
    [| exact Hin].
  destruct (k a files' keyboard') as [[[t' r] files''] keyboard''].
  cbn in *. apply in_or_app. now left.
Qed.

Lemma length_filter_values V (p : V -> bool) (d : PyDict.dict V) :
  List.length (filter p (PyDict.values d))
  = List.length (PyDict.comprehension (fun _ v => p v) d).
Proof.
  unfold PyDict.values, PyDict.comprehension.
  induction d as [|[k v] d IH]; cbn [map filter fst snd]; [reflexivity |].
  destruct (p v); cbn [List.length]; now rewrite IH.
Qed.

(** X25.  The count of available resources in the view of the settings is
    the number of records [filter_by_service] keeps when no service is
    named: with a cache that is not empty, the view prints the line
    "Resources: a/b available" where [b] is the size of the cache and [a]
    the size of [filter_by_service(resources)] under the enabled services
    shown, and [a] is at most [b]. *)
Theorem settings_view_counts_the_visible_records (desk : Menus.Desk)
  (enabled : list string) (files : Menus.Files) (keyboard : list string)
  (resources : ResourceCache) (w : Awsf.World) :
  Awsf.resources_file (Menus.cache desk) = Awsf.Holds resources ->
  PyDict.truthy resources = true ->
  enabled_in w = enabled ->
  In (Print (nl ++ "📈 Resources: "
             ++ PyStr.of_nat
                  (List.length (Awsf.filter_by_service w resources None))
             ++ "/" ++ PyStr.of_nat (List.length resources) ++ " available"))
    (trace (fst (fst (Menus.show_current_settings desk enabled files
                        keyboard))))
  /\ (List.length (Awsf.filter_by_service w resources None)
      <= List.length resources)%nat.
Proof.
  intros Hfile Hsome Henabled. split.
  - destruct (load_config_returns desk files keyboard)
      as (t & config & files0 & Hload & _ & _).
    unfold Menus.show_current_settings.
    eapply In_shown_after; [exact Hload |].
    do 3 (eapply In_shown_after; [reflexivity |]).
    eapply In_shown_after.
    { unfold Menus.run. rewrite for_each_print_run. reflexivity. }
    do 4 (eapply In_shown_after; [reflexivity |]).
    eapply In_shown_after.
    { unfold Menus.run, Awsf.load_aws_resources. rewrite Hfile. reflexivity. }
    apply In_shown_first. rewrite Hsome.
    rewrite length_filter_values.
    unfold Awsf.filter_by_service. fold (enabled_in w). rewrite Henabled.
    left. reflexivity.
  - unfold Awsf.filter_by_service, PyDict.comprehension. apply filter_length_le.
Qed.

Lemma settings_view_counts_the_visible_records_witness :
  In (Print (nl ++ "📈 Resources: 0/2 available"))
    (trace (fst (fst (Menus.show_current_settings example_desk ["s3"]
                        no_files [])))).
Proof.
  apply (settings_view_counts_the_visible_records example_desk ["s3"]
           no_files [] orders_cache (world_of orders_cache ["s3"]));
    reflexivity.
Defined.

(** ** The two files as the script reads them *)

(** What [load_settings] does to the files: it writes nothing when it
    raises, and nothing when it returns a document that is no object. *)
Lemma load_settings_cases (desk : Disk.Desk) (files : Disk.Files)
  (keyboard : list Disk.key) :
  match Disk.load_settings desk files keyboard with
  | ((t, Ok (Disk.Dict _)), files', keyboard') =>
      Disk.config_file files' = Disk.config_file files /\ keyboard' = keyboard
  | ((t, Ok (Disk.NotDict v)), files', keyboard') =>
      files' = files /\ keyboard' = keyboard
      /\ Disk.settings_file files = Disk.Plain v
  | ((t, Raise e), files', keyboard') =>
      t = [] /\ files' = files /\ keyboard' = keyboard
  end.
Proof.
  unfold Disk.load_settings, Disk.create_default_settings, Disk.save_settings,
    Disk.mbind, Disk.mret, Disk.run.
  destruct (Disk.settings_read_error desk); [cbn; auto |].
  destruct (Disk.settings_file files) as [| |msg|settings|v].
  - destruct (Disk.makedirs_error desk); [cbn; auto |].
    destruct (Disk.settings_error desk); cbn; auto.
  - destruct (Disk.makedirs_error desk); [cbn; auto |].
    destruct (Disk.settings_error desk); cbn; auto.
  - cbn. auto.
  - destruct (Menus.enabled_services settings); cbn; auto.
  - destruct (Disk.plain_setdefaults ["enabled_services"] v); cbn; auto.
Qed.

(** The exception of a run of [load_settings] does not depend on the
    keyboard. *)
Lemma load_settings_outcome (desk : Disk.Desk) (files : Disk.Files)
  (keyboard keyboard' : list Disk.key) :
  outcome (fst (fst (Disk.load_settings desk files keyboard)))
  = outcome (fst (fst (Disk.load_settings desk files keyboard'))).
Proof.
  unfold Disk.load_settings, Disk.create_default_settings, Disk.save_settings,
    Disk.mbind, Disk.mret, Disk.run.
  destruct (Disk.settings_read_error desk); [reflexivity |].
  destruct (Disk.settings_file files) as [| |msg|settings|v];
    try reflexivity.
  - destruct (Disk.makedirs_error desk); [reflexivity |].
    destruct (Disk.settings_error desk); reflexivity.
  - destruct (Disk.makedirs_error desk); [reflexivity |].
    destruct (Disk.settings_error desk); reflexivity.
  - destruct (Menus.enabled_services settings); reflexivity.
  - destruct (Disk.plain_setdefaults ["enabled_services"] v); reflexivity.
Qed.

(** "Save & back" writes nothing when it raises. *)
Lemma save_and_back_keeps_files (desk : Disk.Desk) (enabled : list string)
  (files : Disk.Files) (keyboard : list Disk.key) :
  match Disk.save_and_back desk enabled files keyboard with
  | ((t, Ok (Some _)), _, _) => False
  | ((t, Ok None), _, _) => True
  | ((t, Raise e), files', _) => files' = files /\ raised_on_save desk files e
  end.
Proof.
  unfold Disk.save_and_back.
  pose proof (load_settings_cases desk files keyboard) as Hload.
  pose proof (load_settings_outcome desk files keyboard []) as Hsame.
  destruct (Menus.set_truthy enabled); cbn [negb];
    cbv beta iota zeta delta [Disk.mbind Disk.mret Disk.say Disk.run ret
                               print emit];
    destruct (Disk.load_settings desk files keyboard)
      as [[[t [[settings|v]|e]] files'] keyboard'].
  all: try (unfold Disk.save_settings;
            destruct (Disk.makedirs_error desk);
            [exact I | destruct (Disk.settings_error desk); exact I]).
  all: try (destruct Hload as (-> & -> & Hplain); cbn;
            split; [reflexivity | right; now exists v]).
  all: destruct Hload as (-> & -> & ->); cbn in Hsame |- *;
    (split; [reflexivity | left; now rewrite <- Hsame]).
Qed.

(** A turn of the menu that does not end the menu leaves the files as
    they are, and so does a turn that raises; a turn raises only on
    "Save & back". *)
Lemma toggle_turn_keeps_files (desk : Disk.Desk) (int : string -> option Z)
  (choice : string) (enabled : list string) (files : Disk.Files)
  (keyboard : list Disk.key) :
  match Disk.toggle_turn desk int choice enabled files keyboard with
  | ((t, Ok (Some _)), files', _) => files' = files
  | ((t, Ok None), _, _) => True
  | ((t, Raise e), files', _) => files' = files /\ raised_on_save desk files e
  end.
Proof.
  unfold Disk.toggle_turn.
  destruct (int choice) as [n|]; [| reflexivity].
  destruct ((1 <=? n)%Z
            && (n <=? Z.of_nat (List.length Awsf.SERVICE_CONFIG))%Z) eqn:Hrange.
  { destruct (choice_in_range n Hrange) as (service & c & -> & Hin & Hc).
    destruct (set_in service enabled);
      unfold Disk.mbind, Disk.run, Disk.say, Disk.mret;
      rewrite Hc; reflexivity. }
  destruct (n =? Z.of_nat (List.length Awsf.SERVICE_CONFIG) + 1)%Z.
  { destruct (List.length enabled =? List.length Awsf.SERVICE_CONFIG)%nat;
      reflexivity. }
  destruct (n =? Z.of_nat (List.length Awsf.SERVICE_CONFIG) + 2)%Z;
    [| reflexivity].
  pose proof (save_and_back_keeps_files desk enabled files keyboard) as H.
  destruct (Disk.save_and_back desk enabled files keyboard)
    as [[[t [[enabled'|]|e]] files'] keyboard'];
    [contradiction | exact I | exact H].
Qed.



(** *** [Menus] is [Disk] without failures

    On files that hold objects or are absent, with a directory that can
    be created and a keyboard that gives lines, the routines of [Disk] do
    what those of [Menus] do. *)

Lemma load_settings_agrees (desk : Menus.Desk) (files : Menus.Files)
  (keyboard : list string) :
  Disk.load_settings (desk_on_disk desk) (on_disk files)
    (map Disk.Line keyboard)
  = match Menus.load_settings desk files keyboard with
    | ((t, r), files', rest) =>
        ((t, as_dict r), on_disk files', map Disk.Line rest)
    end.
Proof.
  unfold Disk.load_settings, Menus.load_settings,
    Disk.create_default_settings, Disk.save_settings, Menus.save_settings,
    Disk.mbind, Menus.mbind, Disk.mret, Menus.mret, on_disk, desk_on_disk.
  destruct files as [[[[l|] other]|] config];
    cbn [Disk.settings_read_error Disk.makedirs_error Disk.settings_error
         Disk.settings_file Menus.settings_file Menus.enabled_services];
    try reflexivity.
  destruct (Menus.settings_error desk); reflexivity.
Qed.

Lemma load_config_agrees (desk : Menus.Desk) (files : Menus.Files)
  (keyboard : list string) :
  Disk.load_config (desk_on_disk desk) (on_disk files) (map Disk.Line keyboard)
  = match Menus.load_config desk files keyboard with
    | ((t, r), files', rest) =>
        ((t, as_dict r), on_disk files', map Disk.Line rest)
    end.
Proof.
  unfold Disk.load_config, Menus.load_config,
    Disk.create_default_config, Disk.save_config, Menus.save_config,
    Disk.mbind, Menus.mbind, Disk.mret, Menus.mret, on_disk, desk_on_disk.
  destruct files as [settings [config|]];
    cbn [Disk.config_read_error Disk.makedirs_error Disk.config_error
         Disk.config_file Menus.config_file];
    try reflexivity.
  destruct (Menus.config_error desk); reflexivity.
Qed.

Lemma toggle_turn_agrees (desk : Menus.Desk) (int : string -> option Z)
  (choice : string) (enabled : list string) (files : Menus.Files)
  (keyboard : list string) :
  Disk.toggle_turn (desk_on_disk desk) int choice enabled (on_disk files)
    (map Disk.Line keyboard)
  = match Menus.toggle_turn desk int choice enabled files keyboard with
    | (p, files', rest) => (p, on_disk files', map Disk.Line rest)
    end.
Proof.
  unfold Disk.toggle_turn, Menus.toggle_turn.
  destruct (int choice) as [n|]; [| reflexivity].
  destruct ((1 <=? n)%Z
            && (n <=? Z.of_nat (List.length Awsf.SERVICE_CONFIG))%Z) eqn:Hrange.
  { destruct (choice_in_range n Hrange) as (service & c & -> & Hin & Hc).
    destruct (set_in service enabled);
      unfold Disk.mbind, Disk.run, Disk.say, Disk.mret,
        Menus.mbind, Menus.run, Menus.say, Menus.mret;
      rewrite Hc; reflexivity. }
  destruct (n =? Z.of_nat (List.length Awsf.SERVICE_CONFIG) + 1)%Z.
  { destruct (List.length enabled =? List.length Awsf.SERVICE_CONFIG)%nat;
      reflexivity. }
  destruct (n =? Z.of_nat (List.length Awsf.SERVICE_CONFIG) + 2)%Z;
    [| reflexivity].
  unfold Disk.save_and_back.
  destruct files as [[[[l|] other]|] config];
    destruct (Menus.set_truthy enabled);
    destruct (Menus.settings_error desk) eqn:Herr;
    unfold Disk.mbind, Disk.run, Disk.say, Disk.mret, Disk.load_settings,
      Disk.create_default_settings, Disk.save_settings,
      Menus.mbind, Menus.run, Menus.say, Menus.mret, Menus.load_settings,
      Menus.save_settings, on_disk, desk_on_disk;
    cbn [negb Disk.settings_read_error Disk.makedirs_error
         Disk.settings_error Disk.settings_file Disk.config_file
         Menus.settings_file Menus.config_file Menus.enabled_services
         Menus.other_settings ret print emit app];
    rewrite ?Herr; reflexivity.
Qed.

(** The toggle menu of [Menus] is the one of [Disk] on files, a desk and
    a keyboard without failures. *)
Lemma toggle_menu_agrees (desk : Menus.Desk) (int : string -> option Z)
  (keyboard : list string) (enabled : list string) (files : Menus.Files) :
  Disk.show_service_toggle_menu (desk_on_disk desk) int enabled
    (on_disk files) (map Disk.Line keyboard)
  = match Menus.show_service_toggle_menu desk int enabled files keyboard with
    | (p, files', rest) => (p, on_disk files', map Disk.Line rest)
    end.
Proof.
  revert enabled files.
  induction keyboard as [|line keyboard IH]; intros enabled files;
    cbn [map Disk.show_service_toggle_menu Menus.show_service_toggle_menu];
    [reflexivity |].
  rewrite toggle_turn_agrees.
  destruct (Menus.toggle_turn desk int (PyStr.strip line) enabled files
              keyboard) as [[[t [[enabled'|]|e]] files'] keyboard'];
    try reflexivity.
  rewrite IH.
  now destruct (Menus.show_service_toggle_menu desk int enabled' files'
                  keyboard) as [[[t' r] files''] rest].
Qed.

(** ** The configuration file, with what can fail *)

(** X22.  [load_config] never replaces a value of the configuration file
    and never rewrites a file it could parse.  From a file that holds an
    object it returns the object with the defaults for the keys it lacks,
    a key of the file keeping its value, [null] included.  With no file,
    or one that is not JSON, it returns the defaults, written when the
    file can be written, unless the directory cannot be created: then
    the [OSError] of [os.makedirs] leaves the handler.  A file that cannot
    be opened or is not UTF-8 raises, and a document that is no object
    raises [TypeError] or is returned as it is; in none of these cases is
    a file written. *)
Theorem load_config_merges_defaults (desk : Disk.Desk) (files : Disk.Files)
  (keyboard : list Disk.key) :
  match Disk.config_read_error desk, Disk.config_file files with
  | Some msg, _ =>
      Disk.load_config desk files keyboard
      = (raise (OSError msg), files, keyboard)
  | None, Disk.Object config =>
      exists merged,
        Disk.load_config desk files keyboard
        = (ret (Disk.Dict merged), files, keyboard)
        /\ forall k,
             PyDict.get k merged
             = match PyDict.get k config with
               | Some v => Some v
               | None => PyDict.get k Menus.default_config
               end
  | None, (Disk.Absent | Disk.Malformed) =>
      match Disk.makedirs_error desk, Disk.config_error desk with
      | Some msg, _ =>
          Disk.load_config desk files keyboard
          = (raise (OSError msg), files, keyboard)
      | None, Some msg =>
          Disk.load_config desk files keyboard
          = (([Print ("❌ Error saving config: " ++ msg)],
              Ok (Disk.Dict Menus.default_config)),
             files, keyboard)
      | None, None =>
          Disk.load_config desk files keyboard
          = (ret (Disk.Dict Menus.default_config),
             {| Disk.settings_file := Disk.settings_file files;
                Disk.config_file := Disk.Object Menus.default_config |},
             keyboard)
      end
  | None, Disk.Undecodable msg =>
      Disk.load_config desk files keyboard
      = (raise (Disk.UnicodeDecodeError msg), files, keyboard)
  | None, Disk.Plain v =>
      exists r,
        Disk.load_config desk files keyboard = (([], r), files, keyboard)
        /\ ((exists msg, r = Raise (Disk.TypeError msg))
            \/ r = Ok (Disk.NotDict v))
  end.
Proof.
  unfold Disk.load_config, Disk.create_default_config, Disk.save_config,
    Disk.mbind, Disk.mret, Disk.run.
  destruct (Disk.config_read_error desk) as [msg|]; [reflexivity |].
  destruct (Disk.config_file files) as [| |msg|config|v].
  - destruct (Disk.makedirs_error desk); [reflexivity |].
    destruct (Disk.config_error desk); reflexivity.
  - destruct (Disk.makedirs_error desk); [reflexivity |].
    destruct (Disk.config_error desk); reflexivity.
  - reflexivity.
  - eexists. split; [reflexivity |]. apply merged_config.
  - destruct (Disk.plain_setdefaults (PyDict.keys Menus.default_config) v)
      as [u|e] eqn:Hkeys.
    + eexists. split; [reflexivity |]. now right.
    + eexists. split; [reflexivity |]. left.
      revert Hkeys. generalize (PyDict.keys Menus.default_config).
      intros keys. induction keys as [|key keys IH];
        cbn [Disk.plain_setdefaults]; [discriminate |].
      destruct v as [type_name|s|l]; cbn [Disk.plain_has Disk.plain_assign].
      * intros H. injection H as <-. now eexists.
      * destruct (PyStr.contains key s); [exact IH |].
        intros H. injection H as <-. now eexists.
      * destruct (existsb _ l); [exact IH |].
        intros H. injection H as <-. now eexists.
Qed.
